(** * BYAMN-Workhub: the wallet/ledger layer and its read cache

    A shallow embedding of [src/lib/data-cache.ts] (modules [V2],
    [DataCacheV2] and the two leaderboard modules below) and of the second,
    self-contained copy of that module that the repository carries (modules
    [V1] and [DataCacheV1]; it declares its validators inline instead of
    importing them from [./validation], and its cache evicts by insertion
    order), followed by the properties of the specification that concern
    them.

    Numbers.  A numeric field of a stored document is either absent
    ([JUndef], what a property read of a missing field yields), the
    not-a-number value ([JNaN], what arithmetic on an absent operand yields)
    or a finite number, a rational ([Qc]).  The doubles are the rationals
    that the rounding [fl] does not move; [a + b] and [a - b] are the exact
    sum and difference rounded to the nearest double, a tie going to the
    even significand, as IEEE 754 prescribes.  The exponent range is not
    bounded: a sum beyond the largest double (an infinity in JavaScript) is
    outside the model (below the smallest normal double, sums and
    differences of doubles are exact, in IEEE 754 and here alike), and so
    are fields holding a value of another primitive type than the data
    model declares.  Strings are the strings
    of the standard library, read as the UTF-8 encoding of the JavaScript
    string.  Clock readings ([Date.now()]) are integers (milliseconds) and
    are passed to the operation that reads the clock.

    Effects.  An operation is a function from the state of the document
    store to an outcome (a returned value or a thrown error) and the new
    state; it runs alone, without concurrent writers.  The state keeps a log
    of the reads, writes and transactions, so that "no read", "no write" and
    "the transaction committed" can be stated. *)

From Stdlib Require Import ZArith QArith Qcanon Qround Qpower String Ascii List Bool Lia Lqa.
From Stdlib Require Import Sorting.Sorted Sorting.Permutation.
From stdpp Require Import base option gmap strings list sorting.

Local Open Scope string_scope.
Local Open Scope list_scope.
Local Open Scope Z_scope.

(** ** Numbers *)

Definition num (z : Z) : Qc := Q2Qc (inject_Z z).

Definition Qcltb (a b : Qc) : bool :=
  match (a ?= b)%Qc with Lt => true | _ => false end.
Definition Qcleb (a b : Qc) : bool :=
  match (a ?= b)%Qc with Gt => false | _ => true end.
Definition Qceqb (a b : Qc) : bool :=
  match (a ?= b)%Qc with Eq => true | _ => false end.
Definition Qcmax (a b : Qc) : Qc := if Qcltb a b then b else a.

(** A value found where the code expects a number. *)
Inductive jsnum : Type :=
| JUndef
| JNaN
| JNum (q : Qc).

Global Instance jsnum_eq_dec : EqDecision jsnum.
Proof. solve_decision. Defined.

(** *** Rounding to a double

    The result of an arithmetic operation is the exact result rounded to
    the nearest double, a tie going to the even significand. *)

(** The integer nearest to [x], a tie going to the even one. *)
Definition round_half_even (x : Q) : Z :=
  let f := Qfloor x in
  match (x - inject_Z f ?= 1 # 2)%Q with
  | Lt => f
  | Gt => f + 1
  | Eq => if Z.even f then f else f + 1
  end.

(** The exponent [e] of a positive [x]: [2^e <= x < 2^(e+1)]. *)
Definition binade (x : Q) : Z :=
  let e := Z.log2 (Qnum x) - Z.log2 (Zpos (Qden x)) in
  if Qle_bool (2 ^ e)%Q x then e else e - 1.

(** A positive [x] rounded to 53 significant bits: to the nearest multiple
    of the unit in the last place of its binade. *)
Definition round53 (x : Q) : Q :=
  let s := binade x - 52 in
  (inject_Z (round_half_even (x * 2 ^ (- s))) * 2 ^ s)%Q.

Definition flQ (x : Q) : Q :=
  match (x ?= 0)%Q with
  | Eq => 0%Q
  | Gt => round53 x
  | Lt => (- round53 (- x))%Q
  end.

Definition fl (x : Qc) : Qc := Q2Qc (flQ x).

(** The double a decimal literal [m / 10^k] denotes, as in [1.7]. *)
Definition decimal (m : Z) (k : positive) : Qc := fl (Q2Qc (m # (10 ^ k))).

(** [x] is a double: rounding does not move it. *)
Definition is_double (x : Qc) : bool := Qceqb (fl x) x.

(** [a + b], [a - b] on numbers: the rounded sum and difference; NaN as
    soon as an operand is not a finite number ([undefined] converts to
    NaN). *)
Definition js_add (a b : jsnum) : jsnum :=
  match a, b with JNum x, JNum y => JNum (fl (x + y)%Qc) | _, _ => JNaN end.
Definition js_sub (a b : jsnum) : jsnum :=
  match a, b with JNum x, JNum y => JNum (fl (x - y)%Qc) | _, _ => JNaN end.

(** The relational operators: false as soon as an operand is NaN. *)
Definition js_lt (a b : jsnum) : bool :=
  match a, b with JNum x, JNum y => Qcltb x y | _, _ => false end.
Definition js_le (a b : jsnum) : bool :=
  match a, b with JNum x, JNum y => Qcleb x y | _, _ => false end.
Definition js_gt (a b : jsnum) : bool := js_lt b a.
Definition js_ge (a b : jsnum) : bool := js_le b a.

(** [Math.max(a, b)]. *)
Definition js_max (a b : jsnum) : jsnum :=
  match a, b with JNum x, JNum y => JNum (Qcmax x y) | _, _ => JNaN end.

(** [typeof a === 'number']: NaN is a number, [undefined] is not. *)
Definition is_number (a : jsnum) : bool :=
  match a with JUndef => false | _ => true end.
(** [a === undefined]. *)
Definition is_undefined (a : jsnum) : bool :=
  match a with JUndef => true | _ => false end.
(** Truthiness of a number: [undefined], NaN and 0 are falsy. *)
Definition truthy_num (a : jsnum) : bool :=
  match a with JNum q => negb (Qceqb q 0%Qc) | _ => false end.
(** [a === b] on numbers; NaN differs from everything, itself included. *)
Definition js_eq (a b : jsnum) : bool :=
  match a, b with
  | JNum x, JNum y => Qceqb x y
  | JUndef, JUndef => true
  | _, _ => false
  end.
(** [a || d]. *)
Definition or_else (a d : jsnum) : jsnum := if truthy_num a then a else d.

(** A value found where the code expects a string: absent ([undefined] or
    null) or a string. *)
Definition jsstr : Type := option string.

(** Truthiness of a string: [undefined] and the empty string are falsy. *)
Definition nonempty (s : string) : bool :=
  match s with EmptyString => false | _ => true end.
Definition truthy_str (s : jsstr) : bool :=
  match s with Some s => nonempty s | None => false end.
(** [typeof s === 'string']. *)
Definition is_string (s : jsstr) : bool :=
  match s with Some _ => true | None => false end.
(** [s === lit] for a string literal [lit]. *)
Definition str_is (s : jsstr) (lit : string) : bool :=
  match s with Some s => bool_decide (s = lit) | None => false end.
(** A string of the model is the UTF-8 encoding of the JavaScript string,
    whose units are those of UTF-16: a byte that continues a character
    stands for no unit, the first byte of a character of four bytes for the
    two units of a surrogate pair, and every other byte for one unit. *)
Definition code (c : ascii) : Z := Z.of_N (N_of_ascii c).

Definition units_of_byte (c : ascii) : Z :=
  let b := code c in
  if (128 <=? b) && (b <? 192) then 0
  else if 240 <=? b then 2
  else 1.

Fixpoint utf16_length (s : string) : Z :=
  match s with
  | EmptyString => 0
  | String c s => units_of_byte c + utf16_length s
  end.

(** [s.length], read only after [typeof s === 'string']. *)
Definition str_length (s : jsstr) : Z :=
  match s with Some s => utf16_length s | None => 0 end.

(** [s.substring(0, n)]: the first [n] units.  When the cut falls inside a
    surrogate pair, the first half stays, encoded like a character of
    three bytes. *)
Definition high_surrogate (c1 c2 c3 : ascii) : string :=
  let cp := Z.land (code c1) 7 * 262144 + Z.land (code c2) 63 * 4096
            + Z.land (code c3) 63 * 64 in
  let hs := 55296 + (cp - 65536) / 1024 in
  String (ascii_of_N (Z.to_N (224 + hs / 4096)))
    (String (ascii_of_N (Z.to_N (128 + (hs / 64) mod 64)))
       (String (ascii_of_N (Z.to_N (128 + hs mod 64))) EmptyString)).

Fixpoint utf16_take (n : nat) (s : string) : string :=
  match s with
  | EmptyString => EmptyString
  | String c s1 =>
      match n with
      | O => EmptyString
      | S n1 =>
          let b := code c in
          if b <? 192 then String c (utf16_take n1 s1)
          else
            match s1 with
            | EmptyString => String c EmptyString
            | String c2 s2 =>
                if b <? 224 then String c (String c2 (utf16_take n1 s2))
                else
                  match s2 with
                  | EmptyString => String c (String c2 EmptyString)
                  | String c3 s3 =>
                      if b <? 240 then String c (String c2 (String c3 (utf16_take n1 s3)))
                      else
                        match s3, n1 with
                        | EmptyString, _ => String c (String c2 (String c3 EmptyString))
                        | String c4 s4, S n2 =>
                            String c (String c2 (String c3 (String c4 (utf16_take n2 s4))))
                        | String c4 s4, O => high_surrogate c c2 c3
                        end
                  end
            end
      end
  end.

(** [s.trim().length === 0]: every character of [s] is white space or a
    line terminator: U+0009 to U+000D and U+0020, U+00A0, U+1680, U+2000 to
    U+200A, U+2028, U+2029, U+202F, U+205F, U+3000 and U+FEFF. *)
Definition is_space (c : ascii) : bool :=
  let n := nat_of_ascii c in
  ((9 <=? n)%nat && (n <=? 13)%nat) || (n =? 32)%nat.

Definition is_space2 (c1 c2 : ascii) : bool :=
  (code c1 =? 194) && (code c2 =? 160).

Definition is_space3 (c1 c2 c3 : ascii) : bool :=
  let b1 := code c1 in
  let b2 := code c2 in
  let b3 := code c3 in
  ((b1 =? 225) && (b2 =? 154) && (b3 =? 128))
  || ((b1 =? 226) && (b2 =? 128)
      && (((128 <=? b3) && (b3 <=? 138)) || (b3 =? 168) || (b3 =? 169) || (b3 =? 175)))
  || ((b1 =? 226) && (b2 =? 129) && (b3 =? 159))
  || ((b1 =? 227) && (b2 =? 128) && (b3 =? 128))
  || ((b1 =? 239) && (b2 =? 187) && (b3 =? 191)).

Fixpoint blank (s : string) : bool :=
  match s with
  | EmptyString => true
  | String c1 s1 =>
      if is_space c1 then blank s1
      else
        match s1 with
        | EmptyString => false
        | String c2 s2 =>
            if is_space2 c1 c2 then blank s2
            else
              match s2 with
              | EmptyString => false
              | String c3 s3 => if is_space3 c1 c2 c3 then blank s3 else false
              end
        end
  end.

(** A value found where the code expects a boolean, by truthiness. *)
Definition truthy_bool (b : option bool) : bool :=
  match b with Some true => true | _ => false end.

(** ** Documents of the store *)

(** [interface WalletBalance]. *)
Record WalletBalance : Type := mkWallet {
  earnedBalance : jsnum;
  addedBalance : jsnum;
  pendingAddMoney : jsnum;
  totalWithdrawn : jsnum;
}.

(** The fields of a campaign document the ledger reads or writes. *)
Record Campaign : Type := mkCampaign {
  title : jsstr;
  description : jsstr;
  creatorId : jsstr;
  totalWorkers : jsnum;
  rewardPerWorker : jsnum;
  totalBudget : jsnum;
  remainingBudget : jsnum;
  completedWorkers : jsnum;
  c_status : jsstr;
  c_createdAt : jsnum;
}.

(** A work item, [works/{uid}/{id}]. *)
Record Work : Type := mkWork {
  w_id : jsstr;
  w_userId : jsstr;
  w_userName : jsstr;
  w_campaignId : jsstr;
  proofUrl : jsstr;
  w_status : jsstr;
  submittedAt : jsnum;
  reward : jsnum;
}.

(** A money request, [adminRequests/addMoney/{id}] or
    [adminRequests/withdrawals/{id}]. *)
Record MoneyRequest : Type := mkRequest {
  r_userId : jsstr;
  r_type : jsstr;
  r_amount : jsnum;
  r_status : jsstr;
}.

(** A user profile, [users/{uid}]. *)
Record User : Type := mkUser {
  fullName : jsstr;
  u_name : jsstr;
  profileImage : jsstr;
  avatar : jsstr;
  role : jsstr;
  isBlocked : option bool;
  earnedMoney : jsnum;
  approvedWorks : jsnum;
  u_totalWithdrawn : jsnum;
}.

(** The default a transaction function substitutes for a missing wallet. *)
Definition zeroWallet : WalletBalance :=
  mkWallet (JNum 0%Qc) (JNum 0%Qc) (JNum 0%Qc) (JNum 0%Qc).

(** ** The document store *)

Record Store : Type := mkStore {
  users : gmap string User;
  wallets : gmap string WalletBalance;
  campaigns : gmap string Campaign;
  works : gmap (string * string) Work;
  addMoney : gmap string MoneyRequest;
  withdrawals : gmap string MoneyRequest;
}.

(** The paths of the store. *)
Inductive Path : Type :=
| PUser (uid : string)
| PWallet (uid : string)
| PCampaign (id : string)
| PWork (uid id : string)
| PAddMoney (id : string)
| PWithdrawal (id : string).

(** The store together with what the running operation has done to it so
    far: the paths read with [get], the paths written with [set] or
    [update], and the transactions run, each with its [committed] flag. *)
Record World : Type := mkWorld {
  db : Store;
  reads : list Path;
  writes : list Path;
  txs : list (Path * bool);
}.

(** A collection of the store: how to read it, how to replace it, and the
    document an [update] of a missing path starts from. *)
Record Coll (K V : Type) `{Countable K} : Type := mkColl {
  coll_get : Store -> gmap K V;
  coll_put : gmap K V -> Store -> Store;
  coll_path : K -> Path;
  coll_empty : V;
}.
Arguments coll_get {K V _ _} _ _.
Arguments coll_put {K V _ _} _ _ _.
Arguments coll_path {K V _ _} _ _.
Arguments coll_empty {K V _ _} _.

Definition emptyUser : User :=
  mkUser None None None None None None JUndef JUndef JUndef.
Definition emptyWallet : WalletBalance := mkWallet JUndef JUndef JUndef JUndef.
Definition emptyCampaign : Campaign :=
  mkCampaign None None None JUndef JUndef JUndef JUndef JUndef None JUndef.
Definition emptyWork : Work :=
  mkWork None None None None None None JUndef JUndef.
Definition emptyRequest : MoneyRequest := mkRequest None None JUndef None.

Definition usersC : Coll string User :=
  mkColl _ _ _ _ users
    (fun m s => mkStore m (wallets s) (campaigns s) (works s) (addMoney s) (withdrawals s))
    PUser emptyUser.
Definition walletsC : Coll string WalletBalance :=
  mkColl _ _ _ _ wallets
    (fun m s => mkStore (users s) m (campaigns s) (works s) (addMoney s) (withdrawals s))
    PWallet emptyWallet.
Definition campaignsC : Coll string Campaign :=
  mkColl _ _ _ _ campaigns
    (fun m s => mkStore (users s) (wallets s) m (works s) (addMoney s) (withdrawals s))
    PCampaign emptyCampaign.
Definition worksC : Coll (string * string) Work :=
  mkColl _ _ _ _ works
    (fun m s => mkStore (users s) (wallets s) (campaigns s) m (addMoney s) (withdrawals s))
    (fun k => PWork k.1 k.2) emptyWork.
Definition addMoneyC : Coll string MoneyRequest :=
  mkColl _ _ _ _ addMoney
    (fun m s => mkStore (users s) (wallets s) (campaigns s) (works s) m (withdrawals s))
    PAddMoney emptyRequest.
Definition withdrawalsC : Coll string MoneyRequest :=
  mkColl _ _ _ _ withdrawals
    (fun m s => mkStore (users s) (wallets s) (campaigns s) (works s) (addMoney s) m)
    PWithdrawal emptyRequest.

(** ** Operations: state, and errors thrown *)

Inductive outcome (A : Type) : Type :=
| Returned (a : A)
| Thrown (msg : string).
Arguments Returned {A} a.
Arguments Thrown {A} msg.

Definition M (A : Type) : Type := World -> outcome A * World.

Definition ret {A} (a : A) : M A := fun w => (Returned a, w).
Definition throw {A} (msg : string) : M A := fun w => (Thrown msg, w).
Definition bind {A B} (m : M A) (k : A -> M B) : M B :=
  fun w =>
    match m w with
    | (Returned a, w') => k a w'
    | (Thrown msg, w') => (Thrown msg, w')
    end.
(** [try { m } catch (error) { h error }]. *)
Definition try_catch {A} (m : M A) (h : string -> M A) : M A :=
  fun w =>
    match m w with
    | (Returned a, w') => (Returned a, w')
    | (Thrown msg, w') => h msg w'
    end.

Notation "x <-- m ;; k" := (bind m (fun x => k))
  (at level 100, m at next level, right associativity).
Notation "m ;;; k" := (bind m (fun _ => k))
  (at level 100, right associativity).

(** [if (c) throw new Error(msg)]. *)
Definition throw_if (c : bool) (msg : string) : M unit :=
  if c then throw msg else ret tt.

Section Firebase.
Context {K V : Type} `{Countable K}.
Variable C : Coll K V.

(** [await get(ref)]: the snapshot; [exists()] is [is_Some]. *)
Definition get (k : K) : M (option V) :=
  fun w => (Returned (coll_get C (db w) !! k),
            mkWorld (db w) (reads w ++ [coll_path C k]) (writes w) (txs w)).

(** [await set(ref, v)]. *)
Definition set (k : K) (v : V) : M unit :=
  fun w => (Returned tt,
            mkWorld (coll_put C (<[k := v]> (coll_get C (db w))) (db w))
              (reads w) (writes w ++ [coll_path C k]) (txs w)).

(** [await update(ref, { ... })]: the listed children are overwritten,
    the others kept; [patch] overwrites the listed children. *)
Definition update (k : K) (patch : V -> V) : M unit :=
  fun w =>
    let m := coll_get C (db w) in
    (Returned tt,
     mkWorld (coll_put C (<[k := patch (default (coll_empty C) (m !! k))]> m) (db w))
       (reads w) (writes w ++ [coll_path C k]) (txs w)).

(** [await runTransaction(ref, fn)]: [fn] is applied to the current value
    ([None] for null); when it returns a value this is written, when it
    returns [undefined] ([None]) nothing is.  The result is
    [{ committed, snapshot }]. *)
Definition runTransaction (k : K) (fn : option V -> option V) : M (bool * option V) :=
  fun w =>
    let m := coll_get C (db w) in
    match fn (m !! k) with
    | Some v => (Returned (true, Some v),
                 mkWorld (coll_put C (<[k := v]> m) (db w))
                   (reads w) (writes w) (txs w ++ [(coll_path C k, true)]))
    | None => (Returned (false, m !! k),
               mkWorld (db w) (reads w) (writes w) (txs w ++ [(coll_path C k, false)]))
    end.
End Firebase.

(** Overwriting one child of a document ([{ ...doc, field: v }], or the
    patch of an [update]). *)
Definition with_remainingBudget (v : jsnum) (c : Campaign) : Campaign :=
  mkCampaign (title c) (description c) (creatorId c) (totalWorkers c)
    (rewardPerWorker c) (totalBudget c) v (completedWorkers c) (c_status c)
    (c_createdAt c).
Definition with_completedWorkers (v : jsnum) (c : Campaign) : Campaign :=
  mkCampaign (title c) (description c) (creatorId c) (totalWorkers c)
    (rewardPerWorker c) (totalBudget c) (remainingBudget c) v (c_status c)
    (c_createdAt c).
Definition with_earnedBalance (v : jsnum) (w : WalletBalance) : WalletBalance :=
  mkWallet v (addedBalance w) (pendingAddMoney w) (totalWithdrawn w).
Definition with_addedBalance (v : jsnum) (w : WalletBalance) : WalletBalance :=
  mkWallet (earnedBalance w) v (pendingAddMoney w) (totalWithdrawn w).
Definition with_pendingAddMoney (v : jsnum) (w : WalletBalance) : WalletBalance :=
  mkWallet (earnedBalance w) (addedBalance w) v (totalWithdrawn w).
Definition with_totalWithdrawn (v : jsnum) (w : WalletBalance) : WalletBalance :=
  mkWallet (earnedBalance w) (addedBalance w) (pendingAddMoney w) v.
Definition with_w_status (v : jsstr) (w : Work) : Work :=
  mkWork (w_id w) (w_userId w) (w_userName w) (w_campaignId w) (proofUrl w) v
    (submittedAt w) (reward w).
Definition with_r_status (v : jsstr) (r : MoneyRequest) : MoneyRequest :=
  mkRequest (r_userId r) (r_type r) (r_amount r) v.
Definition with_earnings (money works : jsnum) (u : User) : User :=
  mkUser (fullName u) (u_name u) (profileImage u) (avatar u) (role u)
    (isBlocked u) money works (u_totalWithdrawn u).
Definition with_u_totalWithdrawn (v : jsnum) (u : User) : User :=
  mkUser (fullName u) (u_name u) (profileImage u) (avatar u) (role u)
    (isBlocked u) (earnedMoney u) (approvedWorks u) v.

(** The parameter types [type: 'add_money' | 'withdrawal'] and
    [status: 'approved' | 'rejected'] of [processMoneyRequest]. *)
Inductive RequestType : Type := add_money | withdrawal.
Inductive Decision : Type := approved | rejected.

Definition type_is (t u : RequestType) : bool :=
  match t, u with
  | add_money, add_money | withdrawal, withdrawal => true
  | _, _ => false
  end.

Definition RequestType_str (t : RequestType) : string :=
  match t with add_money => "add_money" | withdrawal => "withdrawal" end.
Definition Decision_str (d : Decision) : string :=
  match d with approved => "approved" | rejected => "rejected" end.

(** [currentUserId && !(await check)]: the check runs only for a truthy id. *)
Definition guarded (currentUserId : option string) (check : string -> M bool) : M bool :=
  match currentUserId with
  | Some cu => if nonempty cu then b <-- check cu ;; ret (negb b) else ret false
  | None => ret false
  end.

(** * The self-contained copy of the module *)

Module V1.

(** [verifyUserAuthorization]; [requiredRole] is [true] for ['admin']. *)
Definition adminCheck (currentUserId : string) : M bool :=
  userSnap <-- get usersC currentUserId ;;
  match userSnap with
  | Some userData =>
      ret (str_is (role userData) "admin" && negb (truthy_bool (isBlocked userData)))
  | None => ret false
  end.

Definition verifyUserAuthorization (currentUserId targetUserId : string)
    (requiredRole : bool) : M bool :=
  if negb (nonempty currentUserId) || negb (nonempty targetUserId) then ret false
  else if requiredRole then adminCheck currentUserId
  else if bool_decide (currentUserId = targetUserId) then ret true
  else adminCheck currentUserId.

Definition validateWalletData (walletData : option WalletBalance) : bool :=
  match walletData with
  | None => false
  | Some walletData =>
      if js_lt (earnedBalance walletData) (JNum 0%Qc)
         || js_lt (addedBalance walletData) (JNum 0%Qc)
         || js_lt (pendingAddMoney walletData) (JNum 0%Qc)
         || js_lt (totalWithdrawn walletData) (JNum 0%Qc)
      then false
      else if js_gt (earnedBalance walletData) (JNum (num 10000000))
              || js_gt (addedBalance walletData) (JNum (num 10000000))
              || js_gt (pendingAddMoney walletData) (JNum (num 10000000))
              || js_gt (totalWithdrawn walletData) (JNum (num 10000000))
      then false
      else true
  end.

Definition validateCampaignData (campaignData : option Campaign) : bool :=
  match campaignData with
  | None => false
  | Some campaignData =>
      if negb (truthy_str (title campaignData))
         || negb (truthy_str (description campaignData))
         || negb (truthy_str (creatorId campaignData))
         || is_undefined (totalWorkers campaignData)
         || is_undefined (rewardPerWorker campaignData)
         || is_undefined (totalBudget campaignData)
         || is_undefined (remainingBudget campaignData)
         || is_undefined (c_createdAt campaignData)
      then false
      else if negb (is_string (title campaignData))
              || (str_length (title campaignData) <? 1)
              || (100 <? str_length (title campaignData))
              || negb (is_string (description campaignData))
              || (str_length (description campaignData) <? 1)
              || (1000 <? str_length (description campaignData))
      then false
      else if negb (is_number (totalWorkers campaignData))
              || js_le (totalWorkers campaignData) (JNum 0%Qc)
              || js_gt (totalWorkers campaignData) (JNum (num 10000))
              || negb (is_number (rewardPerWorker campaignData))
              || js_lt (rewardPerWorker campaignData) (JNum (Q2Qc (1 # 2)))
              || js_gt (rewardPerWorker campaignData) (JNum (num 10000))
              || negb (is_number (totalBudget campaignData))
              || js_lt (totalBudget campaignData) (JNum 0%Qc)
              || negb (is_number (remainingBudget campaignData))
              || js_lt (remainingBudget campaignData) (JNum 0%Qc)
              || negb (is_number (c_createdAt campaignData))
      then false
      else if js_gt (remainingBudget campaignData) (totalBudget campaignData)
      then false
      else true
  end.

(** The check of a work item's reward that the operations repeat:
    [typeof reward !== 'number' || reward <= 0 || reward > 10000]. *)
Definition invalidReward (r : jsnum) : bool :=
  negb (is_number r) || js_le r (JNum 0%Qc) || js_gt r (JNum (num 10000)).

(** [deductCampaignBudget].  The calls that only clear entries of the read
    cache (a separate object, see [DataCache] below) and the logging calls
    are not part of the store state tracked here; they neither throw nor
    influence the result.  [campaignDebit] and [walletDebit] are the update
    functions passed to [runTransaction]. *)
Definition campaignDebit (amount : Qc) (currentData : option Campaign) : option Campaign :=
  match currentData with
  | None => None
  | Some currentData =>
      if negb (validateCampaignData (Some currentData)) then None
      else if js_lt (remainingBudget currentData) (JNum amount) then None
      else
        let updatedCampaign :=
          with_remainingBudget (js_sub (remainingBudget currentData) (JNum amount))
            currentData in
        if negb (validateCampaignData (Some updatedCampaign)) then None
        else Some updatedCampaign
  end.

Definition walletDebit (amount : Qc) (currentData : option WalletBalance) : option WalletBalance :=
  let currentBalance := default zeroWallet currentData in
  if js_lt (addedBalance currentBalance) (JNum amount) then None
  else
    let updatedBalance :=
      with_addedBalance (js_sub (addedBalance currentBalance) (JNum amount))
        currentBalance in
    if negb (validateWalletData (Some updatedBalance)) then None
    else Some updatedBalance.

(** [update(campaignRef, { remainingBudget: snapshot.val().remainingBudget + amount })];
    reading a property of a null snapshot value is a TypeError. *)
Definition restoreBudget (campaignId : string) (amount : Qc)
    (snapshot : option Campaign) : M unit :=
  match snapshot with
  | Some c =>
      update campaignsC campaignId
        (with_remainingBudget (js_add (remainingBudget c) (JNum amount)))
  | None => throw "TypeError"
  end.

Definition deductCampaignBudget (campaignId : string) (amount : Qc) (uid : string)
    (currentUserId : option string) : M bool :=
  denied <-- guarded currentUserId (fun cu => verifyUserAuthorization cu uid false) ;;
  throw_if denied "Unauthorized: You can only deduct from your own campaigns" ;;;
  throw_if (Qcleb amount 0%Qc || Qcltb (num 10000000) amount)
    "Invalid amount for campaign budget deduction" ;;;
  try_catch
    (campaignSnap <-- get campaignsC campaignId ;;
     match campaignSnap with
     | None => throw "Campaign does not exist"
     | Some campaignData =>
         throw_if (negb (str_is (creatorId campaignData) uid))
           "Unauthorized: You can only deduct from your own campaigns" ;;;
         throw_if (negb (validateCampaignData (Some campaignData)))
           "Invalid campaign data" ;;;
         campaignResult <-- runTransaction campaignsC campaignId (campaignDebit amount) ;;
         if campaignResult.1 then
           walletResult <-- runTransaction walletsC uid (walletDebit amount) ;;
           if walletResult.1 then
             if negb (validateWalletData walletResult.2) then
               restoreBudget campaignId amount campaignResult.2 ;;;
               throw "Wallet validation failed after deduction"
             else ret true
           else
             restoreBudget campaignId amount campaignResult.2 ;;;
             ret false
         else ret false
     end)
    (fun error => throw error).

(** [approveWorkAndCredit]. *)
Definition workApprove (currentData : option Work) : option Work :=
  match currentData with
  | None => None
  | Some currentData =>
      if negb (str_is (w_status currentData) "pending") then None
      else if invalidReward (reward currentData) then None
      else Some (with_w_status (Some "approved") currentData)
  end.

Definition walletCredit (reward : Qc) (currentData : option WalletBalance) : option WalletBalance :=
  let currentBalance := default zeroWallet currentData in
  let updatedBalance :=
    with_earnedBalance (js_add (earnedBalance currentBalance) (JNum reward))
      currentBalance in
  if negb (validateWalletData (Some updatedBalance)) then None
  else Some updatedBalance.

Definition approveWorkAndCredit (workId userId campaignId : string) (reward_ : Qc)
    (currentAdminId : option string) : M bool :=
  denied <-- guarded currentAdminId (fun ca => verifyUserAuthorization ca userId true) ;;
  throw_if denied "Unauthorized: Only admins can approve work" ;;;
  throw_if (Qcleb reward_ 0%Qc || Qcltb (num 10000) reward_)
    "Invalid reward amount for work approval" ;;;
  try_catch
    (workSnap <-- get worksC (userId, workId) ;;
     match workSnap with
     | None => throw "Work does not exist"
     | Some workData =>
         throw_if (negb (str_is (w_status workData) "pending"))
           "Work is not in pending status" ;;;
         throw_if (invalidReward (reward workData)) "Invalid reward in work data" ;;;
         workResult <-- runTransaction worksC (userId, workId) workApprove ;;
         if workResult.1 then
           walletResult <-- runTransaction walletsC userId (walletCredit reward_) ;;
           if walletResult.1 then
             userSnap <-- get usersC userId ;;
             match userSnap with
             | Some userData =>
                 let currentEarnedMoney :=
                   if is_number (earnedMoney userData) then earnedMoney userData
                   else JNum 0%Qc in
                 let currentApprovedWorks :=
                   if is_number (approvedWorks userData) then approvedWorks userData
                   else JNum 0%Qc in
                 throw_if (js_lt (js_add currentEarnedMoney (JNum reward_)) (JNum 0%Qc)
                           || js_lt (js_add currentApprovedWorks (JNum 1%Qc)) (JNum 0%Qc))
                   "Invalid user data values" ;;;
                 update usersC userId
                   (with_earnings (js_add currentEarnedMoney (JNum reward_))
                      (js_add currentApprovedWorks (JNum 1%Qc)))
             | None => ret tt
             end ;;;
             if negb (validateWalletData walletResult.2) then
               update worksC (userId, workId) (with_w_status (Some "pending")) ;;;
               userSnap <-- get usersC userId ;;
               match userSnap with
               | Some userData =>
                   update usersC userId
                     (with_earnings
                        (js_max (JNum 0%Qc)
                           (js_sub (or_else (earnedMoney userData) (JNum 0%Qc)) (JNum reward_)))
                        (js_max (JNum 0%Qc)
                           (js_sub (or_else (approvedWorks userData) (JNum 0%Qc)) (JNum 1%Qc))))
               | None => ret tt
               end ;;;
               throw "Wallet validation failed after work approval"
             else ret true
           else
             update worksC (userId, workId) (with_w_status (Some "pending")) ;;;
             ret false
         else ret false
     end)
    (fun error => throw error).

(** [processMoneyRequest]. *)
Definition requestsC (type : RequestType) : Coll string MoneyRequest :=
  match type with add_money => addMoneyC | withdrawal => withdrawalsC end.

Definition invalidRequestAmount (type : RequestType) (amount : Qc) : bool :=
  Qcleb amount 0%Qc
  || (type_is type add_money && (Qcltb amount (num 10) || Qcltb (num 100000) amount))
  || (type_is type withdrawal && (Qcltb amount (num 500) || Qcltb (num 50000) amount)).

Definition addMoneyCredit (amount : Qc) (currentData : option WalletBalance) : option WalletBalance :=
  let currentBalance := default zeroWallet currentData in
  if negb (validateWalletData (Some currentBalance)) then None
  else
    let updatedBalance :=
      with_pendingAddMoney
        (js_max (JNum 0%Qc) (js_sub (pendingAddMoney currentBalance) (JNum amount)))
        (with_addedBalance (js_add (addedBalance currentBalance) (JNum amount))
           currentBalance) in
    if negb (validateWalletData (Some updatedBalance)) then None
    else Some updatedBalance.

Definition withdrawalDebit (amount : Qc) (currentData : option WalletBalance) : option WalletBalance :=
  let currentBalance := default zeroWallet currentData in
  if negb (validateWalletData (Some currentBalance)) then None
  else if js_lt (earnedBalance currentBalance) (JNum amount) then None
  else
    let updatedBalance :=
      with_totalWithdrawn (js_add (totalWithdrawn currentBalance) (JNum amount))
        (with_earnedBalance (js_sub (earnedBalance currentBalance) (JNum amount))
           currentBalance) in
    if negb (validateWalletData (Some updatedBalance)) then None
    else Some updatedBalance.

Definition processMoneyRequest (requestId : string) (type : RequestType)
    (userId : string) (amount : Qc) (status : Decision)
    (currentAdminId : option string) : M bool :=
  denied <-- guarded currentAdminId (fun ca => verifyUserAuthorization ca userId true) ;;
  throw_if denied "Unauthorized: Only admins can process money requests" ;;;
  throw_if (invalidRequestAmount type amount)
    "Invalid amount for money request processing" ;;;
  let requestRef := requestsC type in
  try_catch
    (requestSnap <-- get requestRef requestId ;;
     match requestSnap with
     | None => throw "Request does not exist"
     | Some requestData =>
         throw_if (negb (str_is (r_status requestData) "pending"))
           "Request is not in pending status" ;;;
         throw_if (negb (js_eq (r_amount requestData) (JNum amount))
                   || negb (str_is (r_type requestData) (RequestType_str type))
                   || negb (str_is (r_userId requestData) userId))
           "Request data does not match provided parameters" ;;;
         update requestRef requestId (with_r_status (Some (Decision_str status))) ;;;
         match status with
         | approved =>
             match type with
             | add_money =>
                 result <-- runTransaction walletsC userId (addMoneyCredit amount) ;;
                 if result.1 then
                   if negb (validateWalletData result.2) then
                     update requestRef requestId (with_r_status (Some "pending")) ;;;
                     throw "Wallet validation failed after add money"
                   else ret true
                 else
                   update requestRef requestId (with_r_status (Some "pending")) ;;;
                   ret false
             | withdrawal =>
                 result <-- runTransaction walletsC userId (withdrawalDebit amount) ;;
                 if result.1 then
                   if negb (validateWalletData result.2) then
                     update requestRef requestId (with_r_status (Some "pending")) ;;;
                     throw "Wallet validation failed after withdrawal"
                   else
                     userSnap <-- get usersC userId ;;
                     match userSnap with
                     | Some userData =>
                         let currentTotalWithdrawn :=
                           if is_number (u_totalWithdrawn userData)
                           then u_totalWithdrawn userData else JNum 0%Qc in
                         throw_if (js_lt (js_add currentTotalWithdrawn (JNum amount)) (JNum 0%Qc))
                           "Invalid total withdrawn value" ;;;
                         update usersC userId
                           (with_u_totalWithdrawn (js_add currentTotalWithdrawn (JNum amount)))
                     | None => ret tt
                     end ;;;
                     ret true
                 else
                   update requestRef requestId (with_r_status (Some "pending")) ;;;
                   ret false
             end
         | rejected => ret true
         end
     end)
    (fun error => throw error).

(** [applyToCampaign]; [now] is the reading of [Date.now()]. *)
Definition applyToCampaign (now : Z) (campaignId userId userName : string)
    (reward_ : Qc) (currentUserId : option string) : M bool :=
  throw_if (match currentUserId with
            | Some cu => nonempty cu && negb (bool_decide (cu = userId))
            | None => false
            end)
    "Unauthorized: You can only apply to campaigns for yourself" ;;;
  throw_if (negb (nonempty campaignId) || negb (nonempty userId)
            || negb (nonempty userName)
            || Qcleb reward_ 0%Qc || Qcltb (num 10000) reward_)
    "Invalid parameters for campaign application" ;;;
  try_catch
    (workSnap <-- get worksC (userId, campaignId) ;;
     throw_if (bool_decide (is_Some workSnap))
       "You have already applied to this campaign" ;;;
     campaignSnap <-- get campaignsC campaignId ;;
     match campaignSnap with
     | None => throw "Campaign does not exist"
     | Some campaignData =>
         throw_if (negb (validateCampaignData (Some campaignData)))
           "Invalid campaign data" ;;;
         throw_if (negb (str_is (c_status campaignData) "active"))
           "Campaign is not active" ;;;
         throw_if (js_ge (completedWorkers campaignData) (totalWorkers campaignData))
           "Campaign is full" ;;;
         let workData :=
           mkWork (Some campaignId) (Some userId) (Some userName) (Some campaignId)
             (Some "") (Some "pending") (JNum (num now)) (JNum reward_) in
         throw_if (invalidReward (reward workData)) "Invalid reward in work data" ;;;
         set worksC (userId, campaignId) workData ;;;
         update campaignsC campaignId
           (with_completedWorkers (js_add (completedWorkers campaignData) (JNum 1%Qc))) ;;;
         ret true
     end)
    (fun error => throw error).

End V1.


(** * [src/lib/data-cache.ts] *)

(** The ledger operations of [data-cache.ts].  Its validators are imported
    from [./validation]; they are parameters here. *)
Module V2.

Section Validation.

Variable validateWalletData : option WalletBalance -> bool.
Variable validateCampaignData : option Campaign -> bool.
Variable validateWorkData : option Work -> bool.
(** [validateUserAuthorization(currentUserId, targetUserId, requiredRole)];
    the third argument is [true] for ['admin']. *)
Variable validateUserAuthorization : string -> string -> bool -> bool.

(** [userData && userData.role === 'admin' && !userData.isBlocked]; the
    value of an existing snapshot is an object, hence truthy. *)
Definition adminCheck (currentUserId : string) : M bool :=
  userSnap <-- get usersC currentUserId ;;
  match userSnap with
  | Some userData =>
      ret (str_is (role userData) "admin" && negb (truthy_bool (isBlocked userData)))
  | None => ret false
  end.

Definition verifyUserAuthorization (currentUserId targetUserId : string)
    (requiredRole : bool) : M bool :=
  try_catch
    (if negb (validateUserAuthorization currentUserId targetUserId requiredRole)
     then ret false
     else if requiredRole then adminCheck currentUserId
     else if bool_decide (currentUserId = targetUserId) then ret true
     else adminCheck currentUserId)
    (fun error => ret false).

(** [deductCampaignBudget]. *)
Definition campaignDebit (amount : Qc) (currentData : option Campaign) : option Campaign :=
  match currentData with
  | None => None
  | Some currentData =>
      if negb (validateCampaignData (Some currentData)) then None
      else if js_lt (remainingBudget currentData) (JNum amount) then None
      else
        let updatedCampaign :=
          with_remainingBudget (js_sub (remainingBudget currentData) (JNum amount))
            currentData in
        if negb (validateCampaignData (Some updatedCampaign)) then None
        else Some updatedCampaign
  end.

Definition walletDebit (amount : Qc) (currentData : option WalletBalance) : option WalletBalance :=
  let currentBalance := default zeroWallet currentData in
  if js_lt (addedBalance currentBalance) (JNum amount) then None
  else
    let updatedBalance :=
      with_addedBalance (js_sub (addedBalance currentBalance) (JNum amount))
        currentBalance in
    if negb (validateWalletData (Some updatedBalance)) then None
    else Some updatedBalance.

Definition restoreBudget (campaignId : string) (amount : Qc)
    (snapshot : option Campaign) : M unit :=
  match snapshot with
  | Some c =>
      update campaignsC campaignId
        (with_remainingBudget (js_add (remainingBudget c) (JNum amount)))
  | None => throw "TypeError"
  end.

(** The errors the operations throw themselves carry no [code]: the catch
    block of each operation replaces them by its generic error. *)
Definition deductCampaignBudget (campaignId : string) (amount : Qc) (uid : string)
    (currentUserId : option string) : M bool :=
  throw_if (negb (nonempty campaignId)) "Invalid campaign ID provided" ;;;
  throw_if (Qcleb amount 0%Qc) "Invalid amount provided" ;;;
  throw_if (negb (nonempty uid)) "Invalid user ID provided" ;;;
  denied <-- guarded currentUserId (fun cu => verifyUserAuthorization cu uid false) ;;
  throw_if denied "Unauthorized: You can only deduct from your own campaigns" ;;;
  throw_if (Qcleb amount 0%Qc || Qcltb (num 10000000) amount)
    "Invalid amount for campaign budget deduction" ;;;
  try_catch
    (campaignSnap <-- get campaignsC campaignId ;;
     match campaignSnap with
     | None => throw "Campaign does not exist"
     | Some campaignData =>
         throw_if (negb (str_is (creatorId campaignData) uid))
           "Unauthorized: You can only deduct from your own campaigns" ;;;
         throw_if (negb (validateCampaignData (Some campaignData)))
           "Invalid campaign data" ;;;
         campaignResult <-- runTransaction campaignsC campaignId (campaignDebit amount) ;;
         if campaignResult.1 then
           walletResult <-- runTransaction walletsC uid (walletDebit amount) ;;
           if walletResult.1 then ret true
           else
             restoreBudget campaignId amount campaignResult.2 ;;;
             ret false
         else ret false
     end)
    (fun error => throw "Failed to deduct campaign budget. Please try again later.").

(** [approveWorkAndCredit]. *)
Definition workApprove (currentData : option Work) : option Work :=
  match currentData with
  | None => None
  | Some currentData =>
      if negb (str_is (w_status currentData) "pending") then None
      else if negb (validateWorkData (Some currentData)) then None
      else Some (with_w_status (Some "approved") currentData)
  end.

Definition walletCredit (reward_ : Qc) (currentData : option WalletBalance) : option WalletBalance :=
  let currentBalance := default zeroWallet currentData in
  let updatedBalance :=
    with_earnedBalance (js_add (earnedBalance currentBalance) (JNum reward_))
      currentBalance in
  if negb (validateWalletData (Some updatedBalance)) then None
  else Some updatedBalance.

Definition approveWorkAndCredit (workId userId campaignId : string) (reward_ : Qc)
    (currentAdminId : option string) : M bool :=
  throw_if (negb (nonempty workId)) "Invalid work ID provided" ;;;
  throw_if (negb (nonempty userId)) "Invalid user ID provided" ;;;
  throw_if (negb (nonempty campaignId)) "Invalid campaign ID provided" ;;;
  throw_if (Qcltb reward_ 0%Qc) "Invalid reward amount provided" ;;;
  denied <-- guarded currentAdminId (fun ca => verifyUserAuthorization ca userId true) ;;
  throw_if denied "Unauthorized: Only admins can approve work" ;;;
  throw_if (Qcleb reward_ 0%Qc || Qcltb (num 10000) reward_)
    "Invalid reward amount for work approval" ;;;
  try_catch
    (workSnap <-- get worksC (userId, workId) ;;
     match workSnap with
     | None => throw "Work does not exist"
     | Some workData =>
         throw_if (negb (str_is (w_status workData) "pending"))
           "Work is not in pending status" ;;;
         throw_if (negb (validateWorkData (Some workData))) "Invalid work data" ;;;
         workResult <-- runTransaction worksC (userId, workId) workApprove ;;
         if workResult.1 then
           walletResult <-- runTransaction walletsC userId (walletCredit reward_) ;;
           if walletResult.1 then
             userSnap <-- get usersC userId ;;
             match userSnap with
             | Some userData =>
                 let currentEarnedMoney :=
                   if is_number (earnedMoney userData) then earnedMoney userData
                   else JNum 0%Qc in
                 let currentApprovedWorks :=
                   if is_number (approvedWorks userData) then approvedWorks userData
                   else JNum 0%Qc in
                 throw_if (js_lt (js_add currentEarnedMoney (JNum reward_)) (JNum 0%Qc)
                           || js_lt (js_add currentApprovedWorks (JNum 1%Qc)) (JNum 0%Qc))
                   "Invalid user data values" ;;;
                 update usersC userId
                   (with_earnings (js_add currentEarnedMoney (JNum reward_))
                      (js_add currentApprovedWorks (JNum 1%Qc)))
             | None => ret tt
             end ;;;
             ret true
           else
             update worksC (userId, workId) (with_w_status (Some "pending")) ;;;
             ret false
         else ret false
     end)
    (fun error => throw "Failed to approve work. Please try again later.").

(** [processMoneyRequest].  The membership tests on [type] and [status]
    cannot fail on arguments of their declared types. *)
Definition requestsC (type : RequestType) : Coll string MoneyRequest :=
  match type with add_money => addMoneyC | withdrawal => withdrawalsC end.

Definition invalidRequestAmount (type : RequestType) (amount : Qc) : bool :=
  Qcleb amount 0%Qc
  || (type_is type add_money && (Qcltb amount (num 10) || Qcltb (num 100000) amount))
  || (type_is type withdrawal && (Qcltb amount (num 500) || Qcltb (num 50000) amount)).

Definition addMoneyCredit (amount : Qc) (currentData : option WalletBalance) : option WalletBalance :=
  let currentBalance := default zeroWallet currentData in
  if negb (validateWalletData (Some currentBalance)) then None
  else
    let updatedBalance :=
      with_pendingAddMoney
        (js_max (JNum 0%Qc) (js_sub (pendingAddMoney currentBalance) (JNum amount)))
        (with_addedBalance (js_add (addedBalance currentBalance) (JNum amount))
           currentBalance) in
    if negb (validateWalletData (Some updatedBalance)) then None
    else Some updatedBalance.

Definition withdrawalDebit (amount : Qc) (currentData : option WalletBalance) : option WalletBalance :=
  let currentBalance := default zeroWallet currentData in
  if negb (validateWalletData (Some currentBalance)) then None
  else if js_lt (earnedBalance currentBalance) (JNum amount) then None
  else
    let updatedBalance :=
      with_totalWithdrawn (js_add (totalWithdrawn currentBalance) (JNum amount))
        (with_earnedBalance (js_sub (earnedBalance currentBalance) (JNum amount))
           currentBalance) in
    if negb (validateWalletData (Some updatedBalance)) then None
    else Some updatedBalance.

Definition processMoneyRequest (requestId : string) (type : RequestType)
    (userId : string) (amount : Qc) (status : Decision)
    (currentAdminId : option string) : M bool :=
  throw_if (negb (nonempty requestId)) "Invalid request ID provided" ;;;
  throw_if (negb (nonempty userId)) "Invalid user ID provided" ;;;
  throw_if (Qcleb amount 0%Qc) "Invalid amount provided" ;;;
  denied <-- guarded currentAdminId (fun ca => verifyUserAuthorization ca userId true) ;;
  throw_if denied "Unauthorized: Only admins can process money requests" ;;;
  throw_if (invalidRequestAmount type amount)
    "Invalid amount for money request processing" ;;;
  let requestRef := requestsC type in
  try_catch
    (requestSnap <-- get requestRef requestId ;;
     match requestSnap with
     | None => throw "Request does not exist"
     | Some requestData =>
         throw_if (negb (str_is (r_status requestData) "pending"))
           "Request is not in pending status" ;;;
         throw_if (negb (js_eq (r_amount requestData) (JNum amount))
                   || negb (str_is (r_type requestData) (RequestType_str type))
                   || negb (str_is (r_userId requestData) userId))
           "Request data does not match provided parameters" ;;;
         update requestRef requestId (with_r_status (Some (Decision_str status))) ;;;
         match status with
         | approved =>
             match type with
             | add_money =>
                 result <-- runTransaction walletsC userId (addMoneyCredit amount) ;;
                 if result.1 then ret true
                 else
                   update requestRef requestId (with_r_status (Some "pending")) ;;;
                   ret false
             | withdrawal =>
                 result <-- runTransaction walletsC userId (withdrawalDebit amount) ;;
                 if result.1 then
                   if negb (validateWalletData result.2) then
                     update requestRef requestId (with_r_status (Some "pending")) ;;;
                     throw "Wallet validation failed after withdrawal"
                   else
                     userSnap <-- get usersC userId ;;
                     match userSnap with
                     | Some userData =>
                         update usersC userId
                           (with_u_totalWithdrawn
                              (js_add (or_else (u_totalWithdrawn userData) (JNum 0%Qc))
                                 (JNum amount)))
                     | None => ret tt
                     end ;;;
                     ret true
                 else
                   update requestRef requestId (with_r_status (Some "pending")) ;;;
                   ret false
             end
         | rejected => ret true
         end
     end)
    (fun error => throw "Failed to process money request. Please try again later.").

(** [applyToCampaign]; [now] is the reading of [Date.now()]. *)
Definition applyToCampaign (now : Z) (campaignId userId userName : string)
    (reward_ : Qc) (currentUserId : option string) : M bool :=
  throw_if (negb (nonempty campaignId)) "Invalid campaign ID provided" ;;;
  throw_if (negb (nonempty userId)) "Invalid user ID provided" ;;;
  throw_if (negb (nonempty userName) || blank userName) "Invalid user name provided" ;;;
  throw_if (Qcltb reward_ 0%Qc) "Invalid reward amount provided" ;;;
  throw_if (match currentUserId with
            | Some cu => nonempty cu && negb (bool_decide (cu = userId))
            | None => false
            end)
    "Unauthorized: You can only apply to campaigns for yourself" ;;;
  throw_if (negb (nonempty campaignId) || negb (nonempty userId)
            || negb (nonempty userName)
            || Qcleb reward_ 0%Qc || Qcltb (num 10000) reward_)
    "Invalid parameters for campaign application" ;;;
  try_catch
    (workSnap <-- get worksC (userId, campaignId) ;;
     throw_if (bool_decide (is_Some workSnap))
       "You have already applied to this campaign" ;;;
     campaignSnap <-- get campaignsC campaignId ;;
     match campaignSnap with
     | None => throw "Campaign does not exist"
     | Some campaignData =>
         throw_if (negb (str_is (c_status campaignData) "active"))
           "Campaign is not active" ;;;
         throw_if (js_ge (completedWorkers campaignData) (totalWorkers campaignData))
           "Campaign is full" ;;;
         let workData :=
           mkWork (Some campaignId) (Some userId) (Some userName) (Some campaignId)
             (Some "") (Some "pending") (JNum (num now)) (JNum reward_) in
         throw_if (negb (validateWorkData (Some workData))) "Invalid work data" ;;;
         set worksC (userId, campaignId) workData ;;;
         update campaignsC campaignId
           (with_completedWorkers (js_add (completedWorkers campaignData) (JNum 1%Qc))) ;;;
         ret true
     end)
    (fun error => throw "Failed to apply to campaign. Please try again later.").

End Validation.

End V2.

(** * The read cache *)

(** A JavaScript [Map] with string keys: the entries in insertion order, no
    key twice.  [set] of a present key replaces its value in place, [set]
    of a new key appends, [delete] removes the entry. *)
Section JsMap.
Context {V : Type}.

Fixpoint map_get (k : string) (m : list (string * V)) : option V :=
  match m with
  | [] => None
  | (k', v) :: m => if bool_decide (k' = k) then Some v else map_get k m
  end.

Fixpoint map_set (k : string) (v : V) (m : list (string * V)) : list (string * V) :=
  match m with
  | [] => [(k, v)]
  | (k', v') :: m =>
      if bool_decide (k' = k) then (k, v) :: m else (k', v') :: map_set k v m
  end.

Fixpoint map_delete (k : string) (m : list (string * V)) : list (string * V) :=
  match m with
  | [] => []
  | (k', v') :: m =>
      if bool_decide (k' = k) then m else (k', v') :: map_delete k m
  end.

Definition map_has (k : string) (m : list (string * V)) : bool :=
  match map_get k m with Some _ => true | None => false end.

Definition map_size (m : list (string * V)) : Z := Z.of_nat (length m).

Definition map_keys (m : list (string * V)) : list string := map fst m.

(** [m.keys().next().value]: the first key, [undefined] for an empty map. *)
Definition first_key (m : list (string * V)) : option string := head (map_keys m).

End JsMap.

Definition CACHE_DURATION : Z := 5 * 60 * 1000.
Definition MAX_CACHE_SIZE : Z := 100.
Definition MAX_SAFE_INTEGER : Z := 9007199254740991.

(** A promise, by identity. *)
Definition Promise : Type := nat.

Record CacheEntry (D : Type) : Type := mkEntry {
  data : D;
  timestamp : Z;
  expiry : Z;
}.
Arguments mkEntry {D} _ _ _.
Arguments data {D} _.
Arguments timestamp {D} _.
Arguments expiry {D} _.

(** [class DataCache]: its two private maps. *)
Record DataCache (D : Type) : Type := mkCache {
  cache : list (string * CacheEntry D);
  pendingRequests : list (string * Promise);
}.
Arguments mkCache {D} _ _.
Arguments cache {D} _.
Arguments pendingRequests {D} _.

(** The methods the two copies of the class share.  [now] is the reading of
    [Date.now()]; a method returns its result and the cache it leaves. *)
Section CacheMethods.
Context {D : Type}.

(** [get(key)]: [None] is null. *)
Definition cache_get (now : Z) (key : string) (c : DataCache D) : option D * DataCache D :=
  match map_get key (cache c) with
  | None => (None, c)
  | Some entry =>
      if expiry entry <? now
      then (None, mkCache (map_delete key (cache c)) (pendingRequests c))
      else (Some (data entry), c)
  end.

Definition clear (key : string) (c : DataCache D) : DataCache D :=
  mkCache (map_delete key (cache c)) (pendingRequests c).

Definition clearAll (c : DataCache D) : DataCache D := mkCache [] [].

Definition isFetching (key : string) (c : DataCache D) : bool :=
  map_has key (pendingRequests c).

Definition getPending (key : string) (c : DataCache D) : option Promise :=
  map_get key (pendingRequests c).

Definition setPending (key : string) (promise : Promise) (c : DataCache D) : DataCache D :=
  mkCache (cache c) (map_set key promise (pendingRequests c)).

Definition clearPending (key : string) (c : DataCache D) : DataCache D :=
  mkCache (cache c) (map_delete key (pendingRequests c)).

Definition getCacheKeys (c : DataCache D) : list string := map_keys (cache c).

(** The entry [set] stores; the clock is read once for [timestamp] and once
    more for [expiry]. *)
Definition store_entry (stamp_now expiry_now : Z) (key : string) (d : D)
    (entries : list (string * CacheEntry D)) : list (string * CacheEntry D) :=
  map_set key (mkEntry d stamp_now (expiry_now + CACHE_DURATION)) entries.

(** [if (oldestKey) { this.cache.delete(oldestKey) }]: the deletion runs
    for a truthy key only. *)
Definition evict (oldestKey : option string) (entries : list (string * CacheEntry D))
    : list (string * CacheEntry D) :=
  match oldestKey with
  | Some k => if nonempty k then map_delete k entries else entries
  | None => entries
  end.

End CacheMethods.

(** The simpler copy of the class: the first-inserted key is evicted. *)
Module DataCacheV1.
Section Methods.
Context {D : Type}.

Definition get (now : Z) (key : string) (c : DataCache D) : option D * DataCache D :=
  cache_get now key c.

Definition set (stamp_now expiry_now : Z) (key : string) (d : D) (c : DataCache D)
    : DataCache D :=
  let entries :=
    if MAX_CACHE_SIZE <=? map_size (cache c)
    then evict (first_key (cache c)) (cache c)
    else cache c in
  mkCache (store_entry stamp_now expiry_now key d entries) (pendingRequests c).

End Methods.
End DataCacheV1.

(** The class of [data-cache.ts]: the entry with the smallest timestamp is
    evicted, the first such entry in insertion order. *)
Module DataCacheV2.
Section Methods.
Context {D : Type}.

Definition get (now : Z) (key : string) (c : DataCache D) : option D * DataCache D :=
  cache_get now key c.

(** The loop over [this.cache.entries()]. *)
Fixpoint scanOldest (entries : list (string * CacheEntry D))
    (oldestKey : option string) (oldestTime : Z) : option string :=
  match entries with
  | [] => oldestKey
  | (cacheKey, cacheEntry) :: entries =>
      if timestamp cacheEntry <? oldestTime
      then scanOldest entries (Some cacheKey) (timestamp cacheEntry)
      else scanOldest entries oldestKey oldestTime
  end.

Definition set (stamp_now expiry_now : Z) (key : string) (d : D) (c : DataCache D)
    : DataCache D :=
  let entries :=
    if MAX_CACHE_SIZE <=? map_size (cache c)
    then evict (scanOldest (cache c) None MAX_SAFE_INTEGER) (cache c)
    else cache c in
  mkCache (store_entry stamp_now expiry_now key d entries) (pendingRequests c).

(** [isExpired(key)]. *)
Definition isExpired (now : Z) (key : string) (c : DataCache D) : bool :=
  match map_get key (cache c) with
  | None => true
  | Some entry => expiry entry <? now
  end.

(** What the class needs of the JavaScript run time to run
    [getOrCreatePendingRequest]: the promises allocated so far, the log of
    the calls of a [createPromise] factory (by the key they were made for),
    and the [finally] callbacks registered and not yet run, each with the
    promise it waits for and the key it will clear. *)
Record Runtime : Type := mkRuntime {
  dc : DataCache D;
  nextPromise : Promise;
  fetches : list string;
  handlers : list (Promise * string);
}.

(** A [createPromise] factory either returns a new promise or throws. *)
Inductive Factory : Type := Creates | ThrowsSync.

(** [getOrCreatePendingRequest(key, createPromise)].  When the factory
    throws, the catch block returns [Promise.reject(error)], a new promise
    that is registered nowhere. *)
Definition getOrCreatePendingRequest (key : string) (createPromise : Factory)
    (r : Runtime) : Promise * Runtime :=
  match map_get key (pendingRequests (dc r)) with
  | Some existingPromise => (existingPromise, r)
  | None =>
      let newPromise := nextPromise r in
      match createPromise with
      | Creates =>
          (newPromise,
           mkRuntime (setPending key newPromise (dc r)) (S (nextPromise r))
             (fetches r ++ [key]) (handlers r ++ [(newPromise, key)]))
      | ThrowsSync =>
          (newPromise,
           mkRuntime (dc r) (S (nextPromise r)) (fetches r ++ [key]) (handlers r))
      end
  end.

(** How a promise settles. *)
Inductive Settlement : Type := Fulfilled | Rejected.

(** The promise [p] settles: its [finally] callbacks run, in the order of
    their registration, whichever way it settled. *)
Definition runFinally (p : Promise) (c : DataCache D) (h : Promise * string) : DataCache D :=
  if bool_decide (h.1 = p) then clearPending h.2 c else c.

Definition settle (how : Settlement) (p : Promise) (r : Runtime) : Runtime :=
  mkRuntime (fold_left (runFinally p) (handlers r) (dc r)) (nextPromise r) (fetches r)
    (filter (fun h => h.1 <> p) (handlers r)).

(** Calls for the same key, one after the other, with no promise settling
    in between; the promises they return. *)
Fixpoint overlapping (key : string) (factories : list Factory) (r : Runtime)
    : list Promise * Runtime :=
  match factories with
  | [] => ([], r)
  | createPromise :: factories =>
      let (p, r1) := getOrCreatePendingRequest key createPromise r in
      let (ps, r2) := overlapping key factories r1 in
      (p :: ps, r2)
  end.

(** The events of a run: calls of [getOrCreatePendingRequest] and
    settlements of promises. *)
Inductive Event : Type :=
| Call (key : string) (createPromise : Factory)
| Settle (how : Settlement) (p : Promise).

Definition step (r : Runtime) (e : Event) : Runtime :=
  match e with
  | Call key createPromise => (getOrCreatePendingRequest key createPromise r).2
  | Settle how p => settle how p r
  end.

Definition initial : Runtime := mkRuntime (mkCache [] []) 0%nat [] [].

(** The fetches for [key] that are outstanding: created by a factory call
    for [key] and not yet settled. *)
Definition outstanding (key : string) (r : Runtime) : list Promise :=
  map fst (filter (fun h => h.2 = key) (handlers r)).

End Methods.

Arguments Runtime D : clear implicits.
Arguments mkRuntime {D} _ _ _ _.
Arguments dc {D} _.
Arguments nextPromise {D} _.
Arguments fetches {D} _.
Arguments handlers {D} _.

End DataCacheV2.

(** * The time-based leaderboard *)

(** [data-cache.ts] declares [fetchTimeBasedLeaderboard] twice (the file
    still carries the markers of an unresolved merge): once counting
    approved work items inside a time window, once ranking the users by the
    counters of their profiles. *)

Inductive Period : Type := daily | weekly | monthly.

Definition Period_str (p : Period) : string :=
  match p with daily => "daily" | weekly => "weekly" | monthly => "monthly" end.

(** An entry of the leaderboard.  The entries of the version that counts
    work items have no [earnedMoney] property ([JUndef]). *)
Record LeaderEntry : Type := mkLeader {
  l_uid : string;
  l_fullName : jsstr;
  l_profileImage : jsstr;
  l_approvedWorks : jsnum;
  l_earnedMoney : jsnum;
  l_rank : Z;
}.

Definition with_rank (rank : Z) (e : LeaderEntry) : LeaderEntry :=
  mkLeader (l_uid e) (l_fullName e) (l_profileImage e) (l_approvedWorks e)
    (l_earnedMoney e) rank.

(** [array.sort(compare)]: the sort is stable; [a] stays in front of a
    later [b] unless [compare(a, b) > 0] (a NaN result counts as 0). *)
Section Sort.
Context {A : Type}.
Variable compare : A -> A -> jsnum.

Fixpoint sort_insert (a : A) (sorted : list A) : list A :=
  match sorted with
  | [] => [a]
  | b :: sorted' =>
      if js_gt (compare a b) (JNum 0%Qc) then b :: sort_insert a sorted'
      else a :: b :: sorted'
  end.

Fixpoint js_sort (l : list A) : list A :=
  match l with
  | [] => []
  | a :: l => sort_insert a (js_sort l)
  end.

End Sort.

(** [.map((user, index) => ({ ...user, rank: index + 1 }))]. *)
Definition assignRanks (l : list LeaderEntry) : list LeaderEntry :=
  imap (fun index user => with_rank (Z.of_nat index + 1) user) l.

(** The start of the window: [now] minus 24 hours, 7 days or 30 days. *)
Definition timeThresholdOf (period : Period) (now : Z) : Z :=
  match period with
  | daily => now - 24 * 60 * 60 * 1000
  | weekly => now - 7 * 24 * 60 * 60 * 1000
  | monthly => now - 30 * 24 * 60 * 60 * 1000
  end.

(** What a call resolves to: a list, computed or found in the cache, or the
    promise of a fetch in flight. *)
Inductive Fetch : Type :=
| Resolved (l : list LeaderEntry)
| InFlight (p : option Promise).

(** The version that counts work items (first declaration). *)
Module LeaderboardByWorks.

(** The condition under which a work item is counted. *)
Definition counted (timeThreshold now : Z) (work : Work) : bool :=
  str_is (w_status work) "approved"
  && is_number (submittedAt work)
  && js_gt (submittedAt work) (JNum (num timeThreshold))
  && js_le (submittedAt work) (JNum (num (now + 60000))).

(** [userWorkCounts] is a plain object: a property read finds the own
    property, or else what the object inherits from [Object.prototype].
    [inheritedMethods] are the names under which it inherits a function;
    under [__proto__] it inherits an accessor that reads as the prototype,
    an object, and ignores the assignment of a number. *)
Definition inheritedMethods : list string :=
  ["constructor"; "hasOwnProperty"; "isPrototypeOf"; "propertyIsEnumerable";
   "toLocaleString"; "toString"; "valueOf"; "__defineGetter__"; "__defineSetter__";
   "__lookupGetter__"; "__lookupSetter__"].

Definition inheritsMethod (key : string) : bool := bool_decide (key ∈ inheritedMethods).

(** An own property of [userWorkCounts]: NaN or a count.  A count is an
    integer below 2^53, on which [++] is exact. *)
Inductive Tally : Type :=
| TNaN
| TCount (z : Z).

(** The two nested loops that fill [userWorkCounts];
    [if (!userWorkCounts[userId]) userWorkCounts[userId] = 0;
     userWorkCounts[userId]++]: an own 0 or NaN is falsy and reset to 0; an
    inherited function is truthy, and incrementing it stores NaN. *)
Definition countWork (timeThreshold now : Z) (userId : string)
    (userWorkCounts : gmap string Tally) (entry : string * Work) : gmap string Tally :=
  if counted timeThreshold now entry.2
  then
    if bool_decide (userId = "__proto__") then userWorkCounts
    else
      match userWorkCounts !! userId with
      | Some (TCount z) =>
          <[userId := TCount ((if z =? 0 then 0 else z) + 1)]> userWorkCounts
      | Some TNaN => <[userId := TCount (0 + 1)]> userWorkCounts
      | None =>
          if inheritsMethod userId then <[userId := TNaN]> userWorkCounts
          else <[userId := TCount (0 + 1)]> userWorkCounts
      end
  else userWorkCounts.

Definition countUser (timeThreshold now : Z) (userWorkCounts : gmap string Tally)
    (entry : string * list (string * Work)) : gmap string Tally :=
  fold_left (countWork timeThreshold now entry.1) entry.2 userWorkCounts.

Definition countAll (timeThreshold now : Z)
    (worksData : list (string * list (string * Work))) : gmap string Tally :=
  fold_left (countUser timeThreshold now) worksData ∅.

(** [typeof userWorkCounts[uid] === 'number' ? userWorkCounts[uid] : 0];
    what is inherited is not a number. *)
Definition countOf (userWorkCounts : gmap string Tally) (uid : string) : jsnum :=
  if bool_decide (uid = "__proto__") then JNum (num 0)
  else
    match userWorkCounts !! uid with
    | Some (TCount z) => JNum (num z)
    | Some TNaN => JNaN
    | None => JNum (num 0)
    end.

Definition entryOf (userWorkCounts : gmap string Tally) (user : string * User) : LeaderEntry :=
  mkLeader user.1
    (if is_string (fullName user.2) then fullName user.2 else Some "Unknown")
    (if is_string (profileImage user.2) then profileImage user.2 else None)
    (countOf userWorkCounts user.1)
    JUndef 0.

Definition byApprovedWorks (a b : LeaderEntry) : jsnum :=
  js_sub (l_approvedWorks b) (l_approvedWorks a).

(** The callback that computes the list from the two snapshots; [now] is
    its reading of the clock. *)
Definition leaderboard (period : Period) (now : Z)
    (usersSnap : option (list (string * User)))
    (worksSnap : option (list (string * list (string * Work)))) : list LeaderEntry :=
  match usersSnap, worksSnap with
  | Some usersData, Some worksData =>
      let timeThreshold := timeThresholdOf period now in
      let userWorkCounts := countAll timeThreshold now worksData in
      assignRanks
        (take 50
           (js_sort byApprovedWorks
              (filter (fun user => js_gt (l_approvedWorks user) (JNum 0%Qc) = true)
                 (map (entryOf userWorkCounts) usersData))))
  | _, _ => []
  end.

(** [fetchTimeBasedLeaderboard(period)], once its promise has resolved:
    the cached list if there is one, the promise in flight if there is
    one, and else the list computed, which is cached unless a snapshot was
    missing.  [get_now], [now], [stamp_now] and [expiry_now] are the
    readings of the clock by [get], by the callback and by [set]. *)
Definition fetchTimeBasedLeaderboard (period : Period)
    (get_now now stamp_now expiry_now : Z)
    (usersSnap : option (list (string * User)))
    (worksSnap : option (list (string * list (string * Work))))
    (c : DataCache (list LeaderEntry)) : Fetch * DataCache (list LeaderEntry) :=
  let cacheKey := "leaderboard:" +:+ Period_str period in
  match DataCacheV2.get get_now cacheKey c with
  | (Some cached, c) => (Resolved cached, c)
  | (None, c) =>
      if isFetching cacheKey c then (InFlight (getPending cacheKey c), c)
      else
        let l := leaderboard period now usersSnap worksSnap in
        let c :=
          match usersSnap, worksSnap with
          | Some _, Some _ => DataCacheV2.set stamp_now expiry_now cacheKey l c
          | _, _ => c
          end in
        (Resolved l, clearPending cacheKey c)
  end.

End LeaderboardByWorks.

(** The version that ranks by the profile counters (second declaration). *)
Module LeaderboardByProfile.

(** [a || b] on strings. *)
Definition str_or (a b : jsstr) : jsstr := if truthy_str a then a else b.

Definition entryOf (user : string * User) : LeaderEntry :=
  mkLeader user.1
    (str_or (fullName user.2)
       (str_or (u_name user.2) (Some ("User " +:+ utf16_take 8 user.1))))
    (str_or (profileImage user.2) (avatar user.2))
    (or_else (approvedWorks user.2) (JNum 0%Qc))
    (or_else (earnedMoney user.2) (JNum 0%Qc))
    0.

Definition byApprovedWorksThenMoney (a b : LeaderEntry) : jsnum :=
  if negb (js_eq (l_approvedWorks b) (l_approvedWorks a))
  then js_sub (l_approvedWorks b) (l_approvedWorks a)
  else js_sub (or_else (l_earnedMoney b) (JNum 0%Qc))
         (or_else (l_earnedMoney a) (JNum 0%Qc)).

(** The callback; its [timeThreshold] is computed and never used, and its
    filter keeps every user document that is an object, which every
    document of the model is. *)
Definition leaderboard (timeframe : Period) (now : Z)
    (snapshot : option (list (string * User))) : list LeaderEntry :=
  match snapshot with
  | None => []
  | Some users =>
      let timeThreshold := timeThresholdOf timeframe now in
      let usersArray := map entryOf (filter (fun _ => True) users) in
      assignRanks (js_sort byApprovedWorksThenMoney usersArray)
  end.

(** [fetchTimeBasedLeaderboard(timeframe)], once its promise has
    resolved. *)
Definition fetchTimeBasedLeaderboard (timeframe : Period)
    (get_now expired_now now stamp_now expiry_now : Z)
    (snapshot : option (list (string * User)))
    (c : DataCache (list LeaderEntry)) : Fetch * DataCache (list LeaderEntry) :=
  let cacheKey := "leaderboard:" +:+ Period_str timeframe in
  match DataCacheV2.get get_now cacheKey c with
  | (Some cached, c) =>
      if negb (DataCacheV2.isExpired expired_now cacheKey c) then (Resolved cached, c)
      else
        match getPending cacheKey c with
        | Some p => (InFlight (Some p), c)
        | None =>
            let l := leaderboard timeframe now snapshot in
            let c :=
              match snapshot with
              | Some _ => DataCacheV2.set stamp_now expiry_now cacheKey l c
              | None => c
              end in
            (Resolved l, clearPending cacheKey c)
        end
  | (None, c) =>
      match getPending cacheKey c with
      | Some p => (InFlight (Some p), c)
      | None =>
          let l := leaderboard timeframe now snapshot in
          let c :=
            match snapshot with
            | Some _ => DataCacheV2.set stamp_now expiry_now cacheKey l c
            | None => c
            end in
          (Resolved l, clearPending cacheKey c)
      end
  end.

End LeaderboardByProfile.

(** * The other operations of the module *)

(** [proofUrl.startsWith(lit)]. *)
Definition startsWith (s lit : string) : bool := String.prefix lit s.

(** [key.includes(searchString)]: [searchString] occurs in [key], at its
    start or further on. *)
Fixpoint includes (key searchString : string) : bool :=
  String.prefix searchString key
  || match key with
     | EmptyString => false
     | String _ key' => includes key' searchString
     end.

(** [lits.includes(s)] for an array of string literals. *)
Definition one_of (lits : list string) (s : jsstr) : bool := existsb (str_is s) lits.

(** The patch [{ proofUrl, status: 'pending', submittedAt: Date.now() }]. *)
Definition with_submission (proofUrl_ : string) (now : Z) (w : Work) : Work :=
  mkWork (w_id w) (w_userId w) (w_userName w) (w_campaignId w) (Some proofUrl_)
    (Some "pending") (JNum (num now)) (reward w).

(** [Partial<WalletBalance>]: every key may be absent ([None]). *)
Record PartialWallet : Type := mkPartial {
  p_earnedBalance : option jsnum;
  p_addedBalance : option jsnum;
  p_pendingAddMoney : option jsnum;
  p_totalWithdrawn : option jsnum;
}.

(** [{ ...currentBalance, ...updateValues }]: the keys present in
    [updateValues] overwrite those of [currentBalance]. *)
Definition spread (currentBalance : WalletBalance) (updateValues : PartialWallet)
    : WalletBalance :=
  mkWallet
    (default (earnedBalance currentBalance) (p_earnedBalance updateValues))
    (default (addedBalance currentBalance) (p_addedBalance updateValues))
    (default (pendingAddMoney currentBalance) (p_pendingAddMoney updateValues))
    (default (totalWithdrawn currentBalance) (p_totalWithdrawn updateValues)).

(** Reading a key of a partial record: [undefined] when it is absent. *)
Definition read_key (v : option jsnum) : jsnum := default JUndef v.

(** The fields of a transaction record that the module reads. *)
Record Transaction : Type := mkTransaction {
  t_type : jsstr;
  t_amount : jsnum;
  t_status : jsstr;
  t_createdAt : jsnum;
}.

(** One field of the wallet update of [createTransactionAndAdjustWallet]:
    the delta is added when the update has the key, and the result is
    raised to 0: [Math.max(0, ...)]. *)
Definition adjusted (current delta : jsnum) : jsnum :=
  js_max (JNum 0%Qc) (if negb (is_undefined delta) then js_add current delta else current).

(** The update function that [createTransactionAndAdjustWallet] passes to
    [runTransaction], for a wallet validator [validateWalletData]. *)
Definition walletAdjust (validateWalletData : option WalletBalance -> bool)
    (walletUpdate : PartialWallet) (currentData : option WalletBalance)
    : option WalletBalance :=
  let currentBalance := default zeroWallet currentData in
  let updatedBalance :=
    mkWallet
      (adjusted (earnedBalance currentBalance) (read_key (p_earnedBalance walletUpdate)))
      (adjusted (addedBalance currentBalance) (read_key (p_addedBalance walletUpdate)))
      (adjusted (pendingAddMoney currentBalance)
         (read_key (p_pendingAddMoney walletUpdate)))
      (adjusted (totalWithdrawn currentBalance)
         (read_key (p_totalWithdrawn walletUpdate))) in
  if negb (validateWalletData (Some updatedBalance)) then None
  else Some updatedBalance.

(** The update function that [updateWalletBalance] passes to
    [runTransaction]; [updateFn] returns [None] for null. *)
Definition walletUpdateWith (validateWalletData : option WalletBalance -> bool)
    (updateFn : WalletBalance -> option PartialWallet)
    (currentData : option WalletBalance) : option WalletBalance :=
  let currentBalance := default zeroWallet currentData in
  match updateFn currentBalance with
  | None => None
  | Some updateValues =>
      let updatedBalance := spread currentBalance updateValues in
      if negb (validateWalletData (Some updatedBalance)) then None
      else Some updatedBalance
  end.

(** [currentUserId && currentUserId !== userId]. *)
Definition another_user (currentUserId : option string) (userId : string) : bool :=
  match currentUserId with
  | Some cu => nonempty cu && negb (bool_decide (cu = userId))
  | None => false
  end.

(** The node [transactions/{uid}] of the store: the records pushed under
    it, in the order of their push keys, and its [status] child, which only
    the rollback of [createTransactionAndAdjustWallet] in [data-cache.ts]
    writes. *)
Record TransactionNode : Type := mkNode {
  records : list Transaction;
  node_status : jsstr;
}.

Definition emptyNode : TransactionNode := mkNode [] None.

(** The store extended with the transactions of the users. *)
Record Ledger : Type := mkLedger {
  world : World;
  journal : gmap string TransactionNode;
}.

(** [const transRef = await push(transactionRef); await set(transRef,
    transaction)]: a new child, after those already there. *)
Definition pushRecord (uid : string) (transaction : Transaction)
    (j : gmap string TransactionNode) : gmap string TransactionNode :=
  let node := default emptyNode (j !! uid) in
  <[uid := mkNode (records node ++ [transaction]) (node_status node)]> j.

(** [update(ref(database, `transactions/${uid}`), { status: 'failed' })]. *)
Definition markFailed (uid : string) (j : gmap string TransactionNode)
    : gmap string TransactionNode :=
  let node := default emptyNode (j !! uid) in
  <[uid := mkNode (records node) (Some "failed")]> j.

(** An operation of the ledger run on the extended store. *)
Definition onWorld {A : Type} (m : M A) (l : Ledger) : outcome A * Ledger :=
  let (o, w) := m (world l) in (o, mkLedger w (journal l)).

(** The self-contained copy. *)
Module V1Ops.

(** [validateTransactionData]; [now] is the reading of [Date.now()]. *)
Definition validateTransactionData (now : Z) (transaction : option Transaction) : bool :=
  match transaction with
  | None => false
  | Some transaction =>
      if negb (truthy_str (t_type transaction))
         || negb (truthy_num (t_amount transaction))
         || negb (truthy_str (t_status transaction))
         || negb (truthy_num (t_createdAt transaction))
      then false
      else if negb (one_of ["add_money"; "withdrawal"; "earning"; "campaign_spend"]
                      (t_type transaction))
      then false
      else if negb (is_number (t_amount transaction))
              || js_le (t_amount transaction) (JNum 0%Qc)
              || js_gt (t_amount transaction) (JNum (num 100000))
      then false
      else if negb (one_of ["pending"; "approved"; "rejected"; "paid"]
                      (t_status transaction))
      then false
      else if negb (is_number (t_createdAt transaction))
              || js_gt (t_createdAt transaction) (JNum (num (now + 60000)))
      then false
      else true
  end.

(** [updateWalletBalance]; the result is the committed wallet, [None] for
    null. *)
Definition updateWalletBalance (uid : string)
    (updateFn : WalletBalance -> option PartialWallet)
    (currentUserId : option string) : M (option WalletBalance) :=
  denied <-- guarded currentUserId (fun cu => V1.verifyUserAuthorization cu uid false) ;;
  throw_if denied "Unauthorized: You can only update your own wallet balance" ;;;
  try_catch
    (result <-- runTransaction walletsC uid
                  (walletUpdateWith V1.validateWalletData updateFn) ;;
     if result.1 then
       if negb (V1.validateWalletData result.2)
       then throw "Wallet validation failed after update"
       else ret result.2
     else ret None)
    (fun error => throw error).

(** [submitWorkForCampaign]; [now] is the reading of [Date.now()]. *)
Definition submitWorkForCampaign (now : Z) (campaignId userId proofUrl_ : string)
    (currentUserId : option string) : M bool :=
  throw_if (another_user currentUserId userId)
    "Unauthorized: You can only submit work for yourself" ;;;
  throw_if (negb (nonempty campaignId) || negb (nonempty userId)
            || negb (nonempty proofUrl_))
    "Invalid parameters for work submission" ;;;
  throw_if (negb (startsWith proofUrl_ "http://")
            && negb (startsWith proofUrl_ "https://"))
    "Invalid proof URL" ;;;
  try_catch
    (workSnap <-- get worksC (userId, campaignId) ;;
     match workSnap with
     | None => throw "You have not applied to this campaign"
     | Some workData =>
         throw_if (negb (str_is (w_status workData) "pending")
                   && negb (str_is (w_status workData) "rejected"))
           "Work has already been submitted and is awaiting review" ;;;
         throw_if (V1.invalidReward (reward workData)) "Invalid reward in work data" ;;;
         update worksC (userId, campaignId) (with_submission proofUrl_ now) ;;;
         ret true
     end)
    (fun error => throw error).

(** [rejectWorkAndRestoreCampaignBudget]. *)
Definition rejectWorkAndRestoreCampaignBudget (workId userId campaignId : string)
    (currentAdminId : option string) : M bool :=
  denied <-- guarded currentAdminId (fun ca => V1.verifyUserAuthorization ca userId true) ;;
  throw_if denied "Unauthorized: Only admins can reject work" ;;;
  throw_if (negb (nonempty workId) || negb (nonempty userId)
            || negb (nonempty campaignId))
    "Invalid parameters for work rejection" ;;;
  try_catch
    (workSnap <-- get worksC (userId, workId) ;;
     match workSnap with
     | None => throw "Work does not exist"
     | Some workData =>
         throw_if (negb (str_is (w_status workData) "pending"))
           "Work is not in pending status" ;;;
         throw_if (V1.invalidReward (reward workData)) "Invalid reward in work data" ;;;
         update worksC (userId, workId) (with_w_status (Some "rejected")) ;;;
         campaignSnap <-- get campaignsC campaignId ;;
         match campaignSnap with
         | Some campaignData =>
             throw_if (negb (V1.validateCampaignData (Some campaignData)))
               "Invalid campaign data" ;;;
             if js_gt (completedWorkers campaignData) (JNum 0%Qc) then
               update campaignsC campaignId
                 (with_completedWorkers
                    (js_max (JNum 0%Qc)
                       (js_sub (completedWorkers campaignData) (JNum 1%Qc))))
             else ret tt
         | None => ret tt
         end ;;;
         ret true
     end)
    (fun error => throw error).

(** [createTransactionAndAdjustWallet]; [transaction] is [None] for null,
    [now] is the reading of [Date.now()] by the validator. *)
Definition createTransactionAndAdjustWallet (now : Z) (uid : string)
    (transaction : option Transaction) (walletUpdate : PartialWallet)
    (currentUserId : option string) (l : Ledger) : outcome unit * Ledger :=
  match onWorld (guarded currentUserId
                   (fun cu => V1.verifyUserAuthorization cu uid false)) l with
  | (Thrown error, l) => (Thrown error, l)
  | (Returned denied, l) =>
      if denied then (Thrown "Unauthorized: You can only update your own wallet", l)
      else if negb (validateTransactionData now transaction)
      then (Thrown "Invalid transaction data", l)
      else
        match transaction with
        | None => (Thrown "Invalid transaction data", l)
        | Some transaction =>
            let l := mkLedger (world l) (pushRecord uid transaction (journal l)) in
            match onWorld (runTransaction walletsC uid
                             (walletAdjust V1.validateWalletData walletUpdate)) l with
            | (Thrown error, l) => (Thrown error, l)
            | (Returned result, l) =>
                if result.1 then
                  if negb (V1.validateWalletData result.2)
                  then (Thrown "Wallet validation failed after transaction", l)
                  else (Returned tt, l)
                else (Returned tt, l)
            end
        end
  end.

End V1Ops.

(** [data-cache.ts]; the validators it imports are parameters. *)
Module V2Ops.

Section Validation.

Variable validateWalletData : option WalletBalance -> bool.
Variable validateWorkData : option Work -> bool.
Variable validateUserAuthorization : string -> string -> bool -> bool.
Variable validateTransactionData : option Transaction -> bool.

(** [updateWalletBalance]; [updateFn] is a function, as its type says. *)
Definition updateWalletBalance (uid : string)
    (updateFn : WalletBalance -> option PartialWallet)
    (currentUserId : option string) : M (option WalletBalance) :=
  throw_if (negb (nonempty uid)) "Invalid user ID provided" ;;;
  denied <-- guarded currentUserId
               (fun cu => V2.verifyUserAuthorization validateUserAuthorization cu uid false) ;;
  throw_if denied "Unauthorized: You can only update your own wallet balance" ;;;
  try_catch
    (result <-- runTransaction walletsC uid
                  (walletUpdateWith validateWalletData updateFn) ;;
     if result.1 then
       if negb (validateWalletData result.2)
       then throw "Wallet validation failed after update"
       else ret result.2
     else ret None)
    (fun error => throw "Failed to update wallet balance. Please try again later.").

(** [submitWorkForCampaign]; [now] is the reading of [Date.now()]. *)
Definition submitWorkForCampaign (now : Z) (campaignId userId proofUrl_ : string)
    (currentUserId : option string) : M bool :=
  throw_if (negb (nonempty campaignId)) "Invalid campaign ID provided" ;;;
  throw_if (negb (nonempty userId)) "Invalid user ID provided" ;;;
  throw_if (negb (nonempty proofUrl_) || negb (startsWith proofUrl_ "http"))
    "Invalid proof URL provided" ;;;
  throw_if (another_user currentUserId userId)
    "Unauthorized: You can only submit work for yourself" ;;;
  throw_if (negb (nonempty campaignId) || negb (nonempty userId)
            || negb (nonempty proofUrl_))
    "Invalid parameters for work submission" ;;;
  throw_if (negb (startsWith proofUrl_ "http://")
            && negb (startsWith proofUrl_ "https://"))
    "Invalid proof URL" ;;;
  try_catch
    (workSnap <-- get worksC (userId, campaignId) ;;
     match workSnap with
     | None => throw "You have not applied to this campaign"
     | Some workData =>
         throw_if (negb (str_is (w_status workData) "pending")
                   && negb (str_is (w_status workData) "rejected"))
           "Work has already been submitted and is awaiting review" ;;;
         throw_if (negb (validateWorkData (Some workData))) "Invalid work data" ;;;
         update worksC (userId, campaignId) (with_submission proofUrl_ now) ;;;
         ret true
     end)
    (fun error => throw "Failed to submit work. Please try again later.").

(** [rejectWorkAndRestoreCampaignBudget]. *)
Definition rejectWorkAndRestoreCampaignBudget (workId userId campaignId : string)
    (currentAdminId : option string) : M bool :=
  throw_if (negb (nonempty workId)) "Invalid work ID provided" ;;;
  throw_if (negb (nonempty userId)) "Invalid user ID provided" ;;;
  throw_if (negb (nonempty campaignId)) "Invalid campaign ID provided" ;;;
  denied <-- guarded currentAdminId
               (fun ca => V2.verifyUserAuthorization validateUserAuthorization ca userId true) ;;
  throw_if denied "Unauthorized: Only admins can reject work" ;;;
  throw_if (negb (nonempty workId) || negb (nonempty userId)
            || negb (nonempty campaignId))
    "Invalid parameters for work rejection" ;;;
  try_catch
    (workSnap <-- get worksC (userId, workId) ;;
     match workSnap with
     | None => throw "Work does not exist"
     | Some workData =>
         throw_if (negb (str_is (w_status workData) "pending"))
           "Work is not in pending status" ;;;
         throw_if (negb (validateWorkData (Some workData))) "Invalid work data" ;;;
         update worksC (userId, workId) (with_w_status (Some "rejected")) ;;;
         campaignSnap <-- get campaignsC campaignId ;;
         match campaignSnap with
         | Some campaignData =>
             if js_gt (completedWorkers campaignData) (JNum 0%Qc) then
               update campaignsC campaignId
                 (with_completedWorkers
                    (js_max (JNum 0%Qc)
                       (js_sub (completedWorkers campaignData) (JNum 1%Qc))))
             else ret tt
         | None => ret tt
         end ;;;
         ret true
     end)
    (fun error => throw "Failed to reject work. Please try again later.").

(** [createTransactionAndAdjustWallet]; [transaction] is [None] for null,
    and [walletUpdate] is an object, as its type says.  An error thrown
    inside the [try] block is caught: the node of the user is marked failed
    and the generic error is thrown. *)
Definition createTransactionAndAdjustWallet (uid : string)
    (transaction : option Transaction) (walletUpdate : PartialWallet)
    (currentUserId : option string) (l : Ledger) : outcome unit * Ledger :=
  if negb (nonempty uid) then (Thrown "Invalid user ID provided", l)
  else
    match transaction with
    | None => (Thrown "Invalid transaction data provided", l)
    | Some transaction_ =>
        match onWorld (guarded currentUserId
                         (fun cu => V2.verifyUserAuthorization validateUserAuthorization
                                      cu uid false)) l with
        | (Thrown error, l) => (Thrown error, l)
        | (Returned denied, l) =>
            if denied
            then (Thrown "Unauthorized: You can only update your own wallet", l)
            else if negb (validateTransactionData transaction)
            then (Thrown "Invalid transaction data", l)
            else
              let l := mkLedger (world l) (pushRecord uid transaction_ (journal l)) in
              let failed (l : Ledger) : outcome unit * Ledger :=
                (Thrown "Failed to create transaction and update wallet. Please try again later.",
                 mkLedger (world l) (markFailed uid (journal l))) in
              match onWorld (runTransaction walletsC uid
                               (walletAdjust validateWalletData walletUpdate)) l with
              | (Thrown error, l) => failed l
              | (Returned result, l) =>
                  if result.1 then
                    if negb (validateWalletData result.2) then failed l
                    else (Returned tt, l)
                  else (Returned tt, l)
              end
        end
    end.

End Validation.

End V2Ops.

(** ** Invalidation of the read cache *)

Section Invalidation.
Context {D : Type}.

(** [invalidateCache(keyPattern)]: the loop runs over the array of keys
    taken before it starts. *)
Definition invalidateCache (keyPattern : string) (c : DataCache D) : DataCache D :=
  fold_left (fun c key => if includes key keyPattern then clear key c else c)
    (getCacheKeys c) c.

Definition invalidateUserCache (uid : string) (c : DataCache D) : DataCache D :=
  invalidateCache ("works:" +:+ uid)
    (invalidateCache ("transactions:" +:+ uid)
       (invalidateCache ("wallet:" +:+ uid)
          (invalidateCache ("user:" +:+ uid) c))).

Definition clearUserCache (uid : string) (c : DataCache D) : DataCache D :=
  clear ("works:" +:+ uid)
    (clear ("transactions:" +:+ uid)
       (clear ("wallet:" +:+ uid)
          (clear ("user:" +:+ uid) c))).

(** The two cache calls that end a committed [updateWalletBalance] and a
    committed [createTransactionAndAdjustWallet] of [data-cache.ts]:
    [dataCache.set(cacheKey, result.snapshot.val())] and then
    [invalidateUserCache(uid)]. *)
Definition refreshWalletCache (stamp_now expiry_now : Z) (uid : string) (finalData : D)
    (c : DataCache D) : DataCache D :=
  let cacheKey := "wallet:" +:+ uid in
  invalidateUserCache uid (DataCacheV2.set stamp_now expiry_now cacheKey finalData c).

End Invalidation.

(** ** The read-through fetch functions *)

(** What a call of a fetch function resolves to: a value ([None] for
    null), the promise of the fetch that is already in flight, or a
    rejection. *)
Inductive Fetched (D : Type) : Type :=
| FetchedValue (data : option D)
| FetchInFlight (p : option Promise)
| FetchRejected (msg : string).
Arguments FetchedValue {D} data.
Arguments FetchInFlight {D} p.
Arguments FetchRejected {D} msg.

(** [fetchUserData], [fetchWalletData], [fetchTransactions],
    [fetchCampaigns] and [fetchWorks] of [data-cache.ts], once the promise
    they return has resolved.  [D] is the type of the documents under the
    path read (objects, hence truthy), [snapshot] the value the store
    returns for it ([None] when it does not exist), [fallback] what a
    missing document resolves to (null, [[]] or [{}]); [get_now],
    [expired_now], [stamp_now] and [expiry_now] are the clock readings of
    [get], [isExpired] and [set]. *)
Module FetchV2.
Section Fetching.
Context {D : Type}.

(** The promise created for a key without pending request: the document is
    cached when it exists, and the registration is cleared when the promise
    settles. *)
Definition viaPendingRequest (cacheKey : string) (fallback : option D)
    (stamp_now expiry_now : Z) (snapshot : option D) (c : DataCache D)
    : Fetched D * DataCache D :=
  match getPending cacheKey c with
  | Some existingPromise => (FetchInFlight (Some existingPromise), c)
  | None =>
      match snapshot with
      | Some data =>
          (FetchedValue (Some data),
           clearPending cacheKey (DataCacheV2.set stamp_now expiry_now cacheKey data c))
      | None => (FetchedValue fallback, clearPending cacheKey c)
      end
  end.

Definition fetchCached (cacheKey : string) (fallback : option D)
    (get_now expired_now stamp_now expiry_now : Z) (snapshot : option D)
    (c : DataCache D) : Fetched D * DataCache D :=
  match DataCacheV2.get get_now cacheKey c with
  | (Some cached, c) =>
      if negb (DataCacheV2.isExpired expired_now cacheKey c)
      then (FetchedValue (Some cached), c)
      else viaPendingRequest cacheKey fallback stamp_now expiry_now snapshot c
  | (None, c) => viaPendingRequest cacheKey fallback stamp_now expiry_now snapshot c
  end.

(** [if (!uid || typeof uid !== 'string') throw ...], in an async
    function. *)
Definition withUid (uid : string) (fetch : DataCache D -> Fetched D * DataCache D)
    (c : DataCache D) : Fetched D * DataCache D :=
  if negb (nonempty uid) then (FetchRejected "Invalid user ID provided", c)
  else fetch c.

Definition fetchUserData (uid : string) (get_now expired_now stamp_now expiry_now : Z)
    (snapshot : option D) : DataCache D -> Fetched D * DataCache D :=
  withUid uid
    (fetchCached ("user:" +:+ uid) None get_now expired_now stamp_now expiry_now snapshot).

Definition fetchWalletData (uid : string) (get_now expired_now stamp_now expiry_now : Z)
    (snapshot : option D) : DataCache D -> Fetched D * DataCache D :=
  withUid uid
    (fetchCached ("wallet:" +:+ uid) None get_now expired_now stamp_now expiry_now
       snapshot).

(** [empty] is the empty array [[]]. *)
Definition fetchTransactions (empty : D) (uid : string)
    (get_now expired_now stamp_now expiry_now : Z)
    (snapshot : option D) : DataCache D -> Fetched D * DataCache D :=
  withUid uid
    (fetchCached ("transactions:" +:+ uid) (Some empty) get_now expired_now stamp_now
       expiry_now snapshot).

(** [empty] is the empty object [{}]. *)
Definition fetchCampaigns (empty : D) (get_now expired_now stamp_now expiry_now : Z)
    (snapshot : option D) : DataCache D -> Fetched D * DataCache D :=
  fetchCached "campaigns:all" (Some empty) get_now expired_now stamp_now expiry_now
    snapshot.

Definition fetchWorks (empty : D) (uid : string)
    (get_now expired_now stamp_now expiry_now : Z)
    (snapshot : option D) : DataCache D -> Fetched D * DataCache D :=
  withUid uid
    (fetchCached ("works:" +:+ uid) (Some empty) get_now expired_now stamp_now expiry_now
       snapshot).

End Fetching.
End FetchV2.

(** The same functions in the self-contained copy: no test of [uid], the
    cached value returned as soon as [get] finds one, and [isFetching] and
    [getPending] for the request in flight; the registration made by
    [setPending] is cleared when the promise settles. *)
Module FetchV1.
Section Fetching.
Context {D : Type}.

Definition fetchCached (cacheKey : string) (fallback : option D)
    (get_now stamp_now expiry_now : Z) (snapshot : option D) (c : DataCache D)
    : Fetched D * DataCache D :=
  match DataCacheV1.get get_now cacheKey c with
  | (Some cached, c) => (FetchedValue (Some cached), c)
  | (None, c) =>
      if isFetching cacheKey c then (FetchInFlight (getPending cacheKey c), c)
      else
        match snapshot with
        | Some data =>
            (FetchedValue (Some data),
             clearPending cacheKey (DataCacheV1.set stamp_now expiry_now cacheKey data c))
        | None => (FetchedValue fallback, clearPending cacheKey c)
        end
  end.

Definition fetchUserData (uid : string) (get_now stamp_now expiry_now : Z)
    (snapshot : option D) : DataCache D -> Fetched D * DataCache D :=
  fetchCached ("user:" +:+ uid) None get_now stamp_now expiry_now snapshot.

Definition fetchWalletData (uid : string) (get_now stamp_now expiry_now : Z)
    (snapshot : option D) : DataCache D -> Fetched D * DataCache D :=
  fetchCached ("wallet:" +:+ uid) None get_now stamp_now expiry_now snapshot.

Definition fetchTransactions (empty : D) (uid : string) (get_now stamp_now expiry_now : Z)
    (snapshot : option D) : DataCache D -> Fetched D * DataCache D :=
  fetchCached ("transactions:" +:+ uid) (Some empty) get_now stamp_now expiry_now snapshot.

Definition fetchCampaigns (empty : D) (get_now stamp_now expiry_now : Z)
    (snapshot : option D) : DataCache D -> Fetched D * DataCache D :=
  fetchCached "campaigns:all" (Some empty) get_now stamp_now expiry_now snapshot.

Definition fetchWorks (empty : D) (uid : string) (get_now stamp_now expiry_now : Z)
    (snapshot : option D) : DataCache D -> Fetched D * DataCache D :=
  fetchCached ("works:" +:+ uid) (Some empty) get_now stamp_now expiry_now snapshot.

End Fetching.
End FetchV1.
(** * Specification-side predicates and sample data *)

(** What the specification asks of a wallet field: present, a number,
    between 0 and 10,000,000. *)
Definition fieldInRange (v : jsnum) : Prop :=
  match v with
  | JNum q => (0 <= q)%Qc /\ (q <= num 10000000)%Qc
  | _ => False
  end.

Definition walletInRange (w : WalletBalance) : Prop :=
  fieldInRange (earnedBalance w) /\ fieldInRange (addedBalance w)
  /\ fieldInRange (pendingAddMoney w) /\ fieldInRange (totalWithdrawn w).

(** What the code checks of a wallet field: it is not a number below 0 or
    above 10,000,000. *)
Definition fieldNotOutOfRange (v : jsnum) : Prop :=
  match v with
  | JNum q => (0 <= q)%Qc /\ (q <= num 10000000)%Qc
  | _ => True
  end.

(** A wallet record without its [totalWithdrawn] field. *)
Definition partialWallet : WalletBalance :=
  mkWallet (JNum 0%Qc) (JNum 0%Qc) (JNum 0%Qc) JUndef.

(** An empty store, and a store whose only user is blocked. *)
Definition emptyWorld : World := mkWorld (mkStore ∅ ∅ ∅ ∅ ∅ ∅) [] [] [].

Definition blockedUser : User :=
  mkUser (Some "Eve") None None None (Some "user") (Some true) JUndef JUndef JUndef.

Definition blockedWorld : World :=
  mkWorld (mkStore {["eve" := blockedUser]} ∅ ∅ ∅ ∅ ∅) [] [] [].


(** A campaign of user u1 with a budget of 500, and a world in which u1's
    wallet holds 100 of added balance. *)
Definition sampleCampaign : Campaign :=
  mkCampaign (Some "Survey") (Some "Answer ten questions") (Some "u1")
    (JNum (num 10)) (JNum (num 50)) (JNum (num 500)) (JNum (num 500))
    (JNum 0%Qc) (Some "active") (JNum (num 1700000000000)).

Definition poorWorld : World :=
  mkWorld
    (mkStore ∅ {["u1" := mkWallet (JNum 0%Qc) (JNum (num 100)) (JNum 0%Qc) (JNum 0%Qc)]}
       {["c1" := sampleCampaign]} ∅ ∅ ∅)
    [] [] [].

(** A world whose stored wallet of u1 lacks its [totalWithdrawn] field (a
    wallet written before that field was introduced) and holds 800 of added
    balance, next to the sample campaign. *)
Definition partialWorld : World :=
  mkWorld
    (mkStore ∅ {["u1" := mkWallet (JNum 0%Qc) (JNum (num 800)) (JNum 0%Qc) JUndef]}
       {["c1" := sampleCampaign]} ∅ ∅ ∅)
    [] [] [].

(** What the rollback of [deductCampaignBudget] leaves of a campaign: the
    remaining budget less the amount, plus the amount. *)
Definition compensated (amount : Qc) (c : Campaign) : Campaign :=
  with_remainingBudget
    (js_add (js_sub (remainingBudget c) (JNum amount)) (JNum amount)) c.

(** The store [s] after the rollback of the campaign [campaignId]. *)
Definition rolledBack (s s' : Store) (campaignId : string) (amount : Qc) : Prop :=
  exists c, campaigns s !! campaignId = Some c
    /\ s' = mkStore (users s) (wallets s)
              (<[campaignId := compensated amount c]> (campaigns s))
              (works s) (addMoney s) (withdrawals s).

(** A campaign of user u1 for two workers at 0.85 each, with its budget of
    1.7 untouched, and a world in which u1's wallet holds 0.5 of added
    balance. *)
Definition smallCampaign : Campaign :=
  mkCampaign (Some "Poll") (Some "Answer one question") (Some "u1")
    (JNum (num 2)) (JNum (decimal 85 2)) (JNum (decimal 17 1)) (JNum (decimal 17 1))
    (JNum 0%Qc) (Some "active") (JNum (num 1700000000000)).

Definition smallWorld : World :=
  mkWorld
    (mkStore ∅
       {["u1" := mkWallet (JNum 0%Qc) (JNum (decimal 5 1)) (JNum 0%Qc) (JNum 0%Qc)]}
       {["c1" := smallCampaign]} ∅ ∅ ∅)
    [] [] [].

(** The stored request differs from the caller's arguments. *)
Definition requestMismatch (r : MoneyRequest) (type : RequestType) (userId : string)
    (amount : Qc) : Prop :=
  js_eq (r_amount r) (JNum amount) = false
  \/ str_is (r_type r) (RequestType_str type) = false
  \/ str_is (r_userId r) userId = false.

(** A pending request of u1 to add 10, and a world that stores it. *)
Definition sampleRequest : MoneyRequest :=
  mkRequest (Some "u1") (Some "add_money") (JNum (num 10)) (Some "pending").

Definition requestWorld : World :=
  mkWorld
    (mkStore ∅ {["u1" := zeroWallet]} ∅ ∅ {["r1" := sampleRequest]} ∅)
    [] [] [].

(** The profile counter an approval starts from:
    [typeof x === 'number' ? x : 0]. *)
Definition counter (x : jsnum) : jsnum := if is_number x then x else JNum 0%Qc.

(** What a successful approval of the pending work item [workId] of
    [userId] with reward [reward_] leaves in the store [s'], starting from
    [s]; the sums are the sums of JavaScript, [fl] of the exact ones, which
    are the exact ones on integers up to 2^53. *)
Definition approvalApplied (s s' : Store) (workId userId : string) (reward_ : Qc) : Prop :=
  (exists wk, works s !! (userId, workId) = Some wk
     /\ str_is (w_status wk) "pending" = true
     /\ works s' !! (userId, workId) = Some (with_w_status (Some "approved") wk))
  /\ (let old := default zeroWallet (wallets s !! userId) in
      wallets s' !! userId
      = Some (with_earnedBalance (js_add (earnedBalance old) (JNum reward_)) old)
      /\ (forall e, earnedBalance old = JNum e ->
           earnedBalance <$> wallets s' !! userId = Some (JNum (fl (e + reward_))))
      /\ (forall z r, earnedBalance old = JNum (num z) -> reward_ = num r ->
           - 2 ^ 53 <= z + r <= 2 ^ 53 ->
           earnedBalance <$> wallets s' !! userId = Some (JNum (num (z + r)))))
  /\ (exists u, users s !! userId = Some u
     /\ users s' !! userId
        = Some (with_earnings (js_add (counter (earnedMoney u)) (JNum reward_))
                  (js_add (counter (approvedWorks u)) (JNum 1%Qc)) u)
     /\ (forall n, approvedWorks u = JNum n ->
           approvedWorks <$> users s' !! userId = Some (JNum (fl (n + 1))))
     /\ (forall z, approvedWorks u = JNum (num z) -> - 2 ^ 53 <= z + 1 <= 2 ^ 53 ->
           approvedWorks <$> users s' !! userId = Some (JNum (num (z + 1))))
     /\ (forall m, earnedMoney u = JNum m ->
           earnedMoney <$> users s' !! userId = Some (JNum (fl (m + reward_))))
     /\ (forall z r, earnedMoney u = JNum (num z) -> reward_ = num r ->
           - 2 ^ 53 <= z + r <= 2 ^ 53 ->
           earnedMoney <$> users s' !! userId = Some (JNum (num (z + r))))).

(** Modelled from the spec: [validateWorkData] of the module [./validation],
    which [data-cache.ts] imports and which is not among the sources: "Work:
    reward numeric, 0 < reward <= 10,000". *)
Definition specValidateWorkData (workData : option Work) : bool :=
  match workData with
  | Some workData => negb (V1.invalidReward (reward workData))
  | None => false
  end.

(** A pending work item of u1 with reward 50, in a world where u1 has an
    empty wallet and a profile with no approved work yet. *)
Definition sampleWork : Work :=
  mkWork (Some "w1") (Some "u1") (Some "Una") (Some "c1") (Some "") (Some "pending")
    (JNum (num 1700000000000)) (JNum (num 50)).

Definition sampleUser : User :=
  mkUser (Some "Una") None None None (Some "user") (Some false)
    (JNum 0%Qc) (JNum 0%Qc) (JNum 0%Qc).

Definition reviewWorld : World :=
  mkWorld
    (mkStore {["u1" := sampleUser]} {["u1" := zeroWallet]} {["c1" := sampleCampaign]}
       {[("u1", "w1") := sampleWork]} ∅ ∅)
    [] [] [].

(** The operation did not proceed: it threw, and the store and the logs of
    writes and transactions are what they were. *)
Definition refused (w : World) (run : outcome bool * World) : Prop :=
  (exists msg, run.1 = Thrown msg)
  /\ db run.2 = db w /\ writes run.2 = writes w /\ txs run.2 = txs w.

(** After a first application that returned true, [run2] being the second
    one: the second did not proceed, and the campaign's counter is the
    initial one plus one: the sum of JavaScript, which for a counter that
    is an integer below 2^53 is the integer that follows it. *)
Definition appliedOnce (w : World) (campaignId : string)
    (run1 run2 : outcome bool * World) : Prop :=
  refused run1.2 run2
  /\ exists c, campaigns (db w) !! campaignId = Some c
     /\ completedWorkers <$> campaigns (db run2.2) !! campaignId
        = Some (js_add (completedWorkers c) (JNum 1%Qc))
     /\ (forall n, completedWorkers c = JNum n ->
           completedWorkers <$> campaigns (db run2.2) !! campaignId
           = Some (JNum (fl (n + 1))))
     /\ (forall z, completedWorkers c = JNum (num z) -> - 2 ^ 53 <= z < 2 ^ 53 ->
           completedWorkers <$> campaigns (db run2.2) !! campaignId
           = Some (JNum (num (z + 1)))).

(** A world with the sample campaign and no work item. *)
Definition openWorld : World :=
  mkWorld (mkStore {["u2" := sampleUser]} ∅ {["c1" := sampleCampaign]} ∅ ∅ ∅) [] [] [].

(** The round trip of the cache with its time to live, for a [set] method
    [set_] read at clock values [stamp_now] and [expiry_now] and a [get]
    read at [now]. *)
Definition roundTrip {D : Type}
    (set_ : Z -> Z -> string -> D -> DataCache D -> DataCache D)
    (get_ : Z -> string -> DataCache D -> option D * DataCache D)
    (c : DataCache D) (key : string) (d : D) (stamp_now expiry_now now : Z) : Prop :=
  let c' := set_ stamp_now expiry_now key d c in
  (now - expiry_now <= CACHE_DURATION -> get_ now key c' = (Some d, c'))
  /\ (CACHE_DURATION < now - expiry_now ->
      get_ now key c' = (None, clear key c')
      /\ (NoDup (map_keys (cache c)) -> map_get key (cache (get_ now key c').2) = None)).

(** A cache holding one entry, written at time 1000. *)
Definition oneEntryCache : DataCache nat :=
  mkCache [("user:u1", mkEntry 7%nat 1000 (1000 + CACHE_DURATION))] [].

(** A full cache: 100 entries, the first inserted and least recently
    written of which has the empty string as key. *)
Definition fullCache : DataCache nat :=
  mkCache
    (("", mkEntry 0%nat 0 CACHE_DURATION)
     :: map (fun n => (String (ascii_of_nat (33 + n mod 64))
                         (String (ascii_of_nat (48 + n / 64)) ""),
                       mkEntry n (Z.of_nat n + 1) (Z.of_nat n + 1 + CACHE_DURATION)))
          (seq 0 99))
    [].

(** The capacity invariant, with what the eviction code needs to find its
    victim: no key twice, no empty key, and every timestamp a clock
    reading, hence below [MAX_SAFE_INTEGER]. *)
Definition cacheOk {D : Type} (c : DataCache D) : Prop :=
  NoDup (map_keys (cache c))
  /\ map_size (cache c) <= MAX_CACHE_SIZE
  /\ Forall (fun k => k <> "") (map_keys (cache c))
  /\ Forall (fun e => timestamp e.2 < MAX_SAFE_INTEGER) (cache c).

(** What holds of every run time reached by calls of
    [getOrCreatePendingRequest] and settlements: no key is registered
    twice, every callback waits for the promise registered under its key,
    and no promise has two callbacks. *)
Definition runtimeOk {D : Type} (r : DataCacheV2.Runtime D) : Prop :=
  NoDup (map_keys (pendingRequests (DataCacheV2.dc r)))
  /\ (forall p k, (p, k) ∈ DataCacheV2.handlers r ->
        map_get k (pendingRequests (DataCacheV2.dc r)) = Some p
        /\ (p < DataCacheV2.nextPromise r)%nat)
  /\ NoDup (map fst (DataCacheV2.handlers r)).

(** The length of the window of a period, in milliseconds. *)
Definition windowLength (period : Period) : Z :=
  match period with
  | daily => 86400000
  | weekly => 604800000
  | monthly => 2592000000
  end.

(** A work item the specification counts: approved, and submitted inside
    the window, which reaches 60 seconds into the future. *)
Definition inWindow (period : Period) (now : Z) (work : Work) : Prop :=
  w_status work = Some "approved"
  /\ exists t, submittedAt work = JNum t
     /\ (num (now - windowLength period) < t)%Qc /\ (t <= num (now + 60000))%Qc.

(** A key under which a plain object inherits nothing. *)
Definition ordinaryKey (key : string) : Prop :=
  key <> "__proto__" /\ key ∉ LeaderboardByWorks.inheritedMethods.

(** The own property of [uid] in [userWorkCounts] after [n] counted work
    items of an ordinary [uid]: none yet, or the count. *)
Definition tallies (userWorkCounts : gmap string LeaderboardByWorks.Tally)
    (uid : string) (n : Z) : Prop :=
  (userWorkCounts !! uid = None /\ n = 0)
  \/ (userWorkCounts !! uid = Some (LeaderboardByWorks.TCount n) /\ 0 < n).

(** The works object of user "constructor", with one approved work item
    submitted a minute before [now = 1700000000000]. *)
Definition inheritedNameWorks : list (string * list (string * Work)) :=
  [("constructor",
    [("c1", mkWork (Some "c1") (Some "constructor") (Some "Con") (Some "c1")
              (Some "https://proof") (Some "approved") (JNum (num 1699999940000))
              (JNum (num 50)))])].

(** The number of work items of [uid] that are counted: the counted items
    of each entry of the works object under that uid, added up. *)
Definition countedItems (timeThreshold now : Z) (ws : list (string * Work)) : Z :=
  Z.of_nat (length (filter
     (fun w : string * Work => LeaderboardByWorks.counted timeThreshold now w.2 = true) ws)).

Definition tallyFor (timeThreshold now : Z) (uid : string) (n : Z)
    (entry : string * list (string * Work)) : Z :=
  if bool_decide (entry.1 = uid) then n + countedItems timeThreshold now entry.2 else n.

Definition windowCount (period : Period) (now : Z)
    (worksData : list (string * list (string * Work))) (uid : string) : Z :=
  fold_left (tallyFor (timeThresholdOf period now) now uid) worksData 0.

(** With the comparison function [compare], [a] may stay in front of [b]. *)
Definition staysBefore {A : Type} (compare : A -> A -> jsnum) (a b : A) : Prop :=
  js_gt (compare a b) (JNum 0%Qc) = false.

(** Entries in the order of the first version: counts do not increase. *)
Definition countsDescending (a b : LeaderEntry) : Prop :=
  exists x y, l_approvedWorks a = JNum x /\ l_approvedWorks b = JNum y /\ (y <= x)%Qc.

(** Entries in the order of the second version: counts do not increase,
    and among equal counts the earned money does not increase. *)
Definition countsThenMoneyDescending (a b : LeaderEntry) : Prop :=
  exists x y m n,
    l_approvedWorks a = JNum x /\ l_approvedWorks b = JNum y
    /\ l_earnedMoney a = JNum m /\ l_earnedMoney b = JNum n
    /\ ((y < x)%Qc \/ (x = y /\ (n <= m)%Qc)).

(** The i-th entry carries rank i, counting from 1. *)
Definition rankedFromOne (l : list LeaderEntry) : Prop :=
  forall i e, l !! i = Some e -> l_rank e = Z.of_nat i + 1.

(** Two users with one approved work item each, submitted a minute before
    [now = 1700000000000]; the second has earned more. *)
Definition userWith (name : string) (money works : Z) : User :=
  mkUser (Some name) None None None (Some "user") (Some false)
    (JNum (num money)) (JNum (num works)) (JNum 0%Qc).

Definition approvedWork (uid : string) (at_ : Z) : Work :=
  mkWork (Some "c1") (Some uid) (Some uid) (Some "c1") (Some "https://proof")
    (Some "approved") (JNum (num at_)) (JNum (num 50)).

Definition tiedUsers : list (string * User) :=
  [("a", userWith "Ada" 10 1); ("b", userWith "Bob" 20 1)].

Definition tiedWorks : list (string * list (string * Work)) :=
  [("a", [("c1", approvedWork "a" 1699999940000)]);
   ("b", [("c1", approvedWork "b" 1699999940000)])].

(** 51 users, each with 3 approved works on the profile. *)
Definition manyUsers : list (string * User) :=
  map (fun n => (String (ascii_of_nat (33 + n)) "", userWith "U" 0 3)) (seq 0 51).

(** An entry whose two counters are numbers. *)
Definition hasCounters (e : LeaderEntry) : Prop :=
  exists x m, l_approvedWorks e = JNum x /\ l_earnedMoney e = JNum m.

(** The users of the first version before sorting: those with a counted
    work item, in the order of the users object. *)
Definition rankedUsers (period : Period) (now : Z)
    (usersData : list (string * User))
    (worksData : list (string * list (string * Work))) : list LeaderEntry :=
  filter (fun user => js_gt (l_approvedWorks user) (JNum 0%Qc) = true)
    (map (LeaderboardByWorks.entryOf
            (LeaderboardByWorks.countAll (timeThresholdOf period now) now worksData))
       usersData).

(** [sorted] lists the entries of [l], and those with the same count in the
    order they have in [l]. *)
Definition stablySorted (l sorted : list LeaderEntry) : Prop :=
  sorted ≡ₚ l
  /\ forall count : jsnum,
       filter (fun e => l_approvedWorks e = count) sorted
       = filter (fun e => l_approvedWorks e = count) l.

(** * Further predicates and sample data *)

(** What a successful deduction of [amount] from the campaign [campaignId]
    of [uid] leaves in the store [s'], starting from [s]: the campaign's
    [remainingBudget] and the wallet's [addedBalance] (all zeros if the
    wallet is absent) both covered the amount and are both lowered by it
    (the differences are those of JavaScript, [fl] of the exact ones), and
    nothing else has changed. *)
Definition budgetDeducted (s s' : Store) (campaignId uid : string) (amount : Qc) : Prop :=
  exists c,
    campaigns s !! campaignId = Some c
    /\ creatorId c = Some uid
    /\ js_lt (remainingBudget c) (JNum amount) = false
    /\ (let old := default zeroWallet (wallets s !! uid) in
        js_lt (addedBalance old) (JNum amount) = false
        /\ s' = mkStore (users s)
                  (<[uid := with_addedBalance (js_sub (addedBalance old) (JNum amount)) old]>
                     (wallets s))
                  (<[campaignId :=
                       with_remainingBudget (js_sub (remainingBudget c) (JNum amount)) c]>
                     (campaigns s))
                  (works s) (addMoney s) (withdrawals s)
        /\ forall rb ab, remainingBudget c = JNum rb -> addedBalance old = JNum ab ->
             (amount <= rb)%Qc /\ (amount <= ab)%Qc
             /\ remainingBudget <$> campaigns s' !! campaignId
                = Some (JNum (fl (rb - amount)))
             /\ addedBalance <$> wallets s' !! uid = Some (JNum (fl (ab - amount)))).

(** What a call of [deductCampaignBudget] that did not return true leaves
    in the store [s'], starting from [s]: the store as it was, or, when
    the campaign had been debited and the wallet could not be, the store
    with the campaign rolled back. *)
Definition notDeducted (s s' : Store) (campaignId : string) (amount : Qc) : Prop :=
  s' = s \/ rolledBack s s' campaignId amount.

(** The debit of [amount] from the campaign [campaignId] is exact: its
    remaining budget is a double, and so is that budget less the amount. *)
Definition exactDebit (s : Store) (campaignId : string) (amount : Qc) : Prop :=
  exists c rb, campaigns s !! campaignId = Some c /\ remainingBudget c = JNum rb
    /\ is_double rb = true /\ is_double (rb - amount) = true.

(** A world in which u1's wallet covers the budget of the sample campaign. *)
Definition fundedWorld : World :=
  mkWorld
    (mkStore ∅ {["u1" := mkWallet (JNum 0%Qc) (JNum (num 800)) (JNum 0%Qc) (JNum 0%Qc)]}
       {["c1" := sampleCampaign]} ∅ ∅ ∅)
    [] [] [].

(** The work item [workId] of [userId] exists and is pending. *)
Definition isPendingWork (s : Store) (userId workId : string) : Prop :=
  exists wk, works s !! (userId, workId) = Some wk /\ w_status wk = Some "pending".

(** What a call of [approveWorkAndCredit] that returned true has done to
    the work items, the wallets and the collections it does not write. *)
Definition workPaid (s s' : Store) (workId userId : string) (reward_ : Qc) : Prop :=
  (exists wk, works s !! (userId, workId) = Some wk
     /\ w_status wk = Some "pending"
     /\ works s' = <[(userId, workId) := with_w_status (Some "approved") wk]> (works s))
  /\ (let old := default zeroWallet (wallets s !! userId) in
      wallets s'
      = <[userId := with_earnedBalance (js_add (earnedBalance old) (JNum reward_)) old]>
          (wallets s))
  /\ campaigns s' = campaigns s /\ addMoney s' = addMoney s
  /\ withdrawals s' = withdrawals s
  /\ forall uid, uid <> userId -> users s' !! uid = users s !! uid.

(** A world in which the wallet of u1 is 50 below the cap. *)
Definition cappedWorld : World :=
  mkWorld
    (mkStore {["u1" := sampleUser]}
       {["u1" := mkWallet (JNum (num 9999990)) (JNum 0%Qc) (JNum 0%Qc) (JNum 0%Qc)]}
       {["c1" := sampleCampaign]} {[("u1", "w1") := sampleWork]} ∅ ∅)
    [] [] [].

(** The collection of the money requests of a type. *)
Definition requestsOf (type : RequestType) (s : Store) : gmap string MoneyRequest :=
  match type with add_money => addMoney s | withdrawal => withdrawals s end.

Definition otherType (type : RequestType) : RequestType :=
  match type with add_money => withdrawal | withdrawal => add_money end.

(** The request [requestId] of the given type exists and is pending. *)
Definition isPendingRequest (s : Store) (type : RequestType) (requestId : string) : Prop :=
  exists r, requestsOf type s !! requestId = Some r /\ r_status r = Some "pending".

(** The wallet after an approved add-money request: [addedBalance] raised
    by the amount, [pendingAddMoney] lowered by it, but not below 0. *)
Definition moneyAdded (amount : Qc) (old : WalletBalance) : WalletBalance :=
  with_pendingAddMoney
    (js_max (JNum 0%Qc) (js_sub (pendingAddMoney old) (JNum amount)))
    (with_addedBalance (js_add (addedBalance old) (JNum amount)) old).

(** The wallet after an approved withdrawal: [earnedBalance] lowered by the
    amount, [totalWithdrawn] raised by it. *)
Definition moneyWithdrawn (amount : Qc) (old : WalletBalance) : WalletBalance :=
  with_totalWithdrawn (js_add (totalWithdrawn old) (JNum amount))
    (with_earnedBalance (js_sub (earnedBalance old) (JNum amount)) old).

(** What a call of [processMoneyRequest] that returned true has done to
    the store: the pending request, whose stored amount and user are the
    arguments, carries the decision; a rejection changes nothing else; an
    approval moves the amount in the wallet of the user (all zeros if
    absent), a withdrawal only if [earnedBalance] covers it. *)
Definition requestSettled (s s' : Store) (requestId : string) (type : RequestType)
    (userId : string) (amount : Qc) (status : Decision) : Prop :=
  (exists r, requestsOf type s !! requestId = Some r
     /\ r_status r = Some "pending"
     /\ r_amount r = JNum amount /\ r_userId r = Some userId
     /\ requestsOf type s'
        = <[requestId := with_r_status (Some (Decision_str status)) r]> (requestsOf type s))
  /\ requestsOf (otherType type) s' = requestsOf (otherType type) s
  /\ campaigns s' = campaigns s /\ works s' = works s
  /\ (forall uid, uid <> userId ->
        users s' !! uid = users s !! uid /\ wallets s' !! uid = wallets s !! uid)
  /\ let old := default zeroWallet (wallets s !! userId) in
     match status, type with
     | rejected, _ => wallets s' = wallets s /\ users s' = users s
     | approved, add_money =>
         wallets s' !! userId = Some (moneyAdded amount old) /\ users s' = users s
     | approved, withdrawal =>
         js_lt (earnedBalance old) (JNum amount) = false
         /\ wallets s' !! userId = Some (moneyWithdrawn amount old)
     end.

(** A pending request of u1 to withdraw 600, in a world where the wallet of
    u1 has earned 1000. *)
Definition withdrawalRequest : MoneyRequest :=
  mkRequest (Some "u1") (Some "withdrawal") (JNum (num 600)) (Some "pending").

Definition payoutWorld : World :=
  mkWorld
    (mkStore {["u1" := sampleUser]}
       {["u1" := mkWallet (JNum (num 1000)) (JNum 0%Qc) (JNum 0%Qc) (JNum 0%Qc)]}
       ∅ ∅ {["r1" := sampleRequest]} {["r2" := withdrawalRequest]})
    [] [] [].

(** The same withdrawal request, in a world where the wallet of u1 is
    empty. *)
Definition brokeWorld : World :=
  mkWorld
    (mkStore {["u1" := sampleUser]} {["u1" := zeroWallet]} ∅ ∅ ∅
       {["r2" := withdrawalRequest]})
    [] [] [].

(** What a call of [applyToCampaign] that returned true has done: there
    was no work item for the pair, the campaign was active and not full, a
    pending work item with the reward passed is stored under
    (userId, campaignId), the campaign's [completedWorkers] is raised by 1,
    and nothing else has changed. *)
Definition applicationRecorded (s s' : Store) (now : Z)
    (campaignId userId userName : string) (reward_ : Qc) : Prop :=
  works s !! (userId, campaignId) = None
  /\ exists c, campaigns s !! campaignId = Some c
     /\ c_status c = Some "active"
     /\ js_ge (completedWorkers c) (totalWorkers c) = false
     /\ s' = mkStore (users s) (wallets s)
               (<[campaignId :=
                    with_completedWorkers (js_add (completedWorkers c) (JNum 1%Qc)) c]>
                  (campaigns s))
               (<[(userId, campaignId) :=
                    mkWork (Some campaignId) (Some userId) (Some userName)
                      (Some campaignId) (Some "") (Some "pending") (JNum (num now))
                      (JNum reward_)]> (works s))
               (addMoney s) (withdrawals s).

(** The campaign cannot be applied to: it is missing, not active, or its
    [completedWorkers] has reached [totalWorkers]. *)
Definition campaignClosed (s : Store) (campaignId : string) : Prop :=
  forall c, campaigns s !! campaignId = Some c ->
    c_status c <> Some "active" \/ js_ge (completedWorkers c) (totalWorkers c) = true.

(** A world whose only campaign has as many completed workers as it has
    places. *)
Definition fullCampaign : Campaign :=
  with_completedWorkers (JNum (num 10)) sampleCampaign.

Definition fullWorld : World :=
  mkWorld (mkStore {["u2" := sampleUser]} ∅ {["c1" := fullCampaign]} ∅ ∅ ∅) [] [] [].

(** What a call of [submitWorkForCampaign] that returned true has done:
    the proof is an http or https URL, the work item existed and was
    pending or rejected, and it now carries the proof, the status pending
    and the time of submission; its other fields, the reward among them,
    and the rest of the store are unchanged. *)
Definition workSubmitted (s s' : Store) (now : Z)
    (campaignId userId proofUrl_ : string) : Prop :=
  (startsWith proofUrl_ "http://" = true \/ startsWith proofUrl_ "https://" = true)
  /\ exists wk, works s !! (userId, campaignId) = Some wk
     /\ (w_status wk = Some "pending" \/ w_status wk = Some "rejected")
     /\ s' = mkStore (users s) (wallets s) (campaigns s)
               (<[(userId, campaignId) := with_submission proofUrl_ now wk]> (works s))
               (addMoney s) (withdrawals s).

(** The work item cannot be submitted: it is missing, or its status is
    neither pending nor rejected. *)
Definition notSubmittable (s : Store) (userId campaignId : string) : Prop :=
  forall wk, works s !! (userId, campaignId) = Some wk ->
    w_status wk <> Some "pending" /\ w_status wk <> Some "rejected".

(** The campaign counter after a rejection: lowered by 1, not below 0, when
    it was above 0. *)
Definition afterRejection (c : Campaign) : Campaign :=
  if js_gt (completedWorkers c) (JNum 0%Qc)
  then with_completedWorkers
         (js_max (JNum 0%Qc) (js_sub (completedWorkers c) (JNum 1%Qc))) c
  else c.

(** What a call of [rejectWorkAndRestoreCampaignBudget] that returned true
    has done: the work item was pending and is now rejected, and the
    campaign, if it exists, has its counter of completed workers lowered. *)
Definition workRejected (s s' : Store) (workId userId campaignId : string) : Prop :=
  exists wk, works s !! (userId, workId) = Some wk
    /\ w_status wk = Some "pending"
    /\ works s' = <[(userId, workId) := with_w_status (Some "rejected") wk]> (works s)
    /\ campaigns s'
       = match campaigns s !! campaignId with
         | Some c => <[campaignId := afterRejection c]> (campaigns s)
         | None => campaigns s
         end.

(** No money has moved between [s] and [s']: the wallets, the profiles and
    the money requests are the same, and every campaign has the budgets it
    had. *)
Definition sameMoney (s s' : Store) : Prop :=
  wallets s' = wallets s /\ users s' = users s
  /\ addMoney s' = addMoney s /\ withdrawals s' = withdrawals s
  /\ forall id,
       remainingBudget <$> campaigns s' !! id = remainingBudget <$> campaigns s !! id
       /\ totalBudget <$> campaigns s' !! id = totalBudget <$> campaigns s !! id.

(** A world with the sample campaign, counting one completed worker, and
    the pending work item that u1 holds in it. *)
Definition campaignWork : Work :=
  mkWork (Some "c1") (Some "u1") (Some "Una") (Some "c1") (Some "") (Some "pending")
    (JNum (num 1700000000000)) (JNum (num 50)).

Definition appliedWorld : World :=
  mkWorld
    (mkStore {["u1" := sampleUser]} {["u1" := zeroWallet]}
       {["c1" := with_completedWorkers (JNum (num 1)) sampleCampaign]}
       {[("u1", "c1") := campaignWork]} ∅ ∅)
    [] [] [].

(** The same world after the work item has been approved. *)
Definition approvedWorld : World :=
  mkWorld
    (mkStore {["u1" := sampleUser]} {["u1" := zeroWallet]}
       {["c1" := with_completedWorkers (JNum (num 1)) sampleCampaign]}
       {[("u1", "c1") := with_w_status (Some "approved") campaignWork]} ∅ ∅)
    [] [] [].

(** The world of the pending work item, with two completed workers
    counted. *)
Definition countedWorld : World :=
  mkWorld
    (mkStore {["u1" := sampleUser]} {["u1" := zeroWallet]}
       {["c1" := with_completedWorkers (JNum (num 2)) sampleCampaign]}
       {[("u1", "c1") := campaignWork]} ∅ ∅)
    [] [] [].

(** ** The invariants of the ledger *)

(** The budgets of a campaign are numbers and not negative.  (That the
    remaining budget does not exceed the total one is not kept: the
    rollback of [deductCampaignBudget] can leave it one rounding above.) *)
Definition budgetConsistent (c : Campaign) : Prop :=
  exists rb tb, remainingBudget c = JNum rb /\ totalBudget c = JNum tb
    /\ (0 <= rb)%Qc /\ (0 <= tb)%Qc.

(** Every stored wallet has its four fields between 0 and 10,000,000, and
    every stored campaign has budgets that are not negative. *)
Definition storeOk (s : Store) : Prop :=
  map_Forall (fun _ b => walletInRange b) (wallets s)
  /\ map_Forall (fun _ c => budgetConsistent c) (campaigns s).

(** A call of one of the operations of the self-contained copy that write
    work items, campaigns, wallets or money requests. *)
Inductive LedgerCall : Type :=
| DeductCampaignBudget (campaignId : string) (amount : Qc) (uid : string)
    (currentUserId : option string)
| ApproveWorkAndCredit (workId userId campaignId : string) (reward_ : Qc)
    (currentAdminId : option string)
| ProcessMoneyRequest (requestId : string) (type : RequestType) (userId : string)
    (amount : Qc) (status : Decision) (currentAdminId : option string)
| ApplyToCampaign (now : Z) (campaignId userId userName : string) (reward_ : Qc)
    (currentUserId : option string)
| SubmitWorkForCampaign (now : Z) (campaignId userId proofUrl_ : string)
    (currentUserId : option string)
| RejectWorkAndRestoreCampaignBudget (workId userId campaignId : string)
    (currentAdminId : option string).

(** The world a call leaves, whatever its outcome. *)
Definition runCall (call : LedgerCall) (w : World) : World :=
  match call with
  | DeductCampaignBudget campaignId amount uid currentUserId =>
      (V1.deductCampaignBudget campaignId amount uid currentUserId w).2
  | ApproveWorkAndCredit workId userId campaignId reward_ currentAdminId =>
      (V1.approveWorkAndCredit workId userId campaignId reward_ currentAdminId w).2
  | ProcessMoneyRequest requestId type userId amount status currentAdminId =>
      (V1.processMoneyRequest requestId type userId amount status currentAdminId w).2
  | ApplyToCampaign now campaignId userId userName reward_ currentUserId =>
      (V1.applyToCampaign now campaignId userId userName reward_ currentUserId w).2
  | SubmitWorkForCampaign now campaignId userId proofUrl_ currentUserId =>
      (V1Ops.submitWorkForCampaign now campaignId userId proofUrl_ currentUserId w).2
  | RejectWorkAndRestoreCampaignBudget workId userId campaignId currentAdminId =>
      (V1Ops.rejectWorkAndRestoreCampaignBudget workId userId campaignId
         currentAdminId w).2
  end.

(** Calls run one after the other. *)
Definition runCalls (calls : list LedgerCall) (w : World) : World :=
  fold_left (fun w call => runCall call w) calls w.

(** What a call of [updateWalletBalance] that returned a wallet has done,
    for the wallet validator [validate]: the update function was applied to
    the stored wallet (all zeros if absent), the keys it returned overwrite
    the stored ones, the result passes the validator, is stored and is the
    wallet returned; nothing else has changed. *)
Definition walletUpdated (validate : option WalletBalance -> bool) (s s' : Store)
    (uid : string) (updateFn : WalletBalance -> option PartialWallet)
    (b : WalletBalance) : Prop :=
  let old := default zeroWallet (wallets s !! uid) in
  exists updateValues,
    updateFn old = Some updateValues
    /\ b = spread old updateValues
    /\ validate (Some b) = true
    /\ s' = mkStore (users s) (<[uid := b]> (wallets s)) (campaigns s) (works s)
              (addMoney s) (withdrawals s).

(** An update function that moves 30 from the added to the earned balance
    when the added balance covers it. *)
Definition moveThirty (currentBalance : WalletBalance) : option PartialWallet :=
  if js_lt (addedBalance currentBalance) (JNum (num 30)) then None
  else Some (mkPartial (Some (js_add (earnedBalance currentBalance) (JNum (num 30))))
               (Some (js_sub (addedBalance currentBalance) (JNum (num 30)))) None None).

(** ** What the validators accept *)

(** A field that holds a number: NaN, which passes every comparison of the
    validators, or a finite number with the property [P]. *)
Definition numberWith (P : Qc -> Prop) (v : jsnum) : Prop :=
  v = JNaN \/ exists q, v = JNum q /\ P q.

(** A field that holds a string whose length, in units of UTF-16, is
    between [lo] and [hi]. *)
Definition stringWithin (lo hi : Z) (s : jsstr) : Prop :=
  exists str, s = Some str /\ lo <= utf16_length str <= hi.

(** The campaigns that the inline campaign validator accepts. *)
Definition campaignAccepted (c : Campaign) : Prop :=
  stringWithin 1 100 (title c)
  /\ stringWithin 1 1000 (description c)
  /\ (exists creator, creatorId c = Some creator /\ creator <> "")
  /\ numberWith (fun q => (0 < q)%Qc /\ (q <= num 10000)%Qc) (totalWorkers c)
  /\ numberWith (fun q => (Q2Qc (1 # 2) <= q)%Qc /\ (q <= num 10000)%Qc)
       (rewardPerWorker c)
  /\ numberWith (fun q => (0 <= q)%Qc) (totalBudget c)
  /\ numberWith (fun q => (0 <= q)%Qc) (remainingBudget c)
  /\ c_createdAt c <> JUndef
  /\ (forall rb tb, remainingBudget c = JNum rb -> totalBudget c = JNum tb ->
        (rb <= tb)%Qc).

(** The sample campaign under a title of 51 letters e with an acute accent:
    51 units of UTF-16, 102 bytes of UTF-8. *)
Definition accentedCampaign : Campaign :=
  mkCampaign (Some (String.concat "" (replicate 51 "é"))) (Some "Answer ten questions")
    (Some "u1") (JNum (num 10)) (JNum (num 50)) (JNum (num 500)) (JNum (num 500))
    (JNum 0%Qc) (Some "active") (JNum (num 1700000000000)).

(** The transaction records that the inline transaction validator accepts
    at clock reading [now]. *)
Definition transactionAccepted (now : Z) (t : Transaction) : Prop :=
  (exists ty, t_type t = Some ty
     /\ ty ∈ ["add_money"; "withdrawal"; "earning"; "campaign_spend"])
  /\ (exists q, t_amount t = JNum q /\ (0 < q)%Qc /\ (q <= num 100000)%Qc)
  /\ (exists st, t_status t = Some st /\ st ∈ ["pending"; "approved"; "rejected"; "paid"])
  /\ (exists at_, t_createdAt t = JNum at_ /\ at_ <> 0%Qc
        /\ (at_ <= num (now + 60000))%Qc).

(** A cache holding the wallets of the users u1, u10 and u2. *)
Definition threeWalletsCache : DataCache nat :=
  mkCache
    [("wallet:u1", mkEntry 1%nat 1000 (1000 + CACHE_DURATION));
     ("wallet:u10", mkEntry 10%nat 2000 (2000 + CACHE_DURATION));
     ("wallet:u2", mkEntry 2%nat 3000 (3000 + CACHE_DURATION))]
    [].

(** ** Runs of the cache *)

(** A call of a method of the cache, or of one of the invalidation helpers;
    a call of [set] or [get] carries the clock readings of the method. *)
Inductive CacheCall (D : Type) : Type :=
| CallSet (stamp_now expiry_now : Z) (key : string) (d : D)
| CallGet (now : Z) (key : string)
| CallClear (key : string)
| CallClearAll
| CallSetPending (key : string) (promise : Promise)
| CallClearPending (key : string)
| CallInvalidateCache (keyPattern : string)
| CallInvalidateUserCache (uid : string)
| CallClearUserCache (uid : string).
Arguments CallSet {D} _ _ _ _.
Arguments CallGet {D} _ _.
Arguments CallClear {D} _.
Arguments CallClearAll {D}.
Arguments CallSetPending {D} _ _.
Arguments CallClearPending {D} _.
Arguments CallInvalidateCache {D} _.
Arguments CallInvalidateUserCache {D} _.
Arguments CallClearUserCache {D} _.

(** The cache a call leaves, for the [set] method [set_] of either copy of
    the class. *)
Definition runCacheCall {D : Type}
    (set_ : Z -> Z -> string -> D -> DataCache D -> DataCache D)
    (c : DataCache D) (call : CacheCall D) : DataCache D :=
  match call with
  | CallSet stamp_now expiry_now key d => set_ stamp_now expiry_now key d c
  | CallGet now key => (cache_get now key c).2
  | CallClear key => clear key c
  | CallClearAll => clearAll c
  | CallSetPending key promise => setPending key promise c
  | CallClearPending key => clearPending key c
  | CallInvalidateCache keyPattern => invalidateCache keyPattern c
  | CallInvalidateUserCache uid => invalidateUserCache uid c
  | CallClearUserCache uid => clearUserCache uid c
  end.

(** A call that stores under a non-empty key, at a clock reading below
    [Number.MAX_SAFE_INTEGER]; the other calls are unconstrained. *)
Definition properCall {D : Type} (call : CacheCall D) : Prop :=
  match call with
  | CallSet stamp_now _ key _ => key <> "" /\ stamp_now < MAX_SAFE_INTEGER
  | _ => True
  end.

(** A cache at capacity: 100 entries with distinct non-empty keys, the
    n-th written at time n + 1. *)
Definition packedCache : DataCache nat :=
  mkCache
    (map (fun n => (String (ascii_of_nat (33 + n mod 64))
                      (String (ascii_of_nat (48 + n / 64)) "k"),
                    mkEntry n (Z.of_nat n + 1) (Z.of_nat n + 1 + CACHE_DURATION)))
       (seq 0 100))
    [].

(** A method of the cache called while the run time holds promises. *)
Definition onCache {D : Type} (method : DataCache D -> DataCache D)
    (r : DataCacheV2.Runtime D) : DataCacheV2.Runtime D :=
  DataCacheV2.mkRuntime (method (DataCacheV2.dc r)) (DataCacheV2.nextPromise r)
    (DataCacheV2.fetches r) (DataCacheV2.handlers r).

(** The stored profile of [uid] has the role admin and is not blocked. *)
Definition isActiveAdmin (s : Store) (uid : string) : Prop :=
  exists u, users s !! uid = Some u
    /\ role u = Some "admin" /\ truthy_bool (isBlocked u) = false.

(** The operation threw, whatever it returns otherwise, and the store and
    the logs of writes and transactions are what they were. *)
Definition refusedAny {A : Type} (w : World) (run : outcome A * World) : Prop :=
  (exists msg, run.1 = Thrown msg)
  /\ db run.2 = db w /\ writes run.2 = writes w /\ txs run.2 = txs w.

(** A world in which the only admin is blocked. *)
Definition blockedAdminWorld : World :=
  mkWorld
    (mkStore
       {["root" := mkUser (Some "Root") None None None (Some "admin") (Some true)
                     JUndef JUndef JUndef]}
       {["u1" := zeroWallet]} {["c1" := sampleCampaign]}
       {[("u1", "w1") := sampleWork]} {["r1" := sampleRequest]} ∅)
    [] [] [].

(** What a call of [createTransactionAndAdjustWallet] that resolved has
    done, for the wallet validator [validate]: the record is the last
    child of the user's transactions, and the wallet is the one its update
    function computed, each field the stored one (0 if the wallet is
    absent) plus the delta of the update, raised to 0; or, when that
    wallet fails the validator, the wallet is left as it was. *)
Definition transactionRecorded (validate : option WalletBalance -> bool)
    (l l' : Ledger) (uid : string) (transaction : Transaction)
    (walletUpdate : PartialWallet) : Prop :=
  let s := db (world l) in
  journal l' = pushRecord uid transaction (journal l)
  /\ db (world l')
     = match walletAdjust validate walletUpdate (wallets s !! uid) with
       | Some updatedBalance =>
           mkStore (users s) (<[uid := updatedBalance]> (wallets s)) (campaigns s)
             (works s) (addMoney s) (withdrawals s)
       | None => s
       end.

(** A ledger in which the wallet of u1 is 50 below the cap, an earning of
    100 and the wallet update that goes with it. *)
Definition cappedLedger : Ledger := mkLedger cappedWorld ∅.

Definition earningRecord : Transaction :=
  mkTransaction (Some "earning") (JNum (num 100)) (Some "approved")
    (JNum (num 1700000000000)).

Definition earningUpdate : PartialWallet :=
  mkPartial (Some (JNum (num 100))) None None None.

(** ** What an approval needs to succeed *)

(** The caller may act as an admin: no caller id is passed, so that the
    check is skipped, or the stored profile of the caller is that of an
    active admin. *)
Definition actsAsAdmin (s : Store) (currentAdminId : option string) : Prop :=
  currentAdminId = None \/ exists ca, currentAdminId = Some ca /\ isActiveAdmin s ca.

(** The work item [workId] of [userId] can be approved with [reward_]: the
    ids are non-empty, the reward is in its range, the stored item is
    pending, the credit keeps the wallet within its bounds, and the profile
    exists with counters that are not negative. *)
Definition approvable (s : Store) (workId userId campaignId : string) (reward_ : Qc)
    : Prop :=
  workId <> "" /\ userId <> "" /\ campaignId <> ""
  /\ (0 < reward_)%Qc /\ (reward_ <= num 10000)%Qc
  /\ (exists wk, works s !! (userId, workId) = Some wk /\ w_status wk = Some "pending")
  /\ (let old := default zeroWallet (wallets s !! userId) in
      walletInRange old
      /\ forall e, earnedBalance old = JNum e -> (e + reward_ <= num 10000000)%Qc)
  /\ (exists u, users s !! userId = Some u
        /\ (forall m, earnedMoney u = JNum m -> (0 <= m)%Qc)
        /\ (forall n, approvedWorks u = JNum n -> (0 <= n)%Qc)).

(** The reward stored with the work item is a number with
    0 < reward <= 10,000. *)
Definition storedRewardValid (s : Store) (workId userId : string) : Prop :=
  forall wk, works s !! (userId, workId) = Some wk ->
    exists r, reward wk = JNum r /\ (0 < r)%Qc /\ (r <= num 10000)%Qc.

(** * Rounding to a double *)

Lemma round_half_even_comp (x y : Q) : (x == y)%Q -> round_half_even x = round_half_even y.
Proof.
  intros E. unfold round_half_even. cbv zeta.
  rewrite (Qfloor_comp _ _ E).
  assert (E' : (x - inject_Z (Qfloor y) == y - inject_Z (Qfloor y))%Q) by (rewrite E; reflexivity).
  rewrite (Qcompare_comp _ _ E' _ _ (Qeq_refl _)). reflexivity.
Qed.

Lemma round_half_even_Z (z : Z) : round_half_even (inject_Z z) = z.
Proof.
  unfold round_half_even. cbv zeta. rewrite Qfloor_Z.
  assert (E : (inject_Z z - inject_Z z == 0)%Q) by ring.
  rewrite (Qcompare_comp _ _ E _ _ (Qeq_refl _)). reflexivity.
Qed.

Lemma round_half_even_between (x : Q) :
  Qfloor x <= round_half_even x <= Qfloor x + 1.
Proof.
  unfold round_half_even. cbv zeta.
  destruct (_ ?= _)%Q; [destruct (Z.even _)| |]; lia.
Qed.

Lemma round_half_even_le (x y : Q) : (x <= y)%Q -> round_half_even x <= round_half_even y.
Proof.
  intros Hxy. pose proof (Qfloor_resp_le _ _ Hxy) as Hf.
  destruct (Z.eq_dec (Qfloor x) (Qfloor y)) as [E|N].
  - unfold round_half_even. cbv zeta. rewrite E.
    destruct (Qcompare_spec (x - inject_Z (Qfloor y)) (1 # 2)) as [Hx|Hx|Hx];
      destruct (Qcompare_spec (y - inject_Z (Qfloor y)) (1 # 2)) as [Hy|Hy|Hy];
      try destruct (Z.even (Qfloor y)); try lia; exfalso; lra.
  - pose proof (round_half_even_between x). pose proof (round_half_even_between y). lia.
Qed.

Lemma round_half_even_ge (z : Z) (x : Q) : (inject_Z z <= x)%Q -> z <= round_half_even x.
Proof. intros H. rewrite <- (round_half_even_Z z). apply round_half_even_le, H. Qed.

Lemma round_half_even_ub (z : Z) (x : Q) : (x <= inject_Z z)%Q -> round_half_even x <= z.
Proof. intros H. rewrite <- (round_half_even_Z z). apply round_half_even_le, H. Qed.

Lemma two_power_pos (e : Z) : (0 < 2 ^ e)%Q.
Proof. apply Qpower_0_lt. reflexivity. Qed.

Lemma two_power_succ (e : Z) : (2 ^ (e + 1) == 2 * 2 ^ e)%Q.
Proof. rewrite Qpower_plus by discriminate. change (2 ^ 1)%Q with 2%Q. ring. Qed.

Lemma two_power_pred (e : Z) : (2 * 2 ^ (e - 1) == 2 ^ e)%Q.
Proof. rewrite <- two_power_succ. replace (e - 1 + 1) with e by lia. reflexivity. Qed.

Lemma two_power_Z (a : Z) : 0 <= a -> (inject_Z (2 ^ a) == 2 ^ a)%Q.
Proof. intros H. rewrite Zpower_Qpower by exact H. reflexivity. Qed.

Lemma two_power_le (n m : Z) : n <= m -> (2 ^ n <= 2 ^ m)%Q.
Proof. intros H. apply Qpower_le_compat_l; [exact H | discriminate]. Qed.

Lemma two_power_lt_inv (n m : Z) : (2 ^ n < 2 ^ m)%Q -> n < m.
Proof. intros H. apply (Qpower_lt_compat_l_inv 2); [exact H | reflexivity]. Qed.

Lemma log2_bounds (n : Z) : 0 < n ->
  (2 ^ Z.log2 n <= inject_Z n)%Q /\ (inject_Z n < 2 * 2 ^ Z.log2 n)%Q.
Proof.
  intros Hn. destruct (Z.log2_spec n Hn) as [Hl Hu].
  pose proof (Z.log2_nonneg n) as H0.
  rewrite <- two_power_Z by exact H0. split.
  - rewrite <- Zle_Qle. exact Hl.
  - change 2%Q with (inject_Z 2). rewrite <- inject_Z_mult, <- Zlt_Qlt.
    rewrite Z.pow_succ_r in Hu by exact H0. exact Hu.
Qed.

Lemma binade_spec (x : Q) : (0 < x)%Q ->
  (2 ^ binade x <= x)%Q /\ (x < 2 ^ (binade x + 1))%Q.
Proof.
  intros Hx. unfold binade. cbv zeta.
  destruct x as [n d]. cbn [Qnum Qden].
  assert (Hn : 0 < n) by (unfold Qlt in Hx; cbn in Hx; lia).
  destruct (log2_bounds n Hn) as [Hn1 Hn2].
  destruct (log2_bounds (Zpos d) eq_refl) as [Hd1 Hd2].
  set (a := Z.log2 n) in *. set (b := Z.log2 (Zpos d)) in *.
  pose proof (two_power_pos a) as Ha. pose proof (two_power_pos b) as Hb.
  assert (He : (2 ^ (a - b) == 2 ^ a / 2 ^ b)%Q) by (apply Qpower_minus; discriminate).
  assert (Hxq : (n # d == inject_Z n / inject_Z (Zpos d))%Q) by apply Qmake_Qdiv.
  assert (HD : (0 < inject_Z (Zpos d))%Q) by reflexivity.
  destruct (Qle_bool (2 ^ (a - b)) (n # d)) eqn:Hc.
  - apply Qle_bool_iff in Hc. split; [exact Hc|].
    rewrite two_power_succ, He, Hxq.
    apply Qlt_shift_div_r; [exact HD|].
    apply Qlt_le_trans with (2 * 2 ^ a)%Q; [exact Hn2|].
    setoid_replace (2 * (2 ^ a / 2 ^ b) * inject_Z (Zpos d))%Q
      with (2 * 2 ^ a * (inject_Z (Zpos d) / 2 ^ b))%Q using relation Qeq by (field; lra).
    rewrite <- (Qmult_1_r (2 * 2 ^ a)) at 1.
    apply Qmult_le_l; [lra|]. apply Qle_shift_div_l; [exact Hb | lra].
  - assert (Hlt : (n # d < 2 ^ (a - b))%Q).
    { apply Qnot_le_lt. intros H. apply Qle_bool_iff in H. congruence. }
    replace (a - b - 1 + 1) with (a - b) by lia. split; [|exact Hlt].
    apply (Qmult_le_l _ _ 2); [reflexivity|]. rewrite two_power_pred, He, Hxq.
    apply Qle_shift_div_r; [exact Hb|].
    setoid_replace (2 * (inject_Z n / inject_Z (Zpos d)) * 2 ^ b)%Q
      with (inject_Z n * (2 * 2 ^ b / inject_Z (Zpos d)))%Q using relation Qeq by (field; lra).
    apply Qle_trans with (inject_Z n * 1)%Q; [lra|].
    apply Qmult_le_l; [lra|]. apply Qle_shift_div_l; [exact HD | lra].
Qed.

Lemma binade_unique (x : Q) (e : Z) :
  (2 ^ e <= x)%Q -> (x < 2 ^ (e + 1))%Q -> binade x = e.
Proof.
  intros Hl Hu.
  assert (Hx : (0 < x)%Q) by (pose proof (two_power_pos e); lra).
  destruct (binade_spec x Hx) as [Hl' Hu'].
  assert (binade x < e + 1) by (apply two_power_lt_inv; lra).
  assert (e < binade x + 1) by (apply two_power_lt_inv; lra).
  lia.
Qed.

Lemma binade_comp (x y : Q) : (0 < x)%Q -> (x == y)%Q -> binade x = binade y.
Proof.
  intros Hx E. destruct (binade_spec x Hx) as [Hl Hu].
  symmetry. apply binade_unique; rewrite <- E; assumption.
Qed.

Lemma binade_le (x y : Q) : (0 < x)%Q -> (x <= y)%Q -> binade x <= binade y.
Proof.
  intros Hx Hxy.
  destruct (binade_spec x Hx) as [Hl _].
  destruct (binade_spec y) as [_ Hu]; [lra|].
  assert (binade x < binade y + 1) by (apply two_power_lt_inv; lra). lia.
Qed.

Lemma two_power_cancel (s : Z) : (2 ^ (- s) * 2 ^ s == 1)%Q.
Proof.
  rewrite <- Qpower_plus by discriminate.
  replace (- s + s) with 0 by lia. reflexivity.
Qed.

Lemma two_power_shift (e s : Z) : (2 ^ e * 2 ^ (- s) == 2 ^ (e - s))%Q.
Proof. rewrite <- Qpower_plus by discriminate. reflexivity. Qed.

(** A positive number rounded to the multiples of [2^s]. *)
Lemma scaled_le (s : Z) (x y : Q) : (x <= y)%Q ->
  (inject_Z (round_half_even (x * 2 ^ (- s))) * 2 ^ s
   <= inject_Z (round_half_even (y * 2 ^ (- s))) * 2 ^ s)%Q.
Proof.
  intros H. apply Qmult_le_compat_r; [|apply Qlt_le_weak, two_power_pos].
  rewrite <- Zle_Qle. apply round_half_even_le.
  apply Qmult_le_compat_r; [exact H | apply Qlt_le_weak, two_power_pos].
Qed.

Lemma round53_bounds (x : Q) : (0 < x)%Q ->
  (2 ^ binade x <= round53 x)%Q /\ (round53 x <= 2 ^ (binade x + 1))%Q.
Proof.
  intros Hx. destruct (binade_spec x Hx) as [Hl Hu]. unfold round53. cbv zeta.
  set (e := binade x) in *. set (s := e - 52).
  pose proof (two_power_pos s) as Hs. pose proof (two_power_pos (- s)) as Hs'.
  assert (E1 : (2 ^ e == inject_Z (2 ^ 52) * 2 ^ s)%Q).
  { rewrite two_power_Z by lia. rewrite <- Qpower_plus by discriminate.
    replace (52 + s) with e by (unfold s; lia). reflexivity. }
  assert (E2 : (2 ^ (e + 1) == inject_Z (2 ^ 53) * 2 ^ s)%Q).
  { rewrite two_power_Z by lia. rewrite <- Qpower_plus by discriminate.
    replace (53 + s) with (e + 1) by (unfold s; lia). reflexivity. }
  split.
  - rewrite E1. apply Qmult_le_compat_r; [|lra].
    rewrite <- Zle_Qle. apply round_half_even_ge.
    rewrite two_power_Z by lia.
    setoid_replace (2 ^ 52)%Q with (2 ^ e * 2 ^ (- s))%Q using relation Qeq.
    + apply Qmult_le_compat_r; [exact Hl | lra].
    + rewrite two_power_shift. replace (e - s) with 52 by (unfold s; lia). reflexivity.
  - rewrite E2. apply Qmult_le_compat_r; [|lra].
    rewrite <- Zle_Qle. apply round_half_even_ub.
    rewrite two_power_Z by lia.
    setoid_replace (2 ^ 53)%Q with (2 ^ (e + 1) * 2 ^ (- s))%Q using relation Qeq.
    + apply Qmult_le_compat_r; [lra | lra].
    + rewrite two_power_shift. replace (e + 1 - s) with 53 by (unfold s; lia). reflexivity.
Qed.

Lemma round53_pos (x : Q) : (0 < x)%Q -> (0 < round53 x)%Q.
Proof.
  intros Hx. destruct (round53_bounds x Hx) as [Hl _].
  pose proof (two_power_pos (binade x)). lra.
Qed.

Lemma round53_le (x y : Q) : (0 < x)%Q -> (x <= y)%Q -> (round53 x <= round53 y)%Q.
Proof.
  intros Hx Hxy. assert (Hy : (0 < y)%Q) by lra.
  pose proof (binade_le x y Hx Hxy) as He.
  destruct (Z.eq_dec (binade x) (binade y)) as [E|N].
  - unfold round53. cbv zeta. rewrite E. apply scaled_le, Hxy.
  - destruct (round53_bounds x Hx) as [_ Hu]. destruct (round53_bounds y Hy) as [Hl _].
    apply Qle_trans with (2 ^ (binade x + 1))%Q; [exact Hu|].
    apply Qle_trans with (2 ^ binade y)%Q; [|exact Hl].
    apply two_power_le. lia.
Qed.

Lemma round53_comp (x y : Q) : (0 < x)%Q -> (x == y)%Q -> (round53 x == round53 y)%Q.
Proof.
  intros Hx E. unfold round53. cbv zeta. rewrite (binade_comp x y Hx E).
  rewrite (round_half_even_comp (x * _) (y * 2 ^ (- (binade y - 52)))); [reflexivity|].
  rewrite E. reflexivity.
Qed.

(** A multiple of the unit in the last place of its binade is not moved. *)
Lemma round53_exact (x : Q) (k : Z) : (0 < x)%Q ->
  (x == inject_Z k * 2 ^ (binade x - 52))%Q -> (round53 x == x)%Q.
Proof.
  intros Hx E. unfold round53. cbv zeta. set (s := binade x - 52) in *.
  rewrite (round_half_even_comp _ (inject_Z k)).
  - rewrite round_half_even_Z. symmetry. exact E.
  - rewrite E at 1. rewrite <- Qmult_assoc.
    setoid_replace (2 ^ s * 2 ^ (- s))%Q with 1%Q using relation Qeq; [ring|].
    rewrite Qmult_comm. apply two_power_cancel.
Qed.

Lemma flQ_zero (x : Q) : (x == 0)%Q -> flQ x = 0%Q.
Proof.
  intros E. unfold flQ.
  destruct (Qcompare_spec x 0) as [_|H|H]; [reflexivity | exfalso; lra | exfalso; lra].
Qed.

Lemma flQ_pos (x : Q) : (0 < x)%Q -> flQ x = round53 x.
Proof.
  intros H. unfold flQ.
  destruct (Qcompare_spec x 0) as [E|H'|_]; [exfalso; lra | exfalso; lra | reflexivity].
Qed.

Lemma flQ_neg (x : Q) : (x < 0)%Q -> flQ x = (- round53 (- x))%Q.
Proof.
  intros H. unfold flQ.
  destruct (Qcompare_spec x 0) as [E|_|H']; [exfalso; lra | reflexivity | exfalso; lra].
Qed.

Lemma flQ_le (x y : Q) : (x <= y)%Q -> (flQ x <= flQ y)%Q.
Proof.
  intros Hxy.
  destruct (Qcompare_spec x 0) as [Ex|Hx|Hx]; destruct (Qcompare_spec y 0) as [Ey|Hy|Hy];
    try (exfalso; lra).
  - rewrite (flQ_zero x Ex), (flQ_zero y Ey). apply Qle_refl.
  - rewrite (flQ_zero x Ex), (flQ_pos y Hy). apply Qlt_le_weak, round53_pos, Hy.
  - rewrite (flQ_neg x Hx), (flQ_zero y Ey).
    assert (0 < round53 (- x))%Q by (apply round53_pos; lra). lra.
  - rewrite (flQ_neg x Hx), (flQ_neg y Hy).
    assert (round53 (- y) <= round53 (- x))%Q by (apply round53_le; lra). lra.
  - rewrite (flQ_neg x Hx), (flQ_pos y Hy).
    assert (0 < round53 (- x))%Q by (apply round53_pos; lra).
    assert (0 < round53 y)%Q by (apply round53_pos; lra). lra.
  - rewrite (flQ_pos x Hx), (flQ_pos y Hy). apply round53_le; assumption.
Qed.

Lemma flQ_comp (x y : Q) : (x == y)%Q -> (flQ x == flQ y)%Q.
Proof.
  intros E. apply Qle_antisym; apply flQ_le; rewrite E; apply Qle_refl.
Qed.

Lemma flQ_opp (x : Q) : (flQ (- x) == - flQ x)%Q.
Proof.
  destruct (Qcompare_spec x 0) as [Ex|Hx|Hx].
  - rewrite (flQ_zero x Ex), (flQ_zero (- x)); [reflexivity | lra].
  - rewrite (flQ_neg x Hx), (flQ_pos (- x)); [ring | lra].
  - rewrite (flQ_pos x Hx), (flQ_neg (- x)); [|lra].
    rewrite (round53_comp (- - x) x); [reflexivity | lra | ring].
Qed.

(** ** Rounding on [Qc] *)

Lemma fl_this (x : Qc) : (this (fl x) == flQ x)%Q.
Proof. unfold fl. cbn [this Q2Qc]. apply Qred_correct. Qed.

Lemma fl_le (x y : Qc) : (x <= y)%Qc -> (fl x <= fl y)%Qc.
Proof.
  unfold Qcle. intros H. rewrite !fl_this. apply flQ_le, H.
Qed.

Lemma fl_0 : fl 0%Qc = 0%Qc.
Proof. apply Qc_is_canon. reflexivity. Qed.

Lemma fl_pos (x : Qc) : (0 < x)%Qc -> (0 < fl x)%Qc.
Proof.
  unfold Qclt. intros H. rewrite fl_this.
  change (0 < this x)%Q in H.
  rewrite (flQ_pos _ H). apply round53_pos, H.
Qed.

Lemma fl_neg (x : Qc) : (x < 0)%Qc -> (fl x < 0)%Qc.
Proof.
  unfold Qclt. intros H. rewrite fl_this.
  change (this x < 0)%Q in H. change (flQ (this x) < 0)%Q.
  rewrite (flQ_neg _ H).
  assert (0 < round53 (- this x))%Q by (apply round53_pos; lra). lra.
Qed.

Lemma fl_nonneg (x : Qc) : (0 <= x)%Qc -> (0 <= fl x)%Qc.
Proof. intros H. rewrite <- fl_0. apply fl_le, H. Qed.

Lemma fl_opp (x : Qc) : fl (- x) = (- fl x)%Qc.
Proof.
  apply Qc_is_canon.
  apply Qeq_trans with (flQ (this (- x)%Qc)); [apply fl_this|].
  apply Qeq_trans with (flQ (- this x)%Q).
  { apply flQ_comp. unfold Qcopp. cbn [this Q2Qc]. apply Qred_correct. }
  apply Qeq_trans with (- flQ (this x))%Q; [apply flQ_opp|].
  apply Qeq_sym. unfold Qcopp at 1. cbn [this Q2Qc].
  apply Qeq_trans with (- this (fl x))%Q; [apply Qred_correct|].
  apply Qopp_comp, fl_this.
Qed.

Lemma binade_dyadic (k s : Z) : 0 < k ->
  binade (inject_Z k * 2 ^ s) = Z.log2 k + s.
Proof.
  intros Hk. destruct (log2_bounds k Hk) as [Hl Hu].
  pose proof (two_power_pos s) as Hs.
  apply binade_unique.
  - rewrite Qpower_plus by discriminate. apply Qmult_le_compat_r; [exact Hl | lra].
  - replace (Z.log2 k + s + 1) with (Z.log2 k + 1 + s) by lia.
    rewrite Qpower_plus by discriminate. rewrite two_power_succ.
    apply Qmult_lt_compat_r; [exact Hs | exact Hu].
Qed.

(** The numbers [k * 2^s] with [|k| <= 2^53] are not moved by the rounding:
    these are the doubles. *)
Lemma round53_dyadic (k s : Z) : 0 < k <= 2 ^ 53 ->
  (round53 (inject_Z k * 2 ^ s) == inject_Z k * 2 ^ s)%Q.
Proof.
  intros [Hk Hm]. pose proof (two_power_pos s) as Hs.
  assert (Hx : (0 < inject_Z k * 2 ^ s)%Q).
  { apply Qmult_lt_0_compat; [|exact Hs]. change 0%Q with (inject_Z 0).
    rewrite <- Zlt_Qlt. exact Hk. }
  pose proof (Z.log2_nonneg k) as H0.
  assert (Ha : Z.log2 k <= 53).
  { destruct (Z.log2_spec k Hk) as [Hl _].
    destruct (Z_le_gt_dec (Z.log2 k) 53) as [|Hgt]; [assumption|exfalso].
    assert (2 ^ 54 <= 2 ^ Z.log2 k) by (apply Z.pow_le_mono_r; lia).
    assert (2 ^ 53 < 2 ^ 54) by (apply Z.pow_lt_mono_r; lia). lia. }
  destruct (Z_le_gt_dec (Z.log2 k) 52) as [Hle|Hgt].
  - apply (round53_exact _ (k * 2 ^ (52 - Z.log2 k)) Hx).
    rewrite binade_dyadic by exact Hk.
    rewrite inject_Z_mult, two_power_Z by lia.
    rewrite <- Qmult_assoc, <- Qpower_plus by discriminate.
    replace (52 - Z.log2 k + (Z.log2 k + s - 52)) with s by lia. reflexivity.
  - assert (Ek : Z.log2 k = 53) by lia.
    assert (k = 2 ^ 53).
    { destruct (Z.log2_spec k Hk) as [Hl _]. rewrite Ek in Hl. lia. }
    subst k. apply (round53_exact _ (2 ^ 52) Hx).
    rewrite binade_dyadic by exact Hk. rewrite Ek.
    rewrite !two_power_Z by lia.
    rewrite <- !Qpower_plus by discriminate.
    replace (52 + (53 + s - 52)) with (53 + s) by lia. reflexivity.
Qed.

Lemma flQ_dyadic (k s : Z) : - 2 ^ 53 <= k <= 2 ^ 53 ->
  (flQ (inject_Z k * 2 ^ s) == inject_Z k * 2 ^ s)%Q.
Proof.
  intros Hk. pose proof (two_power_pos s) as Hs.
  destruct (Z.lt_trichotomy k 0) as [Hn|[E|Hp]].
  - assert (Hx : (inject_Z k * 2 ^ s < 0)%Q).
    { assert (inject_Z k < 0)%Q by (change 0%Q with (inject_Z 0); rewrite <- Zlt_Qlt; lia).
      assert (0 < - inject_Z k * 2 ^ s)%Q by (apply Qmult_lt_0_compat; lra). lra. }
    rewrite (flQ_neg _ Hx).
    rewrite (round53_comp _ (inject_Z (- k) * 2 ^ s)).
    + rewrite round53_dyadic by lia. rewrite inject_Z_opp. ring.
    + lra.
    + rewrite inject_Z_opp. ring.
  - subst k. rewrite flQ_zero; [|ring]. ring.
  - assert (Hx : (0 < inject_Z k * 2 ^ s)%Q).
    { apply Qmult_lt_0_compat; [|exact Hs]. change 0%Q with (inject_Z 0).
      rewrite <- Zlt_Qlt. exact Hp. }
    rewrite (flQ_pos _ Hx). apply round53_dyadic. lia.
Qed.

Lemma round53_idem (x : Q) : (0 < x)%Q -> (round53 (round53 x) == round53 x)%Q.
Proof.
  intros Hx. unfold round53 at 2 3. cbv zeta.
  set (s := binade x - 52). set (m := round_half_even (x * 2 ^ (- s))).
  assert (Hm : 2 ^ 52 <= m <= 2 ^ 53).
  { destruct (binade_spec x Hx) as [Hl Hu].
    pose proof (two_power_pos (- s)) as Hs'. split.
    - apply round_half_even_ge. rewrite two_power_Z by lia.
      setoid_replace (2 ^ 52)%Q with (2 ^ binade x * 2 ^ (- s))%Q using relation Qeq.
      + apply Qmult_le_compat_r; [exact Hl | lra].
      + rewrite two_power_shift. replace (binade x - s) with 52 by (unfold s; lia).
        reflexivity.
    - apply round_half_even_ub. rewrite two_power_Z by lia.
      setoid_replace (2 ^ 53)%Q with (2 ^ (binade x + 1) * 2 ^ (- s))%Q using relation Qeq.
      + apply Qmult_le_compat_r; lra.
      + rewrite two_power_shift. replace (binade x + 1 - s) with 53 by (unfold s; lia).
        reflexivity. }
  apply round53_dyadic. lia.
Qed.

Lemma flQ_idem (x : Q) : (flQ (flQ x) == flQ x)%Q.
Proof.
  destruct (Qcompare_spec x 0) as [Ex|Hx|Hx].
  - rewrite (flQ_zero x Ex). reflexivity.
  - rewrite (flQ_neg x Hx).
    assert (Hp : (0 < round53 (- x))%Q) by (apply round53_pos; lra).
    rewrite flQ_opp, (flQ_pos _ Hp), round53_idem by lra. reflexivity.
  - rewrite (flQ_pos x Hx).
    assert (Hp : (0 < round53 x)%Q) by (apply round53_pos; lra).
    rewrite (flQ_pos _ Hp). apply round53_idem, Hx.
Qed.

Lemma fl_idem (x : Qc) : fl (fl x) = fl x.
Proof.
  apply Qc_is_canon.
  apply Qeq_trans with (flQ (this (fl x))); [apply fl_this|].
  apply Qeq_trans with (flQ (flQ (this x))); [apply flQ_comp, fl_this|].
  apply Qeq_trans with (flQ (this x)); [apply flQ_idem|].
  apply Qeq_sym, fl_this.
Qed.

Lemma fl_num (z : Z) : - 2 ^ 53 <= z <= 2 ^ 53 -> fl (num z) = num z.
Proof.
  intros Hz. apply Qc_is_canon.
  assert (E : (this (num z) == inject_Z z * 2 ^ 0)%Q).
  { unfold num. cbn [this Q2Qc]. rewrite Qred_correct. change (2 ^ 0)%Q with 1%Q. ring. }
  apply Qeq_trans with (flQ (this (num z))); [apply fl_this|].
  apply Qeq_trans with (flQ (inject_Z z * 2 ^ 0)); [apply flQ_comp, E|].
  apply Qeq_trans with (inject_Z z * 2 ^ 0)%Q; [apply flQ_dyadic, Hz|].
  apply Qeq_sym, E.
Qed.

(** ** Order on the rationals *)

Ltac qc_lra :=
  unfold Qclt, Qcle in *;
  unfold Qcminus, Qcplus, Qcopp, Q2Qc in *; cbn [this] in *;
  rewrite ?Qred_correct in *; lra.

Lemma num_lt (a b : Z) : (num a < num b)%Qc <-> a < b.
Proof.
  unfold num, Qclt, Q2Qc; cbn [this]. rewrite !Qred_correct.
  rewrite Zlt_Qlt. reflexivity.
Qed.

Lemma num_le (a b : Z) : (num a <= num b)%Qc <-> a <= b.
Proof.
  unfold num, Qcle, Q2Qc; cbn [this]. rewrite !Qred_correct.
  rewrite Zle_Qle. reflexivity.
Qed.

Lemma num_plus (a b : Z) : (num a + num b)%Qc = num (a + b).
Proof.
  apply Qc_is_canon. unfold num, Qcplus, Q2Qc; cbn [this].
  rewrite !Qred_correct, inject_Z_plus. reflexivity.
Qed.

Lemma num_minus (a b : Z) : (num a - num b)%Qc = num (a - b).
Proof.
  apply Qc_is_canon. unfold num, Qcminus, Qcplus, Qcopp, Q2Qc; cbn [this].
  rewrite !Qred_correct. unfold Z.sub. rewrite inject_Z_plus, inject_Z_opp. reflexivity.
Qed.

Lemma num_0 : num 0 = 0%Qc.
Proof. apply Qc_is_canon. reflexivity. Qed.

Lemma num_1 : num 1 = 1%Qc.
Proof. apply Qc_is_canon. reflexivity. Qed.

(** The cap of the wallet fields is a double. *)
Lemma fl_cap : fl (num 10000000) = num 10000000.
Proof. apply fl_num. split; intros H; vm_compute in H; discriminate H. Qed.

(** Sums and differences of the integers up to [2^53] are exact. *)
Lemma fl_num_plus (a b : Z) :
  - 2 ^ 53 <= a + b <= 2 ^ 53 -> fl (num a + num b) = num (a + b).
Proof. intros H. rewrite num_plus. apply fl_num, H. Qed.

Lemma fl_num_minus (a b : Z) :
  - 2 ^ 53 <= a - b <= 2 ^ 53 -> fl (num a - num b) = num (a - b).
Proof. intros H. rewrite num_minus. apply fl_num, H. Qed.

Lemma fl_sum_nonneg (x y : Qc) : (0 <= x)%Qc -> (0 <= y)%Qc -> (0 <= fl (x + y))%Qc.
Proof. intros Hx Hy. apply fl_nonneg. qc_lra. Qed.

Lemma fl_diff_nonneg (x y : Qc) : (y <= x)%Qc -> (0 <= fl (x - y))%Qc.
Proof. intros H. apply fl_nonneg. qc_lra. Qed.

Lemma fl_le_cap (x : Qc) : (x <= num 10000000)%Qc -> (fl x <= num 10000000)%Qc.
Proof. intros H. rewrite <- fl_cap. apply fl_le, H. Qed.

Lemma fl_diff_le_cap (x y : Qc) :
  (0 <= y)%Qc -> (x <= num 10000000)%Qc -> (fl (x - y) <= num 10000000)%Qc.
Proof. intros Hy Hx. apply fl_le_cap. qc_lra. Qed.

(** The sign of a difference survives the rounding. *)
Lemma fl_diff_pos (x y : Qc) : (0 < fl (y - x))%Qc <-> (x < y)%Qc.
Proof.
  split.
  - intros H. apply Qcnot_le_lt. intros Hle.
    assert (H0 : (fl (y - x) <= 0)%Qc) by (rewrite <- fl_0; apply fl_le; qc_lra).
    exact (Qclt_not_le _ _ H H0).
  - intros H. apply fl_pos. qc_lra.
Qed.

Lemma fl_1 : fl 1%Qc = 1%Qc.
Proof. rewrite <- num_1. apply fl_num. split; intros H; vm_compute in H; discriminate H. Qed.
(** * Properties *)

(** ** Numbers and the monad *)

Lemma Qcltb_lt (a b : Qc) : Qcltb a b = true <-> (a < b)%Qc.
Proof.
  unfold Qcltb. rewrite Qclt_alt.
  destruct (a ?= b)%Qc; split; congruence.
Qed.

Lemma Qcleb_le (a b : Qc) : Qcleb a b = true <-> (a <= b)%Qc.
Proof.
  unfold Qcleb. rewrite Qcle_alt.
  destruct (a ?= b)%Qc; split; congruence.
Qed.

Lemma Qceqb_eq (a b : Qc) : Qceqb a b = true <-> a = b.
Proof.
  unfold Qceqb. rewrite Qceq_alt.
  destruct (a ?= b)%Qc; split; congruence.
Qed.

Lemma Qcltb_ge (a b : Qc) : Qcltb a b = false <-> (b <= a)%Qc.
Proof.
  rewrite <- not_true_iff_false, Qcltb_lt. split.
  - apply Qcnot_lt_le.
  - apply Qcle_not_lt.
Qed.

Lemma is_double_spec (x : Qc) : is_double x = true <-> fl x = x.
Proof. unfold is_double. apply Qceqb_eq. Qed.

(** The integers up to [2^53] are doubles. *)
Lemma is_double_num (z : Z) : - 2 ^ 53 <= z <= 2 ^ 53 -> is_double (num z) = true.
Proof. intros H. apply is_double_spec, fl_num, H. Qed.

(** Running the primitives of the store, one step at a time. *)
Section Steps.
Context {K V : Type} `{Countable K}.
Variable C : Coll K V.
Context {B : Type}.

Lemma bind_get (k : K) (f : option V -> M B) (w : World) :
  bind (get C k) f w
  = f (coll_get C (db w) !! k)
      (mkWorld (db w) (reads w ++ [coll_path C k]) (writes w) (txs w)).
Proof. reflexivity. Qed.

Lemma bind_set (k : K) (v : V) (f : unit -> M B) (w : World) :
  bind (set C k v) f w
  = f tt (mkWorld (coll_put C (<[k := v]> (coll_get C (db w))) (db w))
            (reads w) (writes w ++ [coll_path C k]) (txs w)).
Proof. reflexivity. Qed.

Lemma bind_update (k : K) (patch : V -> V) (f : unit -> M B) (w : World) :
  bind (update C k patch) f w
  = f tt (mkWorld
            (coll_put C
               (<[k := patch (default (coll_empty C) (coll_get C (db w) !! k))]>
                  (coll_get C (db w))) (db w))
            (reads w) (writes w ++ [coll_path C k]) (txs w)).
Proof. reflexivity. Qed.

Lemma bind_runTransaction (k : K) (fn : option V -> option V)
    (f : bool * option V -> M B) (w : World) :
  bind (runTransaction C k fn) f w
  = match fn (coll_get C (db w) !! k) with
    | Some v =>
        f (true, Some v)
          (mkWorld (coll_put C (<[k := v]> (coll_get C (db w))) (db w))
             (reads w) (writes w) (txs w ++ [(coll_path C k, true)]))
    | None =>
        f (false, coll_get C (db w) !! k)
          (mkWorld (db w) (reads w) (writes w) (txs w ++ [(coll_path C k, false)]))
    end.
Proof.
  unfold bind, runTransaction.
  destruct (fn (coll_get C (db w) !! k)); reflexivity.
Qed.
End Steps.

Lemma bind_throw_if {B} (c : bool) (msg : string) (f : unit -> M B) (w : World) :
  bind (throw_if c msg) f w = if c then (Thrown msg, w) else f tt w.
Proof. destruct c; reflexivity. Qed.

Lemma bind_ret {A B} (a : A) (f : A -> M B) (w : World) : bind (ret a) f w = f a w.
Proof. reflexivity. Qed.

Lemma bind_throw {A B} (msg : string) (f : A -> M B) (w : World) :
  bind (throw msg) f w = (Thrown msg, w).
Proof. reflexivity. Qed.

Lemma bind_assoc {A B D} (m : M A) (f : A -> M B) (g : B -> M D) (w : World) :
  bind (bind m f) g w = bind m (fun x => bind (f x) g) w.
Proof. unfold bind. destruct (m w) as [[a|msg] w']; reflexivity. Qed.

Ltac simpl_world :=
  cbn [coll_get coll_put coll_path coll_empty
       usersC walletsC campaignsC worksC addMoneyC withdrawalsC
       db reads writes txs users wallets campaigns works addMoney withdrawals
       fst snd].

Lemma try_catch_rethrow {A} (m : M A) (w : World) :
  try_catch m (fun error => throw error) w = m w.
Proof. unfold try_catch, throw. destruct (m w) as [[a|msg] w']; reflexivity. Qed.

(** ** The wallet validator *)

Lemma field_check (v : jsnum) :
  js_lt v (JNum 0%Qc) = false /\ js_gt v (JNum (num 10000000)) = false
  <-> fieldNotOutOfRange v.
Proof.
  destruct v as [| |q]; simpl; [tauto | tauto |].
  unfold js_gt; simpl. rewrite !Qcltb_ge. tauto.
Qed.

Lemma validateWalletData_true (ow : option WalletBalance) :
  V1.validateWalletData ow = true <->
  exists w, ow = Some w
    /\ fieldNotOutOfRange (earnedBalance w) /\ fieldNotOutOfRange (addedBalance w)
    /\ fieldNotOutOfRange (pendingAddMoney w) /\ fieldNotOutOfRange (totalWithdrawn w).
Proof.
  destruct ow as [w|]; cbn [V1.validateWalletData].
  2: { split; [discriminate | intros (w & Hw & _); discriminate]. }
  split.
  - intros Hv. exists w. split; [reflexivity|].
    rewrite <- !field_check.
    match type of Hv with (if ?A then _ else _) = _ =>
      destruct A eqn:HA; [discriminate|] end.
    match type of Hv with (if ?B then _ else _) = _ =>
      destruct B eqn:HB; [discriminate|] end.
    rewrite !orb_false_iff in HA, HB. tauto.
  - intros (w' & Hw & H). injection Hw as <-.
    rewrite <- !field_check in H.
    destruct H as ((H1 & H1') & (H2 & H2') & (H3 & H3') & (H4 & H4')).
    rewrite H1, H2, H3, H4, H1', H2', H3', H4'. reflexivity.
Qed.

(** What the wallet validator accepts: a non-null record none of whose
    four fields is a number below 0 or above 10,000,000; on records whose
    four fields are all numbers this is: all four between 0 and
    10,000,000. *)
Lemma validateWalletData_accepted (ow : option WalletBalance) :
  (V1.validateWalletData ow = true <->
   exists w, ow = Some w
     /\ fieldNotOutOfRange (earnedBalance w) /\ fieldNotOutOfRange (addedBalance w)
     /\ fieldNotOutOfRange (pendingAddMoney w) /\ fieldNotOutOfRange (totalWithdrawn w))
  /\ (forall e a p t : Qc,
        V1.validateWalletData (Some (mkWallet (JNum e) (JNum a) (JNum p) (JNum t))) = true
        <-> walletInRange (mkWallet (JNum e) (JNum a) (JNum p) (JNum t))).
Proof.
  split; [apply validateWalletData_true|].
  intros e a p t. rewrite validateWalletData_true. unfold walletInRange. simpl.
  split.
  - intros (w & Hw & H). injection Hw as <-. exact H.
  - intros H. eexists. split; [reflexivity|]. exact H.
Qed.

(** ** Authorization *)

Lemma str_is_eq (s : jsstr) (lit : string) : str_is s lit = true <-> s = Some lit.
Proof.
  destruct s as [s|]; cbn; [|split; discriminate].
  rewrite bool_decide_eq_true. split; congruence.
Qed.

Lemma nonempty_true (s : string) : nonempty s = true <-> s <> "".
Proof. destruct s; simpl; split; congruence. Qed.

(** For the empty uid the guard on falsy identifiers answers false; no
    caller passes it, every call being behind [currentUserId && ...]. *)
Lemma verifyUserAuthorization_empty_uid :
  V1.verifyUserAuthorization "" "" false emptyWorld = (Returned false, emptyWorld).
Proof. reflexivity. Qed.

(** C10: self-authorization never consults the user record.  For every
    uid that a caller can pass (the callers test [currentUserId &&] first,
    so a non-empty one), [verifyUserAuthorization uid uid] without a
    required role returns true and issues no [get]: the world, its log of
    reads included, is the one it started from, whatever the store holds
    for this user (no record, or a record with [isBlocked] set); in
    [data-cache.ts] for every such uid that the imported parameter check
    [validateUserAuthorization] lets through.  At the call sites, for
    every uid without exception, the guard
    [currentUserId && !(await verifyUserAuthorization(currentUserId, uid))]
    with [currentUserId] = [uid] does not deny and reads nothing. *)
Theorem verifyUserAuthorization_self (uid : string) (w : World) :
  (uid <> "" ->
   V1.verifyUserAuthorization uid uid false w = (Returned true, w))
  /\ (forall validateUserAuthorization : string -> string -> bool -> bool,
      validateUserAuthorization uid uid false = true ->
      V2.verifyUserAuthorization validateUserAuthorization uid uid false w
      = (Returned true, w))
  /\ guarded (Some uid) (fun cu => V1.verifyUserAuthorization cu uid false) w
     = (Returned false, w)
  /\ (forall validateUserAuthorization : string -> string -> bool -> bool,
      (uid <> "" -> validateUserAuthorization uid uid false = true) ->
      guarded (Some uid)
        (fun cu => V2.verifyUserAuthorization validateUserAuthorization cu uid false) w
      = (Returned false, w)).
Proof.
  assert (H1 : uid <> "" ->
               V1.verifyUserAuthorization uid uid false w = (Returned true, w)).
  { intros Hne. unfold V1.verifyUserAuthorization.
    apply nonempty_true in Hne. rewrite Hne. cbn [negb orb].
    rewrite bool_decide_eq_true_2 by reflexivity. reflexivity. }
  assert (H2 : forall validateUserAuthorization : string -> string -> bool -> bool,
               validateUserAuthorization uid uid false = true ->
               V2.verifyUserAuthorization validateUserAuthorization uid uid false w
               = (Returned true, w)).
  { intros vA HvA. unfold V2.verifyUserAuthorization, try_catch.
    rewrite HvA. cbn [negb].
    rewrite bool_decide_eq_true_2 by reflexivity. reflexivity. }
  split; [exact H1|]. split; [exact H2|]. split.
  - unfold guarded. destruct (nonempty uid) eqn:Hne; [|reflexivity].
    apply nonempty_true in Hne. unfold bind. rewrite (H1 Hne). reflexivity.
  - intros vA HvA. unfold guarded. destruct (nonempty uid) eqn:Hne; [|reflexivity].
    apply nonempty_true in Hne. unfold bind. rewrite (H2 vA (HvA Hne)). reflexivity.
Qed.

Lemma verifyUserAuthorization_self_witness :
  V1.verifyUserAuthorization "eve" "eve" false blockedWorld = (Returned true, blockedWorld)
  /\ V2.verifyUserAuthorization (fun cu target _ => nonempty cu && nonempty target)
       "eve" "eve" false blockedWorld = (Returned true, blockedWorld)
  /\ guarded (Some "eve")
       (fun cu => V2.verifyUserAuthorization
                    (fun cu target _ => nonempty cu && nonempty target) cu "eve" false)
       blockedWorld
     = (Returned false, blockedWorld).
Proof.
  destruct (verifyUserAuthorization_self "eve" blockedWorld) as (H1 & H2 & _ & H4).
  split; [apply H1; discriminate|]. split; [apply H2; reflexivity|].
  apply H4. reflexivity.
Defined.

Lemma adminCheck_frame (cu : string) (w : World) :
  exists b, V1.adminCheck cu w
    = (Returned b, mkWorld (db w) (reads w ++ [PUser cu]) (writes w) (txs w)).
Proof.
  unfold V1.adminCheck, bind, get. cbn [coll_get coll_path usersC db reads writes txs].
  destruct (users (db w) !! cu) as [u|]; eexists; reflexivity.
Qed.

Lemma verifyUserAuthorization_frame (cu target : string) (r : bool) (w : World) :
  exists b rs, V1.verifyUserAuthorization cu target r w
    = (Returned b, mkWorld (db w) (reads w ++ rs) (writes w) (txs w)).
Proof.
  unfold V1.verifyUserAuthorization.
  assert (Hid : mkWorld (db w) (reads w ++ []) (writes w) (txs w) = w)
    by (rewrite app_nil_r; destruct w; reflexivity).
  destruct (negb (nonempty cu) || negb (nonempty target)).
  { exists false, []. rewrite Hid. reflexivity. }
  destruct r.
  { destruct (adminCheck_frame cu w) as [b Hb]. eauto. }
  destruct (bool_decide (cu = target)).
  { exists true, []. rewrite Hid. reflexivity. }
  destruct (adminCheck_frame cu w) as [b Hb]. eauto.
Qed.

Lemma adminCheck_frame_V2 (cu : string) (w : World) :
  exists b, V2.adminCheck cu w
    = (Returned b, mkWorld (db w) (reads w ++ [PUser cu]) (writes w) (txs w)).
Proof.
  unfold V2.adminCheck. rewrite bind_get.
  cbn [coll_get coll_path usersC db reads writes txs].
  destruct (users (db w) !! cu) as [u|]; eexists; reflexivity.
Qed.

Lemma verifyUserAuthorization_frame_V2
    (validateUserAuthorization : string -> string -> bool -> bool)
    (cu target : string) (r : bool) (w : World) :
  exists b rs, V2.verifyUserAuthorization validateUserAuthorization cu target r w
    = (Returned b, mkWorld (db w) (reads w ++ rs) (writes w) (txs w)).
Proof.
  unfold V2.verifyUserAuthorization, try_catch.
  assert (Hid : mkWorld (db w) (reads w ++ []) (writes w) (txs w) = w)
    by (rewrite app_nil_r; destruct w; reflexivity).
  destruct (negb (validateUserAuthorization cu target r)).
  { exists false, []. rewrite Hid. reflexivity. }
  destruct r.
  { destruct (adminCheck_frame_V2 cu w) as [b ->]. eauto. }
  destruct (bool_decide (cu = target)).
  { exists true, []. rewrite Hid. reflexivity. }
  destruct (adminCheck_frame_V2 cu w) as [b ->]. eauto.
Qed.

(** The authorization prelude of an operation only reads. *)
Lemma guarded_frame (a : option string) (f : string -> M bool) (w : World) :
  (forall cu w, exists b rs,
      f cu w = (Returned b, mkWorld (db w) (reads w ++ rs) (writes w) (txs w))) ->
  exists d rs, guarded a f w
    = (Returned d, mkWorld (db w) (reads w ++ rs) (writes w) (txs w)).
Proof.
  intros Hf. unfold guarded.
  assert (Hid : mkWorld (db w) (reads w ++ []) (writes w) (txs w) = w)
    by (rewrite app_nil_r; destruct w; reflexivity).
  destruct a as [cu|]; [destruct (nonempty cu)|].
  - unfold bind. destruct (Hf cu w) as (b & rs & ->). eexists _, _. reflexivity.
  - exists false, []. rewrite Hid. reflexivity.
  - exists false, []. rewrite Hid. reflexivity.
Qed.

Lemma app_eq_self_nil {A} (l l' : list A) : l = l ++ l' -> l' = [].
Proof.
  intros Heq. apply (f_equal (@length A)) in Heq. rewrite length_app in Heq.
  destruct l'; [reflexivity | simpl in Heq; lia].
Qed.

Lemma store_eta (s : Store) :
  mkStore (users s) (wallets s) (campaigns s) (works s) (addMoney s) (withdrawals s) = s.
Proof. destruct s; reflexivity. Qed.

(** A run that ended on this branch did not run the transactions asked for. *)
Ltac no_tx :=
  let Habs := fresh "Habs" in
  cbn; intros [= <- <-]; cbn; rewrite <- ?app_assoc; intros Habs;
  first [ apply app_eq_self_nil in Habs | apply app_inv_head in Habs ];
  discriminate Habs.

(** ** Campaign budget deduction *)

Lemma validateCampaignData_remainingBudget (c : Campaign) :
  V1.validateCampaignData (Some c) = true -> remainingBudget c <> JUndef.
Proof.
  cbn [V1.validateCampaignData]. intros Hv Hrb.
  match type of Hv with (if ?A then _ else _) = _ =>
    destruct A eqn:HA; [discriminate|] end.
  rewrite !orb_false_iff in HA. rewrite Hrb in HA. cbn in HA.
  destruct HA as ((_ & HA) & _). discriminate.
Qed.

(** The compensating write stores the debited budget plus the amount. *)
Lemma campaignDebit_restore (amount : Qc) (c c' : Campaign) :
  V1.campaignDebit amount (Some c) = Some c' ->
  with_remainingBudget (js_add (remainingBudget c') (JNum amount)) c'
  = compensated amount c.
Proof.
  unfold V1.campaignDebit.
  destruct (negb (V1.validateCampaignData (Some c))); [discriminate|].
  destruct (js_lt (remainingBudget c) (JNum amount)); [discriminate|].
  destruct (negb (V1.validateCampaignData _)); [discriminate|].
  intros [= <-]. destruct c. reflexivity.
Qed.

(** When the amount is subtracted without rounding, adding it again gives
    the budget back. *)
Lemma compensated_exact (amount rb : Qc) (c : Campaign) :
  remainingBudget c = JNum rb ->
  is_double rb = true -> is_double (rb - amount) = true ->
  compensated amount c = c.
Proof.
  intros Hrb Hd Hsub. apply is_double_spec in Hd, Hsub.
  unfold compensated. rewrite Hrb. cbn [js_sub js_add]. rewrite Hsub.
  replace (rb - amount + amount)%Qc with rb by ring. rewrite Hd.
  destruct c as [t d cr tw rw tb rb0 cw st ca]. cbn [remainingBudget] in Hrb.
  rewrite Hrb. reflexivity.
Qed.

Lemma deductCampaignBudget_compensates_V1 (campaignId : string) (amount : Qc)
    (uid : string) (currentUserId : option string) (w : World) :
  txs (V1.deductCampaignBudget campaignId amount uid currentUserId w).2
    = txs w ++ [(PCampaign campaignId, true); (PWallet uid, false)] ->
  (V1.deductCampaignBudget campaignId amount uid currentUserId w).1 = Returned false
  /\ rolledBack (db w)
       (db (V1.deductCampaignBudget campaignId amount uid currentUserId w).2)
       campaignId amount
  /\ writes (V1.deductCampaignBudget campaignId amount uid currentUserId w).2
     = writes w ++ [PCampaign campaignId].
Proof.
  destruct (V1.deductCampaignBudget campaignId amount uid currentUserId w)
    as [r w'] eqn:Hrun.
  cbn [fst snd]. revert Hrun. unfold V1.deductCampaignBudget.
  destruct (guarded_frame currentUserId
              (fun cu => V1.verifyUserAuthorization cu uid false) w) as (d & rs & Hg).
  { intros cu w0. apply verifyUserAuthorization_frame. }
  unfold bind at 1. rewrite Hg.
  rewrite bind_throw_if. destruct d; [no_tx|].
  rewrite bind_throw_if.
  destruct (Qcleb amount 0 || Qcltb (num 10000000) amount); [no_tx|].
  rewrite try_catch_rethrow, bind_get.
  cbn [coll_get coll_path campaignsC db reads writes txs].
  destruct (campaigns (db w) !! campaignId) as [c|] eqn:Hc; [|no_tx].
  rewrite bind_throw_if. destruct (negb (str_is (creatorId c) uid)); [no_tx|].
  rewrite bind_throw_if.
  destruct (negb (V1.validateCampaignData (Some c))); [no_tx|].
  rewrite bind_runTransaction.
  cbn [coll_get coll_put coll_path campaignsC db reads writes txs].
  rewrite Hc.
  destruct (V1.campaignDebit amount (Some c)) as [c'|] eqn:Hdebit; cbn [fst snd];
    [|no_tx].
  rewrite bind_runTransaction.
  cbn [coll_get coll_put coll_path walletsC db reads writes txs wallets].
  destruct (V1.walletDebit amount (wallets (db w) !! uid)) as [b'|] eqn:Hwallet;
    cbn [fst snd].
  { destruct (negb (V1.validateWalletData (Some b')));
      [unfold V1.restoreBudget; rewrite bind_update|]; no_tx. }
  unfold V1.restoreBudget. rewrite bind_update.
  cbn [coll_get coll_put coll_path coll_empty campaignsC db reads writes txs
       campaigns users wallets works addMoney withdrawals ret fst snd].
  intros [= <- <-] _. cbn [db writes]. split; [reflexivity|]. split; [|reflexivity].
  exists c. split; [exact Hc|].
  rewrite lookup_insert_eq. cbn [default from_option id].
  rewrite (campaignDebit_restore _ _ _ Hdebit), insert_insert_eq. reflexivity.
Qed.

Section V2_deduction.
Variable validateWalletData : option WalletBalance -> bool.
Variable validateCampaignData : option Campaign -> bool.
Variable validateUserAuthorization : string -> string -> bool -> bool.

Lemma campaignDebit_restore_V2 (amount : Qc) (c c' : Campaign) :
  V2.campaignDebit validateCampaignData amount (Some c) = Some c' ->
  with_remainingBudget (js_add (remainingBudget c') (JNum amount)) c'
  = compensated amount c.
Proof.
  unfold V2.campaignDebit.
  destruct (negb (validateCampaignData (Some c))); [discriminate|].
  destruct (js_lt (remainingBudget c) (JNum amount)); [discriminate|].
  destruct (negb (validateCampaignData _)); [discriminate|].
  intros [= <-]. destruct c. reflexivity.
Qed.

Lemma deductCampaignBudget_compensates_V2 (campaignId : string) (amount : Qc)
    (uid : string) (currentUserId : option string) (w : World) :
  let run := V2.deductCampaignBudget validateWalletData validateCampaignData
               validateUserAuthorization campaignId amount uid currentUserId w in
  txs run.2 = txs w ++ [(PCampaign campaignId, true); (PWallet uid, false)] ->
  run.1 = Returned false
  /\ rolledBack (db w) (db run.2) campaignId amount
  /\ writes run.2 = writes w ++ [PCampaign campaignId].
Proof.
  intros run. subst run.
  destruct (V2.deductCampaignBudget _ _ _ campaignId amount uid currentUserId w)
    as [r w'] eqn:Hrun.
  cbn [fst snd]. revert Hrun. unfold V2.deductCampaignBudget.
  rewrite bind_throw_if. destruct (negb (nonempty campaignId)); [no_tx|].
  rewrite bind_throw_if. destruct (Qcleb amount 0) eqn:Hpos; [no_tx|].
  rewrite bind_throw_if. destruct (negb (nonempty uid)); [no_tx|].
  destruct (guarded_frame currentUserId
              (fun cu => V2.verifyUserAuthorization validateUserAuthorization cu uid false) w)
    as (d & rs & Hg).
  { intros cu w0. apply verifyUserAuthorization_frame_V2. }
  unfold bind at 1. rewrite Hg.
  rewrite bind_throw_if. destruct d; [no_tx|].
  rewrite bind_throw_if.
  destruct (false || Qcltb (num 10000000) amount); [no_tx|].
  unfold try_catch. rewrite bind_get. simpl_world.
  destruct (campaigns (db w) !! campaignId) as [c|] eqn:Hc; [|no_tx].
  rewrite bind_throw_if. destruct (negb (str_is (creatorId c) uid)); [no_tx|].
  rewrite bind_throw_if.
  destruct (negb (validateCampaignData (Some c))); [no_tx|].
  rewrite bind_runTransaction. simpl_world. rewrite Hc.
  destruct (V2.campaignDebit validateCampaignData amount (Some c)) as [c'|] eqn:Hdebit;
    cbn [fst snd]; [|no_tx].
  rewrite bind_runTransaction. simpl_world.
  destruct (V2.walletDebit validateWalletData amount (wallets (db w) !! uid))
    as [b'|] eqn:Hwallet; cbn [fst snd]; [no_tx|].
  unfold V2.restoreBudget. rewrite bind_update. simpl_world. cbn [ret].
  intros [= <- <-] _. cbn [db writes]. split; [reflexivity|]. split; [|reflexivity].
  exists c. split; [exact Hc|].
  rewrite lookup_insert_eq. cbn [default from_option id].
  rewrite (campaignDebit_restore_V2 _ _ _ Hdebit), insert_insert_eq. reflexivity.
Qed.

End V2_deduction.

Lemma js_eq_refl (q : Qc) : js_eq (JNum q) (JNum q) = true.
Proof. cbn. apply Qceqb_eq. reflexivity. Qed.

(** C1, the code at the failing input: a campaign with 1.7 of its budget of
    1.7 left, a deduction of 0.6 and a wallet that holds 0.5.  The campaign
    transaction commits, the wallet transaction does not, the call returns
    false, and the rollback writes (1.7 - 0.6) + 0.6, which is
    1.7000000000000002 in doubles: the campaign is not what it was, its
    remaining budget now exceeds its total budget, and the campaign no
    longer passes the campaign validator of the module.  In both copies of
    the module (for [data-cache.ts], with the validators of the other copy
    for the imported ones). *)
Theorem deductCampaignBudget_rollback_rounds :
  (let run := V1.deductCampaignBudget "c1" (decimal 6 1) "u1" None smallWorld in
   run.1 = Returned false
   /\ txs run.2 = [(PCampaign "c1", true); (PWallet "u1", false)]
   /\ writes run.2 = [PCampaign "c1"]
   /\ (exists c, campaigns (db run.2) !! "c1" = Some c
         /\ js_eq (remainingBudget c) (JNum (decimal 17000000000000002 16)) = true
         /\ js_lt (JNum (decimal 17 1)) (remainingBudget c) = true
         /\ js_lt (totalBudget c) (remainingBudget c) = true
         /\ V1.validateCampaignData (Some c) = false)
   /\ db run.2 <> db smallWorld)
  /\ (let run := V2.deductCampaignBudget V1.validateWalletData V1.validateCampaignData
                   (fun _ _ _ => true) "c1" (decimal 6 1) "u1" None smallWorld in
      run.1 = Returned false
      /\ txs run.2 = [(PCampaign "c1", true); (PWallet "u1", false)]
      /\ writes run.2 = [PCampaign "c1"]
      /\ (exists c, campaigns (db run.2) !! "c1" = Some c
            /\ js_eq (remainingBudget c) (JNum (decimal 17000000000000002 16)) = true
            /\ js_lt (JNum (decimal 17 1)) (remainingBudget c) = true
            /\ js_lt (totalBudget c) (remainingBudget c) = true
            /\ V1.validateCampaignData (Some c) = false)
      /\ db run.2 <> db smallWorld).
Proof.
  assert (Hne : forall s : Store,
            (exists c, campaigns s !! "c1" = Some c
               /\ js_lt (JNum (decimal 17 1)) (remainingBudget c) = true) ->
            s <> db smallWorld).
  { intros s (c & Hc & Hlt) ->.
    change (campaigns (db smallWorld)) with ({["c1" := smallCampaign]} : gmap string Campaign) in Hc.
    rewrite lookup_singleton_eq in Hc.
    injection Hc as <-. vm_compute in Hlt. discriminate. }
  split; cbv zeta.
  - split; [vm_compute; reflexivity|]. split; [vm_compute; reflexivity|].
    split; [vm_compute; reflexivity|].
    split; [|apply Hne]; eexists; (split; [vm_compute; reflexivity|]);
      repeat split; vm_compute; reflexivity.
  - split; [vm_compute; reflexivity|]. split; [vm_compute; reflexivity|].
    split; [vm_compute; reflexivity|].
    split; [|apply Hne]; eexists; (split; [vm_compute; reflexivity|]);
      repeat split; vm_compute; reflexivity.
Qed.

(** C2, the code at the failing input: a wallet record read from the store
    without its [totalWithdrawn] field passes the validator, every
    comparison with [undefined] being false, and so does a record with NaN
    for a field; neither has its four fields present and in range.  The
    operations rely on the validator for what they read from the store and
    write back: [deductCampaignBudget], on a store whose wallet lacks the
    field, validates the debited wallet inside the wallet transaction and
    again after it, returns true, and leaves a wallet that still lacks the
    field. *)
Theorem validateWalletData_accepts_missing_field :
  V1.validateWalletData (Some partialWallet) = true
  /\ ~ walletInRange partialWallet
  /\ V1.validateWalletData (Some (mkWallet JNaN (JNum 0%Qc) (JNum 0%Qc) (JNum 0%Qc))) = true
  /\ ~ walletInRange (mkWallet JNaN (JNum 0%Qc) (JNum 0%Qc) (JNum 0%Qc))
  /\ (let run := V1.deductCampaignBudget "c1" (num 500) "u1" None partialWorld in
      run.1 = Returned true
      /\ txs run.2 = [(PCampaign "c1", true); (PWallet "u1", true)]
      /\ exists b, wallets (db run.2) !! "u1" = Some b
           /\ totalWithdrawn b = JUndef
           /\ js_eq (addedBalance b) (JNum (num 300)) = true
           /\ V1.validateWalletData (Some b) = true
           /\ ~ walletInRange b).
Proof.
  split; [reflexivity|]. split; [intros (_ & _ & _ & H); exact H|].
  split; [reflexivity|]. split; [intros (H & _); exact H|].
  cbv zeta. split; [vm_compute; reflexivity|]. split; [vm_compute; reflexivity|].
  eexists. split; [vm_compute; reflexivity|].
  split; [reflexivity|]. split; [vm_compute; reflexivity|].
  split; [vm_compute; reflexivity|]. intros (_ & _ & _ & H). exact H.
Qed.

(** ** Money requests *)

(** C3, the claim as stated fails: with a pending stored request for 10 and
    a call that passes 5, the amount-range guard throws first, and the error
    is not the data-mismatch error; and with a call that passes 20, which
    passes the guards, [data-cache.ts] throws its generic failure error, the
    data-mismatch error having been caught and replaced. *)
Lemma processMoneyRequest_mismatch_other_error :
  addMoney (db requestWorld) !! "r1" = Some sampleRequest
  /\ str_is (r_status sampleRequest) "pending" = true
  /\ requestMismatch sampleRequest add_money "u1" (num 5)
  /\ (V1.processMoneyRequest "r1" add_money "u1" (num 5) approved None requestWorld).1
     = Thrown "Invalid amount for money request processing"
  /\ requestMismatch sampleRequest add_money "u1" (num 20)
  /\ (V2.processMoneyRequest V1.validateWalletData (fun _ _ _ => true)
        "r1" add_money "u1" (num 20) approved None requestWorld).1
     = Thrown "Failed to process money request. Please try again later.".
Proof.
  split; [reflexivity|]. split; [reflexivity|]. split; [left; reflexivity|].
  split; [reflexivity|]. split; [left; reflexivity | reflexivity].
Qed.

Lemma processMoneyRequest_mismatch_V1 (requestId : string) (type : RequestType)
    (userId : string) (amount : Qc) (status : Decision)
    (currentAdminId : option string) (w : World) (r : MoneyRequest) :
  coll_get (V1.requestsC type) (db w) !! requestId = Some r ->
  str_is (r_status r) "pending" = true ->
  requestMismatch r type userId amount ->
  let run := V1.processMoneyRequest requestId type userId amount status currentAdminId w in
  (exists msg, run.1 = Thrown msg)
  /\ db run.2 = db w /\ writes run.2 = writes w /\ txs run.2 = txs w
  /\ ((guarded currentAdminId (fun ca => V1.verifyUserAuthorization ca userId true) w).1
        = Returned false ->
      V1.invalidRequestAmount type amount = false ->
      run.1 = Thrown "Request data does not match provided parameters").
Proof.
  intros Hr Hpending Hmis run. subst run.
  destruct (V1.processMoneyRequest requestId type userId amount status currentAdminId w)
    as [o w'] eqn:Hrun.
  cbn [fst snd]. revert Hrun. unfold V1.processMoneyRequest. cbv zeta.
  destruct (guarded_frame currentAdminId
              (fun ca => V1.verifyUserAuthorization ca userId true) w) as (d & rs & Hg).
  { intros cu w0. apply verifyUserAuthorization_frame. }
  unfold bind at 1. rewrite Hg. cbn [fst].
  rewrite bind_throw_if. destruct d.
  { intros [= <- <-]. cbn. repeat split; eauto. discriminate. }
  rewrite bind_throw_if. destruct (V1.invalidRequestAmount type amount).
  { intros [= <- <-]. cbn. repeat split; eauto. discriminate. }
  rewrite try_catch_rethrow, bind_get. cbn [db reads writes txs]. rewrite Hr.
  rewrite bind_throw_if, Hpending. cbn [negb].
  rewrite bind_throw_if.
  replace (negb (js_eq (r_amount r) (JNum amount))
           || negb (str_is (r_type r) (RequestType_str type))
           || negb (str_is (r_userId r) userId)) with true.
  2: { destruct Hmis as [-> | [-> | ->]]; cbn;
       rewrite ?orb_true_r; reflexivity. }
  intros [= <- <-]. cbn. repeat split; eauto.
Qed.

Section V2_requests.
Variable validateWalletData : option WalletBalance -> bool.
Variable validateUserAuthorization : string -> string -> bool -> bool.

Lemma processMoneyRequest_mismatch_V2 (requestId : string) (type : RequestType)
    (userId : string) (amount : Qc) (status : Decision)
    (currentAdminId : option string) (w : World) (r : MoneyRequest) :
  coll_get (V2.requestsC type) (db w) !! requestId = Some r ->
  str_is (r_status r) "pending" = true ->
  requestMismatch r type userId amount ->
  let run := V2.processMoneyRequest validateWalletData validateUserAuthorization
               requestId type userId amount status currentAdminId w in
  (exists msg, run.1 = Thrown msg)
  /\ db run.2 = db w /\ writes run.2 = writes w /\ txs run.2 = txs w
  /\ (requestId <> "" -> userId <> "" ->
      (guarded currentAdminId
         (fun ca => V2.verifyUserAuthorization validateUserAuthorization ca userId true) w).1
        = Returned false ->
      V2.invalidRequestAmount type amount = false ->
      run.1 = Thrown "Failed to process money request. Please try again later.").
Proof.
  intros Hr Hpending Hmis run. subst run.
  destruct (V2.processMoneyRequest _ _ requestId type userId amount status currentAdminId w)
    as [o w'] eqn:Hrun.
  cbn [fst snd]. revert Hrun. unfold V2.processMoneyRequest. cbv zeta.
  rewrite bind_throw_if. destruct (nonempty requestId) eqn:Hrid; cbn [negb].
  2: { intros [= <- <-]. apply not_true_iff_false in Hrid.
       rewrite nonempty_true in Hrid. repeat split; eauto. tauto. }
  rewrite bind_throw_if. destruct (nonempty userId) eqn:Huid; cbn [negb].
  2: { intros [= <- <-]. apply not_true_iff_false in Huid.
       rewrite nonempty_true in Huid. repeat split; eauto. tauto. }
  rewrite bind_throw_if. destruct (Qcleb amount 0) eqn:Hpos.
  { intros [= <- <-]. repeat split; eauto. intros _ _ _.
    unfold V2.invalidRequestAmount. rewrite Hpos. discriminate. }
  destruct (guarded_frame currentAdminId
              (fun ca => V2.verifyUserAuthorization validateUserAuthorization ca userId true) w)
    as (d & rs & Hg).
  { intros cu w0. apply verifyUserAuthorization_frame_V2. }
  unfold bind at 1. rewrite Hg. cbn [fst].
  rewrite bind_throw_if. destruct d.
  { intros [= <- <-]. cbn. repeat split; eauto. discriminate. }
  rewrite bind_throw_if. destruct (V2.invalidRequestAmount type amount).
  { intros [= <- <-]. cbn. repeat split; eauto. discriminate. }
  unfold try_catch. rewrite bind_get. cbn [db reads writes txs]. rewrite Hr.
  rewrite bind_throw_if, Hpending. cbn [negb].
  rewrite bind_throw_if.
  replace (negb (js_eq (r_amount r) (JNum amount))
           || negb (str_is (r_type r) (RequestType_str type))
           || negb (str_is (r_userId r) userId)) with true.
  2: { destruct Hmis as [-> | [-> | ->]]; cbn;
       rewrite ?orb_true_r; reflexivity. }
  intros [= <- <-]. cbn. repeat split; eauto.
Qed.

End V2_requests.

(** C3, amended: when the stored request exists and is pending but its
    amount, type or userId differs from the arguments, [processMoneyRequest]
    throws and writes nothing, in neither copy of the module: the store is
    unchanged, no [set], [update] or transaction has run.  Once the
    argument guards (authorization, amount range, and in [data-cache.ts]
    non-empty ids) are passed, the error is the data-mismatch error in the
    copy that rethrows what it caught, and the generic failure error in
    [data-cache.ts], whose catch block replaces every error without a
    [code]. *)
Theorem processMoneyRequest_mismatch (requestId : string) (type : RequestType)
    (userId : string) (amount : Qc) (status : Decision)
    (currentAdminId : option string) (w : World) (r : MoneyRequest) :
  coll_get (V1.requestsC type) (db w) !! requestId = Some r ->
  str_is (r_status r) "pending" = true ->
  requestMismatch r type userId amount ->
  (let run := V1.processMoneyRequest requestId type userId amount status currentAdminId w in
   (exists msg, run.1 = Thrown msg)
   /\ db run.2 = db w /\ writes run.2 = writes w /\ txs run.2 = txs w
   /\ ((guarded currentAdminId (fun ca => V1.verifyUserAuthorization ca userId true) w).1
         = Returned false ->
       V1.invalidRequestAmount type amount = false ->
       run.1 = Thrown "Request data does not match provided parameters"))
  /\ (forall (validateWalletData : option WalletBalance -> bool)
             (validateUserAuthorization : string -> string -> bool -> bool),
      let run := V2.processMoneyRequest validateWalletData validateUserAuthorization
                   requestId type userId amount status currentAdminId w in
      (exists msg, run.1 = Thrown msg)
      /\ db run.2 = db w /\ writes run.2 = writes w /\ txs run.2 = txs w
      /\ (requestId <> "" -> userId <> "" ->
          (guarded currentAdminId
             (fun ca => V2.verifyUserAuthorization validateUserAuthorization ca userId true) w).1
            = Returned false ->
          V2.invalidRequestAmount type amount = false ->
          run.1 = Thrown "Failed to process money request. Please try again later.")).
Proof.
  intros Hr Hpending Hmis. split.
  - apply (processMoneyRequest_mismatch_V1 _ _ _ _ _ _ _ r); assumption.
  - intros vW vA. apply (processMoneyRequest_mismatch_V2 _ _ _ _ _ _ _ _ _ r); assumption.
Qed.

Lemma processMoneyRequest_mismatch_witness :
  (V1.processMoneyRequest "r1" add_money "u1" (num 20) approved None requestWorld).1
    = Thrown "Request data does not match provided parameters"
  /\ db (V1.processMoneyRequest "r1" add_money "u1" (num 20) approved None requestWorld).2
     = db requestWorld
  /\ (V2.processMoneyRequest V1.validateWalletData (fun _ _ _ => true)
        "r1" add_money "u1" (num 20) approved None requestWorld).1
     = Thrown "Failed to process money request. Please try again later.".
Proof.
  destruct (processMoneyRequest_mismatch "r1" add_money "u1" (num 20) approved None
              requestWorld sampleRequest) as [H1 H2].
  - reflexivity.
  - reflexivity.
  - left. reflexivity.
  - destruct H1 as (_ & Hdb & _ & _ & Hmsg).
    destruct (H2 V1.validateWalletData (fun _ _ _ => true)) as (_ & _ & _ & _ & Hmsg2).
    split; [apply Hmsg; reflexivity|]. split; [exact Hdb|].
    apply Hmsg2; [discriminate | discriminate | reflexivity | reflexivity].
Defined.

(** ** Work approval *)

Lemma adminCheck_accepts_V1 (ca : string) (w : World) :
  isActiveAdmin (db w) ca ->
  V1.adminCheck ca w
  = (Returned true, mkWorld (db w) (reads w ++ [PUser ca]) (writes w) (txs w)).
Proof.
  intros (u & Hu & Hrole & Hblocked).
  unfold V1.adminCheck. rewrite bind_get. simpl_world. rewrite Hu.
  unfold str_is. rewrite Hrole, Hblocked. rewrite bool_decide_eq_true_2 by reflexivity.
  reflexivity.
Qed.

Lemma adminCheck_accepts_V2 (ca : string) (w : World) :
  isActiveAdmin (db w) ca ->
  V2.adminCheck ca w
  = (Returned true, mkWorld (db w) (reads w ++ [PUser ca]) (writes w) (txs w)).
Proof.
  intros (u & Hu & Hrole & Hblocked).
  unfold V2.adminCheck. rewrite bind_get. simpl_world. rewrite Hu.
  unfold str_is. rewrite Hrole, Hblocked. rewrite bool_decide_eq_true_2 by reflexivity.
  reflexivity.
Qed.

Lemma nonempty_ne (s : string) : s <> "" -> negb (nonempty s) = false.
Proof. intros H. apply nonempty_true in H. rewrite H. reflexivity. Qed.

(** The admin guard lets an admin, or a call without a caller id, pass. *)
Lemma guarded_admin_V1 (currentAdminId : option string) (userId : string) (w : World) :
  actsAsAdmin (db w) currentAdminId -> userId <> "" ->
  exists rs,
    guarded currentAdminId (fun ca => V1.verifyUserAuthorization ca userId true) w
    = (Returned false, mkWorld (db w) (reads w ++ rs) (writes w) (txs w)).
Proof.
  intros Hadmin Huid.
  assert (Hid : mkWorld (db w) (reads w ++ []) (writes w) (txs w) = w)
    by (rewrite app_nil_r; destruct w; reflexivity).
  destruct Hadmin as [-> | (ca & -> & Hca)]; cbn [guarded].
  { exists []. rewrite Hid. reflexivity. }
  destruct (nonempty ca) eqn:Hne.
  2: { exists []. rewrite Hid. reflexivity. }
  exists [PUser ca]. unfold bind, V1.verifyUserAuthorization.
  rewrite Hne, (nonempty_ne _ Huid). cbn [negb orb].
  rewrite (adminCheck_accepts_V1 _ _ Hca). reflexivity.
Qed.

Lemma guarded_admin_V2 (validateUserAuthorization : string -> string -> bool -> bool)
    (currentAdminId : option string) (userId : string) (w : World) :
  actsAsAdmin (db w) currentAdminId -> userId <> "" ->
  (forall ca, ca <> "" -> validateUserAuthorization ca userId true = true) ->
  exists rs,
    guarded currentAdminId
      (fun ca => V2.verifyUserAuthorization validateUserAuthorization ca userId true) w
    = (Returned false, mkWorld (db w) (reads w ++ rs) (writes w) (txs w)).
Proof.
  intros Hadmin Huid Hcheck.
  assert (Hid : mkWorld (db w) (reads w ++ []) (writes w) (txs w) = w)
    by (rewrite app_nil_r; destruct w; reflexivity).
  destruct Hadmin as [-> | (ca & -> & Hca)]; cbn [guarded].
  { exists []. rewrite Hid. reflexivity. }
  destruct (nonempty ca) eqn:Hne.
  2: { exists []. rewrite Hid. reflexivity. }
  exists [PUser ca]. unfold bind, V2.verifyUserAuthorization, try_catch.
  rewrite Hcheck by (apply nonempty_true, Hne). cbn [negb].
  rewrite (adminCheck_accepts_V2 _ _ Hca). reflexivity.
Qed.

Lemma reward_in_range (r : Qc) :
  (0 < r)%Qc -> (r <= num 10000)%Qc ->
  Qcleb r 0 || Qcltb (num 10000) r = false.
Proof.
  intros H0 H1. apply orb_false_iff. split.
  - apply not_true_iff_false. rewrite Qcleb_le. apply Qclt_not_le, H0.
  - apply Qcltb_ge, H1.
Qed.

Lemma invalidReward_false (r : Qc) :
  (0 < r)%Qc -> (r <= num 10000)%Qc -> V1.invalidReward (JNum r) = false.
Proof.
  intros H0 H1. unfold V1.invalidReward, js_gt. cbn [is_number negb js_le js_lt orb].
  apply reward_in_range; assumption.
Qed.

(** The credit of a reward keeps a wallet within its bounds when the new
    earned balance does not exceed the cap. *)
Lemma credited_inRange (old : WalletBalance) (reward_ : Qc) :
  (0 < reward_)%Qc -> walletInRange old ->
  (forall e, earnedBalance old = JNum e -> (e + reward_ <= num 10000000)%Qc) ->
  walletInRange (with_earnedBalance (js_add (earnedBalance old) (JNum reward_)) old).
Proof.
  intros Hr (He & Ha & Hp & Ht) Hcap.
  destruct old as [[| |e] a p t]; cbn in He; try contradiction.
  cbn [earnedBalance] in Hcap. specialize (Hcap e eq_refl).
  unfold walletInRange. cbn. destruct He as [He0 _].
  split; [|auto]. split.
  - apply fl_sum_nonneg; [exact He0 | apply Qclt_le_weak, Hr].
  - apply fl_le_cap, Hcap.
Qed.

Lemma inRange_valid (b : WalletBalance) :
  walletInRange b -> V1.validateWalletData (Some b) = true.
Proof.
  intros (He & Ha & Hp & Ht). apply validateWalletData_true. exists b.
  split; [reflexivity|].
  destruct b as [[| |e] [| |a] [| |p] [| |t]]; cbn in *; tauto.
Qed.

(** The profile counters of an approval do not become negative. *)
Lemma counters_pass (u : User) (reward_ : Qc) :
  (0 < reward_)%Qc ->
  (forall m, earnedMoney u = JNum m -> (0 <= m)%Qc) ->
  (forall n, approvedWorks u = JNum n -> (0 <= n)%Qc) ->
  js_lt (js_add (counter (earnedMoney u)) (JNum reward_)) (JNum 0%Qc)
  || js_lt (js_add (counter (approvedWorks u)) (JNum 1%Qc)) (JNum 0%Qc) = false.
Proof.
  intros Hr Hm Hn. apply orb_false_iff. split.
  - unfold counter. destruct (earnedMoney u) as [| |m] eqn:E; cbn; try reflexivity.
    + apply Qcltb_ge. apply fl_sum_nonneg; [apply Qcle_refl | apply Qclt_le_weak, Hr].
    + apply Qcltb_ge. apply fl_sum_nonneg; [apply Hm; reflexivity | apply Qclt_le_weak, Hr].
  - unfold counter. destruct (approvedWorks u) as [| |n] eqn:E; cbn; try reflexivity.
    apply Qcltb_ge. apply fl_sum_nonneg; [apply Hn; reflexivity | discriminate].
Qed.

Lemma approvalApplied_intro (s : Store) (workId userId : string) (reward_ : Qc)
    (wk : Work) (u : User) :
  works s !! (userId, workId) = Some wk ->
  str_is (w_status wk) "pending" = true ->
  users s !! userId = Some u ->
  let old := default zeroWallet (wallets s !! userId) in
  approvalApplied s
    (mkStore
       (<[userId := with_earnings (js_add (counter (earnedMoney u)) (JNum reward_))
                      (js_add (counter (approvedWorks u)) (JNum 1%Qc)) u]> (users s))
       (<[userId := with_earnedBalance (js_add (earnedBalance old) (JNum reward_)) old]>
          (wallets s))
       (campaigns s)
       (<[(userId, workId) := with_w_status (Some "approved") wk]> (works s))
       (addMoney s) (withdrawals s))
    workId userId reward_.
Proof.
  intros Hwk Hpending Hu old. unfold approvalApplied.
  cbn [users wallets works]. fold old. rewrite !lookup_insert_eq.
  split; [|split].
  - exists wk. auto.
  - split; [reflexivity|]. split.
    + intros e He. cbn. rewrite He. reflexivity.
    + intros z r He -> Hz. cbn. rewrite He. cbn. rewrite fl_num_plus by exact Hz.
      reflexivity.
  - exists u. split; [assumption|]. split; [reflexivity|].
    split; [|split; [|split]].
    + intros n Hn. cbn. rewrite Hn. reflexivity.
    + intros z Hn Hz. cbn. rewrite Hn. cbn.
      replace (num z + 1)%Qc with (num z + num 1)%Qc by (rewrite num_1; reflexivity).
      rewrite fl_num_plus by exact Hz. reflexivity.
    + intros m Hm. cbn. rewrite Hm. reflexivity.
    + intros z r Hm -> Hz. cbn. rewrite Hm. cbn. rewrite fl_num_plus by exact Hz.
      reflexivity.
Qed.

Lemma approveWorkAndCredit_success_V1 (workId userId campaignId : string)
    (reward_ : Qc) (currentAdminId : option string) (w : World) :
  approvable (db w) workId userId campaignId reward_ ->
  storedRewardValid (db w) workId userId ->
  actsAsAdmin (db w) currentAdminId ->
  let run := V1.approveWorkAndCredit workId userId campaignId reward_ currentAdminId w in
  run.1 = Returned true
  /\ approvalApplied (db w) (db run.2) workId userId reward_
  /\ txs run.2 = txs w ++ [(PWork userId workId, true); (PWallet userId, true)]
  /\ writes run.2 = writes w ++ [PUser userId].
Proof.
  intros (Hwid & Huid & Hcid & Hr0 & Hr1 & (wk & Hwk & Hst) & (Hold & Hcap)
          & (u & Hu & Hm & Hn)) Hstored Hadmin run.
  subst run.
  destruct (Hstored _ Hwk) as (r & Hrw & Hrw0 & Hrw1).
  assert (Hpending : str_is (w_status wk) "pending" = true) by (apply str_is_eq, Hst).
  destruct (V1.approveWorkAndCredit workId userId campaignId reward_ currentAdminId w)
    as [o w'] eqn:Hrun.
  cbn [fst snd]. revert Hrun. unfold V1.approveWorkAndCredit.
  destruct (guarded_admin_V1 currentAdminId userId w Hadmin Huid) as (rs & Hg).
  unfold bind at 1. rewrite Hg.
  rewrite bind_throw_if. cbn match.
  rewrite bind_throw_if, (reward_in_range _ Hr0 Hr1).
  rewrite try_catch_rethrow, bind_get.
  cbn [coll_get coll_path worksC db reads writes txs]. rewrite Hwk.
  rewrite bind_throw_if, Hpending. cbn [negb].
  rewrite bind_throw_if, Hrw, (invalidReward_false _ Hrw0 Hrw1).
  rewrite bind_runTransaction.
  cbn [coll_get coll_put coll_path worksC db reads writes txs]. rewrite Hwk.
  unfold V1.workApprove. rewrite Hpending, Hrw, (invalidReward_false _ Hrw0 Hrw1).
  cbn [negb fst snd].
  rewrite bind_runTransaction.
  cbn [coll_get coll_put coll_path walletsC db reads writes txs wallets fst snd].
  unfold V1.walletCredit.
  set (old := default zeroWallet (wallets (db w) !! userId)) in *.
  set (new := with_earnedBalance (js_add (earnedBalance old) (JNum reward_)) old).
  assert (Hvalid : V1.validateWalletData (Some new) = true).
  { apply inRange_valid, credited_inRange; assumption. }
  rewrite Hvalid. cbn [negb fst snd].
  rewrite bind_get. simpl_world. rewrite Hu.
  fold (counter (earnedMoney u)). fold (counter (approvedWorks u)).
  rewrite bind_assoc, bind_throw_if, (counters_pass u reward_ Hr0 Hm Hn).
  rewrite bind_update. simpl_world. rewrite Hu. cbn [default from_option id].
  rewrite Hvalid. cbn [negb ret].
  intros [= <- <-]. simpl_world. split; [reflexivity|].
  split; [|split; [rewrite <- app_assoc; reflexivity | reflexivity]].
  apply approvalApplied_intro; assumption.
Qed.

Section V2_approval.
Variable validateWalletData : option WalletBalance -> bool.
Variable validateWorkData : option Work -> bool.
Variable validateUserAuthorization : string -> string -> bool -> bool.
Hypothesis wallet_in_range_valid :
  forall b, walletInRange b -> validateWalletData (Some b) = true.
Hypothesis reward_in_range_valid :
  forall wk r, reward wk = JNum r -> (0 < r)%Qc -> (r <= num 10000)%Qc ->
    validateWorkData (Some wk) = true.
Hypothesis ids_valid :
  forall ca target, ca <> "" -> target <> "" ->
    validateUserAuthorization ca target true = true.

Lemma approveWorkAndCredit_success_V2 (workId userId campaignId : string)
    (reward_ : Qc) (currentAdminId : option string) (w : World) :
  approvable (db w) workId userId campaignId reward_ ->
  storedRewardValid (db w) workId userId ->
  actsAsAdmin (db w) currentAdminId ->
  let run := V2.approveWorkAndCredit validateWalletData validateWorkData
               validateUserAuthorization workId userId campaignId reward_
               currentAdminId w in
  run.1 = Returned true
  /\ approvalApplied (db w) (db run.2) workId userId reward_
  /\ txs run.2 = txs w ++ [(PWork userId workId, true); (PWallet userId, true)]
  /\ writes run.2 = writes w ++ [PUser userId].
Proof.
  intros (Hwid & Huid & Hcid & Hr0 & Hr1 & (wk & Hwk & Hst) & (Hold & Hcap)
          & (u & Hu & Hm & Hn)) Hstored Hadmin run.
  subst run.
  destruct (Hstored _ Hwk) as (r & Hrw & Hrw0 & Hrw1).
  assert (Hpending : str_is (w_status wk) "pending" = true) by (apply str_is_eq, Hst).
  assert (Hwork : validateWorkData (Some wk) = true)
    by (apply (reward_in_range_valid wk r); assumption).
  destruct (V2.approveWorkAndCredit _ _ _ workId userId campaignId reward_ currentAdminId w)
    as [o w'] eqn:Hrun.
  cbn [fst snd]. revert Hrun. unfold V2.approveWorkAndCredit.
  rewrite bind_throw_if, (nonempty_ne _ Hwid).
  rewrite bind_throw_if, (nonempty_ne _ Huid).
  rewrite bind_throw_if, (nonempty_ne _ Hcid).
  rewrite bind_throw_if.
  assert (Hnn : Qcltb reward_ 0 = false) by (apply Qcltb_ge, Qclt_le_weak, Hr0).
  rewrite Hnn.
  destruct (guarded_admin_V2 validateUserAuthorization currentAdminId userId w Hadmin Huid)
    as (rs & Hg).
  { intros ca Hca. apply ids_valid; assumption. }
  unfold bind at 1. rewrite Hg.
  rewrite bind_throw_if. cbn match.
  rewrite bind_throw_if, (reward_in_range _ Hr0 Hr1).
  unfold try_catch. rewrite bind_get. simpl_world. rewrite Hwk.
  rewrite bind_throw_if, Hpending. cbn [negb].
  rewrite bind_throw_if, Hwork. cbn [negb].
  rewrite bind_runTransaction. simpl_world. rewrite Hwk.
  unfold V2.workApprove. rewrite Hpending, Hwork. cbn [negb fst snd].
  rewrite bind_runTransaction. simpl_world.
  unfold V2.walletCredit.
  set (old := default zeroWallet (wallets (db w) !! userId)) in *.
  set (new := with_earnedBalance (js_add (earnedBalance old) (JNum reward_)) old).
  assert (Hvalid : validateWalletData (Some new) = true).
  { apply wallet_in_range_valid, credited_inRange; assumption. }
  rewrite Hvalid. cbn [negb fst snd].
  rewrite bind_get. simpl_world. rewrite Hu.
  fold (counter (earnedMoney u)). fold (counter (approvedWorks u)).
  rewrite bind_assoc, bind_throw_if, (counters_pass u reward_ Hr0 Hm Hn).
  rewrite bind_update. simpl_world. rewrite Hu. cbn [default from_option id ret].
  intros [= <- <-]. simpl_world. split; [reflexivity|].
  split; [|split; [rewrite <- app_assoc; reflexivity | reflexivity]].
  apply approvalApplied_intro; assumption.
Qed.

End V2_approval.

(** C4: on a stored work item that is pending and carries a valid reward,
    a call of [approveWorkAndCredit] with a reward in its range, by an
    admin (or without a caller id), for a user whose wallet the credit
    keeps within its bounds and whose profile exists with counters that are
    not negative, returns true; the work item is then approved, the
    wallet's [earnedBalance] is the old one plus the reward, and the
    profile's [approvedWorks] is the old one plus 1 and its [earnedMoney]
    the old one plus the reward (the sums as JavaScript computes them,
    which on integers up to 2^53 are the exact sums);
    the work and the wallet transactions have committed and the profile
    update is the only plain write.  In both copies of the module; for
    [data-cache.ts], for all imported validators that accept the wallets
    within their bounds, the work items with a reward in its range and
    pairs of non-empty ids. *)
Theorem approveWorkAndCredit_success (workId userId campaignId : string)
    (reward_ : Qc) (currentAdminId : option string) (w : World) :
  approvable (db w) workId userId campaignId reward_ ->
  storedRewardValid (db w) workId userId ->
  actsAsAdmin (db w) currentAdminId ->
  (let run := V1.approveWorkAndCredit workId userId campaignId reward_ currentAdminId w in
   run.1 = Returned true
   /\ approvalApplied (db w) (db run.2) workId userId reward_
   /\ txs run.2 = txs w ++ [(PWork userId workId, true); (PWallet userId, true)]
   /\ writes run.2 = writes w ++ [PUser userId])
  /\ (forall (validateWalletData : option WalletBalance -> bool)
             (validateWorkData : option Work -> bool)
             (validateUserAuthorization : string -> string -> bool -> bool),
      (forall b, walletInRange b -> validateWalletData (Some b) = true) ->
      (forall wk r, reward wk = JNum r -> (0 < r)%Qc -> (r <= num 10000)%Qc ->
         validateWorkData (Some wk) = true) ->
      (forall ca target, ca <> "" -> target <> "" ->
         validateUserAuthorization ca target true = true) ->
      let run := V2.approveWorkAndCredit validateWalletData validateWorkData
                   validateUserAuthorization workId userId campaignId reward_
                   currentAdminId w in
      run.1 = Returned true
      /\ approvalApplied (db w) (db run.2) workId userId reward_
      /\ txs run.2 = txs w ++ [(PWork userId workId, true); (PWallet userId, true)]
      /\ writes run.2 = writes w ++ [PUser userId]).
Proof.
  intros Happ Hstored Hadmin. split.
  - apply approveWorkAndCredit_success_V1; assumption.
  - intros vW vWk vA HvW HvWk HvA. apply approveWorkAndCredit_success_V2; assumption.
Qed.

Lemma reviewWorld_approvable : approvable (db reviewWorld) "w1" "u1" "c1" (num 50).
Proof.
  unfold approvable. repeat split; try discriminate.
  - eexists. split; reflexivity.
  - intros e [= <-]. vm_compute. discriminate.
  - eexists. split; [reflexivity|]. split; intros x [= <-]; discriminate.
Qed.

Lemma reviewWorld_storedRewardValid : storedRewardValid (db reviewWorld) "w1" "u1".
Proof.
  intros wk Hwk. vm_compute in Hwk. injection Hwk as <-.
  eexists. split; [reflexivity|]. split; [reflexivity | discriminate].
Qed.

Lemma approveWorkAndCredit_success_witness :
  (V1.approveWorkAndCredit "w1" "u1" "c1" (num 50) None reviewWorld).1 = Returned true
  /\ approvalApplied (db reviewWorld)
       (db (V1.approveWorkAndCredit "w1" "u1" "c1" (num 50) None reviewWorld).2)
       "w1" "u1" (num 50)
  /\ (let run := V2.approveWorkAndCredit V1.validateWalletData specValidateWorkData
                   (fun _ _ _ => true) "w1" "u1" "c1" (num 50) None reviewWorld in
      run.1 = Returned true
      /\ approvalApplied (db reviewWorld) (db run.2) "w1" "u1" (num 50)
      /\ w_status <$> works (db run.2) !! ("u1", "w1") = Some (Some "approved")
      /\ earnedBalance <$> wallets (db run.2) !! "u1" = Some (JNum (num 50))
      /\ approvedWorks <$> users (db run.2) !! "u1" = Some (JNum (num 1))
      /\ earnedMoney <$> users (db run.2) !! "u1" = Some (JNum (num 50))).
Proof.
  destruct (approveWorkAndCredit_success "w1" "u1" "c1" (num 50) None reviewWorld
              reviewWorld_approvable reviewWorld_storedRewardValid (or_introl eq_refl))
    as [H1 H2].
  destruct H1 as (Hret & Happlied & _).
  destruct (H2 V1.validateWalletData specValidateWorkData (fun _ _ _ => true))
    as (Hret2 & Happlied2 & _).
  - exact inRange_valid.
  - intros wk r Hr H0 H1. unfold specValidateWorkData. rewrite Hr.
    rewrite (invalidReward_false _ H0 H1). reflexivity.
  - reflexivity.
  - split; [exact Hret|]. split; [exact Happlied|]. cbv zeta.
    split; [exact Hret2|]. split; [exact Happlied2|].
    destruct Happlied2 as ((wk & Hwk & _ & Hwk') & (_ & _ & Hbal) & (u & Hu & _ & _ & Hn & _ & Hm)).
    assert (Hrange : forall a b : Z, a = 0 -> 0 <= b <= 50 -> - 2 ^ 53 <= a + b <= 2 ^ 53).
    { intros a b -> Hb. assert (H53 : 2 ^ 53 = 9007199254740992) by reflexivity. lia. }
    split; [|split; [|split]].
    + rewrite Hwk'. vm_compute in Hwk. injection Hwk as <-. reflexivity.
    + apply (Hbal 0 50); [reflexivity | reflexivity | apply Hrange; [reflexivity | lia]].
    + vm_compute in Hu. injection Hu as <-.
      apply (Hn 0); [reflexivity | apply Hrange; [reflexivity | lia]].
    + vm_compute in Hu. injection Hu as <-.
      apply (Hm 0 50); [reflexivity | reflexivity | apply Hrange; [reflexivity | lia]].
Defined.

(** ** Applying to a campaign *)

Ltac refuse :=
  intros [= <- <-]; unfold refused; cbn; repeat split; eauto.

Lemma applyToCampaign_refuses_V1 (now : Z) (campaignId userId userName : string)
    (reward_ : Qc) (currentUserId : option string) (w : World) :
  is_Some (works (db w) !! (userId, campaignId)) ->
  refused w (V1.applyToCampaign now campaignId userId userName reward_ currentUserId w).
Proof.
  intros Hwork.
  destruct (V1.applyToCampaign now campaignId userId userName reward_ currentUserId w)
    as [o w'] eqn:Hrun.
  revert Hrun. unfold V1.applyToCampaign.
  rewrite bind_throw_if.
  match goal with |- context [if ?c then (Thrown _, _) else _] => destruct c end;
    [refuse|].
  rewrite bind_throw_if.
  match goal with |- context [if ?c then (Thrown _, _) else _] => destruct c end;
    [refuse|].
  rewrite try_catch_rethrow, bind_get. simpl_world.
  rewrite bind_throw_if, bool_decide_eq_true_2 by assumption.
  refuse.
Qed.

Lemma applyToCampaign_applied_V1 (now : Z) (campaignId userId userName : string)
    (reward_ : Qc) (currentUserId : option string) (w : World) :
  let run := V1.applyToCampaign now campaignId userId userName reward_ currentUserId w in
  run.1 = Returned true ->
  is_Some (works (db run.2) !! (userId, campaignId))
  /\ exists c, campaigns (db w) !! campaignId = Some c
     /\ campaigns (db run.2) !! campaignId
        = Some (with_completedWorkers (js_add (completedWorkers c) (JNum 1%Qc)) c).
Proof.
  intros run. subst run.
  destruct (V1.applyToCampaign now campaignId userId userName reward_ currentUserId w)
    as [o w'] eqn:Hrun.
  cbn [fst snd]. revert Hrun. unfold V1.applyToCampaign.
  rewrite bind_throw_if.
  match goal with |- context [if ?c then (Thrown _, _) else _] => destruct c end;
    [intros [= <- <-]; discriminate|].
  rewrite bind_throw_if.
  match goal with |- context [if ?c then (Thrown _, _) else _] => destruct c end;
    [intros [= <- <-]; discriminate|].
  rewrite try_catch_rethrow, bind_get. simpl_world.
  rewrite bind_throw_if.
  destruct (bool_decide (is_Some (works (db w) !! (userId, campaignId))));
    [intros [= <- <-]; discriminate|].
  rewrite bind_get. simpl_world.
  destruct (campaigns (db w) !! campaignId) as [c|] eqn:Hc;
    [|intros [= <- <-]; discriminate].
  do 4 (rewrite bind_throw_if;
        match goal with |- context [if ?c then (Thrown _, _) else _] => destruct c end;
        [intros [= <- <-]; discriminate|]).
  rewrite bind_set, bind_update. simpl_world. rewrite Hc.
  cbn [default from_option id ret].
  intros [= <- <-] _. simpl_world. rewrite !lookup_insert_eq. eauto.
Qed.

Ltac guard_step tac :=
  rewrite bind_throw_if;
  match goal with |- context [if ?c then (Thrown _, _) else _] => destruct c end;
  [tac|].

Section V2_application.
Variable validateWorkData : option Work -> bool.

Lemma applyToCampaign_refuses_V2 (now : Z) (campaignId userId userName : string)
    (reward_ : Qc) (currentUserId : option string) (w : World) :
  is_Some (works (db w) !! (userId, campaignId)) ->
  refused w (V2.applyToCampaign validateWorkData now campaignId userId userName
               reward_ currentUserId w).
Proof.
  intros Hwork.
  destruct (V2.applyToCampaign _ now campaignId userId userName reward_ currentUserId w)
    as [o w'] eqn:Hrun.
  revert Hrun. unfold V2.applyToCampaign.
  do 6 guard_step refuse.
  unfold try_catch. rewrite bind_get. simpl_world.
  rewrite bind_throw_if, bool_decide_eq_true_2 by assumption.
  refuse.
Qed.

Lemma applyToCampaign_applied_V2 (now : Z) (campaignId userId userName : string)
    (reward_ : Qc) (currentUserId : option string) (w : World) :
  let run := V2.applyToCampaign validateWorkData now campaignId userId userName
               reward_ currentUserId w in
  run.1 = Returned true ->
  is_Some (works (db run.2) !! (userId, campaignId))
  /\ exists c, campaigns (db w) !! campaignId = Some c
     /\ campaigns (db run.2) !! campaignId
        = Some (with_completedWorkers (js_add (completedWorkers c) (JNum 1%Qc)) c).
Proof.
  intros run. subst run.
  destruct (V2.applyToCampaign _ now campaignId userId userName reward_ currentUserId w)
    as [o w'] eqn:Hrun.
  cbn [fst snd]. revert Hrun. unfold V2.applyToCampaign.
  do 6 guard_step ltac:(intros [= <- <-]; discriminate).
  unfold try_catch. rewrite bind_get. simpl_world.
  rewrite bind_throw_if.
  destruct (bool_decide (is_Some (works (db w) !! (userId, campaignId))));
    [intros [= <- <-]; discriminate|].
  rewrite bind_get. simpl_world.
  destruct (campaigns (db w) !! campaignId) as [c|] eqn:Hc;
    [|intros [= <- <-]; discriminate].
  do 3 guard_step ltac:(intros [= <- <-]; discriminate).
  rewrite bind_set, bind_update. simpl_world. rewrite Hc.
  cbn [default from_option id ret].
  intros [= <- <-] _. simpl_world. rewrite !lookup_insert_eq. eauto.
Qed.

End V2_application.

Lemma appliedOnce_intro (w : World) (campaignId userId : string)
    (run1 run2 : outcome bool * World) :
  (is_Some (works (db run1.2) !! (userId, campaignId))
   /\ exists c, campaigns (db w) !! campaignId = Some c
      /\ campaigns (db run1.2) !! campaignId
         = Some (with_completedWorkers (js_add (completedWorkers c) (JNum 1%Qc)) c)) ->
  refused run1.2 run2 ->
  appliedOnce w campaignId run1 run2.
Proof.
  intros (_ & c & Hc & Hc') Href. split; [exact Href|].
  destruct Href as (_ & Hdb & _). exists c. split; [exact Hc|].
  rewrite Hdb, Hc'. cbn. split; [reflexivity|]. split.
  - intros n ->. reflexivity.
  - intros z -> Hz. cbn [js_add]. rewrite <- num_1, fl_num_plus by lia. reflexivity.
Qed.

(** C5: a call of [applyToCampaign] for a pair (campaignId, userId) whose
    work item already exists throws before any write; hence when a first
    call returned true, a second call for the same pair (whatever its other
    arguments and the time) does not proceed, and after the two calls
    [completedWorkers] is its initial value plus one (added once, as
    JavaScript adds; for an integer counter below 2^53 the integer that
    follows it).  In both copies of the module, whatever the imported work
    validator of [data-cache.ts] is. *)
Theorem applyToCampaign_idempotent (campaignId userId : string)
    (now1 now2 : Z) (userName1 userName2 : string) (reward1 reward2 : Qc)
    (currentUserId1 currentUserId2 : option string) (w : World) :
  (is_Some (works (db w) !! (userId, campaignId)) ->
   refused w (V1.applyToCampaign now1 campaignId userId userName1 reward1 currentUserId1 w)
   /\ forall validateWorkData,
        refused w (V2.applyToCampaign validateWorkData now1 campaignId userId userName1
                     reward1 currentUserId1 w))
  /\ (let run1 := V1.applyToCampaign now1 campaignId userId userName1 reward1
                    currentUserId1 w in
      run1.1 = Returned true ->
      appliedOnce w campaignId run1
        (V1.applyToCampaign now2 campaignId userId userName2 reward2 currentUserId2 run1.2))
  /\ (forall validateWorkData,
      let run1 := V2.applyToCampaign validateWorkData now1 campaignId userId userName1
                    reward1 currentUserId1 w in
      run1.1 = Returned true ->
      appliedOnce w campaignId run1
        (V2.applyToCampaign validateWorkData now2 campaignId userId userName2 reward2
           currentUserId2 run1.2)).
Proof.
  split; [|split].
  - intros Hwork. split.
    + apply applyToCampaign_refuses_V1, Hwork.
    + intros vWk. apply applyToCampaign_refuses_V2, Hwork.
  - intros run1 Hok. apply (appliedOnce_intro w campaignId userId).
    + apply applyToCampaign_applied_V1, Hok.
    + apply applyToCampaign_refuses_V1.
      apply (applyToCampaign_applied_V1 _ _ _ _ _ _ _ Hok).
  - intros vWk run1 Hok. apply (appliedOnce_intro w campaignId userId).
    + apply applyToCampaign_applied_V2, Hok.
    + apply applyToCampaign_refuses_V2.
      apply (applyToCampaign_applied_V2 _ _ _ _ _ _ _ _ Hok).
Qed.

Lemma applyToCampaign_idempotent_witness :
  let run1 := V1.applyToCampaign 1700000000001 "c1" "u2" "Uwe" (num 50) None openWorld in
  let run2 := V1.applyToCampaign 1700000000002 "c1" "u2" "Uwe" (num 50) None run1.2 in
  run1.1 = Returned true
  /\ appliedOnce openWorld "c1" run1 run2
  /\ completedWorkers <$> campaigns (db run2.2) !! "c1" = Some (JNum (num 1)).
Proof.
  intros run1 run2.
  assert (Hok : run1.1 = Returned true) by (vm_compute; reflexivity).
  destruct (applyToCampaign_idempotent "c1" "u2" 1700000000001 1700000000002
              "Uwe" "Uwe" (num 50) (num 50) None None openWorld) as (_ & H & _).
  specialize (H Hok). split; [exact Hok|]. split; [exact H|].
  destruct H as (_ & c & Hc & _ & _ & Hz).
  apply (Hz 0).
  - change (campaigns (db openWorld)) with ({["c1" := sampleCampaign]} : gmap string Campaign) in Hc.
    rewrite lookup_singleton_eq in Hc. injection Hc as <-. reflexivity.
  - split; [intros H; vm_compute in H; discriminate H | vm_compute; reflexivity].
Defined.

(** ** The JavaScript [Map] model *)

Section JsMapFacts.
Context {V : Type}.
Implicit Types (m : list (string * V)) (k : string) (v : V).

Lemma map_get_set_eq k v m : map_get k (map_set k v m) = Some v.
Proof.
  induction m as [|[k' v'] m IH]; cbn.
  - rewrite bool_decide_eq_true_2 by reflexivity. reflexivity.
  - destruct (bool_decide (k' = k)) eqn:Hk; cbn.
    + rewrite bool_decide_eq_true_2 by reflexivity. reflexivity.
    + rewrite Hk. exact IH.
Qed.

Lemma map_get_set_ne k k' v m : k <> k' -> map_get k' (map_set k v m) = map_get k' m.
Proof.
  intros Hne. induction m as [|[k0 v0] m IH]; cbn.
  - rewrite bool_decide_eq_false_2 by assumption. reflexivity.
  - destruct (bool_decide (k0 = k)) eqn:Hk; cbn.
    + apply bool_decide_eq_true in Hk. subst k0.
      rewrite !bool_decide_eq_false_2 by assumption. reflexivity.
    + rewrite IH. reflexivity.
Qed.

Lemma map_get_None k m : map_get k m = None <-> k ∉ map_keys m.
Proof.
  induction m as [|[k' v'] m IH]; cbn.
  - split; [intros _; apply not_elem_of_nil | reflexivity].
  - rewrite not_elem_of_cons. destruct (bool_decide (k' = k)) eqn:Hk.
    + apply bool_decide_eq_true in Hk. subst k'.
      split; [discriminate | intros [Hne _]; contradiction].
    + apply bool_decide_eq_false in Hk. rewrite IH.
      split; [intros Hm; split; [intros ->; contradiction | exact Hm] | tauto].
Qed.

Lemma map_keys_delete_subseteq k m : map_keys (map_delete k m) ⊆ map_keys m.
Proof.
  induction m as [|[k' v'] m IH]; cbn; [reflexivity|].
  destruct (bool_decide (k' = k)).
  - intros x Hx. apply elem_of_cons. right. exact Hx.
  - cbn. intros x. rewrite !elem_of_cons. intros [->|Hx]; [tauto|].
    right. apply IH, Hx.
Qed.

Lemma map_delete_NoDup k m : NoDup (map_keys m) -> NoDup (map_keys (map_delete k m)).
Proof.
  induction m as [|[k' v'] m IH]; cbn; [auto|].
  rewrite NoDup_cons. intros [Hk' Hm].
  destruct (bool_decide (k' = k)); [exact Hm|].
  cbn. apply NoDup_cons. split; [|auto].
  intros Hin. apply Hk'. eapply map_keys_delete_subseteq, Hin.
Qed.

Lemma map_get_delete_eq k m : NoDup (map_keys m) -> map_get k (map_delete k m) = None.
Proof.
  induction m as [|[k' v'] m IH]; cbn; [reflexivity|].
  rewrite NoDup_cons. intros [Hk' Hm].
  destruct (bool_decide (k' = k)) eqn:Hk.
  - apply bool_decide_eq_true in Hk. subst k'. apply map_get_None, Hk'.
  - cbn. rewrite Hk. auto.
Qed.

Lemma map_get_delete_ne k k' m : k <> k' -> map_get k' (map_delete k m) = map_get k' m.
Proof.
  intros Hne. induction m as [|[k0 v0] m IH]; cbn; [reflexivity|].
  destruct (bool_decide (k0 = k)) eqn:Hk.
  - apply bool_decide_eq_true in Hk. subst k0.
    rewrite bool_decide_eq_false_2 by assumption. reflexivity.
  - cbn. rewrite IH. reflexivity.
Qed.

Lemma map_keys_set k v m :
  map_keys (map_set k v m)
  = if map_has k m then map_keys m else map_keys m ++ [k].
Proof.
  unfold map_has, map_keys. induction m as [|[k' v'] m IH]; cbn; [reflexivity|].
  destruct (bool_decide (k' = k)) eqn:Hk; cbn.
  - apply bool_decide_eq_true in Hk. congruence.
  - rewrite IH. destruct (map_get k m); reflexivity.
Qed.

Lemma map_set_NoDup k v m : NoDup (map_keys m) -> NoDup (map_keys (map_set k v m)).
Proof.
  intros Hm. rewrite map_keys_set. unfold map_has.
  destruct (map_get k m) eqn:Hk; [exact Hm|].
  apply NoDup_app. split; [exact Hm|]. split.
  - intros x Hx Hx'. apply list_elem_of_singleton in Hx'. subst x.
    apply map_get_None in Hk. contradiction.
  - apply NoDup_singleton.
Qed.

Lemma map_set_length k v m :
  length (map_set k v m) = if map_has k m then length m else S (length m).
Proof.
  unfold map_has. induction m as [|[k' v'] m IH]; cbn; [reflexivity|].
  destruct (bool_decide (k' = k)); cbn; [reflexivity|].
  rewrite IH. destruct (map_get k m); reflexivity.
Qed.

Lemma map_delete_length k m :
  length (map_delete k m) = if map_has k m then pred (length m) else length m.
Proof.
  unfold map_has. induction m as [|[k' v'] m IH]; cbn; [reflexivity|].
  destruct (bool_decide (k' = k)); cbn; [reflexivity|].
  rewrite IH. destruct (map_get k m) eqn:Hk; [|reflexivity].
  destruct m; [discriminate | reflexivity].
Qed.

End JsMapFacts.

(** ** Expiry of cache entries *)

Section CacheFacts.
Context {D : Type}.
Implicit Types (c : DataCache D) (entries : list (string * CacheEntry D)).

Lemma evict_NoDup (k : option string) entries :
  NoDup (map_keys entries) -> NoDup (map_keys (evict k entries)).
Proof.
  intros Hnd. unfold evict. destruct k as [k|]; [|exact Hnd].
  destruct (nonempty k); [apply map_delete_NoDup|]; exact Hnd.
Qed.

Lemma cache_get_stored (now stamp_now expiry_now : Z) (key : string) (d : D)
    entries pending :
  let c' := mkCache (store_entry stamp_now expiry_now key d entries) pending in
  (now - expiry_now <= CACHE_DURATION -> cache_get now key c' = (Some d, c'))
  /\ (CACHE_DURATION < now - expiry_now ->
      cache_get now key c' = (None, clear key c')
      /\ (NoDup (map_keys entries) -> map_get key (cache (cache_get now key c').2) = None)).
Proof.
  intros c'. unfold cache_get. subst c'. cbn [cache pendingRequests].
  unfold store_entry. rewrite map_get_set_eq. cbn [expiry data].
  split.
  - intros Hfresh. rewrite (proj2 (Z.ltb_ge _ _)) by lia. reflexivity.
  - intros Hold. rewrite (proj2 (Z.ltb_lt _ _)) by lia.
    split; [reflexivity|]. intros Hnd. cbn [snd cache].
    apply map_get_delete_eq, map_set_NoDup, Hnd.
Qed.

Lemma cache_get_absent (now : Z) (key : string) c :
  map_get key (cache c) = None -> cache_get now key c = (None, c).
Proof. intros Habs. unfold cache_get. rewrite Habs. reflexivity. Qed.

End CacheFacts.

(** C7: with either copy of the class, [get(key)] after [set(key, value)]
    returns the value as long as no more than 5 minutes have elapsed since
    [set] read the clock, and returns null once more than that have
    elapsed, in which case this [get] has removed the entry from the cache;
    and [get] of a key that is not in the cache returns null. *)
Theorem cache_set_get_ttl {D : Type} (c : DataCache D) (key : string) (d : D)
    (stamp_now expiry_now now : Z) :
  roundTrip DataCacheV1.set DataCacheV1.get c key d stamp_now expiry_now now
  /\ roundTrip DataCacheV2.set DataCacheV2.get c key d stamp_now expiry_now now
  /\ (map_get key (cache c) = None ->
      DataCacheV1.get now key c = (None, c) /\ DataCacheV2.get now key c = (None, c)).
Proof.
  split; [|split].
  - unfold roundTrip, DataCacheV1.set, DataCacheV1.get.
    destruct (cache_get_stored now stamp_now expiry_now key d
                (if MAX_CACHE_SIZE <=? map_size (cache c)
                 then evict (first_key (cache c)) (cache c) else cache c)
                (pendingRequests c)) as [Hfresh Hold].
    split; [exact Hfresh|]. intros Hlate. destruct (Hold Hlate) as [Hget Hgone].
    split; [exact Hget|]. intros Hnd. apply Hgone.
    destruct (MAX_CACHE_SIZE <=? map_size (cache c)); [apply evict_NoDup|]; exact Hnd.
  - unfold roundTrip, DataCacheV2.set, DataCacheV2.get.
    destruct (cache_get_stored now stamp_now expiry_now key d
                (if MAX_CACHE_SIZE <=? map_size (cache c)
                 then evict (DataCacheV2.scanOldest (cache c) None MAX_SAFE_INTEGER) (cache c)
                 else cache c)
                (pendingRequests c)) as [Hfresh Hold].
    split; [exact Hfresh|]. intros Hlate. destruct (Hold Hlate) as [Hget Hgone].
    split; [exact Hget|]. intros Hnd. apply Hgone.
    destruct (MAX_CACHE_SIZE <=? map_size (cache c)); [apply evict_NoDup|]; exact Hnd.
  - intros Habs. split; apply cache_get_absent, Habs.
Qed.

Lemma cache_set_get_ttl_witness :
  let c' := DataCacheV2.set 2000 2000 "wallet:u1" 9%nat oneEntryCache in
  DataCacheV2.get (2000 + CACHE_DURATION - 1) "wallet:u1" c' = (Some 9%nat, c')
  /\ DataCacheV2.get (2000 + CACHE_DURATION + 1) "wallet:u1" c' = (None, oneEntryCache)
  /\ DataCacheV1.get 5000 "works:u1" oneEntryCache = (None, oneEntryCache).
Proof.
  intros c'.
  destruct (cache_set_get_ttl oneEntryCache "wallet:u1" 9%nat 2000 2000
              (2000 + CACHE_DURATION - 1)) as (_ & [Hfresh _] & Habs).
  destruct (cache_set_get_ttl oneEntryCache "wallet:u1" 9%nat 2000 2000
              (2000 + CACHE_DURATION + 1)) as (_ & [_ Hold] & _).
  destruct (cache_set_get_ttl oneEntryCache "works:u1" 9%nat 2000 2000 5000)
    as (_ & _ & Hnone).
  split; [apply Hfresh; vm_compute; discriminate|].
  split; [apply Hold; vm_compute; reflexivity|].
  apply Hnone. reflexivity.
Defined.

(** ** Capacity of the cache *)

(** Why the capacity invariant asks for non-empty keys: were the oldest of
    100 entries stored under the empty key, which no caller in the module
    passes, [set] of a new key would find that key, test it for truthiness,
    evict nothing and insert, in both copies of the class. *)
Lemma cache_overflows_on_empty_key :
  map_size (cache fullCache) = 100
  /\ first_key (cache fullCache) = Some ""
  /\ DataCacheV2.scanOldest (cache fullCache) None MAX_SAFE_INTEGER = Some ""
  /\ map_size (cache (DataCacheV1.set 5000 5000 "user:u1" 1%nat fullCache)) = 101
  /\ map_size (cache (DataCacheV2.set 5000 5000 "user:u1" 1%nat fullCache)) = 101.
Proof. vm_compute. repeat split; reflexivity. Qed.

Section Capacity.
Context {D : Type}.
Implicit Types (c : DataCache D) (entries : list (string * CacheEntry D)).

Lemma map_has_elem_of {V} (k : string) (m : list (string * V)) :
  k ∈ map_keys m -> map_has k m = true.
Proof.
  intros Hin. unfold map_has. destruct (map_get k m) eqn:Hget; [reflexivity|].
  apply map_get_None in Hget. contradiction.
Qed.

(** The scan returns the accumulator or a key of the list; the timestamp
    it has found is minimal among those of the list and the bound. *)
Lemma scanOldest_spec entries (acc : option string) (bound : Z) :
  (DataCacheV2.scanOldest entries acc bound = acc
   /\ Forall (fun e => bound <= timestamp e.2) entries)
  \/ (exists k e, DataCacheV2.scanOldest entries acc bound = Some k
      /\ (k, e) ∈ entries /\ timestamp e < bound
      /\ Forall (fun e' => timestamp e <= timestamp e'.2) entries).
Proof.
  revert acc bound. induction entries as [|[k e] entries IH]; intros acc bound; cbn.
  - left. split; [reflexivity | constructor].
  - destruct (timestamp e <? bound) eqn:Hlt.
    + apply Z.ltb_lt in Hlt. right.
      destruct (IH (Some k) (timestamp e)) as [[Hacc Hall] | (k' & e' & Hscan & Hin & Hlt' & Hall)].
      * exists k, e. split; [exact Hacc|]. split; [apply list_elem_of_here|].
        split; [exact Hlt|]. constructor; [cbn; lia | exact Hall].
      * exists k', e'. split; [exact Hscan|]. split; [apply list_elem_of_further, Hin|].
        split; [lia|]. constructor; [cbn; lia | exact Hall].
    + apply Z.ltb_ge in Hlt.
      destruct (IH acc bound) as [[Hacc Hall] | (k' & e' & Hscan & Hin & Hlt' & Hall)].
      * left. split; [exact Hacc|]. constructor; [exact Hlt | exact Hall].
      * right. exists k', e'. split; [exact Hscan|].
        split; [apply list_elem_of_further, Hin|]. split; [exact Hlt'|].
        constructor; [cbn; lia | exact Hall].
Qed.

Lemma evict_shrinks (k : string) entries :
  k ∈ map_keys entries -> k <> "" ->
  length (evict (Some k) entries) = pred (length entries).
Proof.
  intros Hin Hne. unfold evict. apply nonempty_true in Hne. rewrite Hne.
  rewrite map_delete_length, map_has_elem_of by exact Hin. reflexivity.
Qed.

Lemma evict_keys_subseteq (k : option string) entries :
  map_keys (evict k entries) ⊆ map_keys entries.
Proof.
  unfold evict. destruct k as [k|]; [|reflexivity].
  destruct (nonempty k); [apply map_keys_delete_subseteq | reflexivity].
Qed.

Lemma map_delete_subseteq (k : string) entries : map_delete k entries ⊆ entries.
Proof.
  induction entries as [|[k' e] entries IH]; cbn; [reflexivity|].
  destruct (bool_decide (k' = k)).
  - intros x Hx. apply elem_of_cons. right. exact Hx.
  - intros x. rewrite !elem_of_cons. intros [->|Hx]; [tauto|]. right. apply IH, Hx.
Qed.

Lemma evict_subseteq (k : option string) entries : evict k entries ⊆ entries.
Proof.
  unfold evict. destruct k as [k|]; [|reflexivity].
  destruct (nonempty k); [apply map_delete_subseteq | reflexivity].
Qed.

Lemma map_set_elem_of (k : string) (e x : CacheEntry D) (k' : string) entries :
  (k', x) ∈ map_set k e entries -> (k', x) = (k, e) \/ (k', x) ∈ entries.
Proof.
  induction entries as [|[k0 e0] entries IH]; cbn.
  - intros Hin. apply list_elem_of_singleton in Hin. auto.
  - destruct (bool_decide (k0 = k)).
    + rewrite !elem_of_cons. tauto.
    + rewrite !elem_of_cons. intros [Heq|Hin]; [tauto|]. destruct (IH Hin); tauto.
Qed.

(** Storing an entry in a list that is below capacity, or was brought
    below it by an eviction, keeps the invariant. *)
Lemma store_entry_ok (stamp_now expiry_now : Z) (key : string) (d : D) entries pending :
  key <> "" -> stamp_now < MAX_SAFE_INTEGER ->
  NoDup (map_keys entries) ->
  (Z.of_nat (length entries) < MAX_CACHE_SIZE) ->
  Forall (fun k => k <> "") (map_keys entries) ->
  Forall (fun e => timestamp e.2 < MAX_SAFE_INTEGER) entries ->
  cacheOk (mkCache (store_entry stamp_now expiry_now key d entries) pending).
Proof.
  intros Hkey Hstamp Hnd Hlen Hkeys Hts. unfold cacheOk, store_entry. cbn [cache].
  split; [apply map_set_NoDup, Hnd|]. split; [|split].
  - unfold map_size. rewrite map_set_length. destruct (map_has key entries); lia.
  - rewrite map_keys_set. destruct (map_has key entries); [exact Hkeys|].
    apply Forall_app. split; [exact Hkeys|]. constructor; [exact Hkey | constructor].
  - apply Forall_forall. intros [k' x] Hin. cbn.
    destruct (map_set_elem_of _ _ _ _ _ Hin) as [[= -> ->] | Hin'].
    + cbn. exact Hstamp.
    + rewrite Forall_forall in Hts. apply (Hts _ Hin').
Qed.

End Capacity.

Section CapacityInvariant.
Context {D : Type}.
Implicit Types (c : DataCache D) (entries : list (string * CacheEntry D)).

Lemma evicted_ok (k : string) entries :
  k ∈ map_keys entries ->
  NoDup (map_keys entries) ->
  Z.of_nat (length entries) <= MAX_CACHE_SIZE ->
  Forall (fun k => k <> "") (map_keys entries) ->
  Forall (fun e : string * CacheEntry D => timestamp e.2 < MAX_SAFE_INTEGER) entries ->
  NoDup (map_keys (evict (Some k) entries))
  /\ Z.of_nat (length (evict (Some k) entries)) < MAX_CACHE_SIZE
  /\ Forall (fun k => k <> "") (map_keys (evict (Some k) entries))
  /\ Forall (fun e : string * CacheEntry D => timestamp e.2 < MAX_SAFE_INTEGER)
       (evict (Some k) entries).
Proof.
  intros Hin Hnd Hlen Hkeys Hts.
  assert (Hne : k <> "") by (rewrite Forall_forall in Hkeys; apply Hkeys, Hin).
  split; [apply evict_NoDup, Hnd|]. split; [|split].
  - rewrite evict_shrinks by assumption.
    destruct entries; [apply elem_of_nil in Hin; contradiction | cbn in *; lia].
  - rewrite Forall_forall in *. intros x Hx. apply Hkeys.
    eapply evict_keys_subseteq, Hx.
  - rewrite Forall_forall in *. intros x Hx. apply Hts.
    eapply evict_subseteq, Hx.
Qed.

(** While no key is empty, [set] keeps the cache within its capacity, in
    the copy that evicts the first-inserted key ... *)
Lemma set_keeps_capacity_V1 (stamp_now expiry_now : Z) (key : string) (d : D) c :
  cacheOk c -> key <> "" -> stamp_now < MAX_SAFE_INTEGER ->
  cacheOk (DataCacheV1.set stamp_now expiry_now key d c).
Proof.
  intros (Hnd & Hlen & Hkeys & Hts) Hkey Hstamp. unfold DataCacheV1.set.
  unfold map_size in *.
  destruct (MAX_CACHE_SIZE <=? Z.of_nat (length (cache c))) eqn:Hfull.
  - apply Z.leb_le in Hfull.
    destruct (cache c) as [|[k e] entries] eqn:Hc; [cbn in Hfull; unfold MAX_CACHE_SIZE in *; lia|].
    assert (Hin : k ∈ map_keys ((k, e) :: entries)) by apply list_elem_of_here.
    destruct (evicted_ok k _ Hin Hnd Hlen Hkeys Hts) as (? & ? & ? & ?).
    apply store_entry_ok; assumption.
  - apply Z.leb_gt in Hfull. apply store_entry_ok; assumption.
Qed.

(** ... and in the copy that evicts the entry with the smallest
    timestamp. *)
Lemma set_keeps_capacity_V2 (stamp_now expiry_now : Z) (key : string) (d : D) c :
  cacheOk c -> key <> "" -> stamp_now < MAX_SAFE_INTEGER ->
  cacheOk (DataCacheV2.set stamp_now expiry_now key d c).
Proof.
  intros (Hnd & Hlen & Hkeys & Hts) Hkey Hstamp. unfold DataCacheV2.set.
  unfold map_size in *.
  destruct (MAX_CACHE_SIZE <=? Z.of_nat (length (cache c))) eqn:Hfull.
  - apply Z.leb_le in Hfull.
    destruct (scanOldest_spec (cache c) None MAX_SAFE_INTEGER)
      as [[_ Hall] | (k & e & -> & Hin & _)].
    + destruct (cache c) as [|[k e] entries]; [cbn in Hfull; unfold MAX_CACHE_SIZE in *; lia|].
      apply Forall_cons in Hall as [Hge _]. apply Forall_cons in Hts as [Hlt _].
      cbn in *. lia.
    + assert (Hin' : k ∈ map_keys (cache c)).
      { apply list_elem_of_fmap. exists (k, e). split; [reflexivity | exact Hin]. }
      destruct (evicted_ok k _ Hin' Hnd Hlen Hkeys Hts) as (? & ? & ? & ?).
      apply store_entry_ok; assumption.
  - apply Z.leb_gt in Hfull. apply store_entry_ok; assumption.
Qed.

(** The other methods never add an entry. *)
Lemma others_keep_capacity (now : Z) (key : string) (p : Promise) c :
  cacheOk c ->
  cacheOk (cache_get now key c).2 /\ cacheOk (clear key c) /\ cacheOk (clearAll c)
  /\ cacheOk (setPending key p c) /\ cacheOk (clearPending key c).
Proof.
  intros Hok.
  assert (Hdel : cacheOk (mkCache (map_delete key (cache c)) (pendingRequests c))).
  { destruct Hok as (Hnd & Hlen & Hkeys & Hts). unfold cacheOk, map_size in *. cbn [cache].
    split; [apply map_delete_NoDup, Hnd|]. split; [|split].
    - rewrite map_delete_length. destruct (map_has key (cache c)); lia.
    - rewrite Forall_forall in *. intros x Hx. apply Hkeys.
      eapply map_keys_delete_subseteq, Hx.
    - rewrite Forall_forall in *. intros x Hx. apply Hts.
      eapply map_delete_subseteq, Hx. }
  split; [|split; [|split; [|split]]].
  - unfold cache_get. destruct (map_get key (cache c)) as [e|]; [|exact Hok].
    destruct (expiry e <? now); [exact Hdel | exact Hok].
  - exact Hdel.
  - unfold cacheOk, clearAll, map_size, MAX_CACHE_SIZE. cbn.
    split; [constructor|]. split; [lia|]. split; constructor.
  - exact Hok.
  - exact Hok.
Qed.

End CapacityInvariant.

(** ** Coalescing of pending requests *)

Section Coalescing.
Context {D : Type}.
Import DataCacheV2.
Implicit Types (r : Runtime D) (c : DataCache D) (hs : list (Promise * string)).

Lemma overlapping_registered (key : string) (p : Promise) (fs : list Factory) r :
  getPending key (dc r) = Some p ->
  overlapping key fs r = (repeat p (length fs), r).
Proof.
  intros Hreg. induction fs as [|f fs IH]; cbn; [reflexivity|].
  unfold getOrCreatePendingRequest. unfold getPending in Hreg. rewrite Hreg.
  rewrite IH. reflexivity.
Qed.

(** Running the callbacks of a settled promise only deletes registrations:
    those of the keys its callbacks were registered for. *)
Lemma runFinally_pending (p : Promise) hs c :
  NoDup (map_keys (pendingRequests c)) ->
  let c' := fold_left (runFinally p) hs c in
  NoDup (map_keys (pendingRequests c'))
  /\ forall k, map_get k (pendingRequests c')
       = if bool_decide ((p, k) ∈ hs) then None else map_get k (pendingRequests c).
Proof.
  revert c. induction hs as [|[q k0] hs IH]; intros c Hnd; cbn [fold_left].
  - split; [exact Hnd|]. intros k.
    rewrite bool_decide_eq_false_2 by apply not_elem_of_nil. reflexivity.
  - destruct (decide (q = p)) as [->|Hq].
    + replace (runFinally p c (p, k0)) with (clearPending k0 c)
        by (unfold runFinally; cbn; rewrite bool_decide_eq_true_2; reflexivity).
      destruct (IH (clearPending k0 c)) as [Hnd' Hget].
      { cbn. apply map_delete_NoDup, Hnd. }
      split; [exact Hnd'|]. intros k. rewrite Hget. cbn [clearPending pendingRequests].
      destruct (decide (k0 = k)) as [->|Hne].
      * rewrite (bool_decide_eq_true_2 ((p, k) ∈ (p, k) :: hs)) by apply list_elem_of_here.
        rewrite map_get_delete_eq by exact Hnd. destruct (bool_decide _); reflexivity.
      * rewrite map_get_delete_ne by exact Hne.
        apply (f_equal (fun b : bool => if b then None else map_get k (pendingRequests c))).
        apply bool_decide_ext. rewrite elem_of_cons. split; [tauto|].
        intros [[= ?]|?]; [congruence | assumption].
    + replace (runFinally p c (q, k0)) with c
        by (unfold runFinally; cbn; rewrite bool_decide_eq_false_2; [reflexivity | exact Hq]).
      destruct (IH c Hnd) as [Hnd' Hget]. split; [exact Hnd'|].
      intros k. rewrite Hget.
      apply (f_equal (fun b : bool => if b then None else map_get k (pendingRequests c))).
      apply bool_decide_ext. rewrite elem_of_cons. split; [tauto|].
      intros [[= ? ?]|?]; [congruence | assumption].
Qed.

Lemma created_then_settled (key : string) (how : Settlement) r :
  getPending key (dc r) = None ->
  NoDup (map_keys (pendingRequests (dc r))) ->
  getPending key (dc (settle how (nextPromise r)
                        (getOrCreatePendingRequest key Creates r).2)) = None.
Proof.
  intros Hfree Hnd. unfold getOrCreatePendingRequest.
  unfold getPending in Hfree. rewrite Hfree. cbn [snd].
  unfold settle, getPending. cbn [dc handlers].
  destruct (runFinally_pending (nextPromise r) (handlers r ++ [(nextPromise r, key)])
              (setPending key (nextPromise r) (dc r))) as [_ Hget].
  { cbn. apply map_set_NoDup, Hnd. }
  rewrite Hget. rewrite bool_decide_eq_true_2; [reflexivity|].
  apply elem_of_app. right. apply list_elem_of_here.
Qed.

Lemma step_ok r (e : Event) : runtimeOk r -> runtimeOk (step r e).
Proof.
  intros (Hnd & Hh & Hps). destruct e as [key f | how p]; cbn [step].
  - unfold getOrCreatePendingRequest.
    destruct (map_get key (pendingRequests (dc r))) as [q|] eqn:Hreg;
      [exact (conj Hnd (conj Hh Hps))|].
    destruct f; cbn [snd]; unfold runtimeOk; cbn [dc handlers nextPromise setPending
                                                   pendingRequests].
    + split; [apply map_set_NoDup, Hnd|]. split.
      * intros q k Hin. apply elem_of_app in Hin as [Hin | Hin].
        -- destruct (Hh q k Hin) as [Hq Hlt]. split; [|lia].
           rewrite map_get_set_ne; [exact Hq|]. intros <-. congruence.
        -- apply list_elem_of_singleton in Hin. injection Hin as -> ->.
           split; [apply map_get_set_eq | lia].
      * rewrite map_app. apply NoDup_app. split; [exact Hps|]. split.
        -- intros q Hq Hq'. cbn in Hq'. apply list_elem_of_singleton in Hq'. subst q.
           apply list_elem_of_fmap in Hq as ([q k] & Heq & Hin). cbn in Heq. subst q.
           destruct (Hh _ _ Hin) as [_ Hlt]. lia.
        -- apply NoDup_singleton.
    + split; [exact Hnd|]. split; [|exact Hps].
      intros q k Hin. destruct (Hh q k Hin) as [Hq Hlt]. split; [exact Hq | lia].
  - unfold settle, runtimeOk. cbn [dc handlers nextPromise].
    destruct (runFinally_pending p (handlers r) (dc r) Hnd) as [Hnd' Hget].
    split; [exact Hnd'|]. split.
    + intros q k Hin. apply list_elem_of_filter in Hin as [Hqp Hin]. cbn in Hqp.
      destruct (Hh q k Hin) as [Hq Hlt]. split; [|exact Hlt].
      rewrite Hget. rewrite bool_decide_eq_false_2; [exact Hq|].
      intros Hin'. destruct (Hh p k Hin') as [Hp _]. congruence.
    + apply (NoDup_fmap_2_strong fst).
      * intros [q1 k1] [q2 k2] Hin1 Hin2 Heq. cbn in Heq. subst q2.
        apply list_elem_of_filter in Hin1 as [_ Hin1].
        apply list_elem_of_filter in Hin2 as [_ Hin2].
        f_equal. 
        assert (Hk : forall k k', (q1, k) ∈ handlers r -> (q1, k') ∈ handlers r -> k = k').
        { clear -Hps. induction (handlers r) as [|[q k0] hs IH]; intros k k' H1 H2.
          - apply elem_of_nil in H1. contradiction.
          - cbn in Hps. apply NoDup_cons in Hps as [Hq Hps].
            apply elem_of_cons in H1 as [H1|H1];
              apply elem_of_cons in H2 as [H2|H2]; simplify_eq.
            + reflexivity.
            + exfalso. apply Hq. apply list_elem_of_fmap. exists (q, k'). auto.
            + exfalso. apply Hq. apply list_elem_of_fmap. exists (q, k). auto.
            + apply IH; assumption. }
        apply Hk; assumption.
      * apply NoDup_filter.
        clear -Hps. induction (handlers r) as [|[q k0] hs IH]; [constructor|].
        cbn in Hps. apply NoDup_cons in Hps as [Hq Hps]. apply NoDup_cons. split; [|auto].
        intros Hin. apply Hq. apply list_elem_of_fmap. exists (q, k0). auto.
Qed.

Lemma reachable_ok (events : list Event) :
  runtimeOk (fold_left step events (initial (D := D))).
Proof.
  assert (Hinit : runtimeOk (initial (D := D))).
  { unfold runtimeOk, initial. cbn. split; [constructor|]. split; [|constructor].
    intros p k Hin. apply elem_of_nil in Hin. contradiction. }
  revert Hinit. generalize (initial (D := D)).
  induction events as [|e events IH]; intros r Hr; cbn; [exact Hr|].
  apply IH, step_ok, Hr.
Qed.

Lemma outstanding_at_most_one (key : string) r :
  runtimeOk r -> (length (outstanding key r) <= 1)%nat.
Proof.
  intros (_ & Hh & Hps). unfold outstanding. rewrite length_map.
  assert (Hsame : forall h h', h ∈ filter (fun h => h.2 = key) (handlers r) ->
                    h' ∈ filter (fun h => h.2 = key) (handlers r) -> h.1 = h'.1).
  { intros [p k] [p' k'] Hin Hin'.
    apply list_elem_of_filter in Hin as [Hk Hin].
    apply list_elem_of_filter in Hin' as [Hk' Hin']. cbn in *. subst k k'.
    destruct (Hh _ _ Hin) as [H1 _]. destruct (Hh _ _ Hin') as [H2 _]. congruence. }
  assert (Hnd : NoDup (map fst (filter (fun h => h.2 = key) (handlers r)))).
  { clear -Hps. induction (handlers r) as [|[q k0] hs IH]; [constructor|].
    cbn in Hps. apply NoDup_cons in Hps as [Hq Hps].
    rewrite filter_cons. destruct (decide ((q, k0).2 = key)); [|auto].
    cbn. apply NoDup_cons. split; [|auto]. intros Hin. apply Hq.
    apply list_elem_of_fmap in Hin as (h & Heq & Hin).
    apply list_elem_of_filter in Hin as [_ Hin].
    apply list_elem_of_fmap. exists h. auto. }
  destruct (filter (fun h => h.2 = key) (handlers r)) as [|h [|h' l]]; cbn; [lia | lia |].
  exfalso. cbn in Hnd. apply NoDup_cons in Hnd as [Hnotin _]. apply Hnotin.
  rewrite (Hsame h h'); [apply list_elem_of_here | apply list_elem_of_here |].
  apply list_elem_of_further, list_elem_of_here.
Qed.

End Coalescing.

(** C6: [getOrCreatePendingRequest(key, factory)] returns the promise
    registered for [key] without calling the factory when there is one;
    otherwise it calls the factory once and registers the promise the
    factory returns, and the settlement of that promise, fulfilled or
    rejected, removes the registration.  Hence N calls for the same key with
    no settlement in between call the factory exactly once, the first time,
    and all return the same promise; and in every run of calls and
    settlements at most one fetch per key is outstanding. *)
Theorem getOrCreatePendingRequest_coalesces {D : Type} (key : string)
    (r : DataCacheV2.Runtime D) :
  (forall p f, getPending key (DataCacheV2.dc r) = Some p ->
     DataCacheV2.getOrCreatePendingRequest key f r = (p, r))
  /\ (getPending key (DataCacheV2.dc r) = None ->
      let run := DataCacheV2.getOrCreatePendingRequest key DataCacheV2.Creates r in
      DataCacheV2.fetches run.2 = DataCacheV2.fetches r ++ [key]
      /\ getPending key (DataCacheV2.dc run.2) = Some run.1
      /\ (NoDup (map_keys (pendingRequests (DataCacheV2.dc r))) ->
          forall how,
            getPending key (DataCacheV2.dc (DataCacheV2.settle how run.1 run.2)) = None))
  /\ (getPending key (DataCacheV2.dc r) = None ->
      forall fs,
        let run := DataCacheV2.overlapping key (DataCacheV2.Creates :: fs) r in
        DataCacheV2.fetches run.2 = DataCacheV2.fetches r ++ [key]
        /\ exists p, run.1 = repeat p (S (length fs)))
  /\ (forall events : list DataCacheV2.Event,
        (length (DataCacheV2.outstanding key
                   (fold_left DataCacheV2.step events (DataCacheV2.initial (D := D))))
         <= 1)%nat).
Proof.
  split; [|split; [|split]].
  - intros p f Hreg. unfold DataCacheV2.getOrCreatePendingRequest.
    unfold getPending in Hreg. rewrite Hreg. reflexivity.
  - intros Hfree run.
    assert (Hrun : run = (DataCacheV2.nextPromise r,
                          DataCacheV2.mkRuntime
                            (setPending key (DataCacheV2.nextPromise r) (DataCacheV2.dc r))
                            (S (DataCacheV2.nextPromise r))
                            (DataCacheV2.fetches r ++ [key])
                            (DataCacheV2.handlers r ++ [(DataCacheV2.nextPromise r, key)]))).
    { subst run. unfold DataCacheV2.getOrCreatePendingRequest.
      unfold getPending in Hfree. rewrite Hfree. reflexivity. }
    split; [rewrite Hrun; reflexivity|]. split.
    + rewrite Hrun. cbn. apply map_get_set_eq.
    + intros Hnd how. subst run.
      replace (DataCacheV2.getOrCreatePendingRequest key DataCacheV2.Creates r).1
        with (DataCacheV2.nextPromise r) by (rewrite Hrun; reflexivity).
      apply created_then_settled; assumption.
  - intros Hfree fs run. subst run. cbn [DataCacheV2.overlapping].
    unfold DataCacheV2.getOrCreatePendingRequest.
    unfold getPending in Hfree. rewrite Hfree.
    rewrite (overlapping_registered key (DataCacheV2.nextPromise r)).
    + cbn. split; [reflexivity|]. eexists. reflexivity.
    + cbn. apply map_get_set_eq.
  - intros events. apply outstanding_at_most_one, reachable_ok.
Qed.

Lemma getOrCreatePendingRequest_coalesces_witness :
  let run := DataCacheV2.overlapping "user:u1" (repeat DataCacheV2.Creates 10)
               (DataCacheV2.initial (D := nat)) in
  DataCacheV2.fetches run.2 = ["user:u1"]
  /\ (exists p, run.1 = repeat p 10)
  /\ getPending "user:u1"
       (DataCacheV2.dc (DataCacheV2.settle DataCacheV2.Rejected 0%nat
          (DataCacheV2.getOrCreatePendingRequest "user:u1" DataCacheV2.Creates
             (DataCacheV2.initial (D := nat))).2)) = None.
Proof.
  destruct (getOrCreatePendingRequest_coalesces "user:u1" (DataCacheV2.initial (D := nat)))
    as (_ & Hcreate & Hmany & _).
  destruct (Hmany eq_refl (repeat DataCacheV2.Creates 9)) as [Hfetch Hsame].
  destruct (Hcreate eq_refl) as (_ & _ & Hsettle).
  split; [exact Hfetch|]. split; [exact Hsame|].
  apply (Hsettle (NoDup_nil_2 (A := string)) DataCacheV2.Rejected).
Defined.

(** ** Sorting *)

Section SortFacts.
Context {A : Type}.
Variable compare : A -> A -> jsnum.
Variable P : A -> Prop.

Local Abbreviation before := (staysBefore compare).

Hypothesis before_total : forall a b, P a -> P b -> before a b \/ before b a.
Hypothesis before_trans :
  forall a b c, P a -> P b -> P c -> before a b -> before b c -> before a c.

Lemma sort_insert_perm (a : A) (l : list A) : sort_insert compare a l ≡ₚ a :: l.
Proof.
  induction l as [|b l IH]; cbn [sort_insert]; [reflexivity|].
  destruct (js_gt (compare a b) (JNum 0%Qc)); [|reflexivity].
  rewrite IH. apply Permutation_swap.
Qed.

Lemma js_sort_perm (l : list A) : js_sort compare l ≡ₚ l.
Proof.
  induction l as [|a l IH]; cbn [js_sort]; [reflexivity|].
  rewrite sort_insert_perm, IH. reflexivity.
Qed.

Lemma sort_insert_sorted (a : A) (l : list A) :
  P a -> Forall P l -> StronglySorted before l ->
  StronglySorted before (sort_insert compare a l).
Proof.
  intros Ha. induction l as [|b l IH]; intros HP Hs; cbn [sort_insert].
  - repeat constructor.
  - apply Forall_cons in HP as [Hb HP].
    apply StronglySorted_inv in Hs as [Hs Hbl].
    destruct (js_gt (compare a b) (JNum 0%Qc)) eqn:Hab.
    + constructor; [apply IH; assumption|].
      rewrite sort_insert_perm. constructor; [|exact Hbl].
      destruct (before_total a b Ha Hb) as [Hbefore | Hbefore]; [|exact Hbefore].
      unfold staysBefore in Hbefore. congruence.
    + constructor; [constructor; assumption|].
      constructor; [exact Hab|].
      rewrite Forall_forall in *. intros c Hc.
      apply (before_trans a b c); auto.
Qed.

Lemma js_sort_sorted (l : list A) :
  Forall P l -> StronglySorted before (js_sort compare l).
Proof.
  induction l as [|a l IH]; intros HP; cbn [js_sort]; [constructor|].
  apply Forall_cons in HP as [Ha HP].
  apply sort_insert_sorted; [exact Ha | | apply IH, HP].
  rewrite js_sort_perm. exact HP.
Qed.

End SortFacts.

(** The sort is stable: entries with the same key keep their order, when
    the comparison function never moves an entry behind one of its key. *)
Section Stability.
Context {A K : Type} `{EqDecision K}.
Variable compare : A -> A -> jsnum.
Variable key : A -> K.
Hypothesis moved_differs :
  forall a b, js_gt (compare a b) (JNum 0%Qc) = true -> key b <> key a.

Lemma sort_insert_stable (k : K) (a : A) (l : list A) :
  filter (fun e => key e = k) (sort_insert compare a l)
  = filter (fun e => key e = k) (a :: l).
Proof.
  induction l as [|b l IH]; cbn [sort_insert]; [reflexivity|].
  destruct (js_gt (compare a b) (JNum 0%Qc)) eqn:Hab; [|reflexivity].
  apply moved_differs in Hab.
  rewrite (filter_cons _ b), IH, !(filter_cons _ a), (filter_cons _ b).
  destruct (decide (key b = k)), (decide (key a = k)); try reflexivity.
  congruence.
Qed.

Lemma js_sort_stable (k : K) (l : list A) :
  filter (fun e => key e = k) (js_sort compare l) = filter (fun e => key e = k) l.
Proof.
  induction l as [|a l IH]; cbn [js_sort]; [reflexivity|].
  rewrite sort_insert_stable, !(filter_cons _ a), IH. reflexivity.
Qed.

End Stability.

Lemma StronglySorted_impl {A} (R R' : A -> A -> Prop) (P : A -> Prop) (l : list A) :
  (forall a b, P a -> P b -> R a b -> R' a b) ->
  Forall P l -> StronglySorted R l -> StronglySorted R' l.
Proof.
  intros Himpl. induction l as [|a l IH]; intros HP Hs; [constructor|].
  apply Forall_cons in HP as [Ha HP]. apply StronglySorted_inv in Hs as [Hs Hal].
  constructor; [apply IH; assumption|].
  rewrite Forall_forall in *. intros b Hb. apply Himpl; auto.
Qed.

Lemma StronglySorted_take {A} (R : A -> A -> Prop) (n : nat) (l : list A) :
  StronglySorted R l -> StronglySorted R (take n l).
Proof.
  intros Hs. rewrite <- (take_drop n l) in Hs.
  apply StronglySorted_app_1_l in Hs. exact Hs.
Qed.

(** ** Ranks *)

Lemma assignRanks_lookup (l : list LeaderEntry) (i : nat) :
  assignRanks l !! i = with_rank (Z.of_nat i + 1) <$> l !! i.
Proof.
  unfold assignRanks.
  apply (list_lookup_imap (fun index user => with_rank (Z.of_nat index + 1) user)).
Qed.

Lemma assignRanks_ranked (l : list LeaderEntry) : rankedFromOne (assignRanks l).
Proof.
  intros i e. rewrite assignRanks_lookup.
  destruct (l !! i); [|discriminate]. intros [= <-]. reflexivity.
Qed.

Lemma assignRanks_fmap (l : list LeaderEntry) :
  with_rank 0 <$> assignRanks l = with_rank 0 <$> l.
Proof.
  apply list_eq. intros i. rewrite !list_lookup_fmap, assignRanks_lookup.
  destruct (l !! i); reflexivity.
Qed.

Lemma assignRanks_length (l : list LeaderEntry) : length (assignRanks l) = length l.
Proof. apply length_imap. Qed.

(** A relation that does not look at the rank holds after the ranks are
    assigned if it held before. *)
Lemma imap_with_rank_sorted (R : LeaderEntry -> LeaderEntry -> Prop)
    (g : nat -> Z) (l : list LeaderEntry) :
  (forall a b r s, R a b -> R (with_rank r a) (with_rank s b)) ->
  StronglySorted R l ->
  StronglySorted R (imap (fun i e => with_rank (g i) e) l).
Proof.
  intros Hrank. revert g. induction l as [|a l IH]; intros g Hs; [constructor|].
  rewrite imap_cons. apply StronglySorted_inv in Hs as [Hs Hal].
  constructor.
  - apply (IH (fun i => g (S i))), Hs.
  - rewrite Forall_forall in *. intros b Hb.
    apply list_elem_of_lookup in Hb as [i Hb].
    rewrite list_lookup_imap in Hb.
    destruct (l !! i) as [b0|] eqn:Hb0; [|discriminate]. injection Hb as <-.
    apply Hrank, Hal. apply list_elem_of_lookup. eauto.
Qed.

Lemma assignRanks_sorted (R : LeaderEntry -> LeaderEntry -> Prop) (l : list LeaderEntry) :
  (forall a b r s, R a b -> R (with_rank r a) (with_rank s b)) ->
  StronglySorted R l -> StronglySorted R (assignRanks l).
Proof.
  intros Hrank Hs.
  apply (imap_with_rank_sorted R (fun i => Z.of_nat i + 1) l Hrank Hs).
Qed.

(** ** Order on the rationals *)

Lemma Qc_diff_pos (x y : Qc) : Qcltb 0%Qc (fl (y - x)) = false <-> (y <= x)%Qc.
Proof.
  rewrite <- not_true_iff_false, Qcltb_lt, fl_diff_pos. split.
  - apply Qcnot_lt_le.
  - apply Qcle_not_lt.
Qed.

Lemma or_else_zero (v : jsnum) :
  exists q, or_else v (JNum 0%Qc) = JNum q /\ (forall x, v = JNum x -> q = x).
Proof.
  unfold or_else. destruct v as [| |x]; cbn;
    [exists 0%Qc; split; [reflexivity | discriminate]
    |exists 0%Qc; split; [reflexivity | discriminate]|].
  destruct (Qceqb x 0) eqn:Hx; cbn.
  - apply Qceqb_eq in Hx. subst x. exists 0%Qc. split; [reflexivity|].
    intros y [= <-]. reflexivity.
  - exists x. split; [reflexivity|]. intros y [= <-]. reflexivity.
Qed.

(** ** The version that counts work items *)

Lemma timeThresholdOf_window (period : Period) (now : Z) :
  timeThresholdOf period now = now - windowLength period.
Proof. destruct period; reflexivity. Qed.

Lemma counted_inWindow (period : Period) (now : Z) (work : Work) :
  LeaderboardByWorks.counted (timeThresholdOf period now) now work = true
  <-> inWindow period now work.
Proof.
  unfold LeaderboardByWorks.counted, inWindow. rewrite timeThresholdOf_window.
  rewrite !andb_true_iff. unfold str_is, js_gt.
  destruct (w_status work) as [st|], (submittedAt work) as [| |t]; cbn [is_number js_lt js_le].
  all: try (split; [intros (((H1 & H2) & H3) & H4); discriminate
                   | intros (H1 & t' & H2 & _); discriminate]).
  rewrite bool_decide_eq_true, Qcltb_lt, Qcleb_le. split.
  - intros (((-> & _) & H3) & H4). split; [reflexivity|]. exists t. auto.
  - intros ([= ->] & t' & [= <-] & H3 & H4). auto.
Qed.

Lemma tallies_eq (m : gmap string LeaderboardByWorks.Tally) (uid : string) (n n' : Z) :
  n = n' -> tallies m uid n -> tallies m uid n'.
Proof. intros ->. auto. Qed.

Section Counting.
Variables (timeThreshold now : Z) (uid : string).
Hypothesis ordinary : ordinaryKey uid.

Local Abbreviation hits := (countedItems timeThreshold now).
Local Abbreviation tally := (tallyFor timeThreshold now uid).

Lemma countWork_other (m : gmap string LeaderboardByWorks.Tally) (u : string)
    (w : string * Work) :
  u <> uid -> LeaderboardByWorks.countWork timeThreshold now u m w !! uid = m !! uid.
Proof.
  intros Hu. unfold LeaderboardByWorks.countWork.
  destruct (LeaderboardByWorks.counted timeThreshold now w.2); [|reflexivity].
  destruct (bool_decide (u = "__proto__")); [reflexivity|].
  destruct (m !! u) as [[|z]|]; [| |destruct (LeaderboardByWorks.inheritsMethod u)];
    rewrite lookup_insert_ne by exact Hu; reflexivity.
Qed.

Lemma countWork_tallies (m : gmap string LeaderboardByWorks.Tally) (u : string)
    (w : string * Work) (n : Z) :
  tallies m uid n ->
  tallies (LeaderboardByWorks.countWork timeThreshold now u m w) uid
    (n + (if bool_decide (u = uid) && LeaderboardByWorks.counted timeThreshold now w.2
          then 1 else 0)).
Proof.
  intros Hn. destruct (bool_decide (u = uid)) eqn:Hu; cbn [andb].
  2: { apply bool_decide_eq_false in Hu. unfold tallies.
       rewrite (countWork_other m u w Hu), Z.add_0_r. exact Hn. }
  apply bool_decide_eq_true in Hu. subst u.
  unfold LeaderboardByWorks.countWork.
  destruct (LeaderboardByWorks.counted timeThreshold now w.2);
    [|rewrite Z.add_0_r; exact Hn].
  destruct ordinary as [Hproto Hmethod].
  rewrite bool_decide_eq_false_2 by exact Hproto.
  unfold LeaderboardByWorks.inheritsMethod. rewrite bool_decide_eq_false_2 by exact Hmethod.
  destruct Hn as [[-> ->] | [-> Hpos]]; right; rewrite lookup_insert_eq.
  - split; [reflexivity | lia].
  - destruct (Z.eqb_spec n 0) as [->|_]; [lia|]. split; [reflexivity | lia].
Qed.

Lemma hits_nonneg (ws : list (string * Work)) : 0 <= hits ws.
Proof. unfold countedItems. lia. Qed.

Lemma countUser_tallies (m : gmap string LeaderboardByWorks.Tally) (u : string)
    (ws : list (string * Work)) (n : Z) :
  tallies m uid n ->
  tallies (LeaderboardByWorks.countUser timeThreshold now m (u, ws)) uid
    (n + (if bool_decide (u = uid) then hits ws else 0)).
Proof.
  unfold LeaderboardByWorks.countUser, countedItems. cbn [fst snd].
  revert m n. induction ws as [|w ws IH]; intros m n Hn; cbn [fold_left].
  - refine (tallies_eq _ _ _ _ _ Hn). cbn. destruct (bool_decide (u = uid)); lia.
  - refine (tallies_eq _ _ _ _ _ (IH _ _ (countWork_tallies m u w n Hn))).
    rewrite filter_cons.
    destruct (LeaderboardByWorks.counted timeThreshold now w.2) eqn:Hc.
    + rewrite decide_True by reflexivity. cbn [length].
      destruct (bool_decide (u = uid)); cbn [andb]; lia.
    + rewrite decide_False by discriminate.
      rewrite andb_false_r. lia.
Qed.

Lemma tally_shift (worksData : list (string * list (string * Work))) (n : Z) :
  fold_left tally worksData n = n + fold_left tally worksData 0.
Proof.
  revert n. induction worksData as [|[u ws] worksData IH]; intros n; cbn [fold_left].
  - lia.
  - rewrite (IH (tally n (u, ws))), (IH (tally 0 (u, ws))).
    unfold tallyFor. cbn [fst snd]. destruct (bool_decide (u = uid)); lia.
Qed.

Lemma countAll_tallies (worksData : list (string * list (string * Work)))
    (m : gmap string LeaderboardByWorks.Tally) (n : Z) :
  tallies m uid n ->
  tallies (fold_left (LeaderboardByWorks.countUser timeThreshold now) worksData m) uid
    (n + fold_left tally worksData 0).
Proof.
  revert m n. induction worksData as [|[u ws] worksData IH]; intros m n Hn;
    cbn [fold_left].
  - rewrite Z.add_0_r. exact Hn.
  - refine (tallies_eq _ _ _ _ _ (IH _ _ (countUser_tallies m u ws n Hn))).
    rewrite (tally_shift worksData (tally 0 (u, ws))).
    unfold tallyFor at 2. cbn [fst snd].
    destruct (bool_decide (u = uid)); lia.
Qed.

End Counting.

(** The count of a user with an ordinary id is the number of the counted
    work items. *)
Lemma countAll_windowCount (period : Period) (now : Z)
    (worksData : list (string * list (string * Work))) (uid : string) :
  ordinaryKey uid ->
  LeaderboardByWorks.countOf
    (LeaderboardByWorks.countAll (timeThresholdOf period now) now worksData) uid
  = JNum (num (windowCount period now worksData uid)).
Proof.
  intros Hord. unfold LeaderboardByWorks.countAll, LeaderboardByWorks.countOf.
  rewrite bool_decide_eq_false_2 by apply Hord.
  destruct (countAll_tallies (timeThresholdOf period now) now uid Hord worksData ∅ 0)
    as [[-> H0] | [-> _]].
  - left. split; [apply lookup_empty | reflexivity].
  - unfold windowCount. rewrite Z.add_0_l in H0. rewrite H0. reflexivity.
  - unfold windowCount. rewrite Z.add_0_l. reflexivity.
Qed.

(** A user whose id names a function that a plain object inherits, with one
    counted work item, gets NaN for a count and is left out. *)
Lemma leaderboard_inherited_name :
  LeaderboardByWorks.countOf
    (LeaderboardByWorks.countAll (timeThresholdOf daily 1700000000000) 1700000000000
       inheritedNameWorks) "constructor" = JNaN
  /\ windowCount daily 1700000000000 inheritedNameWorks "constructor" = 1
  /\ LeaderboardByWorks.leaderboard daily 1700000000000
       (Some [("constructor", userWith "Con" 50 1)]) (Some inheritedNameWorks) = [].
Proof. repeat split; vm_compute; reflexivity. Qed.

Lemma byApprovedWorks_before (a b : LeaderEntry) (x y : Qc) :
  l_approvedWorks a = JNum x -> l_approvedWorks b = JNum y ->
  js_gt (LeaderboardByWorks.byApprovedWorks a b) (JNum 0%Qc) = false <-> (y <= x)%Qc.
Proof.
  intros Ha Hb. unfold LeaderboardByWorks.byApprovedWorks, js_gt. rewrite Ha, Hb.
  cbn [js_sub js_lt]. apply Qc_diff_pos.
Qed.

Lemma byApprovedWorks_sorted (l : list LeaderEntry) :
  Forall (fun e => exists x, l_approvedWorks e = JNum x) l ->
  StronglySorted countsDescending (js_sort LeaderboardByWorks.byApprovedWorks l).
Proof.
  intros HP.
  apply (StronglySorted_impl
           (fun a b => js_gt (LeaderboardByWorks.byApprovedWorks a b) (JNum 0%Qc) = false)
           countsDescending (fun e => exists x, l_approvedWorks e = JNum x)).
  - intros a b [x Ha] [y Hb] Hab. exists x, y.
    rewrite (byApprovedWorks_before a b x y Ha Hb) in Hab. auto.
  - rewrite js_sort_perm. exact HP.
  - apply (js_sort_sorted _ (fun e => exists x, l_approvedWorks e = JNum x)); [| |exact HP].
    + intros a b [x Ha] [y Hb].
      rewrite (byApprovedWorks_before a b x y Ha Hb), (byApprovedWorks_before b a y x Hb Ha).
      destruct (Qclt_le_dec x y) as [Hlt|Hle]; [right; apply Qclt_le_weak, Hlt | left; exact Hle].
    + intros a b c [x Ha] [y Hb] [z Hc].
      rewrite (byApprovedWorks_before a b x y Ha Hb), (byApprovedWorks_before b c y z Hb Hc),
        (byApprovedWorks_before a c x z Ha Hc).
      intros H1 H2. apply (Qcle_trans _ _ _ H2 H1).
Qed.

Lemma countsDescending_rank (a b : LeaderEntry) (r s : Z) :
  countsDescending a b -> countsDescending (with_rank r a) (with_rank s b).
Proof. intros (x & y & Ha & Hb & Hxy). exists x, y. auto. Qed.

(** What the first version returns when both snapshots exist. *)
Lemma leaderboardByWorks_spec (period : Period) (now : Z)
    (usersData : list (string * User))
    (worksData : list (string * list (string * Work))) :
  let l := LeaderboardByWorks.leaderboard period now (Some usersData) (Some worksData) in
  (forall e, e ∈ l ->
     (exists u, (l_uid e, u) ∈ usersData)
     /\ (ordinaryKey (l_uid e) ->
         l_approvedWorks e = JNum (num (windowCount period now worksData (l_uid e)))
         /\ 0 < windowCount period now worksData (l_uid e)))
  /\ StronglySorted countsDescending l
  /\ (length l <= 50)%nat
  /\ rankedFromOne l
  /\ exists sorted,
       stablySorted (rankedUsers period now usersData worksData) sorted
       /\ with_rank 0 <$> l = take 50 sorted.
Proof.
  intros l. subst l. unfold LeaderboardByWorks.leaderboard. cbv zeta.
  set (counts := LeaderboardByWorks.countAll (timeThresholdOf period now) now worksData).
  set (positive := filter (fun user => js_gt (l_approvedWorks user) (JNum 0%Qc) = true)
                     (map (LeaderboardByWorks.entryOf counts) usersData)).
  assert (Hpos : forall e, e ∈ positive ->
            (exists u, (l_uid e, u) ∈ usersData)
            /\ (ordinaryKey (l_uid e) ->
                l_approvedWorks e = JNum (num (windowCount period now worksData (l_uid e)))
                /\ 0 < windowCount period now worksData (l_uid e))).
  { intros e He. apply list_elem_of_filter in He as [Hgt He].
    apply list_elem_of_fmap in He as ([uid u] & -> & Hin).
    unfold LeaderboardByWorks.entryOf in *. cbn [l_uid l_approvedWorks fst snd] in *.
    split; [eauto|]. intros Hord.
    subst counts. rewrite (countAll_windowCount _ _ _ _ Hord) in *.
    split; [reflexivity|].
    unfold js_gt in Hgt. cbn [js_lt] in Hgt. apply Qcltb_lt in Hgt.
    apply (num_lt 0). exact Hgt. }
  assert (Hnum : forall e, e ∈ positive -> exists x, l_approvedWorks e = JNum x).
  { intros e He. apply list_elem_of_filter in He as [Hgt _].
    unfold js_gt in Hgt. destruct (l_approvedWorks e) as [| |x]; try discriminate. eauto. }
  split; [|split; [|split; [|split]]].
  5: { exists (js_sort LeaderboardByWorks.byApprovedWorks positive). split.
       - split; [apply js_sort_perm|]. intros count.
         apply (js_sort_stable LeaderboardByWorks.byApprovedWorks l_approvedWorks).
         intros a b Hgt Heq. unfold LeaderboardByWorks.byApprovedWorks, js_gt in Hgt.
         rewrite Heq in Hgt. destruct (l_approvedWorks a) as [| |x]; try discriminate.
         cbn [js_sub js_lt] in Hgt.
         rewrite (proj2 (Qc_diff_pos x x) (Qcle_refl x)) in Hgt. discriminate Hgt.
       - rewrite assignRanks_fmap. apply list_eq. intros i.
         rewrite list_lookup_fmap.
         destruct (take 50 _ !! i) as [e|] eqn:He; [|reflexivity].
         apply list_elem_of_lookup_2, subseteq_take in He.
         rewrite js_sort_perm in He. apply list_elem_of_filter in He as [_ He].
         apply list_elem_of_fmap in He as ([uid u] & -> & _). reflexivity. }
  - intros e He. apply list_elem_of_lookup in He as [i He].
    rewrite assignRanks_lookup in He.
    destruct (take 50 _ !! i) as [e0|] eqn:He0; [|discriminate]. injection He as <-.
    cbn [with_rank l_uid l_approvedWorks].
    apply Hpos. apply list_elem_of_lookup_2 in He0. apply subseteq_take in He0.
    rewrite js_sort_perm in He0. exact He0.
  - apply assignRanks_sorted; [exact countsDescending_rank|].
    apply StronglySorted_take, byApprovedWorks_sorted.
    apply Forall_forall. intros e He. apply Hnum, He.
  - rewrite assignRanks_length, length_take. lia.
  - apply assignRanks_ranked.
Qed.

(** ** The version that ranks by the profile counters *)

Lemma byApprovedWorksThenMoney_before (a b : LeaderEntry) (x y m n : Qc) :
  l_approvedWorks a = JNum x -> l_approvedWorks b = JNum y ->
  l_earnedMoney a = JNum m -> l_earnedMoney b = JNum n ->
  js_gt (LeaderboardByProfile.byApprovedWorksThenMoney a b) (JNum 0%Qc) = false
  <-> ((y < x)%Qc \/ (x = y /\ (n <= m)%Qc)).
Proof.
  intros Ha Hb Hm Hn. unfold LeaderboardByProfile.byApprovedWorksThenMoney, js_gt.
  rewrite Ha, Hb, Hm, Hn. cbn [js_eq].
  destruct (or_else_zero (JNum m)) as (m' & -> & Hm').
  destruct (or_else_zero (JNum n)) as (n' & -> & Hn').
  rewrite (Hm' m eq_refl), (Hn' n eq_refl).
  destruct (Qceqb y x) eqn:Hyx; cbn [negb js_sub js_lt].
  - apply Qceqb_eq in Hyx. subst y. rewrite Qc_diff_pos. split.
    + intros Hle. right. auto.
    + intros [Hlt | [_ Hle]]; [|exact Hle]. exfalso. apply (Qclt_not_eq _ _ Hlt). reflexivity.
  - assert (Hne : y <> x).
    { intros Heq. apply Qceqb_eq in Heq. congruence. }
    rewrite Qc_diff_pos. split.
    + intros Hle. left. destruct (Qcle_lt_or_eq _ _ Hle) as [Hlt | Heq];
        [exact Hlt | contradiction].
    + intros [Hlt | [Heq _]]; [apply Qclt_le_weak, Hlt | congruence].
Qed.

Lemma countsThenMoney_total (x y m n : Qc) :
  ((y < x)%Qc \/ (x = y /\ (n <= m)%Qc)) \/ ((x < y)%Qc \/ (y = x /\ (m <= n)%Qc)).
Proof.
  destruct (Qc_dec x y) as [[Hlt | Hgt] | Heq]; [auto | auto |].
  subst y. destruct (Qclt_le_dec m n) as [Hmn | Hnm].
  - right. right. split; [reflexivity | apply Qclt_le_weak, Hmn].
  - left. right. auto.
Qed.

Lemma countsThenMoney_trans (x y z m n k : Qc) :
  ((y < x)%Qc \/ (x = y /\ (n <= m)%Qc)) ->
  ((z < y)%Qc \/ (y = z /\ (k <= n)%Qc)) ->
  ((z < x)%Qc \/ (x = z /\ (k <= m)%Qc)).
Proof.
  intros [Hyx | [-> Hnm]] [Hzy | [-> Hkn]].
  - left. apply (Qclt_trans _ _ _ Hzy Hyx).
  - left. exact Hyx.
  - left. exact Hzy.
  - right. split; [reflexivity | apply (Qcle_trans _ _ _ Hkn Hnm)].
Qed.

Lemma byApprovedWorksThenMoney_sorted (l : list LeaderEntry) :
  Forall hasCounters l ->
  StronglySorted countsThenMoneyDescending
    (js_sort LeaderboardByProfile.byApprovedWorksThenMoney l).
Proof.
  intros HP.
  apply (StronglySorted_impl
           (fun a b => js_gt (LeaderboardByProfile.byApprovedWorksThenMoney a b)
                         (JNum 0%Qc) = false)
           countsThenMoneyDescending hasCounters).
  - intros a b (x & m & Ha & Hm) (y & n & Hb & Hn) Hab. exists x, y, m, n.
    rewrite (byApprovedWorksThenMoney_before a b x y m n) in Hab by assumption. auto.
  - rewrite js_sort_perm. exact HP.
  - apply (js_sort_sorted _ hasCounters); [| |exact HP].
    + intros a b (x & m & Ha & Hm) (y & n & Hb & Hn).
      rewrite (byApprovedWorksThenMoney_before a b x y m n),
        (byApprovedWorksThenMoney_before b a y x n m) by assumption.
      apply countsThenMoney_total.
    + intros a b c (x & m & Ha & Hm) (y & n & Hb & Hn) (z & k & Hc & Hk).
      rewrite (byApprovedWorksThenMoney_before a b x y m n),
        (byApprovedWorksThenMoney_before b c y z n k),
        (byApprovedWorksThenMoney_before a c x z m k) by assumption.
      apply countsThenMoney_trans.
Qed.

Lemma countsThenMoneyDescending_rank (a b : LeaderEntry) (r s : Z) :
  countsThenMoneyDescending a b ->
  countsThenMoneyDescending (with_rank r a) (with_rank s b).
Proof. intros (x & y & m & n & H). exists x, y, m, n. exact H. Qed.

(** What the second version returns when the snapshot exists: every user,
    with the counters of the profile. *)
Lemma leaderboardByProfile_spec (timeframe : Period) (now : Z)
    (users : list (string * User)) :
  let l := LeaderboardByProfile.leaderboard timeframe now (Some users) in
  with_rank 0 <$> l ≡ₚ LeaderboardByProfile.entryOf <$> users
  /\ length l = length users
  /\ StronglySorted countsThenMoneyDescending l
  /\ rankedFromOne l.
Proof.
  intros l. subst l. unfold LeaderboardByProfile.leaderboard. cbv zeta.
  assert (Hall : filter (fun _ : string * User => True) users = users).
  { induction users as [|u users IH]; [reflexivity|].
    rewrite filter_cons, decide_True by exact I. rewrite IH. reflexivity. }
  rewrite Hall.
  assert (Hid : with_rank 0 <$> (LeaderboardByProfile.entryOf <$> users)
                = LeaderboardByProfile.entryOf <$> users).
  { rewrite <- list_fmap_compose. apply list_fmap_ext. intros i [uid u] _. reflexivity. }
  split; [|split; [|split]].
  - rewrite assignRanks_fmap, js_sort_perm. change map with (@fmap list _) in *.
    rewrite Hid. reflexivity.
  - rewrite assignRanks_length, js_sort_perm. apply length_map.
  - apply assignRanks_sorted; [exact countsThenMoneyDescending_rank|].
    apply byApprovedWorksThenMoney_sorted.
    apply Forall_forall. intros e He. apply list_elem_of_fmap in He as ([uid u] & -> & _).
    unfold hasCounters, LeaderboardByProfile.entryOf. cbn [l_approvedWorks l_earnedMoney snd].
    destruct (or_else_zero (approvedWorks u)) as (x & -> & _).
    destruct (or_else_zero (earnedMoney u)) as (m & -> & _). eauto.
  - apply assignRanks_ranked.
Qed.

(** Every user with an ordinary id and a counted work item is among the
    users that are ranked. *)
Lemma rankedUsers_complete (period : Period) (now : Z)
    (usersData : list (string * User))
    (worksData : list (string * list (string * Work))) (uid : string) (u : User) :
  (uid, u) ∈ usersData -> ordinaryKey uid ->
  0 < windowCount period now worksData uid ->
  exists e, e ∈ rankedUsers period now usersData worksData
    /\ l_uid e = uid
    /\ l_approvedWorks e = JNum (num (windowCount period now worksData uid)).
Proof.
  intros Hin Hord Hpos.
  exists (LeaderboardByWorks.entryOf
            (LeaderboardByWorks.countAll (timeThresholdOf period now) now worksData)
            (uid, u)).
  unfold rankedUsers, LeaderboardByWorks.entryOf. cbn [l_uid l_approvedWorks fst snd].
  rewrite (countAll_windowCount _ _ _ _ Hord).
  split; [|split; reflexivity].
  apply list_elem_of_filter. split.
  - cbn [l_approvedWorks]. unfold js_gt. cbn [js_lt]. apply Qcltb_lt.
    rewrite <- num_0. apply num_lt. exact Hpos.
  - apply list_elem_of_fmap. exists (uid, u). split; [|exact Hin].
    cbn [fst snd]. rewrite (countAll_windowCount _ _ _ _ Hord). reflexivity.
Qed.

(** ** The two versions against the specification *)

(** C9, the claim as stated fails for each declaration.  The version that
    counts work items has no tiebreak: of two users with one counted work
    item each, the one with less earned money, first in the users object,
    gets rank 1.  The version that ranks by the profile neither looks at
    work items nor truncates: 51 users whose profiles say 3 approved works
    give 51 entries with 3 approved works each. *)
Lemma fetchTimeBasedLeaderboard_not_as_claimed :
  (let l := LeaderboardByWorks.leaderboard daily 1700000000000
              (Some tiedUsers) (Some tiedWorks) in
   map l_uid l = ["a"; "b"]
   /\ map l_approvedWorks l = [JNum (num 1); JNum (num 1)]
   /\ map l_rank l = [1; 2]
   /\ js_lt (earnedMoney (userWith "Ada" 10 1)) (earnedMoney (userWith "Bob" 20 1)) = true)
  /\ (let l := LeaderboardByProfile.leaderboard daily 1700000000000 (Some manyUsers) in
      length l = 51%nat
      /\ Forall (fun e => l_approvedWorks e = JNum (num 3)) l).
Proof.
  split.
  - vm_compute. repeat split; reflexivity.
  - split; [vm_compute; reflexivity|].
    apply Forall_forall. intros e He.
    apply list_elem_of_lookup in He as [i He].
    unfold LeaderboardByProfile.leaderboard in He. cbv zeta in He.
    rewrite assignRanks_lookup in He.
    destruct (js_sort _ _ !! i) as [e0|] eqn:He0; [|discriminate]. injection He as <-.
    apply list_elem_of_lookup_2 in He0. rewrite js_sort_perm in He0.
    apply list_elem_of_fmap in He0 as ([uid u] & -> & Hin).
    apply list_elem_of_filter in Hin as [_ Hin].
    apply list_elem_of_fmap in Hin as (n & [= -> ->] & _). reflexivity.
Qed.

(** On a cache miss with no fetch in flight, a call resolves to the list
    its callback computes. *)
Lemma fetchTimeBasedLeaderboard_miss (period : Period)
    (get_now expired_now now stamp_now expiry_now : Z)
    (usersSnap : option (list (string * User)))
    (worksSnap : option (list (string * list (string * Work))))
    (c : DataCache (list LeaderEntry)) :
  map_get ("leaderboard:" +:+ Period_str period) (cache c) = None ->
  getPending ("leaderboard:" +:+ Period_str period) c = None ->
  (LeaderboardByWorks.fetchTimeBasedLeaderboard period get_now now stamp_now expiry_now
     usersSnap worksSnap c).1
  = Resolved (LeaderboardByWorks.leaderboard period now usersSnap worksSnap)
  /\ (LeaderboardByProfile.fetchTimeBasedLeaderboard period get_now expired_now now
        stamp_now expiry_now usersSnap c).1
     = Resolved (LeaderboardByProfile.leaderboard period now usersSnap).
Proof.
  intros Hmiss Hidle.
  unfold LeaderboardByWorks.fetchTimeBasedLeaderboard,
    LeaderboardByProfile.fetchTimeBasedLeaderboard, DataCacheV2.get. cbv zeta.
  rewrite (cache_get_absent _ _ _ Hmiss). unfold isFetching, map_has.
  unfold getPending in *. rewrite Hidle. split; reflexivity.
Qed.

(** C9, amended: the declaration that counts work items counts the work
    items that are approved and were submitted inside the window of the
    period (24 hours, 7 or 30 days back, up to 60 seconds ahead of now).
    It ranks the users with at least one such item: every entry of a user
    whose id is an ordinary key carries that number as its count, and every
    such user with a counted item is among the users ranked (an id that is
    the name of a property a plain object inherits, such as constructor, is
    not an ordinary key; what happens to such a user is left open here).
    The entries are sorted by the count in descending order, users with the
    same count in the order of the users object (there is no earned-money
    tiebreak), the first 50 of them at most, the i-th with rank i.  The
    declaration that ranks by the profile returns one entry per user, with
    the profile's counters, sorted by approved works in descending order
    and by earned money among equals, the i-th with rank i; it neither
    filters by the window nor truncates.  On a cache miss with no fetch in
    flight, [fetchTimeBasedLeaderboard] resolves to that list. *)
Theorem fetchTimeBasedLeaderboard_versions (period : Period) (now : Z)
    (usersData : list (string * User))
    (worksData : list (string * list (string * Work))) :
  (let l := LeaderboardByWorks.leaderboard period now (Some usersData) (Some worksData) in
   (forall work,
      LeaderboardByWorks.counted (timeThresholdOf period now) now work = true
      <-> inWindow period now work)
   /\ (forall e, e ∈ l ->
        (exists u, (l_uid e, u) ∈ usersData)
        /\ (ordinaryKey (l_uid e) ->
            l_approvedWorks e = JNum (num (windowCount period now worksData (l_uid e)))
            /\ 0 < windowCount period now worksData (l_uid e)))
   /\ StronglySorted countsDescending l
   /\ (length l <= 50)%nat
   /\ rankedFromOne l
   /\ (exists sorted,
        stablySorted (rankedUsers period now usersData worksData) sorted
        /\ with_rank 0 <$> l = take 50 sorted)
   /\ (forall uid u, (uid, u) ∈ usersData -> ordinaryKey uid ->
        0 < windowCount period now worksData uid ->
        exists e, e ∈ rankedUsers period now usersData worksData
          /\ l_uid e = uid
          /\ l_approvedWorks e = JNum (num (windowCount period now worksData uid))))
  /\ (let l := LeaderboardByProfile.leaderboard period now (Some usersData) in
      with_rank 0 <$> l ≡ₚ LeaderboardByProfile.entryOf <$> usersData
      /\ length l = length usersData
      /\ StronglySorted countsThenMoneyDescending l
      /\ rankedFromOne l)
  /\ (forall (c : DataCache (list LeaderEntry))
             (get_now expired_now stamp_now expiry_now : Z),
      map_get ("leaderboard:" +:+ Period_str period) (cache c) = None ->
      getPending ("leaderboard:" +:+ Period_str period) c = None ->
      (LeaderboardByWorks.fetchTimeBasedLeaderboard period get_now now stamp_now
         expiry_now (Some usersData) (Some worksData) c).1
      = Resolved (LeaderboardByWorks.leaderboard period now (Some usersData)
                    (Some worksData))
      /\ (LeaderboardByProfile.fetchTimeBasedLeaderboard period get_now expired_now now
            stamp_now expiry_now (Some usersData) c).1
         = Resolved (LeaderboardByProfile.leaderboard period now (Some usersData))).
Proof.
  split; [|split].
  - intros l. split; [intros work; apply counted_inWindow|].
    destruct (leaderboardByWorks_spec period now usersData worksData)
      as (H1 & H2 & H3 & H4 & H5).
    repeat (split; [assumption|]).
    intros uid u. apply rankedUsers_complete.
  - apply leaderboardByProfile_spec.
  - intros c get_now expired_now stamp_now expiry_now.
    apply fetchTimeBasedLeaderboard_miss.
Qed.

Lemma fetchTimeBasedLeaderboard_versions_witness :
  let l := LeaderboardByWorks.leaderboard daily 1700000000000
             (Some tiedUsers) (Some tiedWorks) in
  (exists e, l !! 1%nat = Some e
     /\ l_rank e = 2
     /\ l_approvedWorks e
        = JNum (num (windowCount daily 1700000000000 tiedWorks (l_uid e))))
  /\ inWindow daily 1700000000000 (approvedWork "a" 1699999940000).
Proof.
  intros l.
  destruct (fetchTimeBasedLeaderboard_versions daily 1700000000000 tiedUsers tiedWorks)
    as ((Hwin & Hcount & _ & _ & Hrank & _) & _ & _).
  split.
  - assert (He : l !! 1%nat = Some (mkLeader "b" (Some "Bob") None (JNum (num 1)) JUndef 2))
      by (vm_compute; reflexivity).
    eexists. split; [exact He|]. split; [apply (Hrank 1%nat _ He)|].
    apply Hcount; [apply list_elem_of_lookup; eauto|].
    split; [discriminate|]. cbn [l_uid].
    apply (proj1 (bool_decide_eq_false _)). vm_compute. reflexivity.
  - apply Hwin. vm_compute. reflexivity.
Defined.

(** * Further properties of the ledger operations *)

Lemma js_lt_ge (x y : Qc) : js_lt (JNum x) (JNum y) = false <-> (y <= x)%Qc.
Proof. cbn. apply Qcltb_ge. Qed.

(** ** Budget deduction is all or nothing *)

Lemma walletDebit_Some (amount : Qc) (o : option WalletBalance) (b' : WalletBalance) :
  V1.walletDebit amount o = Some b' ->
  js_lt (addedBalance (default zeroWallet o)) (JNum amount) = false
  /\ b' = with_addedBalance (js_sub (addedBalance (default zeroWallet o)) (JNum amount))
            (default zeroWallet o)
  /\ V1.validateWalletData (Some b') = true.
Proof.
  unfold V1.walletDebit. cbv zeta.
  destruct (js_lt _ _); [discriminate|].
  destruct (V1.validateWalletData _) eqn:Hv; cbn [negb]; [|discriminate].
  intros [= <-]. auto.
Qed.

Lemma campaignDebit_Some (amount : Qc) (c c' : Campaign) :
  V1.campaignDebit amount (Some c) = Some c' ->
  js_lt (remainingBudget c) (JNum amount) = false
  /\ c' = with_remainingBudget (js_sub (remainingBudget c) (JNum amount)) c
  /\ V1.validateCampaignData (Some c') = true.
Proof.
  unfold V1.campaignDebit. cbv zeta.
  destruct (negb (V1.validateCampaignData (Some c))); [discriminate|].
  destruct (js_lt _ _); [discriminate|].
  destruct (V1.validateCampaignData _) eqn:Hv; cbn [negb]; [|discriminate].
  intros [= <-]. auto.
Qed.

(** A run that ended here left the store as it was and did not return true. *)
Ltac unchanged :=
  intros [= <- <-]; simpl_world;
  split; [intros [=] | split; intros _; [left|intros _]; rewrite ?store_eta; reflexivity].

Lemma budgetDeducted_intro (s : Store) (campaignId uid : string) (amount : Qc)
    (c : Campaign) :
  campaigns s !! campaignId = Some c ->
  creatorId c = Some uid ->
  js_lt (remainingBudget c) (JNum amount) = false ->
  js_lt (addedBalance (default zeroWallet (wallets s !! uid))) (JNum amount) = false ->
  budgetDeducted s
    (mkStore (users s)
       (<[uid := with_addedBalance
                   (js_sub (addedBalance (default zeroWallet (wallets s !! uid)))
                      (JNum amount))
                   (default zeroWallet (wallets s !! uid))]> (wallets s))
       (<[campaignId := with_remainingBudget (js_sub (remainingBudget c) (JNum amount)) c]>
          (campaigns s))
       (works s) (addMoney s) (withdrawals s))
    campaignId uid amount.
Proof.
  intros Hc Hcr Hrb Hab. exists c. split; [exact Hc|]. split; [exact Hcr|].
  split; [exact Hrb|]. cbv zeta. split; [exact Hab|]. split; [reflexivity|].
  intros rb ab Hrb' Hab'. rewrite Hrb' in Hrb. rewrite Hab' in Hab.
  apply js_lt_ge in Hrb, Hab. split; [exact Hrb|]. split; [exact Hab|].
  cbn [campaigns wallets]. rewrite !lookup_insert_eq. cbn.
  rewrite Hrb', Hab'. split; reflexivity.
Qed.

(** A rollback after an exact debit gives the store back. *)
Lemma rolledBack_exact (s s' : Store) (campaignId : string) (amount : Qc) :
  exactDebit s campaignId amount -> rolledBack s s' campaignId amount -> s' = s.
Proof.
  intros (c & rb & Hc & Hrb & Hd & Hsub) (c' & Hc' & ->).
  rewrite Hc in Hc'. injection Hc' as <-.
  rewrite (compensated_exact _ _ _ Hrb Hd Hsub), (insert_id _ _ _ Hc).
  apply store_eta.
Qed.

Lemma deductCampaignBudget_all_or_nothing_V1 (campaignId : string) (amount : Qc)
    (uid : string) (currentUserId : option string) (w : World) :
  let run := V1.deductCampaignBudget campaignId amount uid currentUserId w in
  (run.1 = Returned true -> budgetDeducted (db w) (db run.2) campaignId uid amount)
  /\ (run.1 <> Returned true -> notDeducted (db w) (db run.2) campaignId amount)
  /\ (run.1 <> Returned true -> exactDebit (db w) campaignId amount -> db run.2 = db w).
Proof.
  intros run. subst run.
  destruct (V1.deductCampaignBudget campaignId amount uid currentUserId w)
    as [r w'] eqn:Hrun.
  cbn [fst snd]. revert Hrun. unfold V1.deductCampaignBudget.
  destruct (guarded_frame currentUserId
              (fun cu => V1.verifyUserAuthorization cu uid false) w) as (d & rs & Hg).
  { intros cu w0. apply verifyUserAuthorization_frame. }
  unfold bind at 1. rewrite Hg.
  rewrite bind_throw_if. destruct d; [unchanged|].
  rewrite bind_throw_if.
  destruct (Qcleb amount 0 || Qcltb (num 10000000) amount); [unchanged|].
  rewrite try_catch_rethrow, bind_get. simpl_world.
  destruct (campaigns (db w) !! campaignId) as [c|] eqn:Hc; [|unchanged].
  rewrite bind_throw_if.
  destruct (str_is (creatorId c) uid) eqn:Hcr; cbn [negb]; [|unchanged].
  rewrite bind_throw_if.
  destruct (negb (V1.validateCampaignData (Some c))); [unchanged|].
  rewrite bind_runTransaction. simpl_world. rewrite Hc.
  destruct (V1.campaignDebit amount (Some c)) as [c'|] eqn:Hdebit; cbn [fst snd];
    [|unchanged].
  rewrite bind_runTransaction. simpl_world.
  destruct (V1.walletDebit amount (wallets (db w) !! uid)) as [b'|] eqn:Hwallet;
    cbn [fst snd].
  - destruct (walletDebit_Some _ _ _ Hwallet) as (Hab & -> & Hvalid).
    destruct (campaignDebit_Some _ _ _ Hdebit) as (Hrb & -> & _).
    rewrite Hvalid. cbn [negb ret].
    intros [= <- <-]. simpl_world.
    split; [intros _|split; intros []; reflexivity].
    apply budgetDeducted_intro; try assumption. apply str_is_eq, Hcr.
  - unfold V1.restoreBudget. rewrite bind_update. simpl_world. cbn [ret].
    intros [= <- <-]. simpl_world. split; [intros [=]|].
    rewrite lookup_insert_eq. cbn [default from_option id].
    rewrite (campaignDebit_restore _ _ _ Hdebit), insert_insert_eq.
    assert (Hback : rolledBack (db w)
              (mkStore (users (db w)) (wallets (db w))
                 (<[campaignId := compensated amount c]> (campaigns (db w)))
                 (works (db w)) (addMoney (db w)) (withdrawals (db w)))
              campaignId amount) by (exists c; auto).
    split; [intros _; right; exact Hback|].
    intros _ Hexact. exact (rolledBack_exact _ _ _ _ Hexact Hback).
Qed.

Section V2_all_or_nothing.
Variable validateWalletData : option WalletBalance -> bool.
Variable validateCampaignData : option Campaign -> bool.
Variable validateUserAuthorization : string -> string -> bool -> bool.

Lemma walletDebit_Some_V2 (amount : Qc) (o : option WalletBalance) (b' : WalletBalance) :
  V2.walletDebit validateWalletData amount o = Some b' ->
  js_lt (addedBalance (default zeroWallet o)) (JNum amount) = false
  /\ b' = with_addedBalance (js_sub (addedBalance (default zeroWallet o)) (JNum amount))
            (default zeroWallet o).
Proof.
  unfold V2.walletDebit. cbv zeta.
  destruct (js_lt _ _); [discriminate|].
  destruct (validateWalletData _); cbn [negb]; [|discriminate].
  intros [= <-]. auto.
Qed.

Lemma campaignDebit_Some_V2 (amount : Qc) (c c' : Campaign) :
  V2.campaignDebit validateCampaignData amount (Some c) = Some c' ->
  js_lt (remainingBudget c) (JNum amount) = false
  /\ c' = with_remainingBudget (js_sub (remainingBudget c) (JNum amount)) c.
Proof.
  unfold V2.campaignDebit. cbv zeta.
  destruct (negb (validateCampaignData (Some c))); [discriminate|].
  destruct (js_lt _ _); [discriminate|].
  destruct (validateCampaignData _); cbn [negb]; [|discriminate].
  intros [= <-]. auto.
Qed.

Lemma deductCampaignBudget_all_or_nothing_V2 (campaignId : string) (amount : Qc)
    (uid : string) (currentUserId : option string) (w : World) :
  let run := V2.deductCampaignBudget validateWalletData validateCampaignData
               validateUserAuthorization campaignId amount uid currentUserId w in
  (run.1 = Returned true -> budgetDeducted (db w) (db run.2) campaignId uid amount)
  /\ (run.1 <> Returned true -> notDeducted (db w) (db run.2) campaignId amount)
  /\ (run.1 <> Returned true -> exactDebit (db w) campaignId amount -> db run.2 = db w).
Proof.
  intros run. subst run.
  destruct (V2.deductCampaignBudget _ _ _ campaignId amount uid currentUserId w)
    as [r w'] eqn:Hrun.
  cbn [fst snd]. revert Hrun. unfold V2.deductCampaignBudget.
  do 3 guard_step unchanged.
  destruct (guarded_frame currentUserId
              (fun cu => V2.verifyUserAuthorization validateUserAuthorization cu uid false) w)
    as (d & rs & Hg).
  { intros cu w0. apply verifyUserAuthorization_frame_V2. }
  unfold bind at 1. rewrite Hg.
  rewrite bind_throw_if. destruct d; [unchanged|].
  guard_step unchanged.
  unfold try_catch. rewrite bind_get. simpl_world.
  destruct (campaigns (db w) !! campaignId) as [c|] eqn:Hc; [|unchanged].
  rewrite bind_throw_if.
  destruct (str_is (creatorId c) uid) eqn:Hcr; cbn [negb]; [|unchanged].
  guard_step unchanged.
  rewrite bind_runTransaction. simpl_world. rewrite Hc.
  destruct (V2.campaignDebit validateCampaignData amount (Some c)) as [c'|] eqn:Hdebit;
    cbn [fst snd]; [|unchanged].
  rewrite bind_runTransaction. simpl_world.
  destruct (V2.walletDebit validateWalletData amount (wallets (db w) !! uid))
    as [b'|] eqn:Hwallet; cbn [fst snd].
  - destruct (walletDebit_Some_V2 _ _ _ Hwallet) as (Hab & ->).
    destruct (campaignDebit_Some_V2 _ _ _ Hdebit) as (Hrb & ->).
    cbn [ret]. intros [= <- <-]. simpl_world.
    split; [intros _|split; intros []; reflexivity].
    apply budgetDeducted_intro; try assumption. apply str_is_eq, Hcr.
  - unfold V2.restoreBudget. rewrite bind_update. simpl_world. cbn [ret].
    intros [= <- <-]. simpl_world. split; [intros [=]|].
    rewrite lookup_insert_eq. cbn [default from_option id].
    rewrite (campaignDebit_restore_V2 _ _ _ _ Hdebit), insert_insert_eq.
    assert (Hback : rolledBack (db w)
              (mkStore (users (db w)) (wallets (db w))
                 (<[campaignId := compensated amount c]> (campaigns (db w)))
                 (works (db w)) (addMoney (db w)) (withdrawals (db w)))
              campaignId amount) by (exists c; auto).
    split; [intros _; right; exact Hback|].
    intros _ Hexact. exact (rolledBack_exact _ _ _ _ Hexact Hback).
Qed.

End V2_all_or_nothing.

(** X1: [deductCampaignBudget] is all or nothing, up to the rounding of its
    rollback.  When it returns true, the campaign existed with [uid] as
    creator, its [remainingBudget] and the wallet's [addedBalance] both
    covered the amount, both are lowered by the amount and nothing else in
    the store has changed.  When it returns false or throws, the store is
    what it was, or, when the campaign had been debited and the wallet
    could not be, what it was but for the campaign's [remainingBudget],
    which is the old one less the amount, plus the amount, as JavaScript
    computes them; when the old budget less the amount is computed without
    rounding (both are integers, say), this is the old budget and the store
    is what it was.  In both copies of the module, whatever the imported
    validators of [data-cache.ts] are. *)
Theorem deductCampaignBudget_all_or_nothing (campaignId : string) (amount : Qc)
    (uid : string) (currentUserId : option string) (w : World) :
  (let run := V1.deductCampaignBudget campaignId amount uid currentUserId w in
   (run.1 = Returned true -> budgetDeducted (db w) (db run.2) campaignId uid amount)
   /\ (run.1 <> Returned true -> notDeducted (db w) (db run.2) campaignId amount)
   /\ (run.1 <> Returned true -> exactDebit (db w) campaignId amount -> db run.2 = db w))
  /\ (forall (validateWalletData : option WalletBalance -> bool)
             (validateCampaignData : option Campaign -> bool)
             (validateUserAuthorization : string -> string -> bool -> bool),
      let run := V2.deductCampaignBudget validateWalletData validateCampaignData
                   validateUserAuthorization campaignId amount uid currentUserId w in
      (run.1 = Returned true -> budgetDeducted (db w) (db run.2) campaignId uid amount)
      /\ (run.1 <> Returned true -> notDeducted (db w) (db run.2) campaignId amount)
      /\ (run.1 <> Returned true -> exactDebit (db w) campaignId amount ->
          db run.2 = db w)).
Proof.
  split.
  - apply deductCampaignBudget_all_or_nothing_V1.
  - intros vW vC vA. apply deductCampaignBudget_all_or_nothing_V2.
Qed.

Lemma deductCampaignBudget_all_or_nothing_witness :
  budgetDeducted (db fundedWorld)
    (db (V1.deductCampaignBudget "c1" (num 500) "u1" None fundedWorld).2)
    "c1" "u1" (num 500)
  /\ db (V1.deductCampaignBudget "c1" (num 500) "u1" None poorWorld).2 = db poorWorld
  /\ notDeducted (db smallWorld)
       (db (V1.deductCampaignBudget "c1" (decimal 6 1) "u1" None smallWorld).2)
       "c1" (decimal 6 1)
  /\ budgetDeducted (db fundedWorld)
       (db (V2.deductCampaignBudget V1.validateWalletData V1.validateCampaignData
              (fun _ _ _ => true) "c1" (num 500) "u1" None fundedWorld).2)
       "c1" "u1" (num 500)
  /\ db (V2.deductCampaignBudget V1.validateWalletData V1.validateCampaignData
           (fun _ _ _ => true) "c1" (num 500) "u1" None poorWorld).2 = db poorWorld.
Proof.
  destruct (deductCampaignBudget_all_or_nothing "c1" (num 500) "u1" None fundedWorld)
    as [(Hdone & _ & _) H2].
  destruct (deductCampaignBudget_all_or_nothing "c1" (num 500) "u1" None poorWorld)
    as [(_ & _ & Hexact) H2'].
  destruct (deductCampaignBudget_all_or_nothing "c1" (decimal 6 1) "u1" None smallWorld)
    as [(_ & Hnot & _) _].
  destruct (H2 V1.validateWalletData V1.validateCampaignData (fun _ _ _ => true))
    as (Hdone2 & _ & _).
  destruct (H2' V1.validateWalletData V1.validateCampaignData (fun _ _ _ => true))
    as (_ & _ & Hexact2).
  assert (Hpoor : exactDebit (db poorWorld) "c1" (num 500)).
  { exists sampleCampaign, (num 500). repeat split; vm_compute; reflexivity. }
  split; [|split; [|split; [|split]]].
  - apply Hdone. vm_compute. reflexivity.
  - apply Hexact; [vm_compute; discriminate | exact Hpoor].
  - apply Hnot. vm_compute. discriminate.
  - apply Hdone2. vm_compute. reflexivity.
  - apply Hexact2; [vm_compute; discriminate | exact Hpoor].
Defined.

(** ** Work approval: what each outcome means *)

(** A run that ended here threw before it wrote anything. *)
Ltac early :=
  intros [= <- <-]; simpl_world;
  split; [intros _; unfold refused; cbn; repeat split; eauto
         | split; intros [=]].

Lemma with_w_status_same (wk : Work) (st : string) :
  w_status wk = Some st -> with_w_status (Some st) wk = wk.
Proof. destruct wk; cbn; intros ->; reflexivity. Qed.

Lemma with_w_status_twice (wk : Work) (a b : jsstr) :
  with_w_status a (with_w_status b wk) = with_w_status a wk.
Proof. reflexivity. Qed.

Lemma approveWorkAndCredit_cases_V1 (workId userId campaignId : string)
    (reward_ : Qc) (currentAdminId : option string) (w : World) :
  let run := V1.approveWorkAndCredit workId userId campaignId reward_ currentAdminId w in
  (~ isPendingWork (db w) userId workId -> refused w run)
  /\ (run.1 = Returned false -> db run.2 = db w)
  /\ (run.1 = Returned true -> workPaid (db w) (db run.2) workId userId reward_).
Proof.
  intros run. subst run.
  destruct (V1.approveWorkAndCredit workId userId campaignId reward_ currentAdminId w)
    as [o w'] eqn:Hrun.
  cbn [fst snd]. revert Hrun. unfold V1.approveWorkAndCredit.
  destruct (guarded_frame currentAdminId
              (fun ca => V1.verifyUserAuthorization ca userId true) w) as (d & rs & Hg).
  { intros cu w0. apply verifyUserAuthorization_frame. }
  unfold bind at 1. rewrite Hg.
  rewrite bind_throw_if. destruct d; [early|].
  guard_step early.
  rewrite try_catch_rethrow, bind_get. simpl_world.
  destruct (works (db w) !! (userId, workId)) as [wk|] eqn:Hwk; [|early].
  rewrite bind_throw_if.
  destruct (str_is (w_status wk) "pending") eqn:Hpending; cbn [negb]; [|early].
  assert (Hst : w_status wk = Some "pending") by (apply str_is_eq, Hpending).
  assert (Hp : isPendingWork (db w) userId workId) by (exists wk; auto).
  rewrite bind_throw_if. destruct (V1.invalidReward (reward wk)) eqn:Hrw.
  { intros [= <- <-]. split; [intros Hn; destruct (Hn Hp)|split; intros [=]]. }
  rewrite bind_runTransaction. simpl_world. rewrite Hwk.
  unfold V1.workApprove. rewrite Hpending, Hrw. cbn [negb fst snd].
  rewrite bind_runTransaction. simpl_world.
  unfold V1.walletCredit.
  set (old := default zeroWallet (wallets (db w) !! userId)).
  set (new := with_earnedBalance (js_add (earnedBalance old) (JNum reward_)) old).
  destruct (V1.validateWalletData (Some new)) eqn:Hvalid; cbn [negb fst snd].
  2: { rewrite bind_update. simpl_world. cbn [ret]. intros [= <- <-]. simpl_world.
       split; [intros Hn; destruct (Hn Hp)|]. split; [intros _|intros [=]].
       rewrite lookup_insert_eq. cbn [default from_option id].
       rewrite with_w_status_twice, (with_w_status_same _ _ Hst), insert_insert_eq.
       rewrite (insert_id _ _ _ Hwk). apply store_eta. }
  rewrite bind_get. simpl_world.
  destruct (users (db w) !! userId) as [u|] eqn:Hu.
  2: { rewrite bind_ret. rewrite Hvalid. cbn [negb ret]. intros [= <- <-]. simpl_world.
       split; [intros Hn; destruct (Hn Hp)|]. split; [intros [=]|intros _].
       unfold workPaid. simpl_world. fold old. repeat split; eauto. }
  rewrite bind_assoc, bind_throw_if.
  match goal with |- context [if ?c then (Thrown _, _) else _] => destruct c end.
  { intros [= <- <-]. split; [intros Hn; destruct (Hn Hp)|split; intros [=]]. }
  rewrite bind_update. simpl_world. rewrite Hu. cbn [default from_option id].
  rewrite Hvalid. cbn [negb ret].
  intros [= <- <-]. simpl_world.
  split; [intros Hn; destruct (Hn Hp)|]. split; [intros [=]|intros _].
  unfold workPaid. simpl_world. fold old. repeat split; eauto.
  intros uid Hne. rewrite lookup_insert_ne by congruence. reflexivity.
Qed.

Section V2_approval_cases.
Variable validateWalletData : option WalletBalance -> bool.
Variable validateWorkData : option Work -> bool.
Variable validateUserAuthorization : string -> string -> bool -> bool.

Lemma approveWorkAndCredit_cases_V2 (workId userId campaignId : string)
    (reward_ : Qc) (currentAdminId : option string) (w : World) :
  let run := V2.approveWorkAndCredit validateWalletData validateWorkData
               validateUserAuthorization workId userId campaignId reward_
               currentAdminId w in
  (~ isPendingWork (db w) userId workId -> refused w run)
  /\ (run.1 = Returned false -> db run.2 = db w)
  /\ (run.1 = Returned true -> workPaid (db w) (db run.2) workId userId reward_).
Proof.
  intros run. subst run.
  destruct (V2.approveWorkAndCredit _ _ _ workId userId campaignId reward_ currentAdminId w)
    as [o w'] eqn:Hrun.
  cbn [fst snd]. revert Hrun. unfold V2.approveWorkAndCredit.
  do 4 guard_step early.
  destruct (guarded_frame currentAdminId
              (fun ca => V2.verifyUserAuthorization validateUserAuthorization ca userId true) w)
    as (d & rs & Hg).
  { intros cu w0. apply verifyUserAuthorization_frame_V2. }
  unfold bind at 1. rewrite Hg.
  rewrite bind_throw_if. destruct d; [early|].
  guard_step early.
  unfold try_catch. rewrite bind_get. simpl_world.
  destruct (works (db w) !! (userId, workId)) as [wk|] eqn:Hwk; [|early].
  rewrite bind_throw_if.
  destruct (str_is (w_status wk) "pending") eqn:Hpending; cbn [negb]; [|early].
  assert (Hst : w_status wk = Some "pending") by (apply str_is_eq, Hpending).
  assert (Hp : isPendingWork (db w) userId workId) by (exists wk; auto).
  rewrite bind_throw_if. destruct (validateWorkData (Some wk)) eqn:Hrw; cbn [negb].
  2: { intros [= <- <-]. split; [intros Hn; destruct (Hn Hp)|split; intros [=]]. }
  rewrite bind_runTransaction. simpl_world. rewrite Hwk.
  unfold V2.workApprove. rewrite Hpending, Hrw. cbn [negb fst snd].
  rewrite bind_runTransaction. simpl_world.
  unfold V2.walletCredit.
  set (old := default zeroWallet (wallets (db w) !! userId)).
  set (new := with_earnedBalance (js_add (earnedBalance old) (JNum reward_)) old).
  destruct (validateWalletData (Some new)) eqn:Hvalid; cbn [negb fst snd].
  2: { rewrite bind_update. simpl_world. cbn [ret]. intros [= <- <-]. simpl_world.
       split; [intros Hn; destruct (Hn Hp)|]. split; [intros _|intros [=]].
       rewrite lookup_insert_eq. cbn [default from_option id].
       rewrite with_w_status_twice, (with_w_status_same _ _ Hst), insert_insert_eq.
       rewrite (insert_id _ _ _ Hwk). apply store_eta. }
  rewrite bind_get. simpl_world.
  destruct (users (db w) !! userId) as [u|] eqn:Hu.
  2: { rewrite bind_ret. cbn [ret]. intros [= <- <-]. simpl_world.
       split; [intros Hn; destruct (Hn Hp)|]. split; [intros [=]|intros _].
       unfold workPaid. simpl_world. fold old. repeat split; eauto. }
  rewrite bind_assoc, bind_throw_if.
  match goal with |- context [if ?c then (Thrown _, _) else _] => destruct c end.
  { intros [= <- <-]. split; [intros Hn; destruct (Hn Hp)|split; intros [=]]. }
  rewrite bind_update. simpl_world. rewrite Hu. cbn [default from_option id ret].
  intros [= <- <-]. simpl_world.
  split; [intros Hn; destruct (Hn Hp)|]. split; [intros [=]|intros _].
  unfold workPaid. simpl_world. fold old. repeat split; eauto.
  intros uid Hne. rewrite lookup_insert_ne by congruence. reflexivity.
Qed.

End V2_approval_cases.

Lemma workPaid_not_pending (s s' : Store) (workId userId : string) (reward_ : Qc) :
  workPaid s s' workId userId reward_ -> ~ isPendingWork s' userId workId.
Proof.
  intros ((wk & _ & _ & Hw') & _) (wk' & Hwk' & Hst).
  rewrite Hw', lookup_insert_eq in Hwk'. injection Hwk' as <-.
  cbn in Hst. discriminate.
Qed.

(** X2: [approveWorkAndCredit] pays a work item once.  A call for a work
    item that does not exist or is not pending throws before it writes
    anything; a call that returns true has turned the pending item into an
    approved one and raised the wallet's [earnedBalance], in one addition, by the
    reward (no other wallet, work item, campaign or request is touched); so
    every further call for the same item, whatever its other arguments, is
    refused and pays nothing.  In both copies of the module. *)
Theorem approveWorkAndCredit_pays_once (workId userId campaignId1 campaignId2 : string)
    (reward1 reward2 : Qc) (admin1 admin2 : option string) (w : World) :
  (let run1 := V1.approveWorkAndCredit workId userId campaignId1 reward1 admin1 w in
   (~ isPendingWork (db w) userId workId -> refused w run1)
   /\ (run1.1 = Returned true ->
       workPaid (db w) (db run1.2) workId userId reward1
       /\ refused run1.2
            (V1.approveWorkAndCredit workId userId campaignId2 reward2 admin2 run1.2)))
  /\ (forall (validateWalletData : option WalletBalance -> bool)
             (validateWorkData : option Work -> bool)
             (validateUserAuthorization : string -> string -> bool -> bool),
      let approve := V2.approveWorkAndCredit validateWalletData validateWorkData
                       validateUserAuthorization in
      let run1 := approve workId userId campaignId1 reward1 admin1 w in
      (~ isPendingWork (db w) userId workId -> refused w run1)
      /\ (run1.1 = Returned true ->
          workPaid (db w) (db run1.2) workId userId reward1
          /\ refused run1.2 (approve workId userId campaignId2 reward2 admin2 run1.2))).
Proof.
  split.
  - intros run1.
    destruct (approveWorkAndCredit_cases_V1 workId userId campaignId1 reward1 admin1 w)
      as (Hrefuse & _ & Hpaid).
    split; [exact Hrefuse|]. intros Hok. specialize (Hpaid Hok).
    split; [exact Hpaid|].
    apply approveWorkAndCredit_cases_V1. eapply workPaid_not_pending, Hpaid.
  - intros vW vWk vA approve run1.
    destruct (approveWorkAndCredit_cases_V2 vW vWk vA workId userId campaignId1 reward1
                admin1 w) as (Hrefuse & _ & Hpaid).
    split; [exact Hrefuse|]. intros Hok. specialize (Hpaid Hok).
    split; [exact Hpaid|].
    apply approveWorkAndCredit_cases_V2. eapply workPaid_not_pending, Hpaid.
Qed.

Lemma approveWorkAndCredit_pays_once_witness :
  let run1 := V1.approveWorkAndCredit "w1" "u1" "c1" (num 50) None reviewWorld in
  workPaid (db reviewWorld) (db run1.2) "w1" "u1" (num 50)
  /\ refused run1.2 (V1.approveWorkAndCredit "w1" "u1" "c1" (num 50) None run1.2)
  /\ refused emptyWorld (V1.approveWorkAndCredit "w1" "u1" "c1" (num 50) None emptyWorld).
Proof.
  intros run1.
  destruct (approveWorkAndCredit_pays_once "w1" "u1" "c1" "c1" (num 50) (num 50) None None
              reviewWorld) as [[_ H1] _].
  destruct (approveWorkAndCredit_pays_once "w1" "u1" "c1" "c1" (num 50) (num 50) None None
              emptyWorld) as [[H0 _] _].
  destruct H1 as [Hpaid Hrefused]; [vm_compute; reflexivity|].
  split; [exact Hpaid|]. split; [exact Hrefused|].
  apply H0. intros (wk & Hwk & _). vm_compute in Hwk. discriminate.
Defined.

(** X3: when [approveWorkAndCredit] returns false (the wallet transaction
    did not commit, for instance because the credit would lift
    [earnedBalance] above 10,000,000), the work item is pending again and
    the whole store is what it was before the call.  In both copies. *)
Theorem approveWorkAndCredit_false_unchanged (workId userId campaignId : string)
    (reward_ : Qc) (currentAdminId : option string) (w : World) :
  (let run := V1.approveWorkAndCredit workId userId campaignId reward_ currentAdminId w in
   run.1 = Returned false -> db run.2 = db w)
  /\ (forall (validateWalletData : option WalletBalance -> bool)
             (validateWorkData : option Work -> bool)
             (validateUserAuthorization : string -> string -> bool -> bool),
      let run := V2.approveWorkAndCredit validateWalletData validateWorkData
                   validateUserAuthorization workId userId campaignId reward_
                   currentAdminId w in
      run.1 = Returned false -> db run.2 = db w).
Proof.
  split.
  - apply approveWorkAndCredit_cases_V1.
  - intros vW vWk vA. apply approveWorkAndCredit_cases_V2.
Qed.

Lemma approveWorkAndCredit_false_unchanged_witness :
  (V1.approveWorkAndCredit "w1" "u1" "c1" (num 50) None cappedWorld).1 = Returned false
  /\ db (V1.approveWorkAndCredit "w1" "u1" "c1" (num 50) None cappedWorld).2
     = db cappedWorld
  /\ db (V2.approveWorkAndCredit V1.validateWalletData specValidateWorkData
           (fun _ _ _ => true) "w1" "u1" "c1" (num 50) None cappedWorld).2
     = db cappedWorld.
Proof.
  destruct (approveWorkAndCredit_false_unchanged "w1" "u1" "c1" (num 50) None cappedWorld)
    as [H1 H2].
  split; [vm_compute; reflexivity|]. split.
  - apply H1. vm_compute. reflexivity.
  - apply (H2 V1.validateWalletData specValidateWorkData (fun _ _ _ => true)).
    vm_compute. reflexivity.
Defined.

(** ** Money requests: what each outcome means *)

Lemma js_eq_JNum (v : jsnum) (q : Qc) : js_eq v (JNum q) = true <-> v = JNum q.
Proof.
  destruct v as [| |x]; cbn; [split; discriminate | split; discriminate |].
  rewrite Qceqb_eq. split; congruence.
Qed.

Lemma with_r_status_twice (r : MoneyRequest) (a b : jsstr) :
  with_r_status a (with_r_status b r) = with_r_status a r.
Proof. reflexivity. Qed.

Lemma with_r_status_same (r : MoneyRequest) (st : string) :
  r_status r = Some st -> with_r_status (Some st) r = r.
Proof. destruct r; cbn; intros ->; reflexivity. Qed.

(** A run that ended here threw after it had found the pending item [Hp],
    and before it wrote anything. *)
Ltac late Hp :=
  let Hn := fresh "Hn" in
  intros [= <- <-]; split; [intros Hn; destruct (Hn Hp) | split; intros [=]].

(** A run that ended here returned false after it had set the request back
    to pending. *)
Ltac restored Hp Hst Hr :=
  let Hn := fresh "Hn" in
  cbn [ret]; intros [= <- <-]; simpl_world;
  split; [intros Hn; destruct (Hn Hp) | split; [intros _ | intros [=]]];
  rewrite lookup_insert_eq; cbn [default from_option id];
  rewrite with_r_status_twice, (with_r_status_same _ _ Hst), insert_insert_eq,
    (insert_id _ _ _ Hr);
  apply store_eta.

(** A run that ended here returned true. *)
Ltac settled Hp r :=
  let Hn := fresh "Hn" in
  let uid := fresh "uid" in
  let Hne := fresh "Hne" in
  intros [= <- <-]; simpl_world;
  split; [intros Hn; destruct (Hn Hp) | split; [intros [=] | intros _]];
  unfold requestSettled; simpl_world; cbn [requestsOf otherType];
  split; [exists r; auto |];
  do 3 (split; [reflexivity|]);
  split; [intros uid Hne; rewrite ?lookup_insert_ne by congruence; auto |];
  rewrite ?lookup_insert_eq; auto.

Lemma processMoneyRequest_cases_V1 (requestId : string) (type : RequestType)
    (userId : string) (amount : Qc) (status : Decision)
    (currentAdminId : option string) (w : World) :
  let run := V1.processMoneyRequest requestId type userId amount status currentAdminId w in
  (~ isPendingRequest (db w) type requestId -> refused w run)
  /\ (run.1 = Returned false -> db run.2 = db w)
  /\ (run.1 = Returned true ->
      requestSettled (db w) (db run.2) requestId type userId amount status).
Proof.
  intros run. subst run.
  destruct (V1.processMoneyRequest requestId type userId amount status currentAdminId w)
    as [o w'] eqn:Hrun.
  cbn [fst snd]. revert Hrun. unfold V1.processMoneyRequest. cbv zeta.
  destruct (guarded_frame currentAdminId
              (fun ca => V1.verifyUserAuthorization ca userId true) w) as (d & rs & Hg).
  { intros cu w0. apply verifyUserAuthorization_frame. }
  unfold bind at 1. rewrite Hg.
  rewrite bind_throw_if. destruct d; [early|].
  guard_step early.
  rewrite try_catch_rethrow.
  destruct type; cbn [V1.requestsC]; rewrite bind_get; simpl_world.
  - destruct (addMoney (db w) !! requestId) as [r|] eqn:Hr; [|early].
    rewrite bind_throw_if.
    destruct (str_is (r_status r) "pending") eqn:Hpending; cbn [negb]; [|early].
    assert (Hst : r_status r = Some "pending") by (apply str_is_eq, Hpending).
    assert (Hp : isPendingRequest (db w) add_money requestId) by (exists r; auto).
    rewrite bind_throw_if.
    destruct (js_eq (r_amount r) (JNum amount)) eqn:Ham;
      destruct (str_is (r_type r) (RequestType_str add_money)) eqn:Hty;
      destruct (str_is (r_userId r) userId) eqn:Huid; cbn [negb orb]; try late Hp.
    apply js_eq_JNum in Ham. apply str_is_eq in Huid.
    rewrite bind_update. simpl_world. rewrite Hr. cbn [default from_option id].
    destruct status.
    + rewrite bind_runTransaction. simpl_world.
      unfold V1.addMoneyCredit. cbv zeta.
      set (old := default zeroWallet (wallets (db w) !! userId)).
      destruct (V1.validateWalletData (Some old)); cbn [negb fst snd].
      2: { rewrite bind_update. simpl_world. restored Hp Hst Hr. }
      fold (moneyAdded amount old).
      destruct (V1.validateWalletData (Some (moneyAdded amount old))) eqn:Hvalid;
        cbn [negb fst snd].
      2: { rewrite bind_update. simpl_world. restored Hp Hst Hr. }
      rewrite Hvalid. cbn [negb ret]. settled Hp r.
    + cbn [ret]. settled Hp r.
  - destruct (withdrawals (db w) !! requestId) as [r|] eqn:Hr; [|early].
    rewrite bind_throw_if.
    destruct (str_is (r_status r) "pending") eqn:Hpending; cbn [negb]; [|early].
    assert (Hst : r_status r = Some "pending") by (apply str_is_eq, Hpending).
    assert (Hp : isPendingRequest (db w) withdrawal requestId) by (exists r; auto).
    rewrite bind_throw_if.
    destruct (js_eq (r_amount r) (JNum amount)) eqn:Ham;
      destruct (str_is (r_type r) (RequestType_str withdrawal)) eqn:Hty;
      destruct (str_is (r_userId r) userId) eqn:Huid; cbn [negb orb]; try late Hp.
    apply js_eq_JNum in Ham. apply str_is_eq in Huid.
    rewrite bind_update. simpl_world. rewrite Hr. cbn [default from_option id].
    destruct status.
    + rewrite bind_runTransaction. simpl_world.
      unfold V1.withdrawalDebit. cbv zeta.
      set (old := default zeroWallet (wallets (db w) !! userId)).
      destruct (V1.validateWalletData (Some old)); cbn [negb fst snd].
      2: { rewrite bind_update. simpl_world. restored Hp Hst Hr. }
      destruct (js_lt (earnedBalance old) (JNum amount)) eqn:Hcover; cbn [fst snd].
      { rewrite bind_update. simpl_world. restored Hp Hst Hr. }
      fold (moneyWithdrawn amount old).
      destruct (V1.validateWalletData (Some (moneyWithdrawn amount old))) eqn:Hvalid;
        cbn [negb fst snd].
      2: { rewrite bind_update. simpl_world. restored Hp Hst Hr. }
      rewrite Hvalid. cbn [negb]. rewrite bind_get. simpl_world.
      destruct (users (db w) !! userId) as [u|] eqn:Hu.
      2: { rewrite bind_ret. cbn [ret]. settled Hp r. }
      rewrite bind_assoc, bind_throw_if.
      match goal with |- context [if ?c then (Thrown _, _) else _] => destruct c end;
        [late Hp|].
      rewrite bind_update. simpl_world. cbn [ret]. settled Hp r.
    + cbn [ret]. settled Hp r.
Qed.

Section V2_request_cases.
Variable validateWalletData : option WalletBalance -> bool.
Variable validateUserAuthorization : string -> string -> bool -> bool.

Lemma processMoneyRequest_cases_V2 (requestId : string) (type : RequestType)
    (userId : string) (amount : Qc) (status : Decision)
    (currentAdminId : option string) (w : World) :
  let run := V2.processMoneyRequest validateWalletData validateUserAuthorization
               requestId type userId amount status currentAdminId w in
  (~ isPendingRequest (db w) type requestId -> refused w run)
  /\ (run.1 = Returned false -> db run.2 = db w)
  /\ (run.1 = Returned true ->
      requestSettled (db w) (db run.2) requestId type userId amount status).
Proof.
  intros run. subst run.
  destruct (V2.processMoneyRequest _ _ requestId type userId amount status currentAdminId w)
    as [o w'] eqn:Hrun.
  cbn [fst snd]. revert Hrun. unfold V2.processMoneyRequest. cbv zeta.
  do 3 guard_step early.
  destruct (guarded_frame currentAdminId
              (fun ca => V2.verifyUserAuthorization validateUserAuthorization ca userId true) w)
    as (d & rs & Hg).
  { intros cu w0. apply verifyUserAuthorization_frame_V2. }
  unfold bind at 1. rewrite Hg.
  rewrite bind_throw_if. destruct d; [early|].
  guard_step early.
  unfold try_catch.
  destruct type; cbn [V2.requestsC]; rewrite bind_get; simpl_world.
  - destruct (addMoney (db w) !! requestId) as [r|] eqn:Hr; [|early].
    rewrite bind_throw_if.
    destruct (str_is (r_status r) "pending") eqn:Hpending; cbn [negb]; [|early].
    assert (Hst : r_status r = Some "pending") by (apply str_is_eq, Hpending).
    assert (Hp : isPendingRequest (db w) add_money requestId) by (exists r; auto).
    rewrite bind_throw_if.
    destruct (js_eq (r_amount r) (JNum amount)) eqn:Ham;
      destruct (str_is (r_type r) (RequestType_str add_money)) eqn:Hty;
      destruct (str_is (r_userId r) userId) eqn:Huid; cbn [negb orb]; try late Hp.
    apply js_eq_JNum in Ham. apply str_is_eq in Huid.
    rewrite bind_update. simpl_world. rewrite Hr. cbn [default from_option id].
    destruct status.
    + rewrite bind_runTransaction. simpl_world.
      unfold V2.addMoneyCredit. cbv zeta.
      set (old := default zeroWallet (wallets (db w) !! userId)).
      destruct (validateWalletData (Some old)); cbn [negb fst snd].
      2: { rewrite bind_update. simpl_world. restored Hp Hst Hr. }
      fold (moneyAdded amount old).
      destruct (validateWalletData (Some (moneyAdded amount old))) eqn:Hvalid;
        cbn [negb fst snd].
      2: { rewrite bind_update. simpl_world. restored Hp Hst Hr. }
      cbn [ret]. settled Hp r.
    + cbn [ret]. settled Hp r.
  - destruct (withdrawals (db w) !! requestId) as [r|] eqn:Hr; [|early].
    rewrite bind_throw_if.
    destruct (str_is (r_status r) "pending") eqn:Hpending; cbn [negb]; [|early].
    assert (Hst : r_status r = Some "pending") by (apply str_is_eq, Hpending).
    assert (Hp : isPendingRequest (db w) withdrawal requestId) by (exists r; auto).
    rewrite bind_throw_if.
    destruct (js_eq (r_amount r) (JNum amount)) eqn:Ham;
      destruct (str_is (r_type r) (RequestType_str withdrawal)) eqn:Hty;
      destruct (str_is (r_userId r) userId) eqn:Huid; cbn [negb orb]; try late Hp.
    apply js_eq_JNum in Ham. apply str_is_eq in Huid.
    rewrite bind_update. simpl_world. rewrite Hr. cbn [default from_option id].
    destruct status.
    + rewrite bind_runTransaction. simpl_world.
      unfold V2.withdrawalDebit. cbv zeta.
      set (old := default zeroWallet (wallets (db w) !! userId)).
      destruct (validateWalletData (Some old)); cbn [negb fst snd].
      2: { rewrite bind_update. simpl_world. restored Hp Hst Hr. }
      destruct (js_lt (earnedBalance old) (JNum amount)) eqn:Hcover; cbn [fst snd].
      { rewrite bind_update. simpl_world. restored Hp Hst Hr. }
      fold (moneyWithdrawn amount old).
      destruct (validateWalletData (Some (moneyWithdrawn amount old))) eqn:Hvalid;
        cbn [negb fst snd].
      2: { rewrite bind_update. simpl_world. restored Hp Hst Hr. }
      rewrite Hvalid. cbn [negb]. rewrite bind_get. simpl_world.
      destruct (users (db w) !! userId) as [u|] eqn:Hu.
      2: { rewrite bind_ret. cbn [ret]. settled Hp r. }
      rewrite bind_update. simpl_world. cbn [ret]. settled Hp r.
    + cbn [ret]. settled Hp r.
Qed.

End V2_request_cases.

Lemma requestSettled_not_pending (s s' : Store) (requestId : string)
    (type : RequestType) (userId : string) (amount : Qc) (status : Decision) :
  requestSettled s s' requestId type userId amount status ->
  ~ isPendingRequest s' type requestId.
Proof.
  intros ((r & _ & _ & _ & _ & Hs') & _) (r' & Hr' & Hst).
  rewrite Hs', lookup_insert_eq in Hr'. injection Hr' as <-.
  destruct status; cbn in Hst; discriminate.
Qed.

(** X4: what [processMoneyRequest] has done when it returns true.  The
    request was pending, its stored amount and user are the ones passed,
    and it now carries the decision.  A rejection changes nothing else.  An
    approved add-money request raises [addedBalance] by the amount and
    lowers [pendingAddMoney] by it, but not below 0; an approved withdrawal
    lowers [earnedBalance] by the amount, which it covered, and raises
    [totalWithdrawn] by it.  No campaign, work item, request of the other
    type, or wallet or profile of another user is touched.  In both copies
    of the module. *)
Theorem processMoneyRequest_settles (requestId : string) (type : RequestType)
    (userId : string) (amount : Qc) (status : Decision)
    (currentAdminId : option string) (w : World) :
  (let run := V1.processMoneyRequest requestId type userId amount status currentAdminId w in
   run.1 = Returned true ->
   requestSettled (db w) (db run.2) requestId type userId amount status)
  /\ (forall (validateWalletData : option WalletBalance -> bool)
             (validateUserAuthorization : string -> string -> bool -> bool),
      let run := V2.processMoneyRequest validateWalletData validateUserAuthorization
                   requestId type userId amount status currentAdminId w in
      run.1 = Returned true ->
      requestSettled (db w) (db run.2) requestId type userId amount status).
Proof.
  split.
  - apply processMoneyRequest_cases_V1.
  - intros vW vA. apply processMoneyRequest_cases_V2.
Qed.

Lemma processMoneyRequest_settles_witness :
  requestSettled (db payoutWorld)
    (db (V1.processMoneyRequest "r1" add_money "u1" (num 10) approved None payoutWorld).2)
    "r1" add_money "u1" (num 10) approved
  /\ requestSettled (db payoutWorld)
       (db (V1.processMoneyRequest "r2" withdrawal "u1" (num 600) approved None
              payoutWorld).2)
       "r2" withdrawal "u1" (num 600) approved
  /\ requestSettled (db payoutWorld)
       (db (V2.processMoneyRequest V1.validateWalletData (fun _ _ _ => true)
              "r2" withdrawal "u1" (num 600) rejected None payoutWorld).2)
       "r2" withdrawal "u1" (num 600) rejected.
Proof.
  destruct (processMoneyRequest_settles "r1" add_money "u1" (num 10) approved None
              payoutWorld) as [H1 _].
  destruct (processMoneyRequest_settles "r2" withdrawal "u1" (num 600) approved None
              payoutWorld) as [H2 _].
  destruct (processMoneyRequest_settles "r2" withdrawal "u1" (num 600) rejected None
              payoutWorld) as [_ H3].
  split; [|split].
  - apply H1. vm_compute. reflexivity.
  - apply H2. vm_compute. reflexivity.
  - apply (H3 V1.validateWalletData (fun _ _ _ => true)). vm_compute. reflexivity.
Defined.

(** X5: when [processMoneyRequest] returns false (the wallet transaction
    did not commit, for instance a withdrawal that [earnedBalance] does not
    cover), the request is pending again and the whole store is what it was
    before the call.  In both copies of the module. *)
Theorem processMoneyRequest_false_unchanged (requestId : string) (type : RequestType)
    (userId : string) (amount : Qc) (status : Decision)
    (currentAdminId : option string) (w : World) :
  (let run := V1.processMoneyRequest requestId type userId amount status currentAdminId w in
   run.1 = Returned false -> db run.2 = db w)
  /\ (forall (validateWalletData : option WalletBalance -> bool)
             (validateUserAuthorization : string -> string -> bool -> bool),
      let run := V2.processMoneyRequest validateWalletData validateUserAuthorization
                   requestId type userId amount status currentAdminId w in
      run.1 = Returned false -> db run.2 = db w).
Proof.
  split.
  - apply processMoneyRequest_cases_V1.
  - intros vW vA. apply processMoneyRequest_cases_V2.
Qed.

Lemma processMoneyRequest_false_unchanged_witness :
  (V1.processMoneyRequest "r2" withdrawal "u1" (num 600) approved None brokeWorld).1
    = Returned false
  /\ db (V1.processMoneyRequest "r2" withdrawal "u1" (num 600) approved None brokeWorld).2
     = db brokeWorld
  /\ db (V2.processMoneyRequest V1.validateWalletData (fun _ _ _ => true)
           "r2" withdrawal "u1" (num 600) approved None brokeWorld).2
     = db brokeWorld.
Proof.
  destruct (processMoneyRequest_false_unchanged "r2" withdrawal "u1" (num 600) approved
              None brokeWorld) as [H1 H2].
  split; [vm_compute; reflexivity|]. split.
  - apply H1. vm_compute. reflexivity.
  - apply (H2 V1.validateWalletData (fun _ _ _ => true)). vm_compute. reflexivity.
Defined.

(** X6: a money request is decided once.  A call of [processMoneyRequest]
    for a request that does not exist or is not pending throws before it
    writes anything; so after a call that returned true (approved or
    rejected), every further call for the same request, with any amount,
    user and decision, is refused and moves no money.  In both copies. *)
Theorem processMoneyRequest_decides_once (requestId : string) (type : RequestType)
    (userId1 userId2 : string) (amount1 amount2 : Qc) (status1 status2 : Decision)
    (admin1 admin2 : option string) (w : World) :
  (let run1 := V1.processMoneyRequest requestId type userId1 amount1 status1 admin1 w in
   (~ isPendingRequest (db w) type requestId -> refused w run1)
   /\ (run1.1 = Returned true ->
       refused run1.2
         (V1.processMoneyRequest requestId type userId2 amount2 status2 admin2 run1.2)))
  /\ (forall (validateWalletData : option WalletBalance -> bool)
             (validateUserAuthorization : string -> string -> bool -> bool),
      let process := V2.processMoneyRequest validateWalletData validateUserAuthorization in
      let run1 := process requestId type userId1 amount1 status1 admin1 w in
      (~ isPendingRequest (db w) type requestId -> refused w run1)
      /\ (run1.1 = Returned true ->
          refused run1.2 (process requestId type userId2 amount2 status2 admin2 run1.2))).
Proof.
  split.
  - intros run1.
    destruct (processMoneyRequest_cases_V1 requestId type userId1 amount1 status1 admin1 w)
      as (Hrefuse & _ & Hsettled).
    split; [exact Hrefuse|]. intros Hok.
    apply processMoneyRequest_cases_V1.
    eapply requestSettled_not_pending, Hsettled, Hok.
  - intros vW vA process run1.
    destruct (processMoneyRequest_cases_V2 vW vA requestId type userId1 amount1 status1
                admin1 w) as (Hrefuse & _ & Hsettled).
    split; [exact Hrefuse|]. intros Hok.
    apply processMoneyRequest_cases_V2.
    eapply requestSettled_not_pending, Hsettled, Hok.
Qed.

Lemma processMoneyRequest_decides_once_witness :
  let run1 := V1.processMoneyRequest "r1" add_money "u1" (num 10) approved None payoutWorld in
  refused run1.2
    (V1.processMoneyRequest "r1" add_money "u1" (num 10) approved None run1.2)
  /\ refused emptyWorld
       (V1.processMoneyRequest "r1" add_money "u1" (num 10) approved None emptyWorld).
Proof.
  intros run1.
  destruct (processMoneyRequest_decides_once "r1" add_money "u1" "u1" (num 10) (num 10)
              approved approved None None payoutWorld) as [[_ H1] _].
  destruct (processMoneyRequest_decides_once "r1" add_money "u1" "u1" (num 10) (num 10)
              approved approved None None emptyWorld) as [[H0 _] _].
  split.
  - apply H1. vm_compute. reflexivity.
  - apply H0. intros (r & Hr & _). vm_compute in Hr. discriminate.
Defined.

(** ** Applying to a campaign: applied, or refused *)

(** A run that ended here threw before it wrote anything. *)
Ltac refused_here :=
  intros [= <- <-]; simpl_world; right; unfold refused; cbn; repeat split; eauto.

Lemma applyToCampaign_cases_V1 (now : Z) (campaignId userId userName : string)
    (reward_ : Qc) (currentUserId : option string) (w : World) :
  let run := V1.applyToCampaign now campaignId userId userName reward_ currentUserId w in
  (run.1 = Returned true
   /\ applicationRecorded (db w) (db run.2) now campaignId userId userName reward_)
  \/ refused w run.
Proof.
  intros run. subst run.
  destruct (V1.applyToCampaign now campaignId userId userName reward_ currentUserId w)
    as [o w'] eqn:Hrun.
  cbn [fst snd]. revert Hrun. unfold V1.applyToCampaign.
  do 2 guard_step refused_here.
  rewrite try_catch_rethrow, bind_get. simpl_world.
  rewrite bind_throw_if.
  destruct (works (db w) !! (userId, campaignId)) as [wk|] eqn:Hwk.
  { rewrite bool_decide_eq_true_2 by eauto. refused_here. }
  rewrite bool_decide_eq_false_2 by (intros [? [=]]).
  rewrite bind_get. simpl_world.
  destruct (campaigns (db w) !! campaignId) as [c|] eqn:Hc; [|refused_here].
  guard_step refused_here.
  rewrite bind_throw_if.
  destruct (str_is (c_status c) "active") eqn:Hactive; cbn [negb]; [|refused_here].
  rewrite bind_throw_if.
  destruct (js_ge (completedWorkers c) (totalWorkers c)) eqn:Hfull; [refused_here|].
  guard_step refused_here.
  rewrite bind_set, bind_update. simpl_world. rewrite Hc.
  cbn [default from_option id ret].
  intros [= <- <-]. simpl_world. left. split; [reflexivity|].
  split; [exact Hwk|]. exists c. apply str_is_eq in Hactive. auto.
Qed.

Lemma applyToCampaign_cases_V2 (validateWorkData : option Work -> bool)
    (now : Z) (campaignId userId userName : string)
    (reward_ : Qc) (currentUserId : option string) (w : World) :
  let run := V2.applyToCampaign validateWorkData now campaignId userId userName
               reward_ currentUserId w in
  (run.1 = Returned true
   /\ applicationRecorded (db w) (db run.2) now campaignId userId userName reward_)
  \/ refused w run.
Proof.
  intros run. subst run.
  destruct (V2.applyToCampaign _ now campaignId userId userName reward_ currentUserId w)
    as [o w'] eqn:Hrun.
  cbn [fst snd]. revert Hrun. unfold V2.applyToCampaign.
  do 6 guard_step refused_here.
  unfold try_catch. rewrite bind_get. simpl_world.
  rewrite bind_throw_if.
  destruct (works (db w) !! (userId, campaignId)) as [wk|] eqn:Hwk.
  { rewrite bool_decide_eq_true_2 by eauto. refused_here. }
  rewrite bool_decide_eq_false_2 by (intros [? [=]]).
  rewrite bind_get. simpl_world.
  destruct (campaigns (db w) !! campaignId) as [c|] eqn:Hc; [|refused_here].
  rewrite bind_throw_if.
  destruct (str_is (c_status c) "active") eqn:Hactive; cbn [negb]; [|refused_here].
  rewrite bind_throw_if.
  destruct (js_ge (completedWorkers c) (totalWorkers c)) eqn:Hfull; [refused_here|].
  guard_step refused_here.
  rewrite bind_set, bind_update. simpl_world. rewrite Hc.
  cbn [default from_option id ret].
  intros [= <- <-]. simpl_world. left. split; [reflexivity|].
  split; [exact Hwk|]. exists c. apply str_is_eq in Hactive. auto.
Qed.

Lemma applicationRecorded_open (s s' : Store) (now : Z)
    (campaignId userId userName : string) (reward_ : Qc) :
  applicationRecorded s s' now campaignId userId userName reward_ ->
  ~ campaignClosed s campaignId.
Proof.
  intros (_ & c & Hc & Hactive & Hfull & _) Hclosed.
  destruct (Hclosed c Hc) as [Hn | Hf]; congruence.
Qed.

(** X7: a call of [applyToCampaign] either records the application or
    changes nothing.  When it returns true, there was no work item for
    (userId, campaignId), the campaign was active with [completedWorkers]
    below [totalWorkers], a pending work item with the reward passed is
    stored, [completedWorkers] is raised by 1 and nothing else has changed;
    in every other case it throws with the store and the write log
    untouched.  In particular a campaign that is missing, not active or
    full is never applied to.  In both copies of the module. *)
Theorem applyToCampaign_applies_or_refuses (now : Z)
    (campaignId userId userName : string) (reward_ : Qc)
    (currentUserId : option string) (w : World) :
  (let run := V1.applyToCampaign now campaignId userId userName reward_ currentUserId w in
   (run.1 = Returned true ->
    applicationRecorded (db w) (db run.2) now campaignId userId userName reward_)
   /\ (run.1 <> Returned true -> refused w run)
   /\ (campaignClosed (db w) campaignId -> refused w run))
  /\ (forall validateWorkData : option Work -> bool,
      let run := V2.applyToCampaign validateWorkData now campaignId userId userName
                   reward_ currentUserId w in
      (run.1 = Returned true ->
       applicationRecorded (db w) (db run.2) now campaignId userId userName reward_)
      /\ (run.1 <> Returned true -> refused w run)
      /\ (campaignClosed (db w) campaignId -> refused w run)).
Proof.
  split.
  - intros run. subst run.
    destruct (applyToCampaign_cases_V1 now campaignId userId userName reward_
                currentUserId w) as [[Hok Hrec] | Href].
    + split; [auto|]. split; [congruence|].
      intros Hclosed. destruct (applicationRecorded_open _ _ _ _ _ _ _ Hrec Hclosed).
    + split; [|auto]. destruct Href as ((msg & Hmsg) & _). intros Hok. congruence.
  - intros vWk run. subst run.
    destruct (applyToCampaign_cases_V2 vWk now campaignId userId userName reward_
                currentUserId w) as [[Hok Hrec] | Href].
    + split; [auto|]. split; [congruence|].
      intros Hclosed. destruct (applicationRecorded_open _ _ _ _ _ _ _ Hrec Hclosed).
    + split; [|auto]. destruct Href as ((msg & Hmsg) & _). intros Hok. congruence.
Qed.

Lemma applyToCampaign_applies_or_refuses_witness :
  applicationRecorded (db openWorld)
    (db (V1.applyToCampaign 1700000000001 "c1" "u2" "Uwe" (num 50) None openWorld).2)
    1700000000001 "c1" "u2" "Uwe" (num 50)
  /\ refused fullWorld
       (V1.applyToCampaign 1700000000001 "c1" "u2" "Uwe" (num 50) None fullWorld)
  /\ refused fullWorld
       (V2.applyToCampaign specValidateWorkData 1700000000001 "c1" "u2" "Uwe" (num 50)
          None fullWorld).
Proof.
  destruct (applyToCampaign_applies_or_refuses 1700000000001 "c1" "u2" "Uwe" (num 50) None
              openWorld) as [(H1 & _ & _) _].
  destruct (applyToCampaign_applies_or_refuses 1700000000001 "c1" "u2" "Uwe" (num 50) None
              fullWorld) as [(_ & _ & H2) H3].
  destruct (H3 specValidateWorkData) as (_ & H4 & _).
  assert (Hclosed : campaignClosed (db fullWorld) "c1").
  { intros c Hc. vm_compute in Hc. injection Hc as <-. right. vm_compute. reflexivity. }
  split; [|split].
  - apply H1. vm_compute. reflexivity.
  - apply H2, Hclosed.
  - apply H4. vm_compute. discriminate.
Defined.

(** * Submitting and rejecting work *)

Lemma submitWorkForCampaign_cases_V1 (now : Z) (campaignId userId proofUrl_ : string)
    (currentUserId : option string) (w : World) :
  let run := V1Ops.submitWorkForCampaign now campaignId userId proofUrl_ currentUserId w in
  (run.1 = Returned true
   /\ workSubmitted (db w) (db run.2) now campaignId userId proofUrl_)
  \/ refused w run.
Proof.
  intros run. subst run.
  destruct (V1Ops.submitWorkForCampaign now campaignId userId proofUrl_ currentUserId w)
    as [o w'] eqn:Hrun.
  cbn [fst snd]. revert Hrun. unfold V1Ops.submitWorkForCampaign.
  do 2 guard_step refused_here.
  rewrite bind_throw_if.
  destruct (startsWith proofUrl_ "http://") eqn:Hhttp;
    destruct (startsWith proofUrl_ "https://") eqn:Hhttps; cbn [negb andb];
    try refused_here.
  all: rewrite try_catch_rethrow, bind_get; simpl_world.
  all: destruct (works (db w) !! (userId, campaignId)) as [wk|] eqn:Hwk; [|refused_here].
  all: rewrite bind_throw_if.
  all: destruct (str_is (w_status wk) "pending") eqn:Hpending;
         destruct (str_is (w_status wk) "rejected") eqn:Hrejected; cbn [negb andb];
         try refused_here.
  all: guard_step refused_here.
  all: rewrite bind_update; simpl_world; rewrite Hwk; cbn [default from_option id ret].
  all: intros [= <- <-]; simpl_world; left; split; [reflexivity|].
  all: rewrite ?str_is_eq in *.
  all: split; [auto|]; exists wk; auto.
Qed.

Lemma submitWorkForCampaign_cases_V2 (validateWorkData : option Work -> bool)
    (now : Z) (campaignId userId proofUrl_ : string)
    (currentUserId : option string) (w : World) :
  let run := V2Ops.submitWorkForCampaign validateWorkData now campaignId userId proofUrl_
               currentUserId w in
  (run.1 = Returned true
   /\ workSubmitted (db w) (db run.2) now campaignId userId proofUrl_)
  \/ refused w run.
Proof.
  intros run. subst run.
  destruct (V2Ops.submitWorkForCampaign _ now campaignId userId proofUrl_ currentUserId w)
    as [o w'] eqn:Hrun.
  cbn [fst snd]. revert Hrun. unfold V2Ops.submitWorkForCampaign.
  do 5 guard_step refused_here.
  rewrite bind_throw_if.
  destruct (startsWith proofUrl_ "http://") eqn:Hhttp;
    destruct (startsWith proofUrl_ "https://") eqn:Hhttps; cbn [negb andb];
    try refused_here.
  all: unfold try_catch; rewrite bind_get; simpl_world.
  all: destruct (works (db w) !! (userId, campaignId)) as [wk|] eqn:Hwk; [|refused_here].
  all: rewrite bind_throw_if.
  all: destruct (str_is (w_status wk) "pending") eqn:Hpending;
         destruct (str_is (w_status wk) "rejected") eqn:Hrejected; cbn [negb andb];
         try refused_here.
  all: guard_step refused_here.
  all: rewrite bind_update; simpl_world; rewrite Hwk; cbn [default from_option id ret].
  all: intros [= <- <-]; simpl_world; left; split; [reflexivity|].
  all: rewrite ?str_is_eq in *.
  all: split; [auto|]; exists wk; auto.
Qed.

Lemma workSubmitted_submittable (s s' : Store) (now : Z)
    (campaignId userId proofUrl_ : string) :
  workSubmitted s s' now campaignId userId proofUrl_ ->
  ~ notSubmittable s userId campaignId.
Proof.
  intros (_ & wk & Hwk & Hst & _) Hnot.
  destruct (Hnot wk Hwk) as [Hp Hr]. destruct Hst; contradiction.
Qed.

(** X8: a call of [submitWorkForCampaign] either records the submission or
    changes nothing.  When it returns true, the proof URL starts with
    http:// or https://, the work item existed with status pending or
    rejected, and it now carries the proof, the status pending and the
    submission time, with its reward and the rest of the store unchanged;
    in every other case it throws with the store and the write log
    untouched.  In particular a proof that is not an http(s) URL is never
    stored, and an approved work item is never put back to pending.  In
    both copies of the module. *)
Theorem submitWorkForCampaign_submits_or_refuses (now : Z)
    (campaignId userId proofUrl_ : string) (currentUserId : option string) (w : World) :
  (let run := V1Ops.submitWorkForCampaign now campaignId userId proofUrl_ currentUserId w in
   (run.1 = Returned true ->
    workSubmitted (db w) (db run.2) now campaignId userId proofUrl_)
   /\ (run.1 <> Returned true -> refused w run)
   /\ (startsWith proofUrl_ "http://" = false -> startsWith proofUrl_ "https://" = false ->
       refused w run)
   /\ (notSubmittable (db w) userId campaignId -> refused w run))
  /\ (forall validateWorkData : option Work -> bool,
      let run := V2Ops.submitWorkForCampaign validateWorkData now campaignId userId
                   proofUrl_ currentUserId w in
      (run.1 = Returned true ->
       workSubmitted (db w) (db run.2) now campaignId userId proofUrl_)
      /\ (run.1 <> Returned true -> refused w run)
      /\ (startsWith proofUrl_ "http://" = false ->
          startsWith proofUrl_ "https://" = false -> refused w run)
      /\ (notSubmittable (db w) userId campaignId -> refused w run)).
Proof.
  split.
  - intros run. subst run.
    destruct (submitWorkForCampaign_cases_V1 now campaignId userId proofUrl_
                currentUserId w) as [[Hok Hsub] | Href].
    + split; [auto|]. split; [congruence|]. split.
      * intros H1 H2. destruct Hsub as ([H | H] & _); congruence.
      * intros Hnot. destruct (workSubmitted_submittable _ _ _ _ _ _ Hsub Hnot).
    + split; [|auto]. destruct Href as ((msg & Hmsg) & _). intros Hok. congruence.
  - intros vWk run. subst run.
    destruct (submitWorkForCampaign_cases_V2 vWk now campaignId userId proofUrl_
                currentUserId w) as [[Hok Hsub] | Href].
    + split; [auto|]. split; [congruence|]. split.
      * intros H1 H2. destruct Hsub as ([H | H] & _); congruence.
      * intros Hnot. destruct (workSubmitted_submittable _ _ _ _ _ _ Hsub Hnot).
    + split; [|auto]. destruct Href as ((msg & Hmsg) & _). intros Hok. congruence.
Qed.

Lemma submitWorkForCampaign_submits_or_refuses_witness :
  workSubmitted (db appliedWorld)
    (db (V1Ops.submitWorkForCampaign 1700000000002 "c1" "u1" "https://proof.example/1"
           None appliedWorld).2)
    1700000000002 "c1" "u1" "https://proof.example/1"
  /\ refused appliedWorld
       (V1Ops.submitWorkForCampaign 1700000000002 "c1" "u1" "ftp://proof.example/1"
          None appliedWorld)
  /\ refused approvedWorld
       (V1Ops.submitWorkForCampaign 1700000000002 "c1" "u1" "https://proof.example/1"
          None approvedWorld)
  /\ refused approvedWorld
       (V2Ops.submitWorkForCampaign specValidateWorkData 1700000000002 "c1" "u1"
          "https://proof.example/1" None approvedWorld).
Proof.
  destruct (submitWorkForCampaign_submits_or_refuses 1700000000002 "c1" "u1"
              "https://proof.example/1" None appliedWorld) as [(H1 & _) _].
  destruct (submitWorkForCampaign_submits_or_refuses 1700000000002 "c1" "u1"
              "ftp://proof.example/1" None appliedWorld) as [(_ & _ & H2 & _) _].
  destruct (submitWorkForCampaign_submits_or_refuses 1700000000002 "c1" "u1"
              "https://proof.example/1" None approvedWorld) as [(_ & _ & _ & H3) H4].
  destruct (H4 specValidateWorkData) as (_ & H5 & _).
  split; [|split; [|split]].
  - apply H1. vm_compute. reflexivity.
  - apply H2; reflexivity.
  - apply H3. intros wk Hwk. vm_compute in Hwk. injection Hwk as <-.
    split; discriminate.
  - apply H5. vm_compute. discriminate.
Defined.

(** ** Rejection *)

Lemma sameMoney_refl (s : Store) : sameMoney s s.
Proof. unfold sameMoney. auto 10. Qed.

Lemma sameMoney_works (s : Store) (m : gmap (string * string) Work) :
  sameMoney s
    (mkStore (users s) (wallets s) (campaigns s) m (addMoney s) (withdrawals s)).
Proof. unfold sameMoney. cbn. auto 10. Qed.

Lemma sameMoney_counter (s : Store) (m : gmap (string * string) Work)
    (campaignId : string) (c : Campaign) (v : jsnum) :
  campaigns s !! campaignId = Some c ->
  sameMoney s
    (mkStore (users s) (wallets s)
       (<[campaignId := with_completedWorkers v c]> (campaigns s)) m
       (addMoney s) (withdrawals s)).
Proof.
  intros Hc. unfold sameMoney. cbn. do 4 (split; [reflexivity|]).
  intros id. destruct (decide (id = campaignId)) as [->|Hne].
  - rewrite lookup_insert_eq, Hc. split; reflexivity.
  - rewrite lookup_insert_ne by congruence. split; reflexivity.
Qed.

(** A run that ended here threw before it wrote anything. *)
Ltac quiet :=
  intros [= <- <-]; simpl_world;
  split; [intros _; unfold refused; cbn; repeat split; eauto
         | split; [intros [=] | apply sameMoney_refl]].

Lemma rejectWork_cases_V1 (workId userId campaignId : string)
    (currentAdminId : option string) (w : World) :
  let run := V1Ops.rejectWorkAndRestoreCampaignBudget workId userId campaignId
               currentAdminId w in
  (~ isPendingWork (db w) userId workId -> refused w run)
  /\ (run.1 = Returned true -> workRejected (db w) (db run.2) workId userId campaignId)
  /\ sameMoney (db w) (db run.2).
Proof.
  intros run. subst run.
  destruct (V1Ops.rejectWorkAndRestoreCampaignBudget workId userId campaignId
              currentAdminId w) as [o w'] eqn:Hrun.
  cbn [fst snd]. revert Hrun. unfold V1Ops.rejectWorkAndRestoreCampaignBudget.
  destruct (guarded_frame currentAdminId
              (fun ca => V1.verifyUserAuthorization ca userId true) w) as (d & rs & Hg).
  { intros cu w0. apply verifyUserAuthorization_frame. }
  unfold bind at 1. rewrite Hg.
  rewrite bind_throw_if. destruct d; [quiet|].
  guard_step quiet.
  rewrite try_catch_rethrow, bind_get. simpl_world.
  destruct (works (db w) !! (userId, workId)) as [wk|] eqn:Hwk; [|quiet].
  rewrite bind_throw_if.
  destruct (str_is (w_status wk) "pending") eqn:Hpending; cbn [negb]; [|quiet].
  assert (Hst : w_status wk = Some "pending") by (apply str_is_eq, Hpending).
  assert (Hp : isPendingWork (db w) userId workId) by (exists wk; auto).
  guard_step ltac:(intros [= <- <-]; simpl_world;
                   split; [intros Hn; destruct (Hn Hp)|];
                   split; [intros [=] | apply sameMoney_refl]).
  rewrite bind_update. simpl_world. rewrite Hwk. cbn [default from_option id].
  rewrite bind_get. simpl_world.
  destruct (campaigns (db w) !! campaignId) as [c|] eqn:Hc.
  2: { rewrite bind_ret. cbn [ret]. intros [= <- <-]. simpl_world.
       split; [intros Hn; destruct (Hn Hp)|]. split; [intros _|apply sameMoney_works].
       exists wk. simpl_world. rewrite Hc. auto. }
  rewrite bind_assoc, bind_throw_if.
  destruct (negb (V1.validateCampaignData (Some c))).
  { intros [= <- <-]. simpl_world.
    split; [intros Hn; destruct (Hn Hp)|]. split; [intros [=]|apply sameMoney_works]. }
  destruct (js_gt (completedWorkers c) (JNum 0%Qc)) eqn:Hpos.
  - rewrite bind_update. simpl_world. rewrite Hc. cbn [default from_option id ret].
    intros [= <- <-]. simpl_world.
    split; [intros Hn; destruct (Hn Hp)|].
    split; [intros _|apply sameMoney_counter, Hc].
    exists wk. simpl_world. rewrite Hc. unfold afterRejection. rewrite Hpos. auto.
  - rewrite bind_ret. cbn [ret]. intros [= <- <-]. simpl_world.
    split; [intros Hn; destruct (Hn Hp)|]. split; [intros _|apply sameMoney_works].
    exists wk. simpl_world. rewrite Hc. unfold afterRejection. rewrite Hpos.
    rewrite (insert_id _ _ _ Hc). auto.
Qed.

Section V2_rejection.
Variable validateWorkData : option Work -> bool.
Variable validateUserAuthorization : string -> string -> bool -> bool.

Lemma rejectWork_cases_V2 (workId userId campaignId : string)
    (currentAdminId : option string) (w : World) :
  let run := V2Ops.rejectWorkAndRestoreCampaignBudget validateWorkData
               validateUserAuthorization workId userId campaignId currentAdminId w in
  (~ isPendingWork (db w) userId workId -> refused w run)
  /\ (run.1 = Returned true -> workRejected (db w) (db run.2) workId userId campaignId)
  /\ sameMoney (db w) (db run.2).
Proof.
  intros run. subst run.
  destruct (V2Ops.rejectWorkAndRestoreCampaignBudget _ _ workId userId campaignId
              currentAdminId w) as [o w'] eqn:Hrun.
  cbn [fst snd]. revert Hrun. unfold V2Ops.rejectWorkAndRestoreCampaignBudget.
  do 3 guard_step quiet.
  destruct (guarded_frame currentAdminId
              (fun ca => V2.verifyUserAuthorization validateUserAuthorization ca userId true) w)
    as (d & rs & Hg).
  { intros cu w0. apply verifyUserAuthorization_frame_V2. }
  unfold bind at 1. rewrite Hg.
  rewrite bind_throw_if. destruct d; [quiet|].
  guard_step quiet.
  unfold try_catch. rewrite bind_get. simpl_world.
  destruct (works (db w) !! (userId, workId)) as [wk|] eqn:Hwk; [|quiet].
  rewrite bind_throw_if.
  destruct (str_is (w_status wk) "pending") eqn:Hpending; cbn [negb]; [|quiet].
  assert (Hst : w_status wk = Some "pending") by (apply str_is_eq, Hpending).
  assert (Hp : isPendingWork (db w) userId workId) by (exists wk; auto).
  guard_step ltac:(intros [= <- <-]; simpl_world;
                   split; [intros Hn; destruct (Hn Hp)|];
                   split; [intros [=] | apply sameMoney_refl]).
  rewrite bind_update. simpl_world. rewrite Hwk. cbn [default from_option id].
  rewrite bind_get. simpl_world.
  destruct (campaigns (db w) !! campaignId) as [c|] eqn:Hc.
  2: { rewrite bind_ret. cbn [ret]. intros [= <- <-]. simpl_world.
       split; [intros Hn; destruct (Hn Hp)|]. split; [intros _|apply sameMoney_works].
       exists wk. simpl_world. rewrite Hc. auto. }
  destruct (js_gt (completedWorkers c) (JNum 0%Qc)) eqn:Hpos.
  - rewrite bind_update. simpl_world. rewrite Hc. cbn [default from_option id ret].
    intros [= <- <-]. simpl_world.
    split; [intros Hn; destruct (Hn Hp)|].
    split; [intros _|apply sameMoney_counter, Hc].
    exists wk. simpl_world. rewrite Hc. unfold afterRejection. rewrite Hpos. auto.
  - rewrite bind_ret. cbn [ret]. intros [= <- <-]. simpl_world.
    split; [intros Hn; destruct (Hn Hp)|]. split; [intros _|apply sameMoney_works].
    exists wk. simpl_world. rewrite Hc. unfold afterRejection. rewrite Hpos.
    rewrite (insert_id _ _ _ Hc). auto.
Qed.

End V2_rejection.

Lemma Qcmax_r (a b : Qc) : (a <= b)%Qc -> Qcmax a b = b.
Proof.
  intros Hle. unfold Qcmax. destruct (Qcltb a b) eqn:Hlt; [reflexivity|].
  apply Qcltb_ge in Hlt. apply Qcle_antisym; assumption.
Qed.

Lemma afterRejection_counter (c : Campaign) (n : Qc) :
  completedWorkers c = JNum n ->
  ((1 <= n)%Qc -> completedWorkers (afterRejection c) = JNum (fl (n - 1)))
  /\ ((n <= 0)%Qc -> afterRejection c = c).
Proof.
  intros Hn. unfold afterRejection. rewrite Hn. split.
  - intros Hle. unfold js_gt. cbn [js_lt].
    assert (Hpos : (0 < n)%Qc) by (eapply Qclt_le_trans; [|exact Hle]; reflexivity).
    apply Qcltb_lt in Hpos. rewrite Hpos. cbn.
    rewrite Qcmax_r; [reflexivity|]. apply fl_diff_nonneg, Hle.
  - intros Hle. unfold js_gt. cbn [js_lt].
    apply Qcltb_ge in Hle. rewrite Hle. reflexivity.
Qed.

(** A counter that is an integer from 1 to 2^53 becomes the integer before
    it. *)
Lemma afterRejection_integer (c : Campaign) (z : Z) :
  completedWorkers c = JNum (num z) -> 1 <= z <= 2 ^ 53 ->
  completedWorkers (afterRejection c) = JNum (num (z - 1)).
Proof.
  intros Hn Hz. destruct (afterRejection_counter c (num z) Hn) as [H1 _].
  rewrite H1 by (rewrite <- num_1; apply num_le; lia).
  rewrite <- num_1, fl_num_minus by lia. reflexivity.
Qed.

(** X9: [rejectWorkAndRestoreCampaignBudget] rejects pending work only.  A
    call for a work item that does not exist or is not pending throws
    before it writes anything; a call that returns true has turned the
    pending item into a rejected one and, when the campaign exists, has
    lowered its [completedWorkers] by 1 if it was above 0 (a counter n >= 1
    becomes n - 1 as JavaScript computes it, which for an integer counter
    up to 2^53 is the integer before it; a counter at or below 0 stays).
    In both copies of the module. *)
Theorem rejectWork_rejects_pending (workId userId campaignId : string)
    (currentAdminId : option string) (w : World) :
  (let run := V1Ops.rejectWorkAndRestoreCampaignBudget workId userId campaignId
                currentAdminId w in
   (~ isPendingWork (db w) userId workId -> refused w run)
   /\ (run.1 = Returned true -> workRejected (db w) (db run.2) workId userId campaignId))
  /\ (forall (validateWorkData : option Work -> bool)
             (validateUserAuthorization : string -> string -> bool -> bool),
      let run := V2Ops.rejectWorkAndRestoreCampaignBudget validateWorkData
                   validateUserAuthorization workId userId campaignId currentAdminId w in
      (~ isPendingWork (db w) userId workId -> refused w run)
      /\ (run.1 = Returned true ->
          workRejected (db w) (db run.2) workId userId campaignId))
  /\ (forall (c : Campaign) (n : Qc), completedWorkers c = JNum n ->
        ((1 <= n)%Qc -> completedWorkers (afterRejection c) = JNum (fl (n - 1)))
        /\ ((n <= 0)%Qc -> afterRejection c = c))
  /\ (forall (c : Campaign) (z : Z), completedWorkers c = JNum (num z) ->
        1 <= z <= 2 ^ 53 -> completedWorkers (afterRejection c) = JNum (num (z - 1))).
Proof.
  split; [|split; [|split]].
  - intros run. split; apply rejectWork_cases_V1.
  - intros vWk vA run. split; apply rejectWork_cases_V2.
  - apply afterRejection_counter.
  - apply afterRejection_integer.
Qed.

Lemma rejectWork_rejects_pending_witness :
  let run := V1Ops.rejectWorkAndRestoreCampaignBudget "c1" "u1" "c1" None appliedWorld in
  workRejected (db appliedWorld) (db run.2) "c1" "u1" "c1"
  /\ completedWorkers (afterRejection (with_completedWorkers (JNum (num 1)) sampleCampaign))
     = JNum (num 0)
  /\ refused approvedWorld
       (V1Ops.rejectWorkAndRestoreCampaignBudget "c1" "u1" "c1" None approvedWorld)
  /\ refused approvedWorld
       (V2Ops.rejectWorkAndRestoreCampaignBudget specValidateWorkData (fun _ _ _ => true)
          "c1" "u1" "c1" None approvedWorld).
Proof.
  intros run.
  destruct (rejectWork_rejects_pending "c1" "u1" "c1" None appliedWorld)
    as ((_ & H1) & _ & _ & Hn).
  destruct (rejectWork_rejects_pending "c1" "u1" "c1" None approvedWorld)
    as ((H2 & _) & H3 & _).
  destruct (H3 specValidateWorkData (fun _ _ _ => true)) as (H4 & _).
  assert (Hnot : ~ isPendingWork (db approvedWorld) "u1" "c1").
  { intros (wk & Hwk & Hst). vm_compute in Hwk. injection Hwk as <-. discriminate. }
  split; [apply H1; vm_compute; reflexivity|].
  split; [|split; [apply H2, Hnot | apply H4, Hnot]].
  apply (Hn _ 1); [reflexivity|].
  split; intros H; vm_compute in H; discriminate H.
Defined.

(** X10: [rejectWorkAndRestoreCampaignBudget] moves no money, whatever its
    outcome: after every run the wallets, the profiles and the money
    requests are what they were, and every campaign has the
    [remainingBudget] and [totalBudget] it had (the name notwithstanding,
    no budget is restored; only the work status and [completedWorkers] are
    written).  In both copies of the module. *)
Theorem rejectWork_moves_no_money (workId userId campaignId : string)
    (currentAdminId : option string) (w : World) :
  sameMoney (db w)
    (db (V1Ops.rejectWorkAndRestoreCampaignBudget workId userId campaignId
           currentAdminId w).2)
  /\ (forall (validateWorkData : option Work -> bool)
             (validateUserAuthorization : string -> string -> bool -> bool),
      sameMoney (db w)
        (db (V2Ops.rejectWorkAndRestoreCampaignBudget validateWorkData
               validateUserAuthorization workId userId campaignId currentAdminId w).2)).
Proof.
  split.
  - apply rejectWork_cases_V1.
  - intros vWk vA. apply rejectWork_cases_V2.
Qed.

(** ** The life of a work item *)

Lemma approved_not_pending (s : Store) (userId workId : string) (wk : Work) :
  works s !! (userId, workId) = Some wk -> w_status wk = Some "approved" ->
  ~ isPendingWork s userId workId.
Proof. intros Hwk Hst (wk' & Hwk' & Hst'). congruence. Qed.

Lemma approved_notSubmittable (s : Store) (userId workId : string) (wk : Work) :
  works s !! (userId, workId) = Some wk -> w_status wk = Some "approved" ->
  notSubmittable s userId workId.
Proof. intros Hwk Hst wk' Hwk'. split; congruence. Qed.

(** X11: approved is final.  On a work item whose status is approved,
    every operation of the module that writes work items
    ([approveWorkAndCredit], [rejectWorkAndRestoreCampaignBudget],
    [submitWorkForCampaign] and [applyToCampaign], the last two for the
    item stored under the campaign's id) throws, with any other arguments,
    and leaves the store and the write and transaction logs untouched.  In
    both copies of the module. *)
Theorem approved_work_is_final (workId userId : string) (wk : Work) (w : World) :
  works (db w) !! (userId, workId) = Some wk ->
  w_status wk = Some "approved" ->
  (forall (campaignId userName proofUrl_ : string) (reward_ : Qc) (now : Z)
          (caller : option string),
     refused w (V1.approveWorkAndCredit workId userId campaignId reward_ caller w)
     /\ refused w (V1Ops.rejectWorkAndRestoreCampaignBudget workId userId campaignId
                     caller w)
     /\ refused w (V1Ops.submitWorkForCampaign now workId userId proofUrl_ caller w)
     /\ refused w (V1.applyToCampaign now workId userId userName reward_ caller w))
  /\ (forall (validateWalletData : option WalletBalance -> bool)
             (validateWorkData : option Work -> bool)
             (validateUserAuthorization : string -> string -> bool -> bool)
             (campaignId userName proofUrl_ : string) (reward_ : Qc) (now : Z)
             (caller : option string),
      refused w (V2.approveWorkAndCredit validateWalletData validateWorkData
                   validateUserAuthorization workId userId campaignId reward_ caller w)
      /\ refused w (V2Ops.rejectWorkAndRestoreCampaignBudget validateWorkData
                      validateUserAuthorization workId userId campaignId caller w)
      /\ refused w (V2Ops.submitWorkForCampaign validateWorkData now workId userId
                      proofUrl_ caller w)
      /\ refused w (V2.applyToCampaign validateWorkData now workId userId userName
                      reward_ caller w)).
Proof.
  intros Hwk Hst.
  pose proof (approved_not_pending _ _ _ _ Hwk Hst) as Hnp.
  pose proof (approved_notSubmittable _ _ _ _ Hwk Hst) as Hns.
  split.
  - intros campaignId userName proofUrl_ reward_ now caller.
    split; [apply approveWorkAndCredit_cases_V1, Hnp|].
    split; [apply rejectWork_cases_V1, Hnp|].
    split.
    + destruct (submitWorkForCampaign_cases_V1 now workId userId proofUrl_ caller w)
        as [[_ Hsub] | Href]; [|exact Href].
      destruct (workSubmitted_submittable _ _ _ _ _ _ Hsub Hns).
    + apply applyToCampaign_refuses_V1. eauto.
  - intros vW vWk vA campaignId userName proofUrl_ reward_ now caller.
    split; [apply approveWorkAndCredit_cases_V2, Hnp|].
    split; [apply rejectWork_cases_V2, Hnp|].
    split.
    + destruct (submitWorkForCampaign_cases_V2 vWk now workId userId proofUrl_ caller w)
        as [[_ Hsub] | Href]; [|exact Href].
      destruct (workSubmitted_submittable _ _ _ _ _ _ Hsub Hns).
    + apply applyToCampaign_refuses_V2. eauto.
Qed.

Lemma approved_work_is_final_witness :
  refused approvedWorld (V1.approveWorkAndCredit "c1" "u1" "c1" (num 50) None approvedWorld)
  /\ refused approvedWorld
       (V1Ops.submitWorkForCampaign 1700000000002 "c1" "u1" "https://proof.example/1"
          None approvedWorld)
  /\ refused approvedWorld
       (V2Ops.rejectWorkAndRestoreCampaignBudget specValidateWorkData (fun _ _ _ => true)
          "c1" "u1" "c1" None approvedWorld).
Proof.
  destruct (approved_work_is_final "c1" "u1" (with_w_status (Some "approved") campaignWork)
              approvedWorld) as [H1 H2]; [reflexivity | reflexivity |].
  destruct (H1 "c1" "Una" "https://proof.example/1" (num 50) 1700000000002 None)
    as (Ha & _ & Hs & _).
  destruct (H2 V1.validateWalletData specValidateWorkData (fun _ _ _ => true)
              "c1" "Una" "https://proof.example/1" (num 50) 1700000000002 None)
    as (_ & Hr & _).
  auto.
Defined.

Lemma sameMoney_trans (s1 s2 s3 : Store) :
  sameMoney s1 s2 -> sameMoney s2 s3 -> sameMoney s1 s3.
Proof.
  intros (Hw & Hu & Ha & Hd & Hc) (Hw' & Hu' & Ha' & Hd' & Hc').
  unfold sameMoney. rewrite Hw', Hu', Ha', Hd'. do 4 (split; [assumption|]).
  intros id. destruct (Hc id) as [H1 H2]. destruct (Hc' id) as [H1' H2'].
  split; congruence.
Qed.

Lemma applicationRecorded_sameMoney (s s' : Store) (now : Z)
    (campaignId userId userName : string) (reward_ : Qc) :
  applicationRecorded s s' now campaignId userId userName reward_ -> sameMoney s s'.
Proof.
  intros (_ & c & Hc & _ & _ & ->). apply sameMoney_counter, Hc.
Qed.

Lemma Qc_plus_one_pos (n : Qc) : (0 <= n)%Qc -> (0 < n + 1)%Qc.
Proof.
  intros Hn. apply Qclt_le_trans with (y := (0 + 1)%Qc); [reflexivity|].
  apply Qcplus_le_compat; [exact Hn | apply Qcle_refl].
Qed.

(** Adding 1 to a counter and taking it off again gives the counter back
    when the counter and the one after it are doubles. *)
Lemma afterRejection_applied (c : Campaign) (n : Qc) :
  completedWorkers c = JNum n -> (0 <= n)%Qc ->
  is_double n = true -> is_double (n + 1) = true ->
  afterRejection (with_completedWorkers (js_add (completedWorkers c) (JNum 1%Qc)) c) = c.
Proof.
  intros Hn Hle Hd Hd1. apply is_double_spec in Hd, Hd1.
  unfold afterRejection. rewrite Hn. cbn [js_add with_completedWorkers
    completedWorkers js_gt js_lt]. rewrite Hd1.
  pose proof (Qc_plus_one_pos n Hle) as Hpos. apply Qcltb_lt in Hpos. rewrite Hpos.
  cbn [js_sub js_max].
  replace (n + 1 - 1)%Qc with n by ring. rewrite Hd.
  rewrite Qcmax_r by exact Hle.
  destruct c as [t d cr tw rw tb rb cw st ca]. cbn [completedWorkers] in Hn.
  subst cw. reflexivity.
Qed.

Lemma applied_then_rejected (w : World) (s1 s2 : Store) (now : Z)
    (campaignId userId userName : string) (reward_ : Qc) :
  applicationRecorded (db w) s1 now campaignId userId userName reward_ ->
  workRejected s1 s2 campaignId userId campaignId ->
  sameMoney s1 s2 ->
  (forall c n, campaigns (db w) !! campaignId = Some c ->
     completedWorkers c = JNum n -> (0 <= n)%Qc ->
     is_double n = true -> is_double (n + 1) = true ->
     campaigns s2 = campaigns (db w))
  /\ w_status <$> works s2 !! (userId, campaignId) = Some (Some "rejected")
  /\ sameMoney (db w) s2.
Proof.
  intros Hrec Hrej Hsame.
  split; [|split].
  - intros c n Hc Hn Hle Hd Hd1.
    destruct Hrec as (_ & c0 & Hc0 & _ & _ & ->).
    destruct Hrej as (wk & _ & _ & _ & ->).
    cbn [campaigns]. rewrite lookup_insert_eq, insert_insert_eq.
    assert (c0 = c) as -> by congruence.
    rewrite (afterRejection_applied _ _ Hn Hle Hd Hd1). apply insert_id, Hc.
  - destruct Hrej as (wk & _ & _ & -> & _). rewrite lookup_insert_eq. reflexivity.
  - eapply sameMoney_trans; [|exact Hsame].
    eapply applicationRecorded_sameMoney, Hrec.
Qed.

(** X12: rejecting undoes an application in the campaign's counter.  When
    [applyToCampaign] has returned true and the rejection of the work item
    it created (stored under the campaign's id) returns true as well, the
    campaigns are exactly what they were before the application, provided
    the counter of completed workers was a number not below 0 and both the
    counter and the counter plus 1 are doubles, as every integer count
    below 2^53 is (for a counter such as 0.1 the two roundings do not
    cancel); the work item is rejected, and no money has moved.  In both
    copies. *)
Theorem reject_undoes_application (now : Z) (campaignId userId userName : string)
    (reward_ : Qc) (currentUserId currentAdminId : option string) (w : World) :
  (let run1 := V1.applyToCampaign now campaignId userId userName reward_ currentUserId w in
   let run2 := V1Ops.rejectWorkAndRestoreCampaignBudget campaignId userId campaignId
                 currentAdminId run1.2 in
   run1.1 = Returned true -> run2.1 = Returned true ->
   (forall c n, campaigns (db w) !! campaignId = Some c ->
      completedWorkers c = JNum n -> (0 <= n)%Qc ->
      is_double n = true -> is_double (n + 1) = true ->
      campaigns (db run2.2) = campaigns (db w))
   /\ w_status <$> works (db run2.2) !! (userId, campaignId) = Some (Some "rejected")
   /\ sameMoney (db w) (db run2.2))
  /\ (forall (validateWorkData : option Work -> bool)
             (validateUserAuthorization : string -> string -> bool -> bool),
      let run1 := V2.applyToCampaign validateWorkData now campaignId userId userName
                    reward_ currentUserId w in
      let run2 := V2Ops.rejectWorkAndRestoreCampaignBudget validateWorkData
                    validateUserAuthorization campaignId userId campaignId
                    currentAdminId run1.2 in
      run1.1 = Returned true -> run2.1 = Returned true ->
      (forall c n, campaigns (db w) !! campaignId = Some c ->
         completedWorkers c = JNum n -> (0 <= n)%Qc ->
         is_double n = true -> is_double (n + 1) = true ->
         campaigns (db run2.2) = campaigns (db w))
      /\ w_status <$> works (db run2.2) !! (userId, campaignId) = Some (Some "rejected")
      /\ sameMoney (db w) (db run2.2)).
Proof.
  split.
  - intros run1 run2 Hok1 Hok2. subst run2.
    destruct (applyToCampaign_cases_V1 now campaignId userId userName reward_
                currentUserId w) as [[_ Hrec] | ((msg & Hmsg) & _)];
      [|subst run1; congruence].
    fold run1 in Hrec.
    destruct (rejectWork_cases_V1 campaignId userId campaignId currentAdminId run1.2)
      as (_ & Hrej & Hsame).
    eapply applied_then_rejected; eauto.
  - intros vWk vA run1 run2 Hok1 Hok2. subst run2.
    destruct (applyToCampaign_cases_V2 vWk now campaignId userId userName reward_
                currentUserId w) as [[_ Hrec] | ((msg & Hmsg) & _)];
      [|subst run1; congruence].
    fold run1 in Hrec.
    destruct (rejectWork_cases_V2 vWk vA campaignId userId campaignId currentAdminId
                run1.2) as (_ & Hrej & Hsame).
    eapply applied_then_rejected; eauto.
Qed.

Lemma reject_undoes_application_witness :
  let run1 := V1.applyToCampaign 1700000000001 "c1" "u2" "Uwe" (num 50) None openWorld in
  let run2 := V1Ops.rejectWorkAndRestoreCampaignBudget "c1" "u2" "c1" None run1.2 in
  campaigns (db run2.2) = campaigns (db openWorld)
  /\ w_status <$> works (db run2.2) !! ("u2", "c1") = Some (Some "rejected").
Proof.
  intros run1 run2.
  destruct (reject_undoes_application 1700000000001 "c1" "u2" "Uwe" (num 50) None None
              openWorld) as [H1 _].
  destruct H1 as (Hc & Hst & _); [vm_compute; reflexivity | vm_compute; reflexivity |].
  split; [|exact Hst].
  apply (Hc sampleCampaign 0%Qc); [reflexivity | reflexivity | | |].
  - vm_compute. discriminate.
  - vm_compute. reflexivity.
  - vm_compute. reflexivity.
Defined.

Lemma rejected_twice (s0 s1 s2 s3 : Store) (now : Z) (campaignId userId proofUrl_ : string) :
  workRejected s0 s1 campaignId userId campaignId ->
  workSubmitted s1 s2 now campaignId userId proofUrl_ ->
  workRejected s2 s3 campaignId userId campaignId ->
  forall c n, campaigns s0 !! campaignId = Some c ->
    completedWorkers c = JNum n -> (1 + 1 <= n)%Qc ->
    completedWorkers <$> campaigns s3 !! campaignId = Some (JNum (fl (fl (n - 1) - 1)))
    /\ forall z, n = num z -> z <= 2 ^ 53 ->
         completedWorkers <$> campaigns s3 !! campaignId = Some (JNum (num (z - 2))).
Proof.
  intros (wk1 & _ & _ & _ & Hc1) (_ & wk2 & _ & _ & ->) (wk3 & _ & _ & _ & Hc3)
    c n Hc Hn Hle.
  cbn [campaigns] in Hc3. rewrite Hc in Hc1.
  rewrite Hc3, Hc1, lookup_insert_eq, lookup_insert_eq. cbn [fmap option_fmap option_map].
  assert (Hone : (1 <= n)%Qc) by (clear - Hle; qc_lra).
  destruct (afterRejection_counter c n Hn) as [H1 _]. specialize (H1 Hone).
  assert (Hstill : (1 <= fl (n - 1))%Qc).
  { assert (Hfl : (fl 1 <= fl (n - 1))%Qc) by (apply fl_le; clear - Hle; qc_lra).
    rewrite fl_1 in Hfl. exact Hfl. }
  destruct (afterRejection_counter _ _ H1) as [H2 _]. specialize (H2 Hstill).
  split; [f_equal; exact H2|].
  intros z -> Hz. f_equal. rewrite H2.
  assert (2 <= z).
  { apply (num_le (1 + 1)). rewrite <- num_plus, num_1. exact Hle. }
  rewrite <- num_1, fl_num_minus by lia. rewrite fl_num_minus by lia.
  do 2 f_equal. lia.
Qed.

(** X13: every rejection lowers the campaign's counter and a resubmission
    does not raise it.  When a pending work item is rejected, submitted
    again with [submitWorkForCampaign] and rejected again, the three calls
    returning true, a counter of completed workers n >= 2 ends at
    (n - 1) - 1 as JavaScript computes it, which for an integer counter up
    to 2^53 is n - 2: the one application has been taken off the counter
    twice.  In both copies of the module. *)
Theorem reject_resubmit_reject_counts_twice (now : Z)
    (campaignId userId proofUrl_ : string)
    (admin1 admin3 currentUserId : option string) (w : World) :
  (let run1 := V1Ops.rejectWorkAndRestoreCampaignBudget campaignId userId campaignId
                 admin1 w in
   let run2 := V1Ops.submitWorkForCampaign now campaignId userId proofUrl_
                 currentUserId run1.2 in
   let run3 := V1Ops.rejectWorkAndRestoreCampaignBudget campaignId userId campaignId
                 admin3 run2.2 in
   run1.1 = Returned true -> run2.1 = Returned true -> run3.1 = Returned true ->
   forall c n, campaigns (db w) !! campaignId = Some c ->
     completedWorkers c = JNum n -> (1 + 1 <= n)%Qc ->
     completedWorkers <$> campaigns (db run3.2) !! campaignId
     = Some (JNum (fl (fl (n - 1) - 1)))
     /\ forall z, n = num z -> z <= 2 ^ 53 ->
          completedWorkers <$> campaigns (db run3.2) !! campaignId
          = Some (JNum (num (z - 2))))
  /\ (forall (validateWorkData : option Work -> bool)
             (validateUserAuthorization : string -> string -> bool -> bool),
      let reject := V2Ops.rejectWorkAndRestoreCampaignBudget validateWorkData
                      validateUserAuthorization in
      let run1 := reject campaignId userId campaignId admin1 w in
      let run2 := V2Ops.submitWorkForCampaign validateWorkData now campaignId userId
                    proofUrl_ currentUserId run1.2 in
      let run3 := reject campaignId userId campaignId admin3 run2.2 in
      run1.1 = Returned true -> run2.1 = Returned true -> run3.1 = Returned true ->
      forall c n, campaigns (db w) !! campaignId = Some c ->
        completedWorkers c = JNum n -> (1 + 1 <= n)%Qc ->
        completedWorkers <$> campaigns (db run3.2) !! campaignId
        = Some (JNum (fl (fl (n - 1) - 1)))
        /\ forall z, n = num z -> z <= 2 ^ 53 ->
             completedWorkers <$> campaigns (db run3.2) !! campaignId
             = Some (JNum (num (z - 2)))).
Proof.
  split.
  - intros run1 run2 run3 Hok1 Hok2 Hok3.
    destruct (rejectWork_cases_V1 campaignId userId campaignId admin1 w)
      as (_ & Hrej1 & _).
    destruct (submitWorkForCampaign_cases_V1 now campaignId userId proofUrl_
                currentUserId run1.2) as [[_ Hsub] | ((msg & Hmsg) & _)];
      [|subst run2; congruence].
    destruct (rejectWork_cases_V1 campaignId userId campaignId admin3 run2.2)
      as (_ & Hrej3 & _).
    eapply rejected_twice; [apply Hrej1, Hok1 | exact Hsub | apply Hrej3, Hok3].
  - intros vWk vA reject run1 run2 run3 Hok1 Hok2 Hok3.
    destruct (rejectWork_cases_V2 vWk vA campaignId userId campaignId admin1 w)
      as (_ & Hrej1 & _).
    destruct (submitWorkForCampaign_cases_V2 vWk now campaignId userId proofUrl_
                currentUserId run1.2) as [[_ Hsub] | ((msg & Hmsg) & _)];
      [|subst run2; congruence].
    destruct (rejectWork_cases_V2 vWk vA campaignId userId campaignId admin3 run2.2)
      as (_ & Hrej3 & _).
    eapply rejected_twice; [apply Hrej1, Hok1 | exact Hsub | apply Hrej3, Hok3].
Qed.

Lemma reject_resubmit_reject_counts_twice_witness :
  let run1 := V1Ops.rejectWorkAndRestoreCampaignBudget "c1" "u1" "c1" None countedWorld in
  let run2 := V1Ops.submitWorkForCampaign 1700000000002 "c1" "u1"
                "https://proof.example/1" None run1.2 in
  let run3 := V1Ops.rejectWorkAndRestoreCampaignBudget "c1" "u1" "c1" None run2.2 in
  completedWorkers <$> campaigns (db run3.2) !! "c1" = Some (JNum (num 0)).
Proof.
  intros run1 run2 run3.
  destruct (reject_resubmit_reject_counts_twice 1700000000002 "c1" "u1"
              "https://proof.example/1" None None None countedWorld) as [H1 _].
  destruct (H1 ltac:(vm_compute; reflexivity) ltac:(vm_compute; reflexivity)
               ltac:(vm_compute; reflexivity)
               (with_completedWorkers (JNum (num 2)) sampleCampaign) (num 2))
    as [_ Hz].
  - reflexivity.
  - reflexivity.
  - vm_compute. discriminate.
  - apply (Hz 2); [reflexivity|]. intros H; vm_compute in H; discriminate H.
Defined.

(** * The invariants of the ledger *)

Lemma fieldInRange_check (v : jsnum) :
  is_number v = true -> v <> JNaN -> fieldNotOutOfRange v -> fieldInRange v.
Proof. destruct v; cbn; [discriminate | congruence | auto]. Qed.

Lemma zeroWallet_inRange : walletInRange zeroWallet.
Proof. unfold walletInRange, zeroWallet; cbn. repeat split; discriminate. Qed.

Lemma default_inRange (m : gmap string WalletBalance) (uid : string) :
  map_Forall (fun _ b => walletInRange b) m ->
  walletInRange (default zeroWallet (m !! uid)).
Proof.
  intros Hm. destruct (m !! uid) as [b|] eqn:Hb; cbn.
  - exact (Hm _ _ Hb).
  - exact zeroWallet_inRange.
Qed.

Lemma inRange_numeric (b : WalletBalance) :
  walletInRange b ->
  exists e a p t, b = mkWallet (JNum e) (JNum a) (JNum p) (JNum t).
Proof.
  destruct b as [[| |e] [| |a] [| |p] [| |t]]; unfold walletInRange; cbn;
    intros (H1 & H2 & H3 & H4); try contradiction.
  eauto.
Qed.

Lemma valid_inRange (e a p t : Qc) :
  V1.validateWalletData (Some (mkWallet (JNum e) (JNum a) (JNum p) (JNum t))) = true ->
  walletInRange (mkWallet (JNum e) (JNum a) (JNum p) (JNum t)).
Proof.
  rewrite validateWalletData_true. intros (b & [= <-] & H). exact H.
Qed.

(** Each update function of a wallet transaction keeps the wallet in range. *)
Ltac wallet_fn f :=
  let Hm := fresh "Hm" in
  let b0 := fresh "b0" in
  let e := fresh "e" in let a := fresh "a" in let p := fresh "p" in let t := fresh "t" in
  intros Hm; unfold f; cbv zeta;
  match goal with
  | |- context [default zeroWallet (?m !! ?u)] =>
      destruct (inRange_numeric _ (default_inRange m u Hm)) as (e & a & p & t & ->)
  end;
  cbn [earnedBalance addedBalance pendingAddMoney totalWithdrawn
       with_earnedBalance with_addedBalance with_pendingAddMoney with_totalWithdrawn
       js_add js_sub js_max];
  repeat match goal with
         | |- context [if ?c then None else _] => destruct c eqn:?; [discriminate|]
         end;
  intros [= <-]; apply valid_inRange;
  match goal with H : negb ?v = false |- _ => apply negb_false_iff in H; exact H end.

Lemma walletDebit_inRange (amount : Qc) (m : gmap string WalletBalance) (uid : string)
    (b' : WalletBalance) :
  map_Forall (fun _ b => walletInRange b) m ->
  V1.walletDebit amount (m !! uid) = Some b' -> walletInRange b'.
Proof. wallet_fn V1.walletDebit. Qed.

Lemma walletCredit_inRange (reward_ : Qc) (m : gmap string WalletBalance) (uid : string)
    (b' : WalletBalance) :
  map_Forall (fun _ b => walletInRange b) m ->
  V1.walletCredit reward_ (m !! uid) = Some b' -> walletInRange b'.
Proof. wallet_fn V1.walletCredit. Qed.

Lemma addMoneyCredit_inRange (amount : Qc) (m : gmap string WalletBalance) (uid : string)
    (b' : WalletBalance) :
  map_Forall (fun _ b => walletInRange b) m ->
  V1.addMoneyCredit amount (m !! uid) = Some b' -> walletInRange b'.
Proof. wallet_fn V1.addMoneyCredit. Qed.

Lemma withdrawalDebit_inRange (amount : Qc) (m : gmap string WalletBalance) (uid : string)
    (b' : WalletBalance) :
  map_Forall (fun _ b => walletInRange b) m ->
  V1.withdrawalDebit amount (m !! uid) = Some b' -> walletInRange b'.
Proof. wallet_fn V1.withdrawalDebit. Qed.

Lemma campaignDebit_consistent (amount : Qc) (c c' : Campaign) :
  (0 <= amount)%Qc -> budgetConsistent c ->
  V1.campaignDebit amount (Some c) = Some c' -> budgetConsistent c'.
Proof.
  intros Hpos (rb & tb & Hrb & Htb & H0 & Hle) Hdebit.
  destruct (campaignDebit_Some _ _ _ Hdebit) as (Hcover & -> & _).
  rewrite Hrb in Hcover |- *. apply js_lt_ge in Hcover.
  exists (fl (rb - amount)), tb. cbn. split; [reflexivity|]. split; [exact Htb|].
  split; [apply fl_diff_nonneg, Hcover | exact Hle].
Qed.

(** The rollback of a debit that was covered leaves a budget that is not
    negative. *)
Lemma compensated_consistent (amount : Qc) (c c' : Campaign) :
  (0 <= amount)%Qc -> budgetConsistent c ->
  V1.campaignDebit amount (Some c) = Some c' -> budgetConsistent (compensated amount c).
Proof.
  intros Hpos (rb & tb & Hrb & Htb & H0 & Hle) Hdebit.
  destruct (campaignDebit_Some _ _ _ Hdebit) as (Hcover & _ & _).
  rewrite Hrb in Hcover. apply js_lt_ge in Hcover.
  unfold compensated. rewrite Hrb. cbn [js_sub js_add].
  exists (fl (fl (rb - amount) + amount)), tb.
  destruct c; cbn in *. split; [reflexivity|]. split; [exact Htb|].
  split; [|exact Hle]. apply fl_sum_nonneg; [apply fl_diff_nonneg, Hcover | exact Hpos].
Qed.

Lemma with_completedWorkers_consistent (v : jsnum) (c : Campaign) :
  budgetConsistent c -> budgetConsistent (with_completedWorkers v c).
Proof. intros H. exact H. Qed.

(** A run that ended here has kept the invariants. *)
Ltac ok_leaf Hw Hc :=
  intros [= <- <-]; simpl_world; split;
  [ first [ exact Hw
          | apply map_Forall_insert_2;
            [eauto using walletDebit_inRange, walletCredit_inRange,
               addMoneyCredit_inRange, withdrawalDebit_inRange
            | exact Hw] ]
  | first [ exact Hc
          | apply map_Forall_insert_2;
            [eauto using campaignDebit_consistent, with_completedWorkers_consistent
            | exact Hc] ] ].

Lemma deductCampaignBudget_storeOk (campaignId : string) (amount : Qc)
    (uid : string) (currentUserId : option string) (w : World) :
  storeOk (db w) ->
  storeOk (db (V1.deductCampaignBudget campaignId amount uid currentUserId w).2).
Proof.
  intros [Hw Hc].
  destruct (V1.deductCampaignBudget campaignId amount uid currentUserId w)
    as [r w'] eqn:Hrun.
  cbn [snd]. revert Hrun. unfold V1.deductCampaignBudget.
  destruct (guarded_frame currentUserId
              (fun cu => V1.verifyUserAuthorization cu uid false) w) as (d & rs & Hg).
  { intros cu w0. apply verifyUserAuthorization_frame. }
  unfold bind at 1. rewrite Hg.
  rewrite bind_throw_if. destruct d; [ok_leaf Hw Hc|].
  rewrite bind_throw_if.
  destruct (Qcleb amount 0) eqn:Hpos; cbn [orb]; [ok_leaf Hw Hc|].
  assert (Hamount : (0 <= amount)%Qc).
  { apply not_true_iff_false in Hpos. rewrite Qcleb_le in Hpos.
    apply Qclt_le_weak, Qcnot_le_lt, Hpos. }
  destruct (Qcltb (num 10000000) amount); [ok_leaf Hw Hc|].
  rewrite try_catch_rethrow, bind_get. simpl_world.
  destruct (campaigns (db w) !! campaignId) as [c|] eqn:Hcl; [|ok_leaf Hw Hc].
  pose proof (Hc _ _ Hcl) as Hcons.
  do 2 guard_step ltac:(ok_leaf Hw Hc).
  rewrite bind_runTransaction. simpl_world. rewrite Hcl.
  destruct (V1.campaignDebit amount (Some c)) as [c'|] eqn:Hdebit; cbn [fst snd];
    [|ok_leaf Hw Hc].
  rewrite bind_runTransaction. simpl_world.
  destruct (V1.walletDebit amount (wallets (db w) !! uid)) as [b'|] eqn:Hwallet;
    cbn [fst snd].
  - destruct (negb (V1.validateWalletData (Some b'))).
    + unfold V1.restoreBudget. rewrite bind_update. simpl_world.
      intros [= <- <-]. simpl_world. split.
      * apply map_Forall_insert_2; [eauto using walletDebit_inRange | exact Hw].
      * rewrite lookup_insert_eq. cbn [default from_option id].
        rewrite (campaignDebit_restore _ _ _ Hdebit), insert_insert_eq.
        apply map_Forall_insert_2; [eauto using compensated_consistent | exact Hc].
    + cbn [ret]. ok_leaf Hw Hc.
  - unfold V1.restoreBudget. rewrite bind_update. simpl_world. cbn [ret].
    intros [= <- <-]. simpl_world. split; [exact Hw|].
    rewrite lookup_insert_eq. cbn [default from_option id].
    rewrite (campaignDebit_restore _ _ _ Hdebit), insert_insert_eq.
    apply map_Forall_insert_2; [eauto using compensated_consistent | exact Hc].
Qed.

Lemma approveWorkAndCredit_storeOk (workId userId campaignId : string)
    (reward_ : Qc) (currentAdminId : option string) (w : World) :
  storeOk (db w) ->
  storeOk (db (V1.approveWorkAndCredit workId userId campaignId reward_
                 currentAdminId w).2).
Proof.
  intros [Hw Hc].
  destruct (V1.approveWorkAndCredit workId userId campaignId reward_ currentAdminId w)
    as [o w'] eqn:Hrun.
  cbn [snd]. revert Hrun. unfold V1.approveWorkAndCredit.
  destruct (guarded_frame currentAdminId
              (fun ca => V1.verifyUserAuthorization ca userId true) w) as (d & rs & Hg).
  { intros cu w0. apply verifyUserAuthorization_frame. }
  unfold bind at 1. rewrite Hg.
  rewrite bind_throw_if. destruct d; [ok_leaf Hw Hc|].
  guard_step ltac:(ok_leaf Hw Hc).
  rewrite try_catch_rethrow, bind_get. simpl_world.
  destruct (works (db w) !! (userId, workId)) as [wk|] eqn:Hwk; [|ok_leaf Hw Hc].
  do 2 guard_step ltac:(ok_leaf Hw Hc).
  rewrite bind_runTransaction. simpl_world.
  destruct (V1.workApprove (works (db w) !! (userId, workId))) as [wk'|];
    cbn [fst snd]; [|ok_leaf Hw Hc].
  rewrite bind_runTransaction. simpl_world.
  destruct (V1.walletCredit reward_ (wallets (db w) !! userId)) as [b'|] eqn:Hcredit;
    cbn [fst snd].
  2: { rewrite bind_update. simpl_world. cbn [ret]. ok_leaf Hw Hc. }
  rewrite bind_get. simpl_world.
  destruct (users (db w) !! userId) as [u|] eqn:Hu.
  - rewrite bind_assoc, bind_throw_if.
    match goal with |- context [if ?c then (Thrown _, _) else _] => destruct c end;
      [ok_leaf Hw Hc|].
    rewrite bind_update. simpl_world.
    destruct (negb (V1.validateWalletData (Some b'))); [|cbn [ret]; ok_leaf Hw Hc].
    rewrite bind_update. simpl_world. rewrite bind_get. simpl_world.
    rewrite lookup_insert_eq. cbv beta iota. rewrite bind_update. simpl_world.
    ok_leaf Hw Hc.
  - rewrite bind_ret.
    destruct (negb (V1.validateWalletData (Some b'))); [|cbn [ret]; ok_leaf Hw Hc].
    rewrite bind_update. simpl_world. rewrite bind_get. simpl_world. rewrite Hu.
    rewrite bind_ret. ok_leaf Hw Hc.
Qed.

Lemma processMoneyRequest_storeOk (requestId : string) (type : RequestType)
    (userId : string) (amount : Qc) (status : Decision)
    (currentAdminId : option string) (w : World) :
  storeOk (db w) ->
  storeOk (db (V1.processMoneyRequest requestId type userId amount status
                 currentAdminId w).2).
Proof.
  intros [Hw Hc].
  destruct (V1.processMoneyRequest requestId type userId amount status currentAdminId w)
    as [o w'] eqn:Hrun.
  cbn [snd]. revert Hrun. unfold V1.processMoneyRequest. cbv zeta.
  destruct (guarded_frame currentAdminId
              (fun ca => V1.verifyUserAuthorization ca userId true) w) as (d & rs & Hg).
  { intros cu w0. apply verifyUserAuthorization_frame. }
  unfold bind at 1. rewrite Hg.
  rewrite bind_throw_if. destruct d; [ok_leaf Hw Hc|].
  guard_step ltac:(ok_leaf Hw Hc).
  rewrite try_catch_rethrow.
  destruct type; cbn [V1.requestsC]; rewrite bind_get; simpl_world.
  - destruct (addMoney (db w) !! requestId) as [r|] eqn:Hr; [|ok_leaf Hw Hc].
    do 2 guard_step ltac:(ok_leaf Hw Hc).
    rewrite bind_update. simpl_world.
    destruct status; [|cbn [ret]; ok_leaf Hw Hc].
    rewrite bind_runTransaction. simpl_world.
    destruct (V1.addMoneyCredit amount (wallets (db w) !! userId)) as [b'|] eqn:Hcredit;
      cbn [fst snd].
    2: { rewrite bind_update. simpl_world. cbn [ret]. ok_leaf Hw Hc. }
    destruct (negb (V1.validateWalletData (Some b'))); [|cbn [ret]; ok_leaf Hw Hc].
    rewrite bind_update. simpl_world. ok_leaf Hw Hc.
  - destruct (withdrawals (db w) !! requestId) as [r|] eqn:Hr; [|ok_leaf Hw Hc].
    do 2 guard_step ltac:(ok_leaf Hw Hc).
    rewrite bind_update. simpl_world.
    destruct status; [|cbn [ret]; ok_leaf Hw Hc].
    rewrite bind_runTransaction. simpl_world.
    destruct (V1.withdrawalDebit amount (wallets (db w) !! userId)) as [b'|] eqn:Hdebit;
      cbn [fst snd].
    2: { rewrite bind_update. simpl_world. cbn [ret]. ok_leaf Hw Hc. }
    destruct (negb (V1.validateWalletData (Some b'))).
    { rewrite bind_update. simpl_world. ok_leaf Hw Hc. }
    rewrite bind_get. simpl_world.
    destruct (users (db w) !! userId) as [u|] eqn:Hu.
    + rewrite bind_assoc. guard_step ltac:(ok_leaf Hw Hc).
      rewrite bind_update. simpl_world. cbn [ret]. ok_leaf Hw Hc.
    + rewrite bind_ret. cbn [ret]. ok_leaf Hw Hc.
Qed.

Lemma applyToCampaign_storeOk (now : Z) (campaignId userId userName : string)
    (reward_ : Qc) (currentUserId : option string) (w : World) :
  storeOk (db w) ->
  storeOk (db (V1.applyToCampaign now campaignId userId userName reward_
                 currentUserId w).2).
Proof.
  intros Hok.
  destruct (applyToCampaign_cases_V1 now campaignId userId userName reward_
              currentUserId w) as [[_ Hrec] | (_ & -> & _)]; [|exact Hok].
  destruct Hok as [Hw Hc]. destruct Hrec as (_ & c & Hcl & _ & _ & ->).
  split; [exact Hw|]. cbn [campaigns].
  apply map_Forall_insert_2; [|exact Hc].
  apply with_completedWorkers_consistent, (Hc _ _ Hcl).
Qed.

Lemma submitWorkForCampaign_storeOk (now : Z) (campaignId userId proofUrl_ : string)
    (currentUserId : option string) (w : World) :
  storeOk (db w) ->
  storeOk (db (V1Ops.submitWorkForCampaign now campaignId userId proofUrl_
                 currentUserId w).2).
Proof.
  intros Hok.
  destruct (submitWorkForCampaign_cases_V1 now campaignId userId proofUrl_
              currentUserId w) as [[_ Hsub] | (_ & -> & _)]; [|exact Hok].
  destruct Hsub as (_ & wk & _ & _ & ->). exact Hok.
Qed.

Lemma sameMoney_storeOk (s s' : Store) : sameMoney s s' -> storeOk s -> storeOk s'.
Proof.
  intros (Hwal & _ & _ & _ & Hcam) [Hw Hc]. split; [rewrite Hwal; exact Hw|].
  intros id c' Hc'. destruct (Hcam id) as [Hrb Htb]. rewrite Hc' in Hrb, Htb.
  destruct (campaigns s !! id) as [c|] eqn:Hcl; [|discriminate].
  cbn in Hrb, Htb. injection Hrb as Hrb. injection Htb as Htb.
  destruct (Hc _ _ Hcl) as (rb & tb & H1 & H2 & H3).
  exists rb, tb. split; [congruence|]. split; [congruence | exact H3].
Qed.

Lemma rejectWork_storeOk (workId userId campaignId : string)
    (currentAdminId : option string) (w : World) :
  storeOk (db w) ->
  storeOk (db (V1Ops.rejectWorkAndRestoreCampaignBudget workId userId campaignId
                 currentAdminId w).2).
Proof. apply sameMoney_storeOk, rejectWork_cases_V1. Qed.

Lemma runCall_storeOk (call : LedgerCall) (w : World) :
  storeOk (db w) -> storeOk (db (runCall call w)).
Proof.
  destruct call; cbn [runCall].
  - apply deductCampaignBudget_storeOk.
  - apply approveWorkAndCredit_storeOk.
  - apply processMoneyRequest_storeOk.
  - apply applyToCampaign_storeOk.
  - apply submitWorkForCampaign_storeOk.
  - apply rejectWork_storeOk.
Qed.

(** X14: the bounds of the ledger hold after any sequence of calls.
    Starting from a store in which every wallet has its four fields between
    0 and 10,000,000 and every campaign has a remaining and a total budget
    that are numbers and not negative, the same holds after any sequence of
    calls of [deductCampaignBudget], [approveWorkAndCredit],
    [processMoneyRequest], [applyToCampaign], [submitWorkForCampaign] and
    [rejectWorkAndRestoreCampaignBudget], with any strings and any finite
    numbers for arguments and whatever each call returns or throws (the
    copy of the module that declares its validators; an amount that is NaN
    is not among these arguments).  That the remaining
    budget does not exceed the total budget is not among these bounds: the
    rollback of [deductCampaignBudget] does not keep it. *)
Theorem ledger_invariants_hold (calls : list LedgerCall) (w : World) :
  storeOk (db w) -> storeOk (db (runCalls calls w)).
Proof.
  revert w. induction calls as [|call calls IH]; intros w Hok; [exact Hok|].
  cbn [runCalls fold_left]. apply IH, runCall_storeOk, Hok.
Qed.

Lemma fundedWorld_storeOk : storeOk (db fundedWorld).
Proof.
  split; intros k v Hk; cbn in Hk; apply lookup_singleton_Some in Hk as [_ <-].
  - unfold walletInRange; cbn. repeat split; vm_compute; discriminate.
  - exists (num 500), (num 500). repeat split; vm_compute; discriminate.
Qed.

Lemma ledger_invariants_hold_witness :
  storeOk
    (db (runCalls
           [DeductCampaignBudget "c1" (num 300) "u1" None;
            ApplyToCampaign 1700000000001 "c1" "u2" "Uwe" (num 50) None;
            RejectWorkAndRestoreCampaignBudget "c1" "u2" "c1" None;
            DeductCampaignBudget "c1" (num 300) "u1" None]
           fundedWorld)).
Proof. apply ledger_invariants_hold, fundedWorld_storeOk. Defined.

(** ** Updating a wallet *)

Lemma updateWalletBalance_cases_V1 (uid : string)
    (updateFn : WalletBalance -> option PartialWallet)
    (currentUserId : option string) (w : World) :
  let run := V1Ops.updateWalletBalance uid updateFn currentUserId w in
  match run.1 with
  | Returned (Some b) => walletUpdated V1.validateWalletData (db w) (db run.2) uid updateFn b
  | _ => db run.2 = db w
  end.
Proof.
  intros run. subst run.
  destruct (V1Ops.updateWalletBalance uid updateFn currentUserId w) as [o w'] eqn:Hrun.
  cbn [fst snd]. revert Hrun. unfold V1Ops.updateWalletBalance.
  destruct (guarded_frame currentUserId
              (fun cu => V1.verifyUserAuthorization cu uid false) w) as (d & rs & Hg).
  { intros cu w0. apply verifyUserAuthorization_frame. }
  unfold bind at 1. rewrite Hg.
  rewrite bind_throw_if. destruct d; [intros [= <- <-]; reflexivity|].
  rewrite try_catch_rethrow, bind_runTransaction. simpl_world.
  unfold walletUpdateWith. cbv zeta.
  set (old := default zeroWallet (wallets (db w) !! uid)).
  destruct (updateFn old) as [updateValues|] eqn:Hfn; cbn [fst snd ret];
    [|intros [= <- <-]; reflexivity].
  destruct (V1.validateWalletData (Some (spread old updateValues))) eqn:Hvalid;
    cbn [negb fst snd ret]; [|intros [= <- <-]; reflexivity].
  rewrite Hvalid. cbn [negb]. intros [= <- <-]. simpl_world.
  exists updateValues. fold old. auto.
Qed.

Lemma updateWalletBalance_cases_V2 (validateWalletData : option WalletBalance -> bool)
    (validateUserAuthorization : string -> string -> bool -> bool) (uid : string)
    (updateFn : WalletBalance -> option PartialWallet)
    (currentUserId : option string) (w : World) :
  let run := V2Ops.updateWalletBalance validateWalletData validateUserAuthorization
               uid updateFn currentUserId w in
  match run.1 with
  | Returned (Some b) => walletUpdated validateWalletData (db w) (db run.2) uid updateFn b
  | _ => db run.2 = db w
  end.
Proof.
  intros run. subst run.
  destruct (V2Ops.updateWalletBalance _ _ uid updateFn currentUserId w) as [o w'] eqn:Hrun.
  cbn [fst snd]. revert Hrun. unfold V2Ops.updateWalletBalance.
  guard_step ltac:(intros [= <- <-]; reflexivity).
  destruct (guarded_frame currentUserId
              (fun cu => V2.verifyUserAuthorization validateUserAuthorization cu uid false) w)
    as (d & rs & Hg).
  { intros cu w0. apply verifyUserAuthorization_frame_V2. }
  unfold bind at 1. rewrite Hg.
  rewrite bind_throw_if. destruct d; [intros [= <- <-]; reflexivity|].
  unfold try_catch. rewrite bind_runTransaction. simpl_world.
  unfold walletUpdateWith. cbv zeta.
  set (old := default zeroWallet (wallets (db w) !! uid)).
  destruct (updateFn old) as [updateValues|] eqn:Hfn; cbn [fst snd ret];
    [|intros [= <- <-]; reflexivity].
  destruct (validateWalletData (Some (spread old updateValues))) eqn:Hvalid;
    cbn [negb fst snd ret]; [|intros [= <- <-]; reflexivity].
  rewrite Hvalid. cbn [negb]. intros [= <- <-]. simpl_world.
  exists updateValues. fold old. auto.
Qed.

(** X15: [updateWalletBalance] commits a validated wallet or nothing.
    When it returns a wallet, this wallet is the stored one (all zeros if
    absent) with the keys returned by the update function overwritten, it
    passes the wallet validator, it is what the store now holds for the
    user, and nothing else has changed; when it returns null (the update
    function returned null, or the result failed validation) or throws, the
    store is what it was.  In both copies of the module. *)
Theorem updateWalletBalance_commits_valid_or_nothing (uid : string)
    (updateFn : WalletBalance -> option PartialWallet)
    (currentUserId : option string) (w : World) :
  (let run := V1Ops.updateWalletBalance uid updateFn currentUserId w in
   (forall b, run.1 = Returned (Some b) ->
      walletUpdated V1.validateWalletData (db w) (db run.2) uid updateFn b)
   /\ ((forall b, run.1 <> Returned (Some b)) -> db run.2 = db w))
  /\ (forall (validateWalletData : option WalletBalance -> bool)
             (validateUserAuthorization : string -> string -> bool -> bool),
      let run := V2Ops.updateWalletBalance validateWalletData validateUserAuthorization
                   uid updateFn currentUserId w in
      (forall b, run.1 = Returned (Some b) ->
         walletUpdated validateWalletData (db w) (db run.2) uid updateFn b)
      /\ ((forall b, run.1 <> Returned (Some b)) -> db run.2 = db w)).
Proof.
  split.
  - intros run. subst run.
    pose proof (updateWalletBalance_cases_V1 uid updateFn currentUserId w) as H.
    cbv zeta in H.
    destruct (V1Ops.updateWalletBalance uid updateFn currentUserId w).1 as [[b|]|msg].
    + split; [intros b' [= <-]; exact H | intros Hn; destruct (Hn b eq_refl)].
    + split; [intros b' [=] | intros _; exact H].
    + split; [intros b' [=] | intros _; exact H].
  - intros vW vA run. subst run.
    pose proof (updateWalletBalance_cases_V2 vW vA uid updateFn currentUserId w) as H.
    cbv zeta in H.
    destruct (V2Ops.updateWalletBalance vW vA uid updateFn currentUserId w).1
      as [[b|]|msg].
    + split; [intros b' [= <-]; exact H | intros Hn; destruct (Hn b eq_refl)].
    + split; [intros b' [=] | intros _; exact H].
    + split; [intros b' [=] | intros _; exact H].
Qed.

Lemma updateWalletBalance_commits_valid_or_nothing_witness :
  walletUpdated V1.validateWalletData (db fundedWorld)
    (db (V1Ops.updateWalletBalance "u1" moveThirty None fundedWorld).2) "u1" moveThirty
    (mkWallet (js_add (JNum 0%Qc) (JNum (num 30))) (js_sub (JNum (num 800)) (JNum (num 30)))
       (JNum 0%Qc) (JNum 0%Qc))
  /\ db (V1Ops.updateWalletBalance "u9" moveThirty None fundedWorld).2 = db fundedWorld.
Proof.
  destruct (updateWalletBalance_commits_valid_or_nothing "u1" moveThirty None fundedWorld)
    as [[H1 _] _].
  destruct (updateWalletBalance_commits_valid_or_nothing "u9" moveThirty None fundedWorld)
    as [[_ H2] _].
  split.
  - apply H1. vm_compute. reflexivity.
  - apply H2. intros b Hb. vm_compute in Hb. discriminate.
Defined.

(** * What the validators accept *)

Lemma Qcleb_gt (a b : Qc) : Qcleb a b = false <-> (b < a)%Qc.
Proof.
  rewrite <- not_true_iff_false, Qcleb_le. split.
  - apply Qcnot_le_lt.
  - apply Qclt_not_le.
Qed.

Lemma truthy_string_within (s : jsstr) (hi : Z) :
  truthy_str s = true /\ is_string s = true
  /\ (str_length s <? 1) = false /\ (hi <? str_length s) = false
  <-> stringWithin 1 hi s.
Proof.
  unfold stringWithin. destruct s as [str|]; cbn.
  - rewrite !Z.ltb_ge. split.
    + intros (_ & _ & H1 & H2). exists str. split; [reflexivity | lia].
    + intros (str' & [= <-] & H1 & H2). repeat split; try lia.
      destruct str; [cbn in H1; lia | reflexivity].
  - split; [intros (H & _); discriminate | intros (str & H & _); discriminate].
Qed.

Lemma number_check (v : jsnum) (rejected : jsnum -> bool) (P : Qc -> Prop) :
  rejected JNaN = false ->
  (forall q, rejected (JNum q) = false <-> P q) ->
  is_undefined v = false /\ is_number v = true /\ rejected v = false
  <-> numberWith P v.
Proof.
  intros Hnan Hnum. unfold numberWith. destruct v as [| |q]; cbn.
  - split; [intros (H & _); discriminate|].
    intros [H | (q & H & _)]; discriminate.
  - split; [auto|]. intros _. auto.
  - rewrite Hnum. split.
    + intros (_ & _ & H). right. eauto.
    + intros [H | (q' & [= <-] & H)]; [discriminate | auto].
Qed.

Lemma validateCampaignData_true (c : Campaign) :
  V1.validateCampaignData (Some c) = true <-> campaignAccepted c.
Proof.
  cbn [V1.validateCampaignData]. unfold campaignAccepted.
  rewrite <- (truthy_string_within (title c) 100).
  rewrite <- (truthy_string_within (description c) 1000).
  rewrite <- (number_check (totalWorkers c)
                (fun v => js_le v (JNum 0%Qc) || js_gt v (JNum (num 10000)))
                (fun q => (0 < q)%Qc /\ (q <= num 10000)%Qc)).
  2: reflexivity.
  2: { intros q. unfold js_gt. cbn. rewrite orb_false_iff, Qcleb_gt, Qcltb_ge. tauto. }
  rewrite <- (number_check (rewardPerWorker c)
                (fun v => js_lt v (JNum (Q2Qc (1 # 2))) || js_gt v (JNum (num 10000)))
                (fun q => (Q2Qc (1 # 2) <= q)%Qc /\ (q <= num 10000)%Qc)).
  2: reflexivity.
  2: { intros q. unfold js_gt. cbn. rewrite orb_false_iff, !Qcltb_ge. tauto. }
  rewrite <- (number_check (totalBudget c) (fun v => js_lt v (JNum 0%Qc))
                (fun q => (0 <= q)%Qc)).
  2: reflexivity.
  2: { intros q. cbn. rewrite Qcltb_ge. tauto. }
  rewrite <- (number_check (remainingBudget c) (fun v => js_lt v (JNum 0%Qc))
                (fun q => (0 <= q)%Qc)).
  2: reflexivity.
  2: { intros q. cbn. rewrite Qcltb_ge. tauto. }
  assert (Hcreator : truthy_str (creatorId c) = true
                     <-> exists creator, creatorId c = Some creator /\ creator <> "").
  { destruct (creatorId c) as [s|]; cbn.
    - rewrite nonempty_true. split; [eauto | intros (s' & [= <-] & H); exact H].
    - split; [discriminate | intros (s' & H & _); discriminate]. }
  rewrite <- Hcreator.
  assert (Hcreated : is_undefined (c_createdAt c) = false /\ is_number (c_createdAt c) = true
                     <-> c_createdAt c <> JUndef).
  { destruct (c_createdAt c); cbn; split; intros H;
      try (destruct H; congruence); try congruence; auto. }
  rewrite <- Hcreated.
  assert (Hle : js_gt (remainingBudget c) (totalBudget c) = false
                <-> forall rb tb, remainingBudget c = JNum rb -> totalBudget c = JNum tb ->
                      (rb <= tb)%Qc).
  { unfold js_gt. destruct (remainingBudget c) as [| |rb], (totalBudget c) as [| |tb]; cbn;
      try (split; [intros _ ? ? ? ?; congruence | reflexivity]).
    rewrite Qcltb_ge. split; [intros H ? ? [= <-] [= <-]; exact H | auto]. }
  rewrite <- Hle.
  destruct (truthy_str (title c)), (truthy_str (description c)),
    (truthy_str (creatorId c)), (is_undefined (totalWorkers c)),
    (is_undefined (rewardPerWorker c)), (is_undefined (totalBudget c)),
    (is_undefined (remainingBudget c)), (is_undefined (c_createdAt c));
    cbn [negb orb]; try (split; [discriminate | intuition discriminate]).
  destruct (is_string (title c)), (str_length (title c) <? 1),
    (100 <? str_length (title c)), (is_string (description c)),
    (str_length (description c) <? 1), (1000 <? str_length (description c));
    cbn [negb orb]; try (split; [discriminate | intuition discriminate]).
  destruct (is_number (totalWorkers c)), (js_le (totalWorkers c) (JNum 0%Qc)),
    (js_gt (totalWorkers c) (JNum (num 10000))), (is_number (rewardPerWorker c)),
    (js_lt (rewardPerWorker c) (JNum (Q2Qc (1 # 2)))),
    (js_gt (rewardPerWorker c) (JNum (num 10000))), (is_number (totalBudget c)),
    (js_lt (totalBudget c) (JNum 0%Qc)), (is_number (remainingBudget c)),
    (js_lt (remainingBudget c) (JNum 0%Qc)), (is_number (c_createdAt c));
    cbn [negb orb]; try (split; [discriminate | intuition discriminate]).
  destruct (js_gt (remainingBudget c) (totalBudget c));
    split; try discriminate; intuition.
Qed.

(** X16: what the inline campaign validator accepts.  [validateCampaignData]
    rejects null, and accepts a campaign record exactly when its title is a
    string of 1 to 100 UTF-16 code units (what [.length] counts), its
    description a string of 1 to 1000, its creatorId a non-empty string,
    [createdAt] is present,
    each of totalWorkers, rewardPerWorker, totalBudget and remainingBudget
    is present and is either NaN or a number in its range (0 < totalWorkers
    <= 10000, 0.5 <= rewardPerWorker <= 10000, budgets >= 0), and
    remainingBudget does not exceed totalBudget when both are finite.  A
    NaN field is not rejected; a title of 51 accented letters, 102 bytes
    long, is accepted. *)
Theorem validateCampaignData_accepts (c : Campaign) :
  V1.validateCampaignData None = false
  /\ (V1.validateCampaignData (Some c) = true <-> campaignAccepted c)
  /\ (String.length <$> title accentedCampaign = Some 102%nat
      /\ V1.validateCampaignData (Some accentedCampaign) = true).
Proof.
  split; [reflexivity|]. split; [apply validateCampaignData_true|].
  split; vm_compute; reflexivity.
Qed.

Lemma one_of_elem (lits : list string) (s : string) :
  one_of lits (Some s) = true <-> s ∈ lits.
Proof.
  unfold one_of. rewrite existsb_exists. split.
  - intros (lit & Hin & Heq). cbn in Heq. apply bool_decide_eq_true in Heq.
    subst lit. apply list_elem_of_In, Hin.
  - intros Hin. exists s. split; [apply list_elem_of_In, Hin|].
    cbn. apply bool_decide_eq_true. reflexivity.
Qed.

Lemma literal_check (lits : list string) (s : jsstr) :
  Forall (fun lit => lit <> "") lits ->
  truthy_str s = true /\ one_of lits s = true <-> exists str, s = Some str /\ str ∈ lits.
Proof.
  intros Hlits. destruct s as [str|].
  - rewrite one_of_elem. cbn. split.
    + intros [_ Hin]. eauto.
    + intros (str' & [= <-] & Hin). split; [|exact Hin].
      apply nonempty_true. rewrite Forall_forall in Hlits. apply Hlits, Hin.
  - cbn. split; [intros [H _]; discriminate | intros (str & H & _); discriminate].
Qed.

Lemma truthy_num_true (v : jsnum) :
  truthy_num v = true <-> exists q, v = JNum q /\ q <> 0%Qc.
Proof.
  destruct v as [| |q]; cbn.
  - split; [discriminate | intros (q & H & _); discriminate].
  - split; [discriminate | intros (q & H & _); discriminate].
  - rewrite negb_true_iff, <- not_true_iff_false, Qceqb_eq. split.
    + eauto.
    + intros (q' & [= <-] & H). exact H.
Qed.

Lemma validateTransactionData_true (now : Z) (t : Transaction) :
  V1Ops.validateTransactionData now (Some t) = true <-> transactionAccepted now t.
Proof.
  cbn [V1Ops.validateTransactionData]. unfold transactionAccepted.
  rewrite <- (literal_check ["add_money"; "withdrawal"; "earning"; "campaign_spend"]).
  2: { repeat constructor; discriminate. }
  rewrite <- (literal_check ["pending"; "approved"; "rejected"; "paid"]).
  2: { repeat constructor; discriminate. }
  assert (Hamount : truthy_num (t_amount t) = true
                    /\ is_number (t_amount t) = true
                    /\ js_le (t_amount t) (JNum 0%Qc) = false
                    /\ js_gt (t_amount t) (JNum (num 100000)) = false
                    <-> exists q, t_amount t = JNum q
                          /\ (0 < q)%Qc /\ (q <= num 100000)%Qc).
  { rewrite truthy_num_true. unfold js_gt. destruct (t_amount t) as [| |q]; cbn.
    - split; [intros ((q & H & _) & _); discriminate | intros (q & H & _); discriminate].
    - split; [intros ((q & H & _) & _); discriminate | intros (q & H & _); discriminate].
    - rewrite Qcleb_gt, Qcltb_ge. split.
      + intros (_ & _ & H1 & H2). eauto.
      + intros (q' & [= <-] & H1 & H2). repeat split; auto.
        exists q. split; [reflexivity|]. intros ->. revert H1. apply Qcle_not_lt, Qcle_refl. }
  rewrite <- Hamount.
  assert (Hcreated : truthy_num (t_createdAt t) = true
                     /\ is_number (t_createdAt t) = true
                     /\ js_gt (t_createdAt t) (JNum (num (now + 60000))) = false
                     <-> exists at_, t_createdAt t = JNum at_ /\ at_ <> 0%Qc
                           /\ (at_ <= num (now + 60000))%Qc).
  { rewrite truthy_num_true. unfold js_gt. destruct (t_createdAt t) as [| |q]; cbn.
    - split; [intros ((q & H & _) & _); discriminate | intros (q & H & _); discriminate].
    - split; [intros ((q & H & _) & _); discriminate | intros (q & H & _); discriminate].
    - rewrite Qcltb_ge. split.
      + intros ((q' & Hq' & Hne) & _ & Hle). injection Hq' as <-. eauto.
      + intros (q' & Hq' & Hne & Hle). injection Hq' as <-. repeat split; eauto. }
  rewrite <- Hcreated.
  destruct (truthy_str (t_type t)), (truthy_num (t_amount t)),
    (truthy_str (t_status t)), (truthy_num (t_createdAt t));
    cbn [negb orb]; try (split; [discriminate | intuition discriminate]).
  destruct (one_of _ (t_type t)); cbn [negb];
    try (split; [discriminate | intuition discriminate]).
  destruct (is_number (t_amount t)), (js_le (t_amount t) (JNum 0%Qc)),
    (js_gt (t_amount t) (JNum (num 100000)));
    cbn [negb orb]; try (split; [discriminate | intuition discriminate]).
  destruct (one_of _ (t_status t)); cbn [negb];
    try (split; [discriminate | intuition discriminate]).
  destruct (is_number (t_createdAt t)),
    (js_gt (t_createdAt t) (JNum (num (now + 60000))));
    cbn [negb orb]; try (split; [discriminate | intuition discriminate]).
  split; intuition.
Qed.

(** X17: what the inline transaction validator accepts.
    [validateTransactionData], read at clock time [now], rejects null and
    accepts a record exactly when its type is one of add_money, withdrawal,
    earning, campaign_spend, its status one of pending, approved, rejected,
    paid, its amount a finite number with 0 < amount <= 100,000, and its
    createdAt a finite number other than 0 that is at most now + 60,000
    milliseconds.  Unlike the wallet and campaign validators it rejects a
    NaN amount, by its truthiness test. *)
Theorem validateTransactionData_accepts (now : Z) (t : Transaction) :
  V1Ops.validateTransactionData now None = false
  /\ (V1Ops.validateTransactionData now (Some t) = true <-> transactionAccepted now t)
  /\ (t_amount t = JNaN -> V1Ops.validateTransactionData now (Some t) = false).
Proof.
  split; [reflexivity|]. split; [apply validateTransactionData_true|].
  intros Hnan. apply not_true_iff_false. rewrite validateTransactionData_true.
  intros (_ & (q & Hq & _) & _). congruence.
Qed.

Lemma validateTransactionData_accepts_witness :
  V1Ops.validateTransactionData 1700000000000
    (Some (mkTransaction (Some "earning") JNaN (Some "paid") (JNum (num 1700000000000))))
  = false.
Proof.
  apply (validateTransactionData_accepts 1700000000000
           (mkTransaction (Some "earning") JNaN (Some "paid") (JNum (num 1700000000000)))).
  reflexivity.
Defined.

(** * Further properties of the read cache *)

Lemma prefix_app (p s : string) : String.prefix p (p +:+ s) = true.
Proof.
  induction p as [|a p IH]; simpl; [destruct s; reflexivity|].
  destruct (ascii_dec a a); [exact IH | contradiction].
Qed.

Lemma includes_of_prefix (key p : string) :
  String.prefix p key = true -> includes key p = true.
Proof. destruct key; cbn [includes]; intros ->; reflexivity. Qed.

Lemma includes_prefix (p s : string) : includes (p +:+ s) p = true.
Proof. apply includes_of_prefix, prefix_app. Qed.

Lemma includes_self (p : string) : includes p p = true.
Proof.
  apply includes_of_prefix. induction p as [|a p IH]; simpl; [reflexivity|].
  destruct (ascii_dec a a); [exact IH | contradiction].
Qed.

Section InvalidationFacts.
Context {D : Type}.
Implicit Types (c : DataCache D).

Lemma invalidate_fold (keyPattern : string) (keys : list string) c (k : string) :
  NoDup (map_keys (cache c)) ->
  let c' := fold_left
              (fun c key => if includes key keyPattern then clear key c else c) keys c in
  map_get k (cache c')
  = (if bool_decide (k ∈ keys) && includes k keyPattern then None
     else map_get k (cache c))
  /\ pendingRequests c' = pendingRequests c
  /\ NoDup (map_keys (cache c')).
Proof.
  revert c. induction keys as [|k0 keys IH]; intros c Hnd; cbn [fold_left].
  - rewrite bool_decide_eq_false_2 by apply not_elem_of_nil. auto.
  - set (c1 := if includes k0 keyPattern then clear k0 c else c).
    assert (Hnd1 : NoDup (map_keys (cache c1))).
    { subst c1. destruct (includes k0 keyPattern); [|exact Hnd].
      apply map_delete_NoDup, Hnd. }
    destruct (IH c1 Hnd1) as (Hget & Hpend & Hnd'). cbv zeta in Hget, Hpend, Hnd'.
    split; [|split; [|exact Hnd']].
    + rewrite Hget. subst c1.
      destruct (decide (k = k0)) as [->|Hne].
      * rewrite (bool_decide_eq_true_2 (k0 ∈ k0 :: keys)) by apply list_elem_of_here.
        cbn [andb].
        destruct (includes k0 keyPattern) eqn:Hinc.
        -- rewrite andb_true_r. cbn [clear cache].
           rewrite map_get_delete_eq by exact Hnd.
           destruct (bool_decide (k0 ∈ keys)); reflexivity.
        -- rewrite andb_false_r. reflexivity.
      * assert (Hin : bool_decide (k ∈ k0 :: keys) = bool_decide (k ∈ keys)).
        { apply bool_decide_ext. rewrite elem_of_cons. tauto. }
        rewrite Hin.
        destruct (bool_decide (k ∈ keys) && includes k keyPattern); [reflexivity|].
        destruct (includes k0 keyPattern); [|reflexivity].
        cbn [clear cache]. apply map_get_delete_ne. congruence.
    + rewrite Hpend. subst c1. destruct (includes k0 keyPattern); reflexivity.
Qed.

Lemma invalidateCache_get (keyPattern : string) c (k : string) :
  NoDup (map_keys (cache c)) ->
  map_get k (cache (invalidateCache keyPattern c))
  = (if includes k keyPattern then None else map_get k (cache c))
  /\ pendingRequests (invalidateCache keyPattern c) = pendingRequests c
  /\ NoDup (map_keys (cache (invalidateCache keyPattern c))).
Proof.
  intros Hnd. unfold invalidateCache, getCacheKeys.
  destruct (invalidate_fold keyPattern (map_keys (cache c)) c k Hnd)
    as (Hget & Hpend & Hnd').
  cbv zeta in Hget, Hpend, Hnd'. split; [|auto].
  rewrite Hget.
  destruct (decide (k ∈ map_keys (cache c))) as [Hin|Hout].
  - rewrite bool_decide_eq_true_2 by exact Hin. reflexivity.
  - rewrite bool_decide_eq_false_2 by exact Hout. cbn [andb].
    apply map_get_None in Hout. rewrite Hout.
    destruct (includes k keyPattern); reflexivity.
Qed.

End InvalidationFacts.

(** X18: [invalidateCache(keyPattern)] removes exactly the entries whose
    key contains the pattern.  After the call a key that contains the
    pattern has no entry, every other key has the entry it had, and the
    registered pending requests are untouched (for a cache whose keys are
    distinct, as the keys of a Map are). *)
Theorem invalidateCache_removes_matching {D : Type} (keyPattern : string)
    (c : DataCache D) (k : string) :
  NoDup (getCacheKeys c) ->
  map_get k (cache (invalidateCache keyPattern c))
  = (if includes k keyPattern then None else map_get k (cache c))
  /\ pendingRequests (invalidateCache keyPattern c) = pendingRequests c.
Proof.
  intros Hnd. destruct (invalidateCache_get keyPattern c k Hnd) as (H1 & H2 & _). auto.
Qed.

Lemma invalidateCache_removes_matching_witness :
  map_get "user:u1" (cache (invalidateCache "u1" oneEntryCache)) = None
  /\ map_get "user:u1" (cache (invalidateCache "u2" oneEntryCache))
     = map_get "user:u1" (cache oneEntryCache).
Proof.
  assert (Hnd : NoDup (getCacheKeys oneEntryCache)).
  { cbn. apply NoDup_singleton. }
  destruct (invalidateCache_removes_matching "u1" oneEntryCache "user:u1" Hnd) as [H1 _].
  destruct (invalidateCache_removes_matching "u2" oneEntryCache "user:u1" Hnd) as [H2 _].
  split; [exact H1 | exact H2].
Defined.

Section UserInvalidation.
Context {D : Type}.
Implicit Types (c : DataCache D).

Lemma invalidateUserCache_get (uid : string) c (k : string) :
  NoDup (map_keys (cache c)) ->
  map_get k (cache (invalidateUserCache uid c))
  = (if includes k ("user:" +:+ uid) || includes k ("wallet:" +:+ uid)
        || includes k ("transactions:" +:+ uid) || includes k ("works:" +:+ uid)
     then None else map_get k (cache c))
  /\ pendingRequests (invalidateUserCache uid c) = pendingRequests c.
Proof.
  intros Hnd. unfold invalidateUserCache.
  destruct (invalidateCache_get ("user:" +:+ uid) c k Hnd) as (G1 & P1 & N1).
  destruct (invalidateCache_get ("wallet:" +:+ uid) _ k N1) as (G2 & P2 & N2).
  destruct (invalidateCache_get ("transactions:" +:+ uid) _ k N2) as (G3 & P3 & N3).
  destruct (invalidateCache_get ("works:" +:+ uid) _ k N3) as (G4 & P4 & _).
  split; [|congruence].
  rewrite G4, G3, G2, G1.
  destruct (includes k ("user:" +:+ uid)), (includes k ("wallet:" +:+ uid)),
    (includes k ("transactions:" +:+ uid)), (includes k ("works:" +:+ uid));
    reflexivity.
Qed.

Lemma clear_get (key : string) c (k : string) :
  NoDup (map_keys (cache c)) ->
  map_get k (cache (clear key c))
  = (if bool_decide (k = key) then None else map_get k (cache c))
  /\ NoDup (map_keys (cache (clear key c))).
Proof.
  intros Hnd. cbn [clear cache]. split; [|apply map_delete_NoDup, Hnd].
  destruct (decide (k = key)) as [->|Hne].
  - rewrite bool_decide_eq_true_2 by reflexivity. apply map_get_delete_eq, Hnd.
  - rewrite bool_decide_eq_false_2 by exact Hne. apply map_get_delete_ne. congruence.
Qed.

Lemma clearUserCache_get (uid : string) c (k : string) :
  NoDup (map_keys (cache c)) ->
  map_get k (cache (clearUserCache uid c))
  = (if bool_decide (k ∈ ["user:" +:+ uid; "wallet:" +:+ uid;
                          "transactions:" +:+ uid; "works:" +:+ uid])
     then None else map_get k (cache c)).
Proof.
  intros Hnd. unfold clearUserCache.
  destruct (clear_get ("user:" +:+ uid) c k Hnd) as (G1 & N1).
  destruct (clear_get ("wallet:" +:+ uid) _ k N1) as (G2 & N2).
  destruct (clear_get ("transactions:" +:+ uid) _ k N2) as (G3 & N3).
  destruct (clear_get ("works:" +:+ uid) _ k N3) as (G4 & _).
  rewrite G4, G3, G2, G1.
  destruct (decide (k = "user:" +:+ uid)) as [E1|E1];
    destruct (decide (k = "wallet:" +:+ uid)) as [E2|E2];
    destruct (decide (k = "transactions:" +:+ uid)) as [E3|E3];
    destruct (decide (k = "works:" +:+ uid)) as [E4|E4];
    rewrite ?(bool_decide_eq_true_2 _ E1), ?(bool_decide_eq_false_2 _ E1),
      ?(bool_decide_eq_true_2 _ E2), ?(bool_decide_eq_false_2 _ E2),
      ?(bool_decide_eq_true_2 _ E3), ?(bool_decide_eq_false_2 _ E3),
      ?(bool_decide_eq_true_2 _ E4), ?(bool_decide_eq_false_2 _ E4);
    try (rewrite bool_decide_eq_true_2
           by (rewrite !elem_of_cons; tauto); reflexivity).
  rewrite bool_decide_eq_false_2; [reflexivity|].
  rewrite !elem_of_cons, elem_of_nil. tauto.
Qed.

End UserInvalidation.

(** X19: the two ways of dropping a user's cache entries differ.
    [clearUserCache(uid)] removes exactly the four keys user:uid,
    wallet:uid, transactions:uid and works:uid and keeps every other entry.
    [invalidateUserCache(uid)] removes every key that contains one of these
    four strings, and keeps the others: besides the user's own four keys it
    also drops the entries of every user whose id begins with uid (the keys
    wallet:uid followed by any suffix, and likewise for the other three
    prefixes).  Neither touches the registered pending requests. *)
Theorem user_cache_invalidation {D : Type} (uid : string) (c : DataCache D) :
  NoDup (getCacheKeys c) ->
  (forall k,
     map_get k (cache (clearUserCache uid c))
     = (if bool_decide (k ∈ ["user:" +:+ uid; "wallet:" +:+ uid;
                             "transactions:" +:+ uid; "works:" +:+ uid])
        then None else map_get k (cache c)))
  /\ (forall k,
        map_get k (cache (invalidateUserCache uid c))
        = (if includes k ("user:" +:+ uid) || includes k ("wallet:" +:+ uid)
              || includes k ("transactions:" +:+ uid) || includes k ("works:" +:+ uid)
           then None else map_get k (cache c)))
  /\ (forall suffix,
        map_get ("user:" +:+ uid +:+ suffix) (cache (invalidateUserCache uid c)) = None
        /\ map_get ("wallet:" +:+ uid +:+ suffix) (cache (invalidateUserCache uid c)) = None
        /\ map_get ("transactions:" +:+ uid +:+ suffix)
             (cache (invalidateUserCache uid c)) = None
        /\ map_get ("works:" +:+ uid +:+ suffix) (cache (invalidateUserCache uid c)) = None)
  /\ pendingRequests (clearUserCache uid c) = pendingRequests c
  /\ pendingRequests (invalidateUserCache uid c) = pendingRequests c.
Proof.
  intros Hnd. split; [|split; [|split; [|split]]].
  - intros k. apply clearUserCache_get, Hnd.
  - intros k. apply invalidateUserCache_get, Hnd.
  - intros suffix.
    assert (H1 : includes ("user:" +:+ uid +:+ suffix) ("user:" +:+ uid) = true)
      by (apply (includes_prefix ("user:" +:+ uid) suffix)).
    assert (H2 : includes ("wallet:" +:+ uid +:+ suffix) ("wallet:" +:+ uid) = true)
      by (apply (includes_prefix ("wallet:" +:+ uid) suffix)).
    assert (H3 : includes ("transactions:" +:+ uid +:+ suffix) ("transactions:" +:+ uid)
                 = true)
      by (apply (includes_prefix ("transactions:" +:+ uid) suffix)).
    assert (H4 : includes ("works:" +:+ uid +:+ suffix) ("works:" +:+ uid) = true)
      by (apply (includes_prefix ("works:" +:+ uid) suffix)).
    repeat split.
    + destruct (invalidateUserCache_get uid c ("user:" +:+ uid +:+ suffix) Hnd) as [-> _].
      rewrite H1. reflexivity.
    + destruct (invalidateUserCache_get uid c ("wallet:" +:+ uid +:+ suffix) Hnd)
        as [-> _].
      rewrite H2, orb_true_r. reflexivity.
    + destruct (invalidateUserCache_get uid c ("transactions:" +:+ uid +:+ suffix) Hnd)
        as [-> _].
      rewrite H3, !orb_true_r. reflexivity.
    + destruct (invalidateUserCache_get uid c ("works:" +:+ uid +:+ suffix) Hnd)
        as [-> _].
      rewrite H4, !orb_true_r. reflexivity.
  - reflexivity.
  - apply (invalidateUserCache_get uid c "" Hnd).
Qed.

Lemma user_cache_invalidation_witness :
  map_get "wallet:u10" (cache (clearUserCache "u1" threeWalletsCache))
    = map_get "wallet:u10" (cache threeWalletsCache)
  /\ map_get "wallet:u10" (cache (invalidateUserCache "u1" threeWalletsCache)) = None
  /\ map_get "wallet:u2" (cache (invalidateUserCache "u1" threeWalletsCache))
     = map_get "wallet:u2" (cache threeWalletsCache).
Proof.
  assert (Hnd : NoDup (getCacheKeys threeWalletsCache)).
  { apply (bool_decide_unpack _). vm_compute. exact I. }
  destruct (user_cache_invalidation "u1" threeWalletsCache Hnd)
    as (Hclear & Hinv & Hmore & _).
  split; [exact (Hclear "wallet:u10")|].
  split; [|exact (Hinv "wallet:u2")].
  destruct (Hmore "0") as (_ & H & _). exact H.
Defined.

Section Refresh.
Context {D : Type}.

Lemma set_NoDup_V2 (stamp_now expiry_now : Z) (key : string) (d : D) (c : DataCache D) :
  NoDup (map_keys (cache c)) ->
  NoDup (map_keys (cache (DataCacheV2.set stamp_now expiry_now key d c))).
Proof.
  intros Hnd. unfold DataCacheV2.set, store_entry. cbn [cache].
  apply map_set_NoDup.
  destruct (MAX_CACHE_SIZE <=? map_size (cache c)); [apply evict_NoDup, Hnd | exact Hnd].
Qed.

End Refresh.

(** X20: the cache write that ends a committed wallet update in
    [data-cache.ts] does not survive the call.  [updateWalletBalance] and
    [createTransactionAndAdjustWallet] store the committed wallet under
    wallet:uid and then call [invalidateUserCache(uid)], which removes that
    very key: after the two calls the cache has no entry for wallet:uid
    (nor for user:uid, transactions:uid, works:uid), whatever it held
    before, so the next read of the wallet goes to the store. *)
Theorem refreshWalletCache_leaves_no_entry {D : Type} (stamp_now expiry_now : Z)
    (uid : string) (finalData : D) (c : DataCache D) :
  NoDup (getCacheKeys c) ->
  let c' := refreshWalletCache stamp_now expiry_now uid finalData c in
  map_get ("wallet:" +:+ uid) (cache c') = None
  /\ (forall now, (DataCacheV2.get now ("wallet:" +:+ uid) c').1 = None)
  /\ map_get ("user:" +:+ uid) (cache c') = None
  /\ map_get ("transactions:" +:+ uid) (cache c') = None
  /\ map_get ("works:" +:+ uid) (cache c') = None.
Proof.
  intros Hnd c'. subst c'. unfold refreshWalletCache. cbv zeta.
  pose proof (set_NoDup_V2 stamp_now expiry_now ("wallet:" +:+ uid) finalData c Hnd)
    as Hnd'.
  set (c1 := DataCacheV2.set stamp_now expiry_now ("wallet:" +:+ uid) finalData c) in *.
  assert (Hw : map_get ("wallet:" +:+ uid) (cache (invalidateUserCache uid c1)) = None).
  { destruct (invalidateUserCache_get uid c1 ("wallet:" +:+ uid) Hnd') as [-> _].
    rewrite (includes_self ("wallet:" +:+ uid)), orb_true_r. reflexivity. }
  split; [exact Hw|]. split; [|split; [|split]].
  - intros now. unfold DataCacheV2.get, cache_get. rewrite Hw. reflexivity.
  - destruct (invalidateUserCache_get uid c1 ("user:" +:+ uid) Hnd') as [-> _].
    rewrite (includes_self ("user:" +:+ uid)). reflexivity.
  - destruct (invalidateUserCache_get uid c1 ("transactions:" +:+ uid) Hnd') as [-> _].
    rewrite (includes_self ("transactions:" +:+ uid)), !orb_true_r. reflexivity.
  - destruct (invalidateUserCache_get uid c1 ("works:" +:+ uid) Hnd') as [-> _].
    rewrite (includes_self ("works:" +:+ uid)), !orb_true_r. reflexivity.
Qed.

Lemma refreshWalletCache_leaves_no_entry_witness :
  map_get "wallet:u1"
    (cache (refreshWalletCache 5000 5000 "u1" 7%nat threeWalletsCache)) = None.
Proof.
  assert (Hnd : NoDup (getCacheKeys threeWalletsCache)).
  { apply (bool_decide_unpack _). vm_compute. exact I. }
  destruct (refreshWalletCache_leaves_no_entry 5000 5000 "u1" 7%nat threeWalletsCache Hnd)
    as (H & _).
  exact H.
Defined.

(** ** Capacity and eviction *)

Section CacheRuns.
Context {D : Type}.
Implicit Types (c : DataCache D).

Lemma invalidateCache_ok (keyPattern : string) c :
  cacheOk c -> cacheOk (invalidateCache keyPattern c).
Proof.
  unfold invalidateCache. generalize (getCacheKeys c). intros keys. revert c.
  induction keys as [|k keys IH]; intros c Hok; cbn [fold_left]; [exact Hok|].
  apply IH. destruct (includes k keyPattern); [|exact Hok].
  apply (others_keep_capacity 0 k 0%nat c Hok).
Qed.

Lemma runCacheCall_ok (set_ : Z -> Z -> string -> D -> DataCache D -> DataCache D)
    c (call : CacheCall D) :
  (forall stamp_now expiry_now key d c, cacheOk c -> key <> "" ->
     stamp_now < MAX_SAFE_INTEGER -> cacheOk (set_ stamp_now expiry_now key d c)) ->
  properCall call -> cacheOk c -> cacheOk (runCacheCall set_ c call).
Proof.
  intros Hset Hcall Hok.
  destruct call as [stamp_now expiry_now key d|now key|key| |key p|key|pat|uid|uid];
    cbn [runCacheCall].
  - destruct Hcall. apply Hset; assumption.
  - apply (others_keep_capacity now key 0%nat c Hok).
  - apply (others_keep_capacity 0 key 0%nat c Hok).
  - apply (others_keep_capacity 0 "" 0%nat c Hok).
  - apply (others_keep_capacity 0 key p c Hok).
  - apply (others_keep_capacity 0 key 0%nat c Hok).
  - apply invalidateCache_ok, Hok.
  - unfold invalidateUserCache. do 4 apply invalidateCache_ok. exact Hok.
  - unfold clearUserCache.
    repeat match goal with
           | |- cacheOk (clear ?k ?c') => apply (others_keep_capacity 0 k 0%nat c')
           end.
    exact Hok.
Qed.

Lemma runCacheCalls_ok (set_ : Z -> Z -> string -> D -> DataCache D -> DataCache D)
    (calls : list (CacheCall D)) c :
  (forall stamp_now expiry_now key d c, cacheOk c -> key <> "" ->
     stamp_now < MAX_SAFE_INTEGER -> cacheOk (set_ stamp_now expiry_now key d c)) ->
  Forall properCall calls -> cacheOk c ->
  cacheOk (fold_left (runCacheCall set_) calls c).
Proof.
  intros Hset. revert c. induction calls as [|call calls IH]; intros c Hcalls Hok;
    cbn [fold_left]; [exact Hok|].
  apply Forall_cons in Hcalls as [Hcall Hcalls].
  apply IH; [exact Hcalls|]. apply runCacheCall_ok; assumption.
Qed.

Lemma empty_cache_ok : cacheOk (mkCache (D := D) [] []).
Proof.
  unfold cacheOk, map_size, MAX_CACHE_SIZE. cbn.
  split; [constructor|]. split; [lia|]. split; constructor.
Qed.

End CacheRuns.

(** X21: with non-empty keys the cache never exceeds its capacity.  From
    the empty cache, after any sequence of calls of the methods of the
    class (set, get, clear, clearAll, setPending, clearPending) and of
    [invalidateCache], [invalidateUserCache] and [clearUserCache], in which
    every [set] has a non-empty key and reads a clock below
    Number.MAX_SAFE_INTEGER, the cache holds at most 100 entries and no key
    twice; for the [set] of either copy of the class. *)
Theorem cache_stays_within_capacity {D : Type} (calls : list (CacheCall D)) :
  Forall properCall calls ->
  (let c := fold_left (runCacheCall DataCacheV1.set) calls (mkCache [] []) in
   map_size (cache c) <= MAX_CACHE_SIZE /\ NoDup (getCacheKeys c))
  /\ (let c := fold_left (runCacheCall DataCacheV2.set) calls (mkCache [] []) in
      map_size (cache c) <= MAX_CACHE_SIZE /\ NoDup (getCacheKeys c)).
Proof.
  intros Hcalls. split.
  - destruct (runCacheCalls_ok DataCacheV1.set calls (mkCache [] [])
                (fun s e k d c => set_keeps_capacity_V1 s e k d c) Hcalls empty_cache_ok)
      as (Hnd & Hlen & _).
    auto.
  - destruct (runCacheCalls_ok DataCacheV2.set calls (mkCache [] [])
                (fun s e k d c => set_keeps_capacity_V2 s e k d c) Hcalls empty_cache_ok)
      as (Hnd & Hlen & _).
    auto.
Qed.

Lemma cache_stays_within_capacity_witness :
  let calls :=
    map (fun n => CallSet (Z.of_nat n) (Z.of_nat n)
                    (String (ascii_of_nat (33 + n mod 90)) (String (ascii_of_nat (33 + n / 90)) ""))
                    n)
      (seq 0 150) in
  map_size (cache (fold_left (runCacheCall DataCacheV2.set) calls (mkCache [] [])))
  <= MAX_CACHE_SIZE.
Proof.
  intros calls.
  assert (Hcalls : Forall properCall calls).
  { subst calls. apply Forall_forall. intros call Hin.
    apply list_elem_of_fmap in Hin as (n & -> & Hn). apply elem_of_seq in Hn.
    cbn. split; [discriminate|]. unfold MAX_SAFE_INTEGER. lia. }
  destruct (cache_stays_within_capacity calls Hcalls) as [_ [H _]]. exact H.
Defined.

Section Eviction.
Context {D : Type}.
Implicit Types (c : DataCache D).

Lemma set_below_capacity (stamp_now expiry_now : Z) (key : string) (d : D) c :
  map_size (cache c) < MAX_CACHE_SIZE ->
  cache (DataCacheV1.set stamp_now expiry_now key d c)
    = store_entry stamp_now expiry_now key d (cache c)
  /\ cache (DataCacheV2.set stamp_now expiry_now key d c)
     = store_entry stamp_now expiry_now key d (cache c).
Proof.
  intros Hlt. unfold DataCacheV1.set, DataCacheV2.set. cbn [cache].
  apply Z.leb_gt in Hlt. rewrite Hlt. auto.
Qed.

Lemma set_at_capacity_V1 (stamp_now expiry_now : Z) (key : string) (d : D) c :
  cacheOk c -> map_size (cache c) = MAX_CACHE_SIZE ->
  exists victim e rest,
    cache c = (victim, e) :: rest
    /\ cache (DataCacheV1.set stamp_now expiry_now key d c)
       = store_entry stamp_now expiry_now key d rest.
Proof.
  intros (Hnd & _ & Hkeys & _) Hfull. unfold DataCacheV1.set. cbn [cache].
  rewrite Hfull, Z.leb_refl.
  destruct (cache c) as [|[k e] rest] eqn:Hc; [discriminate Hfull|].
  exists k, e, rest. split; [reflexivity|].
  apply Forall_cons in Hkeys as [Hk _]. cbn [fst] in Hk. apply nonempty_true in Hk.
  unfold first_key, evict. cbn [map_keys map head fst]. rewrite Hk.
  cbn [map_delete]. rewrite bool_decide_eq_true_2 by reflexivity. reflexivity.
Qed.

Lemma set_at_capacity_V2 (stamp_now expiry_now : Z) (key : string) (d : D) c :
  cacheOk c -> map_size (cache c) = MAX_CACHE_SIZE ->
  exists victim e,
    (victim, e) ∈ cache c
    /\ Forall (fun e' => timestamp e <= timestamp e'.2) (cache c)
    /\ cache (DataCacheV2.set stamp_now expiry_now key d c)
       = store_entry stamp_now expiry_now key d (map_delete victim (cache c)).
Proof.
  intros (Hnd & _ & Hkeys & Hts) Hfull. unfold DataCacheV2.set. cbn [cache].
  rewrite Hfull, Z.leb_refl.
  destruct (scanOldest_spec (cache c) None MAX_SAFE_INTEGER)
    as [[_ Hall] | (k & e & Hscan & Hin & _ & Hmin)].
  - destruct (cache c) as [|[k e] entries]; [discriminate Hfull|].
    apply Forall_cons in Hall as [Hge _]. apply Forall_cons in Hts as [Hlt _].
    cbn in *. lia.
  - exists k, e. split; [exact Hin|]. split; [exact Hmin|].
    rewrite Hscan. unfold evict.
    assert (Hk : k <> "").
    { rewrite Forall_forall in Hkeys. apply Hkeys.
      apply list_elem_of_fmap. exists (k, e). split; [reflexivity | exact Hin]. }
    apply nonempty_true in Hk. rewrite Hk. reflexivity.
Qed.

Lemma store_after_delete_get (stamp_now expiry_now : Z) (key victim : string) (d : D)
    (entries : list (string * CacheEntry D)) :
  NoDup (map_keys entries) ->
  (key <> victim ->
   map_get victim (store_entry stamp_now expiry_now key d (map_delete victim entries))
   = None)
  /\ (forall k, k <> victim -> k <> key ->
        map_get k (store_entry stamp_now expiry_now key d (map_delete victim entries))
        = map_get k entries).
Proof.
  intros Hnd. unfold store_entry. split.
  - intros Hne. rewrite map_get_set_ne by exact Hne. apply map_get_delete_eq, Hnd.
  - intros k Hv Hk. rewrite map_get_set_ne by congruence.
    apply map_get_delete_ne. congruence.
Qed.

End Eviction.

(** X22: what [set] evicts.  Below capacity [set] evicts nothing.  On a
    cache that holds exactly 100 entries with non-empty keys, [set] removes
    exactly one entry before it stores the new one, also when the key is
    already present: the simpler copy of the class removes the
    first-inserted entry, the class of [data-cache.ts] an entry whose
    timestamp is the smallest of the cache.  Every other entry is kept as
    it is. *)
Theorem set_evicts_one_entry {D : Type} (stamp_now expiry_now : Z) (key : string)
    (d : D) (c : DataCache D) :
  cacheOk c ->
  (map_size (cache c) < MAX_CACHE_SIZE ->
   cache (DataCacheV1.set stamp_now expiry_now key d c)
     = store_entry stamp_now expiry_now key d (cache c)
   /\ cache (DataCacheV2.set stamp_now expiry_now key d c)
      = store_entry stamp_now expiry_now key d (cache c))
  /\ (map_size (cache c) = MAX_CACHE_SIZE ->
      (exists victim e rest,
         cache c = (victim, e) :: rest
         /\ cache (DataCacheV1.set stamp_now expiry_now key d c)
            = store_entry stamp_now expiry_now key d rest)
      /\ (exists victim e,
            (victim, e) ∈ cache c
            /\ Forall (fun e' => timestamp e <= timestamp e'.2) (cache c)
            /\ cache (DataCacheV2.set stamp_now expiry_now key d c)
               = store_entry stamp_now expiry_now key d (map_delete victim (cache c))
            /\ (key <> victim ->
                map_get victim (cache (DataCacheV2.set stamp_now expiry_now key d c))
                = None)
            /\ (forall k, k <> victim -> k <> key ->
                  map_get k (cache (DataCacheV2.set stamp_now expiry_now key d c))
                  = map_get k (cache c)))).
Proof.
  intros Hok. split; [apply set_below_capacity|].
  intros Hfull. split; [apply set_at_capacity_V1; assumption|].
  destruct (set_at_capacity_V2 stamp_now expiry_now key d c Hok Hfull)
    as (victim & e & Hin & Hmin & Hset).
  exists victim, e. split; [exact Hin|]. split; [exact Hmin|]. split; [exact Hset|].
  rewrite Hset. apply store_after_delete_get. apply Hok.
Qed.

Lemma packedCache_ok : cacheOk packedCache.
Proof.
  unfold cacheOk. split; [|split; [|split]].
  - apply (bool_decide_unpack _). vm_compute. exact I.
  - vm_compute. discriminate.
  - apply (bool_decide_unpack _). vm_compute. exact I.
  - apply (bool_decide_unpack _). vm_compute. exact I.
Qed.

Lemma set_evicts_one_entry_witness :
  (exists victim e rest,
     cache packedCache = (victim, e) :: rest
     /\ cache (DataCacheV1.set 5000 5000 "new" 7%nat packedCache)
        = store_entry 5000 5000 "new" 7%nat rest)
  /\ cache (DataCacheV2.set 5000 5000 "new" 7%nat oneEntryCache)
     = store_entry 5000 5000 "new" 7%nat (cache oneEntryCache).
Proof.
  destruct (set_evicts_one_entry 5000 5000 "new" 7%nat packedCache packedCache_ok)
    as [_ Hfull].
  assert (Hone : cacheOk oneEntryCache).
  { unfold cacheOk. split; [|split; [|split]].
    - apply (bool_decide_unpack _). vm_compute. exact I.
    - vm_compute. discriminate.
    - apply (bool_decide_unpack _). vm_compute. exact I.
    - apply (bool_decide_unpack _). vm_compute. exact I. }
  destruct (set_evicts_one_entry 5000 5000 "new" 7%nat oneEntryCache Hone) as [Hbelow _].
  split.
  - apply Hfull. vm_compute. reflexivity.
  - apply Hbelow. vm_compute. reflexivity.
Defined.

(** C8: the capacity invariant.  The module stores under keys that it
    builds from a non-empty literal prefix ([user:], [wallet:],
    [transactions:], [works:], [leaderboard:], [campaigns:all],
    [admin:data]) and stamps every entry with [Date.now()].  From the empty
    cache, after any sequence of such [set] calls and of calls of the other
    operations (get, clear, clearAll, setPending, clearPending,
    [invalidateCache], [invalidateUserCache], [clearUserCache]), the cache
    holds at most 100 entries, and a further [set] leaves at most 100, for
    the [set] of either copy of the class.  When that [set] finds 100
    entries it removes one entry and then stores the new one: the simpler
    copy the first-inserted entry, the class of [data-cache.ts] an entry
    whose timestamp is the smallest of the cache. *)
Theorem cache_capacity_invariant {D : Type} (calls : list (CacheCall D))
    (stamp_now expiry_now : Z) (key : string) (d : D) :
  Forall properCall calls -> key <> "" -> stamp_now < MAX_SAFE_INTEGER ->
  (let c := fold_left (runCacheCall DataCacheV1.set) calls (mkCache [] []) in
   map_size (cache c) <= MAX_CACHE_SIZE
   /\ map_size (cache (DataCacheV1.set stamp_now expiry_now key d c)) <= MAX_CACHE_SIZE
   /\ (map_size (cache c) = MAX_CACHE_SIZE ->
       exists victim e rest,
         cache c = (victim, e) :: rest
         /\ (victim ∉ map_keys rest)
         /\ cache (DataCacheV1.set stamp_now expiry_now key d c)
            = store_entry stamp_now expiry_now key d rest))
  /\ (let c := fold_left (runCacheCall DataCacheV2.set) calls (mkCache [] []) in
      map_size (cache c) <= MAX_CACHE_SIZE
      /\ map_size (cache (DataCacheV2.set stamp_now expiry_now key d c)) <= MAX_CACHE_SIZE
      /\ (map_size (cache c) = MAX_CACHE_SIZE ->
          exists victim e,
            (victim, e) ∈ cache c
            /\ Forall (fun e' => timestamp e <= timestamp e'.2) (cache c)
            /\ cache (DataCacheV2.set stamp_now expiry_now key d c)
               = store_entry stamp_now expiry_now key d (map_delete victim (cache c))
            /\ (key <> victim ->
                map_get victim (cache (DataCacheV2.set stamp_now expiry_now key d c))
                = None))).
Proof.
  intros Hcalls Hkey Hstamp. split; cbv zeta.
  - pose proof (runCacheCalls_ok DataCacheV1.set calls (mkCache [] [])
                  (fun s e k d c => set_keeps_capacity_V1 s e k d c) Hcalls empty_cache_ok)
      as Hok.
    split; [apply Hok|]. split.
    + apply (set_keeps_capacity_V1 stamp_now expiry_now key d _ Hok Hkey Hstamp).
    + intros Hfull.
      destruct (set_at_capacity_V1 stamp_now expiry_now key d _ Hok Hfull)
        as (victim & e & rest & Hc & Hset).
      exists victim, e, rest. split; [exact Hc|]. split; [|exact Hset].
      destruct Hok as (Hnd & _). rewrite Hc in Hnd. cbn [map_keys map fst] in Hnd.
      apply NoDup_cons in Hnd as [Hnotin _]. exact Hnotin.
  - pose proof (runCacheCalls_ok DataCacheV2.set calls (mkCache [] [])
                  (fun s e k d c => set_keeps_capacity_V2 s e k d c) Hcalls empty_cache_ok)
      as Hok.
    split; [apply Hok|]. split.
    + apply (set_keeps_capacity_V2 stamp_now expiry_now key d _ Hok Hkey Hstamp).
    + intros Hfull.
      destruct (set_at_capacity_V2 stamp_now expiry_now key d _ Hok Hfull)
        as (victim & e & Hin & Hmin & Hset).
      exists victim, e. split; [exact Hin|]. split; [exact Hmin|]. split; [exact Hset|].
      rewrite Hset. apply store_after_delete_get. apply Hok.
Qed.

Lemma cache_capacity_invariant_witness :
  let calls :=
    map (fun n => CallSet (Z.of_nat n) (Z.of_nat n + CACHE_DURATION)
                    ("user:" +:+ (String (ascii_of_nat (48 + n / 10))
                                    (String (ascii_of_nat (48 + n mod 10)) "")))
                    n)
      (seq 0 100) in
  let c := fold_left (runCacheCall DataCacheV2.set) calls (mkCache [] []) in
  map_size (cache c) <= MAX_CACHE_SIZE
  /\ map_size (cache (DataCacheV2.set 5000 (5000 + CACHE_DURATION) "wallet:u1" 7%nat c))
     <= MAX_CACHE_SIZE
  /\ exists victim e,
       (victim, e) ∈ cache c
       /\ Forall (fun e' => timestamp e <= timestamp e'.2) (cache c)
       /\ cache (DataCacheV2.set 5000 (5000 + CACHE_DURATION) "wallet:u1" 7%nat c)
          = store_entry 5000 (5000 + CACHE_DURATION) "wallet:u1" 7%nat
              (map_delete victim (cache c))
       /\ map_get victim
            (cache (DataCacheV2.set 5000 (5000 + CACHE_DURATION) "wallet:u1" 7%nat c))
          = None.
Proof.
  intros calls c.
  assert (Hcalls : Forall properCall calls).
  { subst calls. apply Forall_forall. intros call Hin.
    apply list_elem_of_fmap in Hin as (n & -> & Hn). apply elem_of_seq in Hn.
    cbn. split; [discriminate|]. unfold MAX_SAFE_INTEGER. lia. }
  assert (Hkey : "wallet:u1" <> "") by discriminate.
  assert (Hstamp : 5000 < MAX_SAFE_INTEGER) by (unfold MAX_SAFE_INTEGER; lia).
  destruct (cache_capacity_invariant calls 5000 (5000 + CACHE_DURATION) "wallet:u1" 7%nat
              Hcalls Hkey Hstamp) as [_ (Hsize & Hset & Hevict)].
  split; [exact Hsize|]. split; [exact Hset|].
  assert (Hfull : map_size (cache c) = MAX_CACHE_SIZE) by (vm_compute; reflexivity).
  destruct (Hevict Hfull) as (victim & e & Hin & Hmin & Heq & Hgone).
  exists victim, e. split; [exact Hin|]. split; [exact Hmin|]. split; [exact Heq|].
  apply Hgone. intros <-.
  assert (Hnot : ("wallet:u1", e) ∉ cache c).
  { intros Hc. apply (list_elem_of_fmap_2 fst) in Hc. cbn [fst] in Hc.
    revert Hc. apply (bool_decide_unpack _). vm_compute. exact I. }
  exact (Hnot Hin).
Defined.

(** ** Pending requests: failing factories, and [clearAll] *)

Section PendingEdges.
Context {D : Type}.
Import DataCacheV2.
Implicit Types (r : Runtime D).

Lemma overlapping_throwing (key : string) (n : nat) r :
  map_get key (pendingRequests (dc r)) = None ->
  overlapping key (replicate n ThrowsSync) r
  = (seq (nextPromise r) n,
     mkRuntime (dc r) (n + nextPromise r)%nat (fetches r ++ replicate n key) (handlers r)).
Proof.
  revert r. induction n as [|n IH]; intros r Hfree; cbn [replicate overlapping seq].
  - rewrite app_nil_r. destruct r; reflexivity.
  - unfold getOrCreatePendingRequest at 1. rewrite Hfree.
    rewrite IH by exact Hfree. cbn [dc nextPromise fetches handlers].
    rewrite <- app_assoc. cbn [app].
    replace (n + S (nextPromise r))%nat with (S n + nextPromise r)%nat by lia.
    reflexivity.
Qed.

Lemma fresh_handlers (p : Promise) r :
  runtimeOk r -> (nextPromise r <= p)%nat ->
  forall k, (p, k) ∉ handlers r.
Proof.
  intros (_ & Hh & _) Hle k Hin. destruct (Hh _ _ Hin) as [_ Hlt]. lia.
Qed.

Lemma clearAll_then_call (key : string) (how : Settlement) r :
  runtimeOk r ->
  map_get key (pendingRequests (dc r)) = None ->
  let call1 := getOrCreatePendingRequest key Creates r in
  let call2 := getOrCreatePendingRequest key Creates (onCache clearAll call1.2) in
  let r3 := settle how call1.1 call2.2 in
  call1.1 = nextPromise r /\ call2.1 = S (nextPromise r)
  /\ fetches call2.2 = fetches r ++ [key; key]
  /\ outstanding key call2.2 = outstanding key r ++ [call1.1; call2.1]
  /\ call2.1 ∈ outstanding key r3
  /\ getPending key (dc r3) = None.
Proof.
  intros Hok Hfree call1 call2 r3.
  assert (H1 : call1 = (nextPromise r,
                        mkRuntime (setPending key (nextPromise r) (dc r))
                          (S (nextPromise r)) (fetches r ++ [key])
                          (handlers r ++ [(nextPromise r, key)]))).
  { subst call1. unfold getOrCreatePendingRequest. rewrite Hfree. reflexivity. }
  assert (H2 : call2 = (S (nextPromise r),
                        mkRuntime (mkCache [] [(key, S (nextPromise r))])
                          (S (S (nextPromise r))) ((fetches r ++ [key]) ++ [key])
                          ((handlers r ++ [(nextPromise r, key)])
                             ++ [(S (nextPromise r), key)]))).
  { subst call2. rewrite H1. reflexivity. }
  subst r3. rewrite H2, H1. cbn [fst snd fetches].
  split; [reflexivity|]. split; [reflexivity|].
  split; [rewrite <- app_assoc; reflexivity|].
  assert (Hout : outstanding key
                   (mkRuntime (mkCache (D := D) [] [(key, S (nextPromise r))])
                      (S (S (nextPromise r))) ((fetches r ++ [key]) ++ [key])
                      ((handlers r ++ [(nextPromise r, key)])
                         ++ [(S (nextPromise r), key)]))
                 = outstanding key r ++ [nextPromise r; S (nextPromise r)]).
  { unfold outstanding. cbn [handlers]. rewrite !filter_app, !map_app.
    rewrite !filter_cons, !filter_nil. cbn [snd].
    destruct (decide (key = key)) as [_|Hne]; [|contradiction].
    rewrite <- app_assoc. reflexivity. }
  split; [exact Hout|]. split.
  - unfold outstanding, settle. cbn [handlers].
    apply list_elem_of_fmap. exists (S (nextPromise r), key). split; [reflexivity|].
    apply list_elem_of_filter. split; [reflexivity|].
    apply list_elem_of_filter. split; [cbn; lia|].
    apply elem_of_app. right. apply list_elem_of_here.
  - unfold settle, getPending. cbn [dc handlers].
    destruct (runFinally_pending (nextPromise r)
                ((handlers r ++ [(nextPromise r, key)]) ++ [(S (nextPromise r), key)])
                (mkCache (D := D) [] [(key, S (nextPromise r))])) as [_ Hget].
    { cbn. apply NoDup_singleton. }
    rewrite Hget. rewrite bool_decide_eq_true_2; [reflexivity|].
    apply elem_of_app. left. apply elem_of_app. right. apply list_elem_of_here.
Qed.

End PendingEdges.

(** X23: failures of the factory are not coalesced.  When the factory
    passed to [getOrCreatePendingRequest] throws, nothing is registered for
    the key: n calls for a key without a pending request, each with a
    throwing factory, call the factory n times and return n different
    rejected promises, and leave the cache and its pending requests as they
    were. *)
Theorem throwing_factory_is_called_every_time {D : Type} (key : string) (n : nat)
    (r : DataCacheV2.Runtime D) :
  getPending key (DataCacheV2.dc r) = None ->
  let run := DataCacheV2.overlapping key (replicate n DataCacheV2.ThrowsSync) r in
  run.1 = seq (DataCacheV2.nextPromise r) n
  /\ NoDup run.1
  /\ DataCacheV2.fetches run.2 = DataCacheV2.fetches r ++ replicate n key
  /\ DataCacheV2.dc run.2 = DataCacheV2.dc r
  /\ DataCacheV2.handlers run.2 = DataCacheV2.handlers r.
Proof.
  intros Hfree run. subst run. rewrite overlapping_throwing by exact Hfree.
  cbn [fst snd DataCacheV2.fetches DataCacheV2.dc DataCacheV2.handlers].
  split; [reflexivity|]. split; [apply NoDup_seq|]. auto.
Qed.

Lemma throwing_factory_is_called_every_time_witness :
  let run := DataCacheV2.overlapping "user:u1"
               (replicate 3 DataCacheV2.ThrowsSync) (DataCacheV2.initial (D := nat)) in
  run.1 = [0; 1; 2]%nat
  /\ DataCacheV2.fetches run.2 = ["user:u1"; "user:u1"; "user:u1"].
Proof.
  intros run.
  destruct (throwing_factory_is_called_every_time "user:u1" 3
              (DataCacheV2.initial (D := nat))) as (H1 & _ & H2 & _); [reflexivity|].
  split; [exact H1 | exact H2].
Defined.

(** X24: [clearAll] while a fetch is in flight defeats the coalescing.
    After a call of [getOrCreatePendingRequest] has registered a promise
    for a key and [clearAll] has emptied the registrations, the next call
    for the key calls the factory again, so that two fetches for the key
    are outstanding; and when the first promise settles, its cleanup
    removes the registration of the second, which is still outstanding, so
    that a further call would start a third fetch. *)
Theorem clearAll_defeats_coalescing {D : Type} (key : string)
    (how : DataCacheV2.Settlement) (r : DataCacheV2.Runtime D) :
  runtimeOk r ->
  getPending key (DataCacheV2.dc r) = None ->
  let call1 := DataCacheV2.getOrCreatePendingRequest key DataCacheV2.Creates r in
  let call2 := DataCacheV2.getOrCreatePendingRequest key DataCacheV2.Creates
                 (onCache clearAll call1.2) in
  let r3 := DataCacheV2.settle how call1.1 call2.2 in
  call2.1 <> call1.1
  /\ DataCacheV2.fetches call2.2 = DataCacheV2.fetches r ++ [key; key]
  /\ DataCacheV2.outstanding key call2.2
     = DataCacheV2.outstanding key r ++ [call1.1; call2.1]
  /\ call2.1 ∈ DataCacheV2.outstanding key r3
  /\ getPending key (DataCacheV2.dc r3) = None.
Proof.
  intros Hok Hfree call1 call2 r3.
  destruct (clearAll_then_call key how r Hok Hfree) as (H1 & H2 & H3 & H4 & H5 & H6).
  fold call1 in H1, H2, H3, H4, H5, H6. fold call2 in H2, H3, H4, H5, H6.
  fold r3 in H5, H6.
  split; [rewrite H1, H2; lia|]. auto.
Qed.

Lemma clearAll_defeats_coalescing_witness :
  let r := DataCacheV2.initial (D := nat) in
  let call1 := DataCacheV2.getOrCreatePendingRequest "user:u1" DataCacheV2.Creates r in
  let call2 := DataCacheV2.getOrCreatePendingRequest "user:u1" DataCacheV2.Creates
                 (onCache clearAll call1.2) in
  DataCacheV2.outstanding "user:u1" call2.2 = [0; 1]%nat.
Proof.
  intros r call1 call2.
  assert (Hok : runtimeOk r).
  { unfold runtimeOk, r, DataCacheV2.initial. cbn. split; [constructor|].
    split; [|constructor]. intros p k Hin. apply elem_of_nil in Hin. contradiction. }
  destruct (clearAll_defeats_coalescing "user:u1" DataCacheV2.Fulfilled r Hok)
    as (_ & _ & H & _); [reflexivity|].
  exact H.
Defined.

(** ** Reading through the cache *)

Section ReadThrough.
Context {D : Type}.
Implicit Types (c : DataCache D).

Lemma set_then_lookup_V2 (stamp_now expiry_now : Z) (key : string) (d : D) c :
  map_get key (cache (clearPending key (DataCacheV2.set stamp_now expiry_now key d c)))
  = Some (mkEntry d stamp_now (expiry_now + CACHE_DURATION)).
Proof. cbn [clearPending cache DataCacheV2.set]. apply map_get_set_eq. Qed.

Lemma set_then_lookup_V1 (stamp_now expiry_now : Z) (key : string) (d : D) c :
  map_get key (cache (clearPending key (DataCacheV1.set stamp_now expiry_now key d c)))
  = Some (mkEntry d stamp_now (expiry_now + CACHE_DURATION)).
Proof. cbn [clearPending cache DataCacheV1.set]. apply map_get_set_eq. Qed.

Lemma fetchCached_hit_V2 (cacheKey : string) (fallback : option D)
    (get_now expired_now stamp_now expiry_now : Z) (snapshot : option D) c
    (entry : CacheEntry D) :
  map_get cacheKey (cache c) = Some entry ->
  get_now <= expiry entry -> expired_now <= expiry entry ->
  FetchV2.fetchCached cacheKey fallback get_now expired_now stamp_now expiry_now snapshot c
  = (FetchedValue (Some (data entry)), c).
Proof.
  intros Hentry Hget Hexp. unfold FetchV2.fetchCached, DataCacheV2.get, cache_get.
  rewrite Hentry. apply Z.ltb_ge in Hget. rewrite Hget.
  unfold DataCacheV2.isExpired. rewrite Hentry.
  apply Z.ltb_ge in Hexp. rewrite Hexp. reflexivity.
Qed.

Lemma fetchCached_miss_V2 (cacheKey : string) (fallback : option D)
    (get_now expired_now stamp_now expiry_now : Z) (snapshot : option D) c :
  map_get cacheKey (cache c) = None ->
  FetchV2.fetchCached cacheKey fallback get_now expired_now stamp_now expiry_now snapshot c
  = FetchV2.viaPendingRequest cacheKey fallback stamp_now expiry_now snapshot c.
Proof.
  intros Hmiss. unfold FetchV2.fetchCached, DataCacheV2.get, cache_get.
  rewrite Hmiss. reflexivity.
Qed.

Lemma fetchCached_hit_V1 (cacheKey : string) (fallback : option D)
    (get_now stamp_now expiry_now : Z) (snapshot : option D) c (entry : CacheEntry D) :
  map_get cacheKey (cache c) = Some entry ->
  get_now <= expiry entry ->
  FetchV1.fetchCached cacheKey fallback get_now stamp_now expiry_now snapshot c
  = (FetchedValue (Some (data entry)), c).
Proof.
  intros Hentry Hget. unfold FetchV1.fetchCached, DataCacheV1.get, cache_get.
  rewrite Hentry. apply Z.ltb_ge in Hget. rewrite Hget. reflexivity.
Qed.

End ReadThrough.

(** X25: the fetch functions read through the cache.  For each of
    [fetchUserData], [fetchWalletData], [fetchTransactions],
    [fetchCampaigns] and [fetchWorks] (their shared body, under any cache
    key), in both copies of the module:
    - a cached entry that has not expired is returned as it is, whatever
      the store holds now, and the cache is left untouched;
    - with no entry and no request in flight, a document that exists is
      returned and cached, so that every later call within 5 minutes of
      the caching returns this same document, whatever the store holds by
      then;
    - with no entry and no request in flight, a missing document resolves
      to the fallback and nothing is cached;
    - with no entry and a request in flight, the promise in flight is
      returned and the cache is left untouched. *)
Theorem fetch_reads_through_the_cache {D : Type} (cacheKey : string)
    (fallback : option D) (get_now expired_now stamp_now expiry_now : Z)
    (c : DataCache D) :
  (forall entry snapshot,
     map_get cacheKey (cache c) = Some entry ->
     get_now <= expiry entry -> expired_now <= expiry entry ->
     FetchV2.fetchCached cacheKey fallback get_now expired_now stamp_now expiry_now
       snapshot c
     = (FetchedValue (Some (data entry)), c)
     /\ FetchV1.fetchCached cacheKey fallback get_now stamp_now expiry_now snapshot c
        = (FetchedValue (Some (data entry)), c))
  /\ (forall d,
        map_get cacheKey (cache c) = None -> getPending cacheKey c = None ->
        let run2 := FetchV2.fetchCached cacheKey fallback get_now expired_now stamp_now
                      expiry_now (Some d) c in
        let run1 := FetchV1.fetchCached cacheKey fallback get_now stamp_now expiry_now
                      (Some d) c in
        run2.1 = FetchedValue (Some d) /\ run1.1 = FetchedValue (Some d)
        /\ forall later_get later_expired later_stamp later_expiry later_snapshot,
             later_get <= expiry_now + CACHE_DURATION ->
             later_expired <= expiry_now + CACHE_DURATION ->
             (FetchV2.fetchCached cacheKey fallback later_get later_expired later_stamp
                later_expiry later_snapshot run2.2).1 = FetchedValue (Some d)
             /\ (FetchV1.fetchCached cacheKey fallback later_get later_stamp
                   later_expiry later_snapshot run1.2).1 = FetchedValue (Some d))
  /\ (map_get cacheKey (cache c) = None -> getPending cacheKey c = None ->
      let run2 := FetchV2.fetchCached cacheKey fallback get_now expired_now stamp_now
                    expiry_now None c in
      let run1 := FetchV1.fetchCached cacheKey fallback get_now stamp_now expiry_now
                    None c in
      run2.1 = FetchedValue fallback /\ cache run2.2 = cache c
      /\ run1.1 = FetchedValue fallback /\ cache run1.2 = cache c)
  /\ (forall p snapshot,
        map_get cacheKey (cache c) = None -> getPending cacheKey c = Some p ->
        FetchV2.fetchCached cacheKey fallback get_now expired_now stamp_now expiry_now
          snapshot c
        = (FetchInFlight (Some p), c)
        /\ FetchV1.fetchCached cacheKey fallback get_now stamp_now expiry_now snapshot c
           = (FetchInFlight (Some p), c)).
Proof.
  split; [|split; [|split]].
  - intros entry snapshot Hentry Hget Hexp. split.
    + apply fetchCached_hit_V2; assumption.
    + apply fetchCached_hit_V1; assumption.
  - intros d Hmiss Hfree run2 run1.
    assert (H2 : run2 = (FetchedValue (Some d),
                         clearPending cacheKey
                           (DataCacheV2.set stamp_now expiry_now cacheKey d c))).
    { subst run2. rewrite fetchCached_miss_V2 by exact Hmiss.
      unfold FetchV2.viaPendingRequest. rewrite Hfree. reflexivity. }
    assert (H1 : run1 = (FetchedValue (Some d),
                         clearPending cacheKey
                           (DataCacheV1.set stamp_now expiry_now cacheKey d c))).
    { subst run1. unfold FetchV1.fetchCached, DataCacheV1.get, cache_get.
      rewrite Hmiss. unfold isFetching, map_has. unfold getPending in Hfree.
      rewrite Hfree. reflexivity. }
    rewrite H2, H1. cbn [fst snd]. split; [reflexivity|]. split; [reflexivity|].
    intros later_get later_expired later_stamp later_expiry later_snapshot Hget Hexp.
    split.
    + rewrite (fetchCached_hit_V2 _ _ _ _ _ _ _ _ _ (set_then_lookup_V2 _ _ _ _ _))
        by (cbn [expiry]; assumption).
      reflexivity.
    + rewrite (fetchCached_hit_V1 _ _ _ _ _ _ _ _ (set_then_lookup_V1 _ _ _ _ _))
        by (cbn [expiry]; assumption).
      reflexivity.
  - intros Hmiss Hfree run2 run1.
    assert (H2 : run2 = (FetchedValue fallback, clearPending cacheKey c)).
    { subst run2. rewrite fetchCached_miss_V2 by exact Hmiss.
      unfold FetchV2.viaPendingRequest. rewrite Hfree. reflexivity. }
    assert (H1 : run1 = (FetchedValue fallback, clearPending cacheKey c)).
    { subst run1. unfold FetchV1.fetchCached, DataCacheV1.get, cache_get.
      rewrite Hmiss. unfold isFetching, map_has. unfold getPending in Hfree.
      rewrite Hfree. reflexivity. }
    rewrite H2, H1. cbn [fst snd clearPending cache]. auto.
  - intros p snapshot Hmiss Hreg. split.
    + rewrite fetchCached_miss_V2 by exact Hmiss.
      unfold FetchV2.viaPendingRequest. rewrite Hreg. reflexivity.
    + unfold FetchV1.fetchCached, DataCacheV1.get, cache_get.
      rewrite Hmiss. unfold isFetching, map_has. unfold getPending in Hreg |- *.
      rewrite Hreg. reflexivity.
Qed.

Lemma fetch_reads_through_the_cache_witness :
  FetchV2.fetchWalletData "u1" 2500 2500 2500 2500 (Some 99%nat) threeWalletsCache
    = (FetchedValue (Some 1%nat), threeWalletsCache)
  /\ (FetchV2.fetchWalletData "u7" 2500 2500 2500 2500 (Some 99%nat) threeWalletsCache).1
     = FetchedValue (Some 99%nat)
  /\ (FetchV1.fetchWalletData "u7" 2500 2500 2500 None threeWalletsCache).1
     = FetchedValue None.
Proof.
  destruct (fetch_reads_through_the_cache "wallet:u1" (None : option nat)
              2500 2500 2500 2500 threeWalletsCache) as (Hhit & _).
  destruct (fetch_reads_through_the_cache "wallet:u7" (None : option nat)
              2500 2500 2500 2500 threeWalletsCache) as (_ & Hstore & Hnone & _).
  split; [|split].
  - apply (Hhit (mkEntry 1%nat 1000 (1000 + CACHE_DURATION)) (Some 99%nat));
      [reflexivity | vm_compute; discriminate | vm_compute; discriminate].
  - apply (Hstore 99%nat); reflexivity.
  - apply Hnone; reflexivity.
Defined.

(** * Who may call the operations *)

Lemma adminCheck_denies_V1 (cu : string) (w : World) :
  ~ isActiveAdmin (db w) cu ->
  V1.adminCheck cu w
  = (Returned false, mkWorld (db w) (reads w ++ [PUser cu]) (writes w) (txs w)).
Proof.
  intros Hnot. unfold V1.adminCheck. rewrite bind_get. simpl_world.
  destruct (users (db w) !! cu) as [u|] eqn:Hu; [|reflexivity].
  destruct (str_is (role u) "admin" && negb (truthy_bool (isBlocked u))) eqn:Hadmin;
    [|reflexivity].
  apply andb_true_iff in Hadmin as [Hrole Hblocked]. destruct Hnot.
  exists u. split; [exact Hu|]. split; [apply str_is_eq, Hrole|].
  apply negb_true_iff, Hblocked.
Qed.

Lemma adminCheck_denies_V2 (cu : string) (w : World) :
  ~ isActiveAdmin (db w) cu ->
  V2.adminCheck cu w
  = (Returned false, mkWorld (db w) (reads w ++ [PUser cu]) (writes w) (txs w)).
Proof.
  intros Hnot. unfold V2.adminCheck. rewrite bind_get. simpl_world.
  destruct (users (db w) !! cu) as [u|] eqn:Hu; [|reflexivity].
  destruct (str_is (role u) "admin" && negb (truthy_bool (isBlocked u))) eqn:Hadmin;
    [|reflexivity].
  apply andb_true_iff in Hadmin as [Hrole Hblocked]. destruct Hnot.
  exists u. split; [exact Hu|]. split; [apply str_is_eq, Hrole|].
  apply negb_true_iff, Hblocked.
Qed.

(** For a caller who is not an active admin, the guard of an operation
    answers "denied" after at most one read, when the operation asks for an
    admin or the caller is not the target. *)
Lemma guarded_denies_V1 (cu target : string) (requiredRole : bool) (w : World) :
  cu <> "" -> ~ isActiveAdmin (db w) cu -> requiredRole = true \/ cu <> target ->
  exists rs,
    guarded (Some cu) (fun ca => V1.verifyUserAuthorization ca target requiredRole) w
    = (Returned true, mkWorld (db w) (reads w ++ rs) (writes w) (txs w)).
Proof.
  intros Hcu Hnot Hwhy. unfold guarded. apply nonempty_true in Hcu. rewrite Hcu.
  unfold bind, V1.verifyUserAuthorization. rewrite Hcu. cbn [negb orb].
  destruct (nonempty target); cbn [negb].
  2: { exists []. rewrite app_nil_r. destruct w; reflexivity. }
  destruct requiredRole.
  { rewrite adminCheck_denies_V1 by exact Hnot. eexists. reflexivity. }
  destruct Hwhy as [Habs | Hne]; [discriminate|].
  rewrite bool_decide_eq_false_2 by exact Hne.
  rewrite adminCheck_denies_V1 by exact Hnot. eexists. reflexivity.
Qed.

Lemma guarded_denies_V2 (validateUserAuthorization : string -> string -> bool -> bool)
    (cu target : string) (requiredRole : bool) (w : World) :
  cu <> "" -> ~ isActiveAdmin (db w) cu -> requiredRole = true \/ cu <> target ->
  exists rs,
    guarded (Some cu)
      (fun ca => V2.verifyUserAuthorization validateUserAuthorization ca target
                   requiredRole) w
    = (Returned true, mkWorld (db w) (reads w ++ rs) (writes w) (txs w)).
Proof.
  intros Hcu Hnot Hwhy. unfold guarded. apply nonempty_true in Hcu. rewrite Hcu.
  unfold bind, V2.verifyUserAuthorization, try_catch.
  destruct (validateUserAuthorization cu target requiredRole); cbn [negb].
  2: { exists []. rewrite app_nil_r. destruct w; reflexivity. }
  destruct requiredRole.
  { rewrite adminCheck_denies_V2 by exact Hnot. eexists. reflexivity. }
  destruct Hwhy as [Habs | Hne]; [discriminate|].
  rewrite bool_decide_eq_false_2 by exact Hne.
  rewrite adminCheck_denies_V2 by exact Hnot. eexists. reflexivity.
Qed.

(** A run that ended here threw before it wrote anything. *)
Ltac turned_away :=
  intros [= <- <-]; unfold refused, refusedAny; cbn; repeat split; eauto.

Ltac deny_V1 cu target r w Hcu Hnot :=
  let rs := fresh "rs" in
  let Hg := fresh "Hg" in
  destruct (guarded_denies_V1 cu target r w Hcu Hnot) as (rs & Hg);
  [first [left; reflexivity | right; assumption]|];
  unfold bind at 1; rewrite Hg; rewrite bind_throw_if; turned_away.

Ltac deny_V2 vA cu target r w Hcu Hnot :=
  let rs := fresh "rs" in
  let Hg := fresh "Hg" in
  destruct (guarded_denies_V2 vA cu target r w Hcu Hnot) as (rs & Hg);
  [first [left; reflexivity | right; assumption]|];
  unfold bind at 1; rewrite Hg; rewrite bind_throw_if; turned_away.

Lemma admin_operations_refuse_V1 (caller : string) (w : World) :
  caller <> "" -> ~ isActiveAdmin (db w) caller ->
  (forall workId userId campaignId reward_,
     refused w (V1.approveWorkAndCredit workId userId campaignId reward_ (Some caller) w))
  /\ (forall requestId type userId amount status,
        refused w (V1.processMoneyRequest requestId type userId amount status
                     (Some caller) w))
  /\ (forall workId userId campaignId,
        refused w (V1Ops.rejectWorkAndRestoreCampaignBudget workId userId campaignId
                     (Some caller) w))
  /\ (forall campaignId amount uid, caller <> uid ->
        refused w (V1.deductCampaignBudget campaignId amount uid (Some caller) w))
  /\ (forall uid updateFn, caller <> uid ->
        refusedAny w (V1Ops.updateWalletBalance uid updateFn (Some caller) w)).
Proof.
  intros Hcu Hnot. split; [|split; [|split; [|split]]].
  - intros workId userId campaignId reward_.
    destruct (V1.approveWorkAndCredit workId userId campaignId reward_ (Some caller) w)
      as [o w'] eqn:Hrun.
    revert Hrun. unfold V1.approveWorkAndCredit.
    deny_V1 caller userId true w Hcu Hnot.
  - intros requestId type userId amount status.
    destruct (V1.processMoneyRequest requestId type userId amount status (Some caller) w)
      as [o w'] eqn:Hrun.
    revert Hrun. unfold V1.processMoneyRequest.
    deny_V1 caller userId true w Hcu Hnot.
  - intros workId userId campaignId.
    destruct (V1Ops.rejectWorkAndRestoreCampaignBudget workId userId campaignId
                (Some caller) w) as [o w'] eqn:Hrun.
    revert Hrun. unfold V1Ops.rejectWorkAndRestoreCampaignBudget.
    deny_V1 caller userId true w Hcu Hnot.
  - intros campaignId amount uid Hne.
    destruct (V1.deductCampaignBudget campaignId amount uid (Some caller) w)
      as [o w'] eqn:Hrun.
    revert Hrun. unfold V1.deductCampaignBudget.
    deny_V1 caller uid false w Hcu Hnot.
  - intros uid updateFn Hne.
    destruct (V1Ops.updateWalletBalance uid updateFn (Some caller) w)
      as [o w'] eqn:Hrun.
    revert Hrun. unfold V1Ops.updateWalletBalance.
    deny_V1 caller uid false w Hcu Hnot.
Qed.

Section V2_callers.
Variable validateWalletData : option WalletBalance -> bool.
Variable validateCampaignData : option Campaign -> bool.
Variable validateWorkData : option Work -> bool.
Variable validateUserAuthorization : string -> string -> bool -> bool.

Lemma admin_operations_refuse_V2 (caller : string) (w : World) :
  caller <> "" -> ~ isActiveAdmin (db w) caller ->
  (forall workId userId campaignId reward_,
     refused w (V2.approveWorkAndCredit validateWalletData validateWorkData
                  validateUserAuthorization workId userId campaignId reward_
                  (Some caller) w))
  /\ (forall requestId type userId amount status,
        refused w (V2.processMoneyRequest validateWalletData validateUserAuthorization
                     requestId type userId amount status (Some caller) w))
  /\ (forall workId userId campaignId,
        refused w (V2Ops.rejectWorkAndRestoreCampaignBudget validateWorkData
                     validateUserAuthorization workId userId campaignId
                     (Some caller) w))
  /\ (forall campaignId amount uid, caller <> uid ->
        refused w (V2.deductCampaignBudget validateWalletData validateCampaignData
                     validateUserAuthorization campaignId amount uid (Some caller) w))
  /\ (forall uid updateFn, caller <> uid ->
        refusedAny w (V2Ops.updateWalletBalance validateWalletData
                        validateUserAuthorization uid updateFn (Some caller) w)).
Proof.
  intros Hcu Hnot. split; [|split; [|split; [|split]]].
  - intros workId userId campaignId reward_.
    destruct (V2.approveWorkAndCredit _ _ _ workId userId campaignId reward_
                (Some caller) w) as [o w'] eqn:Hrun.
    revert Hrun. unfold V2.approveWorkAndCredit.
    do 4 guard_step turned_away.
    deny_V2 validateUserAuthorization caller userId true w Hcu Hnot.
  - intros requestId type userId amount status.
    destruct (V2.processMoneyRequest _ _ requestId type userId amount status
                (Some caller) w) as [o w'] eqn:Hrun.
    revert Hrun. unfold V2.processMoneyRequest.
    do 3 guard_step turned_away.
    deny_V2 validateUserAuthorization caller userId true w Hcu Hnot.
  - intros workId userId campaignId.
    destruct (V2Ops.rejectWorkAndRestoreCampaignBudget _ _ workId userId campaignId
                (Some caller) w) as [o w'] eqn:Hrun.
    revert Hrun. unfold V2Ops.rejectWorkAndRestoreCampaignBudget.
    do 3 guard_step turned_away.
    deny_V2 validateUserAuthorization caller userId true w Hcu Hnot.
  - intros campaignId amount uid Hne.
    destruct (V2.deductCampaignBudget _ _ _ campaignId amount uid (Some caller) w)
      as [o w'] eqn:Hrun.
    revert Hrun. unfold V2.deductCampaignBudget.
    do 3 guard_step turned_away.
    deny_V2 validateUserAuthorization caller uid false w Hcu Hnot.
  - intros uid updateFn Hne.
    destruct (V2Ops.updateWalletBalance _ _ uid updateFn (Some caller) w)
      as [o w'] eqn:Hrun.
    revert Hrun. unfold V2Ops.updateWalletBalance.
    guard_step turned_away.
    deny_V2 validateUserAuthorization caller uid false w Hcu Hnot.
Qed.

End V2_callers.

(** X26: a named caller who is not an active admin cannot act on others.
    When the caller id passed is non-empty and the stored profile of the
    caller is missing, does not have the role admin, or is blocked, then
    [approveWorkAndCredit], [processMoneyRequest] and
    [rejectWorkAndRestoreCampaignBudget] throw for every target, and
    [deductCampaignBudget] and [updateWalletBalance] throw for every target
    other than the caller, in each case before any write or transaction:
    the store is what it was.  In both copies of the module, whatever the
    imported validators of [data-cache.ts] are. *)
Theorem only_active_admins_act_on_others (caller : string) (w : World) :
  caller <> "" -> ~ isActiveAdmin (db w) caller ->
  ((forall workId userId campaignId reward_,
      refused w (V1.approveWorkAndCredit workId userId campaignId reward_
                   (Some caller) w))
   /\ (forall requestId type userId amount status,
         refused w (V1.processMoneyRequest requestId type userId amount status
                      (Some caller) w))
   /\ (forall workId userId campaignId,
         refused w (V1Ops.rejectWorkAndRestoreCampaignBudget workId userId campaignId
                      (Some caller) w))
   /\ (forall campaignId amount uid, caller <> uid ->
         refused w (V1.deductCampaignBudget campaignId amount uid (Some caller) w))
   /\ (forall uid updateFn, caller <> uid ->
         refusedAny w (V1Ops.updateWalletBalance uid updateFn (Some caller) w)))
  /\ (forall (validateWalletData : option WalletBalance -> bool)
             (validateCampaignData : option Campaign -> bool)
             (validateWorkData : option Work -> bool)
             (validateUserAuthorization : string -> string -> bool -> bool),
      (forall workId userId campaignId reward_,
         refused w (V2.approveWorkAndCredit validateWalletData validateWorkData
                      validateUserAuthorization workId userId campaignId reward_
                      (Some caller) w))
      /\ (forall requestId type userId amount status,
            refused w (V2.processMoneyRequest validateWalletData
                         validateUserAuthorization requestId type userId amount status
                         (Some caller) w))
      /\ (forall workId userId campaignId,
            refused w (V2Ops.rejectWorkAndRestoreCampaignBudget validateWorkData
                         validateUserAuthorization workId userId campaignId
                         (Some caller) w))
      /\ (forall campaignId amount uid, caller <> uid ->
            refused w (V2.deductCampaignBudget validateWalletData validateCampaignData
                         validateUserAuthorization campaignId amount uid
                         (Some caller) w))
      /\ (forall uid updateFn, caller <> uid ->
            refusedAny w (V2Ops.updateWalletBalance validateWalletData
                            validateUserAuthorization uid updateFn (Some caller) w))).
Proof.
  intros Hcu Hnot. split.
  - apply admin_operations_refuse_V1; assumption.
  - intros vW vC vWk vA. apply admin_operations_refuse_V2; assumption.
Qed.

Lemma only_active_admins_act_on_others_witness :
  refused blockedAdminWorld
    (V1.approveWorkAndCredit "w1" "u1" "c1" (num 50) (Some "root") blockedAdminWorld)
  /\ refused blockedAdminWorld
       (V1.processMoneyRequest "r1" add_money "u1" (num 10) approved (Some "root")
          blockedAdminWorld)
  /\ refused blockedAdminWorld
       (V1.deductCampaignBudget "c1" (num 100) "u1" (Some "u2") blockedAdminWorld).
Proof.
  assert (Hroot : ~ isActiveAdmin (db blockedAdminWorld) "root").
  { intros (u & Hu & _ & Hb). vm_compute in Hu. injection Hu as <-. discriminate. }
  assert (Hu2 : ~ isActiveAdmin (db blockedAdminWorld) "u2").
  { intros (u & Hu & _). vm_compute in Hu. discriminate. }
  destruct (only_active_admins_act_on_others "root" blockedAdminWorld
              ltac:(discriminate) Hroot) as [(Ha & Hp & _) _].
  destruct (only_active_admins_act_on_others "u2" blockedAdminWorld
              ltac:(discriminate) Hu2) as [(_ & _ & _ & Hd & _) _].
  split; [apply Ha|]. split; [apply Hp|]. apply Hd. discriminate.
Defined.

(** * Recording a transaction *)

Lemma adjusted_number (x d : Qc) :
  adjusted (JNum x) (JNum d) = JNum (Qcmax 0 (fl (x + d)))
  /\ adjusted (JNum x) JUndef = JNum (Qcmax 0 x).
Proof. split; reflexivity. Qed.

Lemma createTransaction_cases_V1 (now : Z) (uid : string)
    (transaction : option Transaction) (walletUpdate : PartialWallet)
    (currentUserId : option string) (l : Ledger) :
  let run := V1Ops.createTransactionAndAdjustWallet now uid transaction walletUpdate
               currentUserId l in
  (run.1 = Returned tt ->
   exists t, transaction = Some t
     /\ V1Ops.validateTransactionData now (Some t) = true
     /\ transactionRecorded V1.validateWalletData l run.2 uid t walletUpdate)
  /\ (V1Ops.validateTransactionData now transaction = false ->
      (exists msg, run.1 = Thrown msg)
      /\ journal run.2 = journal l /\ db (world run.2) = db (world l)).
Proof.
  intros run. subst run. unfold V1Ops.createTransactionAndAdjustWallet, onWorld.
  destruct (guarded_frame currentUserId
              (fun cu => V1.verifyUserAuthorization cu uid false) (world l))
    as (d & rs & Hg).
  { intros cu w0. apply verifyUserAuthorization_frame. }
  rewrite Hg. destruct d; cbn [fst snd journal world db].
  { split; [intros [=] | intros _; eauto]. }
  destruct (V1Ops.validateTransactionData now transaction) eqn:Hvalid;
    cbn [negb fst snd journal world db].
  2: { split; [intros [=] | intros _; eauto]. }
  destruct transaction as [t|]; [|discriminate Hvalid].
  unfold runTransaction. simpl_world. cbn [world journal].
  unfold transactionRecorded. cbn [world db journal].
  destruct (walletAdjust V1.validateWalletData walletUpdate
              (wallets (db (world l)) !! uid)) as [b'|] eqn:Hadjust;
    cbn [fst snd].
  - assert (Hb : V1.validateWalletData (Some b') = true).
    { revert Hadjust. unfold walletAdjust. cbv zeta.
      destruct (V1.validateWalletData _) eqn:Hv; cbn [negb]; [|discriminate].
      intros [= <-]. exact Hv. }
    rewrite Hb. cbn [negb fst snd world journal db].
    split; [|discriminate]. intros _. exists t. auto.
  - split; [|discriminate]. intros _. exists t. auto.
Qed.

Section V2_transactions.
Variable validateWalletData : option WalletBalance -> bool.
Variable validateWorkData : option Work -> bool.
Variable validateUserAuthorization : string -> string -> bool -> bool.
Variable validateTransactionData : option Transaction -> bool.

Lemma createTransaction_cases_V2 (uid : string)
    (transaction : option Transaction) (walletUpdate : PartialWallet)
    (currentUserId : option string) (l : Ledger) :
  let run := V2Ops.createTransactionAndAdjustWallet validateWalletData
               validateUserAuthorization validateTransactionData uid transaction
               walletUpdate currentUserId l in
  (run.1 = Returned tt ->
   exists t, transaction = Some t
     /\ validateTransactionData (Some t) = true
     /\ transactionRecorded validateWalletData l run.2 uid t walletUpdate)
  /\ (validateTransactionData transaction = false ->
      (exists msg, run.1 = Thrown msg)
      /\ journal run.2 = journal l /\ db (world run.2) = db (world l)).
Proof.
  intros run. subst run. unfold V2Ops.createTransactionAndAdjustWallet, onWorld.
  destruct (negb (nonempty uid)); cbn [fst snd].
  { split; [intros [=] | intros _; eauto]. }
  destruct transaction as [t|]; cbn [fst snd].
  2: { split; [intros [=] | intros _; eauto]. }
  destruct (guarded_frame currentUserId
              (fun cu => V2.verifyUserAuthorization validateUserAuthorization cu uid false)
              (world l)) as (d & rs & Hg).
  { intros cu w0. apply verifyUserAuthorization_frame_V2. }
  rewrite Hg. destruct d; cbn [fst snd journal world db].
  { split; [intros [=] | intros _; eauto]. }
  destruct (validateTransactionData (Some t)) eqn:Hvalid;
    cbn [negb fst snd journal world db].
  2: { split; [intros [=] | intros _; eauto]. }
  unfold runTransaction. simpl_world. cbn [world journal].
  unfold transactionRecorded. cbn [world db journal].
  destruct (walletAdjust validateWalletData walletUpdate
              (wallets (db (world l)) !! uid)) as [b'|] eqn:Hadjust;
    cbn [fst snd].
  - assert (Hb : validateWalletData (Some b') = true).
    { revert Hadjust. unfold walletAdjust. cbv zeta.
      destruct (validateWalletData _) eqn:Hv; cbn [negb]; [|discriminate].
      intros [= <-]. exact Hv. }
    rewrite Hb. cbn [negb fst snd world journal db].
    split; [|discriminate]. intros _. exists t. auto.
  - split; [|discriminate]. intros _. exists t. auto.
Qed.

End V2_transactions.

(** X27: [createTransactionAndAdjustWallet] records first and adjusts the
    wallet second.  A transaction that fails the transaction validator is
    refused: the call throws, nothing is recorded and the store is what it
    was.  When the call resolves, the validated record has been added as
    the last child of the user's transactions, and the wallet is the one
    computed by the update function (each field the stored value plus the
    delta supplied for it, as JavaScript adds them, and never below 0),
    unless that wallet fails the
    wallet validator: then the wallet is left unchanged, and the call
    resolves all the same, with the record kept.  In both copies of the
    module. *)
Theorem createTransaction_records_then_adjusts (now : Z) (uid : string)
    (transaction : option Transaction) (walletUpdate : PartialWallet)
    (currentUserId : option string) (l : Ledger) :
  (let run := V1Ops.createTransactionAndAdjustWallet now uid transaction walletUpdate
                currentUserId l in
   (run.1 = Returned tt ->
    exists t, transaction = Some t
      /\ V1Ops.validateTransactionData now (Some t) = true
      /\ transactionRecorded V1.validateWalletData l run.2 uid t walletUpdate)
   /\ (V1Ops.validateTransactionData now transaction = false ->
       (exists msg, run.1 = Thrown msg)
       /\ journal run.2 = journal l /\ db (world run.2) = db (world l)))
  /\ (forall (validateWalletData : option WalletBalance -> bool)
             (validateUserAuthorization : string -> string -> bool -> bool)
             (validateTransactionData : option Transaction -> bool),
      let run := V2Ops.createTransactionAndAdjustWallet validateWalletData
                   validateUserAuthorization validateTransactionData uid transaction
                   walletUpdate currentUserId l in
      (run.1 = Returned tt ->
       exists t, transaction = Some t
         /\ validateTransactionData (Some t) = true
         /\ transactionRecorded validateWalletData l run.2 uid t walletUpdate)
      /\ (validateTransactionData transaction = false ->
          (exists msg, run.1 = Thrown msg)
          /\ journal run.2 = journal l /\ db (world run.2) = db (world l)))
  /\ (forall x d : Qc,
        adjusted (JNum x) (JNum d) = JNum (Qcmax 0 (fl (x + d)))
        /\ adjusted (JNum x) JUndef = JNum (Qcmax 0 x)).
Proof.
  split; [|split].
  - apply createTransaction_cases_V1.
  - intros vW vA vT. apply createTransaction_cases_V2.
  - apply adjusted_number.
Qed.

Lemma createTransaction_records_then_adjusts_witness :
  let run := V1Ops.createTransactionAndAdjustWallet 1700000000000 "u1"
               (Some earningRecord) earningUpdate None cappedLedger in
  run.1 = Returned tt
  /\ journal run.2 = pushRecord "u1" earningRecord (journal cappedLedger)
  /\ db (world run.2) = db (world cappedLedger)
  /\ db (world (V1Ops.createTransactionAndAdjustWallet 1700000000000 "u1"
                  None earningUpdate None cappedLedger).2)
     = db (world cappedLedger).
Proof.
  intros run.
  assert (Hok : run.1 = Returned tt) by (vm_compute; reflexivity).
  destruct (createTransaction_records_then_adjusts 1700000000000 "u1"
              (Some earningRecord) earningUpdate None cappedLedger) as [[H1 _] _].
  destruct (createTransaction_records_then_adjusts 1700000000000 "u1"
              None earningUpdate None cappedLedger) as [[_ H2] _].
  destruct (H1 Hok) as (t & Ht & _ & Hj & Hdb). injection Ht as <-.
  destruct (H2 eq_refl) as (_ & _ & Hdb0).
  split; [exact Hok|]. split; [exact Hj|]. split; [|exact Hdb0].
  unfold run. rewrite Hdb. vm_compute. reflexivity.
Defined.
